(* ===== verification/_CoqProject ===== *)
-Q . S2P
Prelude.v
JsString.v
Lighthouse.v
LighthouseSuites.v
SuiteLifecycle.v
TestConfig.v
Api.v
ApiTests.v
Session.v
Runtime.v
ProductDetail.v
CartPage.v
Home.v
Register.v
App.v
Shell.v
LazyRoutes.v
StrictMode.v
CartPageTests.v
ProductDetailTests.v
RegisterTests.v
UserContextTests.v
HeaderTests.v
HomeTests.v
AppTests.v
