(* ===== verification/Prelude.v ===== *)
(** * A verification development for the AI-generated store client

    The repository is a React single-page storefront over a REST backend.
    Its logic lives in a handful of TypeScript modules:

    - [src/unnamed/part_006] ([src/api/api.ts]): the API client.  Every
      endpoint builds one [fetch] call (method, URL, headers, JSON body)
      and funnels the [Response] through [handleResponse], which turns a
      2xx into a value (nothing for a 204, the parsed JSON body
      otherwise) and a non-2xx into a thrown [Error] whose message is the
      body's [message] field, else the status text, else ["HTTP <status>"].
    - [src/unnamed/part_003] ([src/types/api.ts]): the DTO records.
    - [src/unnamed/part_007] ([src/context/UserContext.tsx]): the session
      context holding the current user id, persisted in [localStorage]
      under the key ["ai-store-user-id"].
    - [src/src/pages/Home.tsx], [src/src/pages/CartPage.tsx] (which also
      holds [ProductDetail.tsx] in its second part) and
      [src/src/pages/Register.tsx]: the pages.  Each keeps a few
      [useState] cells, runs a load on mount and has asynchronous
      handlers that set state, await one API call, and set state again.
    - [src/src/components/Header.tsx], [src/unnamed/part_004]
      ([CartItem.tsx]) and [src/unnamed/part_005] ([ProductCard.tsx]):
      presentational components with small pieces of logic (logout, the
      [onRemove]/[onAddToCart] callbacks, description truncation).
    - [src/lighthouse/utils.ts]: the helpers of the Lighthouse audit
      suite: score and metric extraction from a Lighthouse result, the
      list of failed accessibility audits, the text report, and
      [waitForServer], which polls the preview server until it answers.
    - The unit tests ([src/unnamed/part_000], [part_001], [part_002] and
      the test part of [src/vitest.lighthouse.prod.config.ts]) render the
      pages with mocked API calls and query the texts and controls shown.
    - The Lighthouse suites ([src/unnamed/part_008], [part_009]) launch
      Chrome, run Lighthouse on the application's URLs and check scores
      and metrics, partly through [utils.ts]; [src/lighthouse.config.js]
      holds the Lighthouse settings and the Vitest configuration of the
      unit tests, [src/vitest.lighthouse.prod.config.ts] the Vitest
      configuration of the Lighthouse run against the preview server.

    ** Files of the development, in dependency order

    - [Prelude] (this file): the scope [store_scope] with [+++] for string
      concatenation, the [outcome] of an awaited promise with its bind
      [let*], JavaScript truthiness of the nullable cells the pages keep
      ([str_truthy], [num_truthy], [truthy_id]), string and list lemmas,
      the hint database [store] and the tactics shared by all files.
    - [JsString]: the JavaScript primitives the code relies on: the [\s]
      class, [trim], [parseInt(s, 10)] (with [NaN] as [JNaN]) and the
      decimal [toString] of an integer ([int_to_string]), [toLowerCase]
      and the case-insensitive text search of the test queries, and
      [Number.prototype.toFixed] on a price held as a rational [Q].
    - [Lighthouse]: [lighthouse/utils.ts] on binary64 numbers (Stdlib's
      primitive [float]): the records of a Lighthouse result, the
      extractors ([extractScores], [extractCoreWebVitals],
      [extractPerformanceMetrics]), [getFailedAccessibilityAudits] as the
      loop over [a11yAudits], [formatScoreReport] with [toFixed(0)] and
      [padStart], and [waitForServer] as a loop over an environment that
      gives, attempt by attempt, the clock, the fetch outcome and the
      length of each sleep; [wait_spec] is its abstract contract.
    - [LighthouseSuites]: the sixteen tests of the three Lighthouse
      suites, each the body of its [it] callback as an [outcome] over the
      environment (the launched Chrome's port and what each awaited
      [lighthouse(url, options)] gives), with the JavaScript conversions
      the bodies rely on ([null * 100], [undefined / 1000],
      [undefined.toFixed]) and Vitest's matchers ([Vitest]).
    - [SuiteLifecycle]: each suite's [describe] block under Vitest's
      runner: the [beforeAll] that launches Chrome within its 30 s hook
      timeout, the [let chrome] variable the hooks and tests share, each
      test's own timeout, and the [afterAll] that kills Chrome when
      [chrome] is set; [lifecycle] is the hooks' contract as a language
      of traces.
    - [TestConfig]: the three configuration objects as records, and
      Vitest's selection of test files through a glob matcher ([Glob]:
      [*], [?] and [**], with picomatch's [dot] rule as a parameter).
    - [Api]: [api.ts] and [types/api.ts].  [handleResponse] over the
      four things it reads of a response ([response_ops]: [ok],
      [status], [statusText], [json()]), with a [Response] of [fetch]
      one instance ([fetch_response], [JSON.parse] a parameter of the
      section [Client]); the [fetch] request of every exported function
      ([call_request], one [api_call] constructor per function); one call
      from transport to result ([api_fetch]); the DTO records.
    - [Session]: [UserContext.tsx] and [Header.tsx].  The context's
      contract is the class [UserContextType] with the law
      [UserContextLaws]; the provider's state and [localStorage] (a
      [gmap]) form a [session], implemented by [provider_mount],
      [session_setCurrentUserId] and [clearUser], with reloads, as the
      step relation [session_step].
    - [Runtime]: the event loop every page runs in.  A [page] gives the
      mount, the enabled controls and the synchronous code of its
      handlers, of the continuations of its [await]s and of its timers;
      [step] interleaves clicks, settling calls (with any outcome of the
      call's type) and timers in every order; [reachable] is its
      reflexive-transitive closure from the mount.  Generic lemmas: rule
      induction ([reachable_ind]), what issued a logged request
      ([step_issued]), the count of pending loads
      ([reachable_load_count]) and properties of every logged effect
      ([reachable_log_forall]).  [act] and [run] replay a scripted
      sequence of clicks, responses and timers; [element] is what the
      testing library's queries see of a rendered view ([get_one] for
      [getByText], [query_none] for [queryByText] ... [not]).
    - [ProductDetail], [CartPage], [Home], [Register]: one page each
      (module [ProductDetail], [CartPage], [Home] with [ProductCard],
      [RegisterPage] with [EmailCheck]).  The [useState] cells are the
      fields of a record with one setter each; each [async] handler is
      split at its [await] into the code before it (an event handler or
      the mount) and the code after it (a [*_settle] branch per await
      point, the [catch] and [finally] included); [*_render] is the view
      the JSX shows and [*_enabled] which controls it renders enabled.
      [Register] is written against the [UserContextType] interface and
      instantiated with the [session].  [*_elements] is the rendered view
      as a list of elements; [CartPage.v] also holds [CartItem].
    - [App]: the route table of [App.tsx] with react-router's matching
      ([route_of]), the page each route mounts under the provider
      ([mount]), the links of the header and of [NotFound], and the
      elements the header, [NotFound] and each mounted page render.
    - [Shell]: the whole application of [main.tsx]: the provider's
      session, the location and the mounted page.  [shell_step] lets the
      page take its own steps ([Runtime.ustep]), the header's links and
      Logout act, and the browser load a path; navigations remount the
      target route's page ([go], [follow]) and context changes reach the
      mounted page as its [UserChanged] event ([deliver]).  Pages left
      with pending work run on as orphans: their responses and timers
      still act, and a late registration signs in through the provider.
      [shell_elements] is the rendered application (the header, then the
      page); [shell_settle] answers the mounted page's pending call, a
      step of [shell_step].
    - [LazyRoutes]: the [lazy] imports and the [Suspense] boundary of
      [App.tsx]: the state React keeps for each import (cached for the
      module's life), the fallback "Loading..." while the route's import
      is pending, the tree unmounted when it rejects, [main.tsx]'s first
      render with the provider's mount effect after the children's.
      [app_step] lets imports settle and the header's links act, and,
      once every import has resolved, takes the steps of [Shell].
    - [StrictMode]: the development build of [main.tsx], which renders
      the application inside [React.StrictMode]: a page whose mount
      effect runs twice ([strict_page]) with the page's own handlers.
    - [CartPageTests], [ProductDetailTests], [RegisterTests]: every
      replayable [it] block of the unit tests as a boolean: the test's
      setup and actions are a [run] of the page from
      [renderWithProviders], its [expect]s are checked on the
      configuration reached.
    - [ApiTests]: the API module's advanced tests
      ([src/src/__tests__/api.advanced.test.ts]), whose mocked [fetch]
      answers with [Response]-like literals ([mock_response], a second
      instance of [response_ops]) or rejects; each test is a boolean on
      the result of [api_fetch] and on the request it sends.
    - The suites of the remaining files of [src/src/__tests__], each in
      the file of what it tests: [ProductDetail.test.tsx] in [ProductDetailTests]
      ([ProductDetailUnitTests]) and [HeaderTests]; [Register.test.tsx]
      in [RegisterTests] ([RegisterUnitTests]), [HomeTests]
      ([ProductCardTests]) and [ApiTests] ([ApiClientTests]);
      [CartPage.advanced.test.tsx] in [CartPageTests]
      ([CartPageAdvancedTests]).
    - [UserContextTests], [HomeTests], [AppTests]: the tests of
      [UserContext.test.tsx] on the session model, of [Home.test.tsx]
      and [Home.advanced.test.tsx] on the product list page (its cards
      included), and of [App.test.tsx] on the whole application
      ([Shell]) rendered at a route, the synchronous assertions on the
      first paint of [LazyRoutes].  The App tests mock nothing: under
      the relative URLs of the test run every API call rejects with
      Node's "Failed to parse URL" error ([no_backend]).

    ** What the theorems show

    - The API client: the result of [handleResponse] on every branch
      (204, parsed body, malformed body, error message from the body,
      the status text, ["HTTP <status>"]); that the message of a failed
      call is never empty except for an array [message]; that every
      rejection is an [Error]; the headers of every request.
    - The session: the state and the storage agree in every reachable
      session ([session_invariant]); from any session a stored id comes
      back after a reload and a cleared one does not, through the
      [String]/[parseInt] round trip ([user_id_roundtrip]); the id 0 is
      restored but the header treats it as no user
      ([user_id_zero_anonymous]).
    - The pages, over every interleaving: the requests each page can
      send are guarded as its code intends (a signed-in user, a product
      in stock, a non-empty cart, a valid form); a loading flag is set
      exactly while its load is pending; the anonymous branch of the
      detail page's add-to-cart never runs; a checkout result, once
      shown, is never removed (a racing checkout may replace it); registration signs the user in and survives a
      reload; the cart total is the sum of the subtotals whatever the
      order of the lines.
    - The application: every navigation and link reaches a page of the
      table, and a product card opens the detail page of its product;
      in every state of the whole application the session agrees with
      the storage, the mounted page sees the provider's user and is the
      element of the location's route, and its configuration is
      reachable in the page's own model, so the page theorems hold
      inside the application ([shell_invariant]); registration lands on
      the product list of the new user, also when its response arrives
      after the user left the form; Logout on the cart redirects to the
      form; a reload at [/cart] restores the cart; a removal pending at
      Logout still reloads the signed-out user's cart.
    - Lazy loading: a page load shows the header above "Loading..." and,
      once the imports it starts have resolved, is exactly in [Shell]'s
      initial state ([lazy_start_refines_shell], a refinement); whether
      the cart or the provider runs its mount effect first depends on
      the import cache, a fresh load keeping a signed-in user on the
      cart and a cached import redirecting to [/register]
      ([cart_reload_depends_on_cache]); a failed import empties the
      screen for good ([failed_import_blanks_app]); imports only move
      forward ([imports_only_advance]).
    - Development builds: the pages take the same steps as in
      production, so the request guards hold there too; but every mount
      request is sent twice, the product page's loading flag is cleared
      while its second request is pending, and one failed request of the
      two hides the product the other returned
      ([dev_double_product_load]); the provider's doubled effect is
      idempotent.
    - Behaviours worth knowing, each proved on a concrete reachable run
      or input: a stale 3 s timer clearing a newer message, two
      checkouts where the last response wins, a failed add-to-cart
      hiding the page behind its error view, a failed cart load shown
      as the empty cart under the error, with no retry
      ([failed_cart_load_renders_empty]), [/product/abc] requesting
      [/api/products/NaN], the user id 0 treated as signed out, a padded
      e-mail refused, an error body [{"message": []}] giving an empty
      message.
    - Lighthouse: every score [extractScores] produces is a number, never
      NaN ([extractScores_numbers], through the rounding of
      [SpecFloat.SFmul]); the LCP of the two metric extractors agrees and
      their CLS agrees exactly when the CLS audit's value, if any, is
      truthy (a CLS of 0 is [null] in one and 0 in the other);
      [getFailedAccessibilityAudits] equals the filter of [a11yAudits] by
      the source's condition written out (present, score not [null] and
      below 1), so its ids are distinct and at most 32;
      the report rows have fixed widths for scores in [0, 100], one
      column wider for SEO; [waitForServer] refines [wait_spec] for any
      fuel, running out of fuel only while still polling, returns
      within [timeout/1000 + 1] rounds when each fetch settles and each
      sleep lasts at least 1 s, and returns [true] once the server
      answers before the deadline.
    - The unit tests: each replayed test passes on the model, except the
      ones that look for text the source holds mis-encoded (a finding
      each, proved false on the model); the API tests pass for every
      [VITE_API_BASE_URL] ([api_tests_pass]).  Two App tests check the
      pages only while the backend fails: with any product list the
      text "Products" is found twice, and a loaded product page has no
      "Back to Products" text ([app_tests_need_failing_backend]).
    - The Lighthouse suites: on Lighthouse's two-decimal scores the
      binary64 test [score * 100 >= threshold] decides the integer
      thresholds exactly ([audits_thresholds_exact]; a threshold of 57
      would not be); the detailed suite's accessibility check counts
      exactly what [getFailedAccessibilityAudits] reports among its nine
      ids; a metric without a value fails by an assertion on [NaN] or by
      a [TypeError] depending on the test; the example suite's Core Web
      Vitals test passes when the metrics are missing; the multi-page
      test passes iff each of its three pages passes, in order.
    - The suites' life cycle: when the launch settles before the hook
      timeout, a suite's run refines [lifecycle] (Chrome launched once,
      every test run against it, killed after the last test, or every
      test skipped when the launch rejects) ([run_suite_refines]); a
      Chrome process outlives the suite exactly when the launch
      resolves after the hook timeout, since [afterAll] then still
      finds [chrome] undefined ([chrome_left_running_iff_late]).
    - The configurations: no file runs both as a unit test and as a
      Lighthouse suite, for every glob [dot] setting and every default;
      the [APP_URL] the production configuration sets is read by no
      suite; [extractScores] reads only the categories the Lighthouse
      configuration lists.

    ** Bounds and fuel

    [int_to_string] computes its digits with fuel [1 + log2 n], which is
    at least the number of decimal digits of [n] (each step divides by
    10 >= 2); [nat_digits_spec] proves the fuel is enough, so the
    function is total on every integer and the round-trip theorem has
    no fuel hypothesis.  [Shell.open_path] follows at most [open_fuel]
    = 2 navigations performed by a mount; only the cart's redirect to
    [/register] exists, and [go_settles] proves that no navigation is
    left to follow.  Every other definition is structurally recursive.
    Runs are unbounded: invariants are proved by induction on [step] and
    [shell_step], for runs of any length.

    [Lighthouse.waitForServer] is a [while] loop with a deadline; the
    model takes fuel, one unit per round, and returns [None] when the
    fuel runs out; [waitForServer_refines] shows that [None] happens
    only while the loop is still polling (every round so far failed and
    the next starts before the deadline).  [waitForServer_terminates]
    proves that the fuel
    [Z.to_nat (timeout / 1000) + 1] is enough, and that more fuel gives
    the same result, when every fetch settles and every sleep lasts at
    least 1000 ms (the source sleeps 1000 ms).  The report's widths are
    proved for scores in [0, 100]: [toFixed(0)] of such a float is at
    most three digits ([Math.round(x * 100)] of a score in [0, 1]); the
    [toString] of numbers from 10^21 up, which the report never meets,
    is a section parameter ([large_toString]).  The suites' threshold
    comparisons are checked on every two-decimal score [k / 100],
    [k = 0 .. 100], by evaluation ([forallb_seq_below]): Lighthouse
    rounds category scores to two decimals, and the statement takes the
    score in that form.

    ** Not modelled

    - The visual layout (CSS classes, nesting of the markup) beyond the
      texts and controls a view shows.
    - A move between two product ids mounts the detail page afresh,
      where React keeps the component and re-runs its effect; no link of
      the application makes that move.
    - [Shell] is the production build of [main.tsx]; the development
      build's [StrictMode] is modelled page by page ([StrictMode]), not
      for the whole application.  React-router's percent-decoding of
      [:id] is not modelled.  In [LazyRoutes] a page's own steps are
      those of [Shell] only once every import has resolved; before, the
      model lets the imports settle and the header's links act.
    - What the Lighthouse suites print ([console.log]); [chrome.kill()]
      is taken to succeed, and a test that outlasts its timeout is not
      followed further (Vitest does not stop its body).  The three test
      files run in parallel workers of Vitest, each with its own Chrome;
      the model runs one suite at a time.  Vitest's own defaults (the
      include and exclude lists a configuration leaves out) are
      parameters, and glob brace alternatives are not interpreted.
    - Every file of [src/src/__tests__] is replayed but six tests: two
      of [api.advanced.test.ts] pass [null as any] ids, and four tests
      (two there, two in the API suite of [Register.test.tsx]) mock
      bodies holding non-integer numbers ([99.99], [999.99], [29.99],
      [199.99]), outside the model's integer JSON numbers.
    - [vite-env.d.ts] (declarations only), the end-to-end tests (a real
      browser and server) and the Markdown documents (the guides in
      [src/*.md], the second part of [Home.tsx] and [src/unnamed/part_010],
      a reference of npm scripts): no code.

    ** Modelling conventions

    - Strings are Stdlib [string] (lists of 8-bit [ascii]); JavaScript
      strings are UTF-16, and the whitespace class is the ASCII part of
      JavaScript's [\s] (tab, line feed, vertical tab, form feed, carriage
      return, space).  No branch of the code depends on a non-ASCII
      character.
    - Ids, quantities and stock counts are JavaScript numbers holding
      integers; they are modelled as [Z].  This is exact for the safe
      integers (magnitude below 2^53) the backend's ids and counts are;
      [-0] is identified with [0], which no comparison in the code
      distinguishes.  [NaN], which [parseInt] produces, is kept as a
      separate value ([JsString.JNaN]).
    - An awaited promise settles to an [outcome]: [Resolved v] or
      [Rejected e]; the rejection value type is a parameter here and the
      JavaScript thrown values in the API file.
*)

From stdpp Require Export base list strings gmap.
From Stdlib Require Export ZArith Lia String Ascii.

(** [length] is the list length; string lengths are written
    [String.length]. *)
Abbreviation length := List.length.

Declare Scope store_scope.
Delimit Scope store_scope with store.
Open Scope store_scope.

(** String concatenation, JavaScript's [+] on strings and the template
    literal [`${a}${b}`]; [++] stays the list append of stdpp. *)
Notation "a +++ b" := (String.append a b)
  (at level 60, right associativity) : store_scope.

(** ** The settled state of an awaited promise *)

Inductive outcome (E A : Type) : Type :=
| Resolved (a : A)
| Rejected (e : E).
Arguments Resolved {E A} a.
Arguments Rejected {E A} e.

(** [await p] inside an [async] function: a rejection propagates. *)
Definition obind {E A B : Type} (o : outcome E A) (k : A -> outcome E B)
    : outcome E B :=
  match o with
  | Resolved a => k a
  | Rejected e => Rejected e
  end.

Notation "'let*' x := o 'in' k" := (obind o (fun x => k))
  (at level 10, x name, o at level 100, k at level 200) : store_scope.

Lemma obind_resolved {E A B} (a : A) (k : A -> outcome E B) :
  obind (Resolved a) k = k a.
Proof. reflexivity. Qed.

Lemma obind_rejected {E A B} (e : E) (k : A -> outcome E B) :
  obind (Rejected e) k = Rejected e.
Proof. reflexivity. Qed.

Lemma obind_resolved_inv {E A B} (o : outcome E A) (k : A -> outcome E B) b :
  obind o k = Resolved b -> exists a, o = Resolved a /\ k a = Resolved b.
Proof. destruct o; simpl; [eauto | discriminate]. Qed.

Lemma obind_rejected_inv {E A B} (o : outcome E A) (k : A -> outcome E B) e :
  obind o k = Rejected e ->
  o = Rejected e \/ exists a, o = Resolved a /\ k a = Rejected e.
Proof. destruct o; simpl; [eauto | injection 1 as ->; auto]. Qed.

(** Two continuations that agree give the same awaited result. *)
Lemma obind_ext {E A B} (o : outcome E A) (k1 k2 : A -> outcome E B) :
  (forall a, k1 a = k2 a) -> obind o k1 = obind o k2.
Proof. intros H. destruct o; simpl; [apply H|reflexivity]. Qed.

(** ** JavaScript truthiness of the values the pages test *)

(** A [string | null] cell ([error], [message]): [null] and [""] are
    falsy, every other string is truthy. *)
Definition str_truthy (o : option string) : bool :=
  match o with
  | Some (String _ _) => true
  | _ => false
  end.

(** A [number | null] cell holding an integer ([currentUserId]): [null]
    and [0] are falsy. *)
Definition num_truthy (o : option Z) : bool :=
  match o with
  | Some z => negb (z =? 0)%Z
  | None => false
  end.

(** The id behind a truthy [currentUserId]: [if (!currentUserId) ...]
    branches on [truthy_id currentUserId = None]. *)
Definition truthy_id (o : option Z) : option Z :=
  match o with
  | Some z => if (z =? 0)%Z then None else Some z
  | None => None
  end.

Lemma truthy_id_some o u : truthy_id o = Some u <-> o = Some u /\ u <> 0%Z.
Proof.
  destruct o as [z|]; simpl; [|split; [discriminate | intros [[=] _]]].
  destruct (Z.eqb_spec z 0); split; intros H; try discriminate.
  - destruct H as [[= <-] ?]. contradiction.
  - injection H as <-. auto.
  - destruct H as [[= <-] ?]. reflexivity.
Qed.

Lemma num_truthy_truthy_id o : num_truthy o = bool_decide (is_Some (truthy_id o)).
Proof. destruct o as [z|]; simpl; [destruct (z =? 0)%Z|]; simpl; try reflexivity; by rewrite bool_decide_eq_true_2 by eauto. Qed.

Lemma str_truthy_spec o :
  str_truthy o = true <-> exists s, o = Some s /\ s <> EmptyString.
Proof.
  split.
  - destruct o as [[|c t]|]; simpl; intros H; try discriminate.
    exists (String c t). split; [reflexivity | discriminate].
  - intros (s & -> & Hne). destruct s; [congruence | reflexivity].
Qed.

Lemma num_truthy_spec o :
  num_truthy o = true <-> exists z, o = Some z /\ z <> 0%Z.
Proof.
  split.
  - destruct o as [z|]; simpl; intros H; [|discriminate].
    exists z. split; [reflexivity|]. apply negb_true_iff, Z.eqb_neq in H. exact H.
  - intros (z & -> & Hz). simpl. apply negb_true_iff, Z.eqb_neq. exact Hz.
Qed.

(** ** Strings *)

(** stdpp declares [String.append] [simpl never]; its two equations. *)
Lemma str_app_nil_l (b : string) : EmptyString +++ b = b.
Proof. reflexivity. Qed.

Lemma str_app_cons c (a b : string) : String c a +++ b = String c (a +++ b).
Proof. reflexivity. Qed.

Lemma str_app_assoc (a b c : string) : (a +++ b) +++ c = a +++ (b +++ c).
Proof. induction a as [|x a IH]; [reflexivity | rewrite !str_app_cons, IH; reflexivity]. Qed.

Lemma str_app_nil_r (a : string) : a +++ EmptyString = a.
Proof. induction a as [|x a IH]; [reflexivity | rewrite str_app_cons, IH; reflexivity]. Qed.

Lemma str_length_app (a b : string) :
  String.length (a +++ b) = (String.length a + String.length b)%nat.
Proof. induction a as [|x a IH]; [reflexivity | rewrite str_app_cons; simpl; rewrite IH; reflexivity]. Qed.

Lemma substring_0_length n (s : string) :
  String.length (substring 0 n s) = Nat.min n (String.length s).
Proof.
  revert s. induction n as [|n IH]; intros [|c s]; simpl; try reflexivity.
  rewrite IH. reflexivity.
Qed.

(** Every character of a string satisfies [f]. *)
Fixpoint str_forall (f : ascii -> bool) (s : string) : bool :=
  match s with
  | EmptyString => true
  | String c r => f c && str_forall f r
  end.

Lemma str_forall_app f a b : str_forall f (a +++ b) = str_forall f a && str_forall f b.
Proof.
  induction a as [|c a IH]; [reflexivity|].
  rewrite str_app_cons. simpl. rewrite IH, andb_assoc. reflexivity.
Qed.

Lemma str_forall_impl (f g : ascii -> bool) s :
  (forall c, f c = true -> g c = true) -> str_forall f s = true -> str_forall g s = true.
Proof.
  intros Hfg. induction s as [|c r IH]; simpl; [reflexivity|].
  intros [Hc Hr]%andb_true_iff. rewrite (Hfg c Hc). exact (IH Hr).
Qed.

(** ** Lists *)

(** Removing the [i]-th element of a list removes it from every filter. *)
Lemma length_filter_delete {A} (P : A -> Prop) `{!forall x, Decision (P x)}
    (l : list A) i x :
  l !! i = Some x ->
  length (filter P l) = (length (filter P (delete i l)) + if decide (P x) then 1 else 0)%nat.
Proof.
  intros Hi. rewrite <- (take_drop_middle l i x Hi) at 1.
  rewrite delete_take_drop, !filter_app, filter_cons, !length_app.
  case_decide; simpl; lia.
Qed.

(** A boolean property checked by evaluation on [0 .. n-1] holds below [n]. *)
Lemma forallb_seq_below (P : nat -> bool) n :
  forallb P (seq 0 n) = true -> forall k, (k < n)%nat -> P k = true.
Proof. rewrite forallb_forall. intros H k Hk. apply H, in_seq. lia. Qed.

(** ** Automation shared by the components *)

Create HintDb store.
Create Rewrite HintDb store.
#[export] Hint Resolve obind_resolved obind_rejected : store.
#[export] Hint Rewrite str_app_nil_l str_app_cons str_app_assoc str_app_nil_r : store.

(** Case on a boolean comparison of integers, turning it into the
    proposition it decides. *)
Ltac zcase t :=
  match t with
  | (?a <=? ?b)%Z => destruct (Z.leb_spec a b)
  | (?a <? ?b)%Z => destruct (Z.ltb_spec a b)
  | (?a =? ?b)%Z => destruct (Z.eqb_spec a b)
  end.

(** Membership of a constant in a literal list. *)
Ltac in_list := apply list_elem_of_In; simpl; auto 10.

(** Split every integer test of the goal. *)
Ltac zcases :=
  repeat match goal with
  | |- context [if ?t then _ else _] => zcase t
  end.
