(* ===== verification/JsString.v ===== *)
(** * JavaScript string primitives used by the store client

    The code converts between numbers and strings in three places:
    [UserContext] stores [id.toString()] and reads it back with
    [parseInt(stored, 10)]; [ProductDetail] parses the route parameter and
    the quantity input with [parseInt(_, 10)]; every URL and message is a
    template literal with numbers spliced in.  [Register] trims the form
    fields with [String.prototype.trim].  This file gives executable
    definitions of these primitives following ECMA-262 (whitespace is the
    ASCII part of [\s], see the header of [Prelude]) and proves the facts
    the components use.  It also gives the value an [<input>] element of
    type text, email or number hands to its [onChange] handler, by the
    value sanitization of HTML; [toLowerCase] on ASCII with the
    case-insensitive search of the testing library's [/text/i] queries;
    and [toFixed(n)] of a price, a rational number [Q], by ECMA-262
    (the nearest [n]-digit value, ties to the larger, exponent form
    from 10^21 up). *)

From S2P Require Import Prelude.
From Stdlib Require QArith_base.

Local Open Scope Z_scope.

(** ** Character classes *)

(** [WhiteSpace] and [LineTerminator] code points below 128: tab, line
    feed, vertical tab, form feed, carriage return and space.  This is
    the set [\s] matches and [trim] removes. *)
Definition is_space (c : ascii) : bool :=
  match nat_of_ascii c with
  | 9 | 10 | 11 | 12 | 13 | 32 => true
  | _ => false
  end%nat.

Definition is_digit (c : ascii) : bool :=
  (48 <=? nat_of_ascii c)%nat && (nat_of_ascii c <=? 57)%nat.

Definition digit_val (c : ascii) : Z := Z.of_nat (nat_of_ascii c) - 48.

Definition digit_char (d : Z) : ascii := ascii_of_nat (Z.to_nat (d + 48)).

(** ** [String.prototype.trim] *)

Fixpoint trim_start (s : string) : string :=
  match s with
  | String c r => if is_space c then trim_start r else s
  | EmptyString => EmptyString
  end.

Fixpoint trim_end (s : string) : string :=
  match s with
  | EmptyString => EmptyString
  | String c r =>
      match trim_end r with
      | EmptyString => if is_space c then EmptyString else String c EmptyString
      | r' => String c r'
      end
  end.

Definition trim (s : string) : string := trim_end (trim_start s).

(** ** [parseInt(s, 10)] *)

(** A JavaScript number produced by [parseInt]: an integer or [NaN]. *)
Inductive jsint : Type :=
| JInt (z : Z)
| JNaN.

#[export] Instance jsint_eq_dec : EqDecision jsint.
Proof. solve_decision. Defined.

(** [isNaN] *)
Definition isNaN (n : jsint) : bool :=
  match n with JNaN => true | JInt _ => false end.

(** The longest prefix of decimal digits, as digit values. *)
Fixpoint digit_prefix (s : string) : list Z :=
  match s with
  | String c r => if is_digit c then digit_val c :: digit_prefix r else []
  | EmptyString => []
  end.

Definition digits_value (ds : list Z) : Z :=
  fold_left (fun acc d => 10 * acc + d) ds 0.

(** ECMA-262 [parseInt] with radix 10: skip leading white space, read an
    optional sign, then the longest run of decimal digits; no digit at all
    gives [NaN].  ([-0] is read as [0], see [Prelude].) *)
Definition parseInt (s : string) : jsint :=
  let t := trim_start s in
  let '(neg, u) :=
    match t with
    | String c r =>
        if Ascii.eqb c "-"%char then (true, r)
        else if Ascii.eqb c "+"%char then (false, r)
        else (false, t)
    | EmptyString => (false, t)
    end in
  match digit_prefix u with
  | [] => JNaN
  | ds => JInt (if neg then - digits_value ds else digits_value ds)
  end.

(** ** [Number.prototype.toString()] on an integer *)

(** The decimal digits of [n >= 0], most significant first, in front of
    [acc]; [fuel] bounds the number of digits. *)
Fixpoint z_digits (fuel : nat) (n : Z) (acc : list Z) : list Z :=
  match fuel with
  | O => acc
  | S f =>
      let acc' := n mod 10 :: acc in
      if n <? 10 then acc' else z_digits f (n / 10) acc'
  end.

Fixpoint string_of_digits (ds : list Z) : string :=
  match ds with
  | [] => EmptyString
  | d :: r => String (digit_char d) (string_of_digits r)
  end.

(** A number below [2 ^ k] has at most [k] digits, so the bit length of
    [n] is enough fuel. *)
Definition nat_digits (n : Z) : list Z := z_digits (S (Z.to_nat (Z.log2 n))) n [].

Definition int_to_string (z : Z) : string :=
  if z <? 0 then String "-"%char (string_of_digits (nat_digits (- z)))
  else string_of_digits (nat_digits z).

(** [`${n}`] for a number produced by [parseInt]. *)
Definition jsint_to_string (n : jsint) : string :=
  match n with
  | JInt z => int_to_string z
  | JNaN => "NaN"%string
  end.

(** ** [toLowerCase] and case-insensitive search *)

(** [A-Z] to [a-z]. *)
Definition lower_ascii (c : ascii) : ascii :=
  let n := nat_of_ascii c in
  if (65 <=? n)%nat && (n <=? 90)%nat then ascii_of_nat (n + 32) else c.

Fixpoint lower_string (s : string) : string :=
  match s with
  | EmptyString => EmptyString
  | String c r => String (lower_ascii c) (lower_string r)
  end.

(** [/needle/i.test(s)] for a needle without special characters. *)
Definition contains_ci (needle s : string) : bool :=
  match String.index 0 (lower_string needle) (lower_string s) with
  | Some _ => true
  | None => false
  end.

(** [s.includes(needle)]: [needle] occurs in [s] at some position. *)
Fixpoint str_includes (needle s : string) : bool :=
  String.prefix needle s ||
  match s with
  | EmptyString => false
  | String _ r => str_includes needle r
  end.

(** ** [Number.prototype.toFixed(f)] on a price

    The DTOs' prices and totals are held as exact rationals ([Q]), so
    [toFixed] is the ECMA-262 algorithm on the exact value: the integer
    [n] nearest to [x * 10^f] (the larger on a tie), written with [f]
    decimals; below [10^21] in magnitude, which every price is.  From
    [10^21] on it is [Number::toString] of the value, the exponent form
    of its (integral part's) digits. *)

Fixpoint zeros (n : nat) : string :=
  match n with
  | O => EmptyString
  | S k => String "0"%char (zeros k)
  end.

(** Steps 10.b-10.d: put the decimal point [f] digits from the right,
    with leading zeros when [n] has at most [f] digits. *)
Definition insert_point (f : nat) (m : string) : string :=
  if (f =? 0)%nat then m
  else
    let m' := if (String.length m <=? f)%nat then zeros (f + 1 - String.length m) +++ m else m in
    let k := String.length m' in
    substring 0 (k - f) m' +++ "." +++ substring (k - f) f m'.

Fixpoint drop_trailing_zeros (s : string) : string :=
  match s with
  | EmptyString => EmptyString
  | String c r =>
      let r' := drop_trailing_zeros r in
      if Ascii.eqb c "0"%char && String.eqb r' EmptyString then EmptyString else String c r'
  end.

(** [Number::toString] of an integer of at least 22 digits:
    [d.ddd...e+<exponent>] with the trailing zeros dropped. *)
Definition exponent_form (n : Z) : string :=
  let s := int_to_string n in
  let e := int_to_string (Z.of_nat (String.length s - 1)) in
  match drop_trailing_zeros s with
  | String d EmptyString => String d ("e+" +++ e)
  | String d rest => String d ("." +++ rest +++ "e+" +++ e)
  | EmptyString => s
  end.

Definition toFixed (f : nat) (x : QArith_base.Q) : string :=
  let num := Z.abs (QArith_base.Qnum x) in
  let den := Zpos (QArith_base.Qden x) in
  (if QArith_base.Qnum x <? 0 then "-" else "") +++
  (if 10 ^ 21 * den <=? num then exponent_form (num / den)
   else insert_point f (int_to_string ((2 * num * 10 ^ Z.of_nat f + den) / (2 * den)))).

(** ** The [value] of an [<input>] element

    What [e.target.value] holds, by the value sanitization algorithm of
    HTML: a [type="text"] input strips line feeds and carriage returns;
    a [type="email"] input also strips leading and trailing ASCII white
    space (tab, line feed, form feed, carriage return, space, but not
    the vertical tab, which [\s] and [trim] include); a [type="number"]
    input holds a valid floating-point number or nothing. *)

Definition is_newline (c : ascii) : bool :=
  match nat_of_ascii c with 10 | 13 => true | _ => false end%nat.

Definition is_ascii_ws (c : ascii) : bool :=
  match nat_of_ascii c with 9 | 10 | 12 | 13 | 32 => true | _ => false end%nat.

Fixpoint strip_newlines (s : string) : string :=
  match s with
  | EmptyString => EmptyString
  | String c r => if is_newline c then strip_newlines r else String c (strip_newlines r)
  end.

Fixpoint strip_leading_ws (s : string) : string :=
  match s with
  | String c r => if is_ascii_ws c then strip_leading_ws r else s
  | EmptyString => EmptyString
  end.

Fixpoint strip_trailing_ws (s : string) : string :=
  match s with
  | EmptyString => EmptyString
  | String c r =>
      match strip_trailing_ws r with
      | EmptyString => if is_ascii_ws c then EmptyString else String c EmptyString
      | r' => String c r'
      end
  end.

Definition text_value (typed : string) : string := strip_newlines typed.

Definition email_value (typed : string) : string :=
  strip_trailing_ws (strip_leading_ws (strip_newlines typed)).

(** The run of ASCII digits at the front of a string, and what follows. *)
Fixpoint span_digits (s : string) : nat * string :=
  match s with
  | String c r =>
      if is_digit c then let (n, rest) := span_digits r in (S n, rest) else (0%nat, s)
  | EmptyString => (0%nat, EmptyString)
  end.

(** The exponent of a floating-point number: nothing, or [e] or [E], an
    optional sign and at least one digit. *)
Definition valid_exponent (s : string) : bool :=
  match s with
  | EmptyString => true
  | String c r =>
      (Ascii.eqb c "e" || Ascii.eqb c "E") &&
      (let r' := match r with
                 | String c' r'' => if Ascii.eqb c' "-" || Ascii.eqb c' "+" then r'' else r
                 | EmptyString => r
                 end in
       let (n, rest) := span_digits r' in (0 <? n)%nat && String.eqb rest EmptyString)
  end%char.

(** A valid floating-point number: an optional [-], then digits, or
    digits (possibly none) followed by [.] and digits, then an optional
    exponent. *)
Definition valid_float (s : string) : bool :=
  let s1 := match s with
            | String c r => if Ascii.eqb c "-"%char then r else s
            | EmptyString => s
            end in
  let (n1, r1) := span_digits s1 in
  match r1 with
  | String c r =>
      if Ascii.eqb c "."%char then let (n2, r2) := span_digits r in (0 <? n2)%nat && valid_exponent r2
      else (0 <? n1)%nat && valid_exponent r1
  | EmptyString => (0 <? n1)%nat
  end.

Definition number_value (typed : string) : string :=
  if valid_float typed then typed else EmptyString.

(** * Properties *)

(** ** Digits *)

Lemma digit_char_is_digit d : 0 <= d <= 9 -> is_digit (digit_char d) = true.
Proof.
  intros Hd. assert (d = 0 \/ d = 1 \/ d = 2 \/ d = 3 \/ d = 4 \/ d = 5 \/
    d = 6 \/ d = 7 \/ d = 8 \/ d = 9) as Hc by lia.
  repeat destruct Hc as [-> | Hc]; [..| subst]; reflexivity.
Qed.

Lemma digit_val_char d : 0 <= d <= 9 -> digit_val (digit_char d) = d.
Proof.
  intros Hd. assert (d = 0 \/ d = 1 \/ d = 2 \/ d = 3 \/ d = 4 \/ d = 5 \/
    d = 6 \/ d = 7 \/ d = 8 \/ d = 9) as Hc by lia.
  repeat destruct Hc as [-> | Hc]; [..| subst]; reflexivity.
Qed.

Lemma digit_not_space c : is_digit c = true -> is_space c = false.
Proof.
  destruct c as [[] [] [] [] [] [] [] []]; intros H;
    first [reflexivity | discriminate H].
Qed.

Lemma digits_value_acc (l : list Z) a :
  fold_left (fun acc d => 10 * acc + d) l a
  = a * 10 ^ Z.of_nat (List.length l) + digits_value l.
Proof.
  unfold digits_value. revert a. induction l as [|d l IH]; intros a; simpl.
  - lia.
  - rewrite (IH (10 * a + d)), (IH (10 * 0 + d)).
    rewrite Nat2Z.inj_succ, Z.pow_succ_r by lia. lia.
Qed.

Lemma digits_value_app l1 l2 :
  digits_value (l1 ++ l2)%list
  = digits_value l1 * 10 ^ Z.of_nat (List.length l2) + digits_value l2.
Proof. unfold digits_value at 1. rewrite fold_left_app. apply digits_value_acc. Qed.

Lemma z_digits_app fuel n acc : exists ds, z_digits fuel n acc = (ds ++ acc)%list.
Proof.
  revert n acc. induction fuel as [|f IH]; intros n acc; simpl.
  - exists []. reflexivity.
  - destruct (n <? 10).
    + exists [n mod 10]. reflexivity.
    + destruct (IH (n / 10) (n mod 10 :: acc)) as [ds ->].
      exists (ds ++ [n mod 10])%list. rewrite <- app_assoc. reflexivity.
Qed.

Definition is_dec_digit (d : Z) : Prop := 0 <= d <= 9.

(** [z_digits] prepends the digits of [n] when the fuel is enough. *)
Lemma z_digits_spec fuel n acc :
  (1 <= fuel)%nat -> 0 <= n < 2 ^ Z.of_nat fuel ->
  exists ds, z_digits fuel n acc = (ds ++ acc)%list /\ ds <> [] /\
    Forall is_dec_digit ds /\ digits_value ds = n.
Proof.
  revert n acc. induction fuel as [|f IH]; intros n acc Hf Hn; [lia|]. simpl.
  pose proof (Z.mod_pos_bound n 10 ltac:(lia)) as Hm.
  destruct (Z.ltb_spec n 10) as [Hlt|Hge].
  - exists [n mod 10]. split; [reflexivity|]. split; [discriminate|].
    split; [constructor; [red; lia | constructor]|].
    unfold digits_value. simpl. rewrite Z.mod_small; lia.
  - assert (1 <= f)%nat.
    { destruct f; [|lia]. simpl in Hn. lia. }
    assert (0 <= n / 10 < 2 ^ Z.of_nat f).
    { rewrite Nat2Z.inj_succ, Z.pow_succ_r in Hn by lia. split.
      - apply Z.div_pos; lia.
      - apply Z.div_lt_upper_bound; lia. }
    destruct (IH (n / 10) (n mod 10 :: acc)) as (ds & Heq & Hne & Hall & Hval);
      [assumption | assumption |].
    exists (ds ++ [n mod 10])%list. rewrite Heq, <- app_assoc. split; [reflexivity|].
    split; [destruct ds; simpl; congruence|].
    split; [apply Forall_app; split; [assumption | constructor; [red; lia | constructor]]|].
    rewrite digits_value_app, Hval. simpl. unfold digits_value. simpl.
    pose proof (Z.div_mod n 10 ltac:(lia)). lia.
Qed.

Lemma nat_digits_spec n :
  0 <= n -> nat_digits n <> [] /\ Forall is_dec_digit (nat_digits n) /\
            digits_value (nat_digits n) = n.
Proof.
  intros Hn. unfold nat_digits.
  destruct (z_digits_spec (S (Z.to_nat (Z.log2 n))) n []) as (ds & Heq & Hne & Hall & Hv).
  - lia.
  - split; [assumption|].
    rewrite Nat2Z.inj_succ, Z2Nat.id by apply Z.log2_nonneg.
    destruct (Z.eq_dec n 0) as [->|Hn0]; [simpl; lia|].
    destruct (Z.log2_spec n) as [_ Hup]; lia.
  - rewrite Heq, app_nil_r. auto.
Qed.

Lemma digit_prefix_app ds rest :
  Forall is_dec_digit ds ->
  digit_prefix (string_of_digits ds +++ rest) = (ds ++ digit_prefix rest)%list.
Proof.
  induction 1 as [|d ds Hd _ IH]; [reflexivity|]. simpl.
  rewrite digit_char_is_digit, digit_val_char, IH by exact Hd. reflexivity.
Qed.

Lemma digit_not_sign c :
  is_digit c = true -> Ascii.eqb c "-"%char = false /\ Ascii.eqb c "+"%char = false.
Proof.
  destruct c as [[] [] [] [] [] [] [] []]; intros H;
    first [split; reflexivity | discriminate H].
Qed.

(** The digits of a non-negative number, followed by [rest], read back. *)
Lemma parse_digits_app n rest :
  0 <= n -> digit_prefix rest = [] ->
  exists c r, string_of_digits (nat_digits n) +++ rest = String c r /\
    is_digit c = true /\ digit_prefix (String c r) = nat_digits n.
Proof.
  intros Hn Hrest. destruct (nat_digits_spec n Hn) as (Hne & Hall & _).
  pose proof (digit_prefix_app _ rest Hall) as Hp. rewrite Hrest, app_nil_r in Hp.
  destruct (nat_digits n) as [|d ds] eqn:E; [congruence|].
  inversion Hall as [|? ? Hd _]; subst.
  exists (digit_char d), (string_of_digits ds +++ rest).
  split; [reflexivity|]. split; [apply digit_char_is_digit; exact Hd|]. exact Hp.
Qed.

Lemma parseInt_digits_app n rest (neg : bool) :
  0 <= n -> digit_prefix rest = [] ->
  parseInt ((if neg then String "-"%char EmptyString else EmptyString)
            +++ string_of_digits (nat_digits n) +++ rest)
  = JInt (if neg then - n else n).
Proof.
  intros Hn Hrest.
  destruct (parse_digits_app n rest Hn Hrest) as (c & r & Heq & Hc & Hp).
  destruct (nat_digits_spec n Hn) as (Hne & _ & Hv).
  pose proof (digit_not_space c Hc) as Hs. destruct (digit_not_sign c Hc) as [Hm Hpl].
  simpl in Hp. rewrite Hc in Hp.
  unfold parseInt. destruct neg; simpl; rewrite Heq; simpl.
  - rewrite Hc, Hp. destruct (nat_digits n); [congruence|]. rewrite <- Hv. reflexivity.
  - rewrite Hs, Hm, Hpl. simpl. rewrite Hc, Hp.
    destruct (nat_digits n); [congruence|]. rewrite <- Hv. reflexivity.
Qed.

Lemma int_to_string_shape z :
  int_to_string z
  = (if z <? 0 then String "-"%char EmptyString else EmptyString)
    +++ string_of_digits (nat_digits (Z.abs z)).
Proof.
  unfold int_to_string. destruct (Z.ltb_spec z 0).
  - rewrite Z.abs_neq by lia. reflexivity.
  - rewrite Z.abs_eq by lia. reflexivity.
Qed.

(** [parseInt] reads back the decimal form of an integer followed by any
    text that does not continue the digits: a fractional part, a unit, or
    nothing. *)
Lemma parseInt_int_to_string_app z rest :
  digit_prefix rest = [] -> parseInt (int_to_string z +++ rest) = JInt z.
Proof.
  intros Hrest. rewrite int_to_string_shape, str_app_assoc.
  rewrite parseInt_digits_app by (lia || assumption).
  f_equal. destruct (Z.ltb_spec z 0); lia.
Qed.

Lemma parseInt_int_to_string_nil z : parseInt (int_to_string z) = JInt z.
Proof.
  rewrite <- (str_app_nil_r (int_to_string z)). apply parseInt_int_to_string_app.
  reflexivity.
Qed.

Lemma string_of_digits_digits ds :
  Forall is_dec_digit ds -> str_forall is_digit (string_of_digits ds) = true.
Proof.
  induction 1 as [|d ds Hd _ IH]; [reflexivity|].
  simpl. rewrite digit_char_is_digit by exact Hd. exact IH.
Qed.

(** [String(z)] is a minus sign followed by decimal digits. *)
Lemma int_to_string_chars z :
  str_forall (fun c => is_digit c || Ascii.eqb c "-"%char) (int_to_string z) = true.
Proof.
  rewrite int_to_string_shape, str_forall_app. apply andb_true_iff. split.
  - destruct (z <? 0); reflexivity.
  - destruct (nat_digits_spec (Z.abs z)) as (_ & Hall & _); [lia|].
    apply (str_forall_impl is_digit); [intros c ->; reflexivity|].
    apply string_of_digits_digits, Hall.
Qed.

(** [parseInt(String(z), 10)] is [z] for every integer [z], and text
    after the digits does not change the result: [parseInt] of ["2.7"]
    or ["-2.7"] truncates towards zero. *)
Theorem parseInt_int_to_string z frac :
  parseInt (int_to_string z) = JInt z /\
  parseInt (int_to_string z +++ "." +++ frac) = JInt z.
Proof.
  split.
  - rewrite <- (str_app_nil_r (int_to_string z)). apply parseInt_int_to_string_app.
    reflexivity.
  - apply parseInt_int_to_string_app. reflexivity.
Qed.

(** ** [parseInt] on text with no digits *)

(** The text left after [parseInt] skips white space and a sign. *)
Definition after_sign (s : string) : string :=
  match trim_start s with
  | String c r =>
      if Ascii.eqb c "-"%char || Ascii.eqb c "+"%char then r else String c r
  | EmptyString => EmptyString
  end.

(** [parseInt] gives [NaN] exactly when no digit follows the leading
    white space and the optional sign: ["abc"], [""], ["-"], [" .5"]. *)
Lemma parseInt_NaN_iff s :
  parseInt s = JNaN <-> digit_prefix (after_sign s) = [].
Proof.
  unfold parseInt, after_sign.
  destruct (trim_start s) as [|c r]; [simpl; tauto|].
  destruct (Ascii.eqb c "-"%char), (Ascii.eqb c "+"%char); simpl;
    repeat case_match; split; congruence.
Qed.

(** ** [trim] *)

Fixpoint all_space (s : string) : bool :=
  match s with
  | String c r => is_space c && all_space r
  | EmptyString => true
  end.

Lemma trim_start_empty_iff s : trim_start s = EmptyString <-> all_space s = true.
Proof.
  induction s as [|c r IH]; simpl; [tauto|].
  destruct (is_space c); simpl; [exact IH | split; discriminate].
Qed.

Lemma trim_end_empty_iff s : trim_end s = EmptyString <-> all_space s = true.
Proof.
  induction s as [|c r IH]; simpl; [tauto|].
  destruct (trim_end r) as [|c' r'] eqn:E.
  - destruct (is_space c); simpl; [tauto | split; discriminate].
  - split; [discriminate|]. intros H. apply andb_true_iff in H as [_ H].
    apply IH in H. discriminate.
Qed.

Lemma all_space_trim_start s : all_space (trim_start s) = all_space s.
Proof.
  induction s as [|c r IH]; simpl; [reflexivity|].
  destruct (is_space c) eqn:E; simpl; [exact IH | rewrite E; reflexivity].
Qed.

(** [trim s] is empty exactly when [s] is all white space: the test
    [!username.trim()] of [Register]. *)
Lemma trim_empty_iff s : trim s = EmptyString <-> all_space s = true.
Proof. unfold trim. rewrite trim_end_empty_iff, all_space_trim_start. reflexivity. Qed.

Lemma trim_end_nonspace c r :
  is_space c = false -> trim_end (String c r) = String c (trim_end r).
Proof. intros H. simpl. destruct (trim_end r); [rewrite H|]; reflexivity. Qed.

Lemma trim_end_cons c r :
  trim_end (String c r)
  = match trim_end r with
    | EmptyString => if is_space c then EmptyString else String c EmptyString
    | r' => String c r'
    end.
Proof. reflexivity. Qed.

Lemma trim_end_idem s : trim_end (trim_end s) = trim_end s.
Proof.
  induction s as [|c r IH]; [reflexivity|]. rewrite trim_end_cons.
  destruct (trim_end r) as [|c' r'] eqn:E.
  - destruct (is_space c) eqn:Hc; [reflexivity|]. simpl. rewrite Hc. reflexivity.
  - rewrite trim_end_cons, IH. reflexivity.
Qed.

(** [trim] is idempotent. *)
Lemma trim_idem s : trim (trim s) = trim s.
Proof.
  unfold trim. destruct (trim_start s) as [|c r] eqn:E; [reflexivity|].
  assert (Hc : is_space c = false).
  { clear -E. induction s as [|c0 s0 IH]; simpl in E; [discriminate|].
    destruct (is_space c0) eqn:H0; [auto | congruence]. }
  rewrite trim_end_nonspace by exact Hc. simpl. rewrite Hc.
  rewrite trim_end_nonspace, trim_end_idem by exact Hc. reflexivity.
Qed.

Lemma int_to_string_nonempty z : int_to_string z <> EmptyString.
Proof.
  unfold int_to_string. destruct (Z.ltb_spec z 0); [discriminate|].
  destruct (nat_digits_spec z) as (Hne & _); [lia|].
  destruct (nat_digits z); [congruence | discriminate].
Qed.

Fixpoint no_space (s : string) : bool :=
  match s with
  | String c r => negb (is_space c) && no_space r
  | EmptyString => true
  end.

Lemma no_space_app a b : no_space (a +++ b) = no_space a && no_space b.
Proof.
  induction a as [|x a IH]; [reflexivity|].
  rewrite str_app_cons. simpl. rewrite IH, andb_assoc. reflexivity.
Qed.

(** [trim] leaves a string without white space unchanged. *)
Lemma trim_no_space s : no_space s = true -> trim s = s.
Proof.
  intros H. unfold trim. destruct s as [|c r]; [reflexivity|].
  simpl in H. apply andb_true_iff in H as [Hc Hr]. apply negb_true_iff in Hc.
  simpl. rewrite Hc. rewrite trim_end_nonspace by exact Hc. f_equal.
  clear Hc. induction r as [|c' r' IH]; [reflexivity|].
  simpl in Hr. apply andb_true_iff in Hr as [Hc' Hr']. apply negb_true_iff in Hc'.
  rewrite trim_end_nonspace, IH by assumption. reflexivity.
Qed.

(** ** Input values *)

Lemma ascii_ws_space c : is_ascii_ws c = true -> is_space c = true.
Proof. unfold is_ascii_ws, is_space. repeat case_match; congruence. Qed.

Lemma newline_space c : is_newline c = true -> is_space c = true.
Proof. unfold is_newline, is_space. repeat case_match; congruence. Qed.

Lemma nonspace_not_ws c : is_space c = false -> is_ascii_ws c = false /\ is_newline c = false.
Proof.
  intros Hc. split; [destruct (is_ascii_ws c) eqn:E | destruct (is_newline c) eqn:E];
    try reflexivity; [apply ascii_ws_space in E | apply newline_space in E]; congruence.
Qed.

Lemma strip_newlines_no_space s : no_space s = true -> strip_newlines s = s.
Proof.
  induction s as [|c r IH]; [reflexivity|]. simpl.
  intros [Hc Hr]%andb_true_iff. apply negb_true_iff, nonspace_not_ws in Hc as [_ Hn].
  rewrite Hn, IH by exact Hr. reflexivity.
Qed.

Lemma strip_trailing_ws_no_space s : no_space s = true -> strip_trailing_ws s = s.
Proof.
  induction s as [|c r IH]; [reflexivity|]. simpl.
  intros [Hc Hr]%andb_true_iff. apply negb_true_iff, nonspace_not_ws in Hc as [Hw _].
  rewrite IH by exact Hr. destruct r; [rewrite Hw|]; reflexivity.
Qed.

(** An e-mail input keeps a value without white space as it is. *)
Lemma email_value_no_space s : no_space s = true -> email_value s = s.
Proof.
  intros Hs. unfold email_value. rewrite strip_newlines_no_space by exact Hs.
  destruct s as [|c r]; [reflexivity|]. simpl.
  pose proof Hs as Hs'. simpl in Hs'. apply andb_true_iff in Hs' as [Hc _].
  apply negb_true_iff, nonspace_not_ws in Hc as [Hw _]. rewrite Hw.
  exact (strip_trailing_ws_no_space _ Hs).
Qed.

(** It drops a leading white-space character that is not a line break. *)
Lemma email_value_ws c s :
  is_ascii_ws c = true -> is_newline c = false -> email_value (String c s) = email_value s.
Proof. intros Hw Hn. unfold email_value. simpl. rewrite Hn. simpl. rewrite Hw. reflexivity. Qed.

(** It keeps a leading character that is not ASCII white space, before
    a non-empty text without white space. *)
Lemma email_value_keep c s :
  is_ascii_ws c = false -> is_newline c = false -> no_space s = true -> s <> EmptyString ->
  email_value (String c s) = String c s.
Proof.
  intros Hw Hn Hs Hne. unfold email_value. simpl. rewrite Hn. simpl. rewrite Hw.
  rewrite strip_newlines_no_space by exact Hs. simpl.
  rewrite strip_trailing_ws_no_space by exact Hs. destruct s; [congruence | reflexivity].
Qed.

(** A prefix keeps an occurrence: the URL of a request contains the path
    the code writes after [BASE], whatever [BASE] is. *)
Lemma str_includes_app_l needle a u :
  str_includes needle u = true -> str_includes needle (a +++ u) = true.
Proof.
  intros H. induction a as [|c a IH]; [by rewrite str_app_nil_l|].
  rewrite str_app_cons. simpl. rewrite IH. apply orb_true_r.
Qed.
