(* ===== verification/Lighthouse.v ===== *)
(** * Lighthouse result utilities: [src/lighthouse/utils.ts]

    The Lighthouse test suites read a [RunnerResult] through the helpers
    of [utils.ts]: [extractScores] (the four category scores as
    percentages), [extractCoreWebVitals] and [extractPerformanceMetrics]
    (audit values in seconds or milliseconds), [getFailedAccessibilityAudits]
    (the accessibility audits with a score below 1), [formatScoreReport]
    (the boxed console report) and [waitForServer] (poll a URL until it
    answers).

    JavaScript numbers are IEEE binary64: they are Rocq's primitive
    floats here, so [score * 100], [v / 1000] and the comparisons are the
    machine operations, and [Number.prototype.toFixed(0)] is modelled
    exactly from the float's binary decomposition ([Prim2SF]).  A
    [RunnerResult] keeps what the helpers read: the categories and audits
    of its [lhr], as [gmap]s keyed by id.  [waitForServer] is a loop over
    an environment that gives, for each attempt, how long [fetch] takes
    (or that it never settles), its outcome, and how long the one-second
    [setTimeout] really sleeps. *)

From S2P Require Import Prelude JsString.
From Stdlib Require Import Floats.

Module Lighthouse.
Local Open Scope Z_scope.

(** ** The result *)

(** [lhr.categories[id]]: [score: number | null]. *)
Record category : Type := mkCategory { cat_score : option float }.

(** [lhr.audits[id]]: [score: number | null], [numericValue?: number],
    [title], [description]. *)
Record audit : Type := mkAudit {
  audit_score : option float;
  audit_numericValue : option float;
  audit_title : string;
  audit_description : string
}.

Record lhr : Type := mkLhr {
  lhr_categories : gmap string category;
  lhr_audits : gmap string audit
}.

Record RunnerResult : Type := mkRunnerResult { runner_lhr : lhr }.

(** Truthiness of a number: [0], [-0] and [NaN] are falsy. *)
Definition float_truthy (x : float) : bool := negb (x =? 0)%float && (x =? x)%float.

(** [o ? f(o) : null] for an optional number [o]. *)
Definition truthy_map (f : float -> float) (o : option float) : option float :=
  match o with
  | Some v => if float_truthy v then Some (f v) else None
  | None => None
  end.

(** ** [extractScores] *)

Record scores : Type := mkScores {
  performance : float;
  accessibility : float;
  bestPractices : float;
  seo : float
}.

(** [result.lhr.categories[key]?.score ? ... .score * 100 : 0]. *)
Definition category_percent (result : RunnerResult) (key : string) : float :=
  match lhr_categories (runner_lhr result) !! key ≫= cat_score with
  | Some s => if float_truthy s then (s * 100)%float else 0%float
  | None => 0%float
  end.

Definition extractScores (result : RunnerResult) : scores :=
  mkScores (category_percent result "performance") (category_percent result "accessibility")
    (category_percent result "best-practices") (category_percent result "seo").

(** ** [extractCoreWebVitals] and [extractPerformanceMetrics] *)

(** [result.lhr.audits[key]?.numericValue]. *)
Definition numeric_value (result : RunnerResult) (key : string) : option float :=
  lhr_audits (runner_lhr result) !! key ≫= audit_numericValue.

Definition ms_to_s (v : float) : float := (v / 1000)%float.

Record web_vitals : Type := mkWebVitals {
  cwv_lcp : option float;
  cwv_fid : option float;
  cwv_cls : option float
}.

Definition extractCoreWebVitals (result : RunnerResult) : web_vitals :=
  let lcp := numeric_value result "largest-contentful-paint" in
  let fid := numeric_value result "max-potential-fid" in
  let cls := numeric_value result "cumulative-layout-shift" in
  mkWebVitals (truthy_map ms_to_s lcp) (truthy_map id fid) (truthy_map id cls).

Record perf_metrics : Type := mkPerfMetrics {
  pm_fcp : option float;
  pm_si : option float;
  pm_lcp : option float;
  pm_tti : option float;
  pm_tbt : option float;
  pm_cls : option float
}.

(** The [cls] field is [numericValue ?? null]: the value itself, [0]
    included; the others are tested for truthiness. *)
Definition extractPerformanceMetrics (result : RunnerResult) : perf_metrics :=
  mkPerfMetrics
    (truthy_map ms_to_s (numeric_value result "first-contentful-paint"))
    (truthy_map ms_to_s (numeric_value result "speed-index"))
    (truthy_map ms_to_s (numeric_value result "largest-contentful-paint"))
    (truthy_map ms_to_s (numeric_value result "interactive"))
    (truthy_map id (numeric_value result "total-blocking-time"))
    (numeric_value result "cumulative-layout-shift").

(** ** [getFailedAccessibilityAudits] *)

Definition a11yAudits : list string :=
  ["accesskeys"; "aria-allowed-attr"; "aria-required-attr"; "aria-required-children";
   "aria-required-parent"; "aria-roles"; "aria-valid-attr"; "aria-valid-attr-value";
   "button-name"; "bypass"; "color-contrast"; "document-title"; "duplicate-id-active";
   "duplicate-id-aria"; "form-field-multiple-labels"; "frame-title"; "html-has-lang";
   "html-lang-valid"; "image-alt"; "input-image-alt"; "label"; "link-name"; "list";
   "listitem"; "meta-refresh"; "meta-viewport"; "object-alt"; "tabindex";
   "td-headers-attr"; "th-has-data-cells"; "valid-lang"; "video-caption"]%string.

Record failed_audit : Type := mkFailedAudit {
  failed_id : string;
  failed_title : string;
  failed_description : string
}.

(** [audit && audit.score !== null && audit.score < 1]. *)
Definition audit_failed (a : audit) : bool :=
  match audit_score a with
  | Some s => (s <? 1)%float
  | None => false
  end.

(** The body of the [forEach] callback: push onto [failed]. *)
Definition push_if_failed (result : RunnerResult) (failed : list failed_audit)
    (auditId : string) : list failed_audit :=
  match lhr_audits (runner_lhr result) !! auditId with
  | Some a =>
      if audit_failed a
      then failed ++ [mkFailedAudit auditId (audit_title a) (audit_description a)]
      else failed
  | None => failed
  end.

Definition getFailedAccessibilityAudits (result : RunnerResult) : list failed_audit :=
  fold_left (push_if_failed result) a11yAudits [].

(** ** [toFixed(0)] and [padStart] *)

Section ToFixed.

(** [Number::toString] of a float of magnitude at least [10^21] (the
    exponent notation of the shortest round-trip digits), the branch of
    [toFixed] that the scores never reach. *)
Variable large_toString : float -> string.

(** The integer [n] closest to [m * 2^e], the larger one on a tie. *)
Definition round_half_up (m : positive) (e : Z) : Z :=
  if 0 <=? e then Z.pos m * 2 ^ e
  else
    let d := 2 ^ (- e) in
    let q := Z.pos m / d in
    if d <=? 2 * (Z.pos m mod d) then q + 1 else q.

Definition at_least_1e21 (m : positive) (e : Z) : bool :=
  if 0 <=? e then 10 ^ 21 <=? Z.pos m * 2 ^ e else 10 ^ 21 * 2 ^ (- e) <=? Z.pos m.

(** [Number.prototype.toFixed] with [fractionDigits = 0]: a non-finite
    value prints as [toString]; otherwise the sign of a negative value,
    then the nearest integer (ties up) in decimal. *)
Definition toFixed0 (x : float) : string :=
  match Prim2SF x with
  | S754_nan => "NaN"
  | S754_infinity s => if s then "-Infinity" else "Infinity"
  | S754_zero _ => "0"
  | S754_finite s m e =>
      (if s then "-" else "") +++
      (if at_least_1e21 m e then large_toString (abs x) else int_to_string (round_half_up m e))
  end%string.

End ToFixed.

Fixpoint spaces (n : nat) : string :=
  match n with
  | O => EmptyString
  | S k => String " "%char (spaces k)
  end.

(** [s.padStart(maxLength)]: pad with spaces in front up to [maxLength]. *)
Definition padStart (maxLength : nat) (s : string) : string :=
  if (maxLength <=? String.length s)%nat then s else spaces (maxLength - String.length s)%nat +++ s.

(** ** [formatScoreReport] *)

(** The string literals of [utils.ts] as the file spells them. *)
Definition emoji_good : string := "ğŸŸ¢".
Definition emoji_average : string := "ğŸŸ ".
Definition emoji_poor : string := "ğŸ”´".
Definition frame_top : string := "â•”â•â•â•â•â•â•â•â•â•â•â•â•â•â•â•â•â•â•â•â•â•â•â•â•â•â•â•â•â•â•â•â•â•â•â•â•â•—".
Definition frame_title : string := "â•‘      Lighthouse Audit Scores       â•‘".
Definition frame_separator : string := "â• â•â•â•â•â•â•â•â•â•â•â•â•â•â•â•â•â•â•â•â•â•â•â•â•â•â•â•â•â•â•â•â•â•â•â•â•â•£".
Definition frame_bottom : string := "â•šâ•â•â•â•â•â•â•â•â•â•â•â•â•â•â•â•â•â•â•â•â•â•â•â•â•â•â•â•â•â•â•â•â•â•â•â•â•".
Definition frame_side : string := "â•‘".
Definition newline : string := String (ascii_of_nat 10) EmptyString.

Definition getEmoji (score : float) : string :=
  if (90 <=? score)%float then emoji_good
  else if (50 <=? score)%float then emoji_average
  else emoji_poor.

(** One row of the box: [║ ${getEmoji(x)} <label>${x.toFixed(0).padStart(3)}      ║]. *)
Definition score_row (large_toString : float -> string) (label : string) (x : float) : string :=
  frame_side +++ " " +++ getEmoji x +++ " " +++ label
  +++ padStart 3 (toFixed0 large_toString x) +++ "      " +++ frame_side.

(** The four rows of the box, in the template's order. *)
Definition score_rows (large_toString : float -> string) (s : scores) : list string :=
  [score_row large_toString "Performance:    " (performance s);
   score_row large_toString "Accessibility:  " (accessibility s);
   score_row large_toString "Best Practices: " (bestPractices s);
   score_row large_toString "SEO:             " (seo s)].

(** The template literal: a newline, then each line followed by one. *)
Definition formatScoreReport (large_toString : float -> string) (s : scores) : string :=
  newline +++ String.concat EmptyString
    (map (fun l => l +++ newline)
       ([frame_top; frame_title; frame_separator] ++ score_rows large_toString s ++ [frame_bottom])).

(** ** [waitForServer] *)

(** How a [fetch(url)] settles: a response with [ok] set or not, or a
    rejection (caught by the empty [catch]). *)
Inductive fetch_result : Type :=
| FetchOk
| FetchNotOk
| FetchThrows.

(** What the environment does during one round of the loop. *)
Record attempt : Type := mkAttempt {
  fetch_time : option Z;  (** ms until [fetch] settles; [None]: it never does *)
  fetch_outcome : fetch_result;
  sleep_time : Z          (** ms until the [setTimeout(resolve, 1000)] fires *)
}.

Inductive wait_outcome : Type :=
| Returned (b : bool) (at_ms : Z)  (** the promise resolves to [b] at [Date.now() = at_ms] *)
| Hangs.                           (** an awaited [fetch] never settles *)

Definition default_timeout : Z := 30000.

Section WaitForServer.
Variable timeout : Z.
Variable startTime : Z.
Variable attempts : nat -> attempt.

(** The [while] loop from round [k] at [Date.now() = now]; [fuel] bounds
    the rounds ([None]: out of fuel). *)
Fixpoint wait_loop (fuel : nat) (k : nat) (now : Z) : option wait_outcome :=
  if now - startTime <? timeout then
    match fuel with
    | O => None
    | S fuel' =>
        match fetch_time (attempts k) with
        | None => Some Hangs
        | Some d =>
            match fetch_outcome (attempts k) with
            | FetchOk => Some (Returned true (now + d))
            | FetchNotOk | FetchThrows => wait_loop fuel' (S k) (now + d + sleep_time (attempts k))
            end
        end
    end
  else Some (Returned false now).

Definition waitForServer (fuel : nat) : option wait_outcome := wait_loop fuel 0 startTime.

(** ** The contract of [waitForServer] *)

(** [Date.now()] when round [k] starts, if every earlier [fetch] settled. *)
Fixpoint round_start (k : nat) : option Z :=
  match k with
  | O => Some startTime
  | S j =>
      t ← round_start j;
      d ← fetch_time (attempts j);
      Some (t + d + sleep_time (attempts j))
  end.

Definition before_deadline (t : Z) : Prop := t - startTime < timeout.

(** Rounds [0 .. k-1] started before the deadline and their server was not up. *)
Definition earlier_rounds_failed (k : nat) : Prop :=
  forall i, (i < k)%nat ->
    fetch_outcome (attempts i) <> FetchOk /\
    exists t, round_start i = Some t /\ before_deadline t.

(** The promise resolves to [true] when a round that starts before the
    deadline gets an [ok] response, to [false] at the first round start
    past the deadline, and never when a round's [fetch] never settles. *)
Inductive wait_spec : wait_outcome -> Prop :=
| spec_up k t d :
    earlier_rounds_failed k -> round_start k = Some t -> before_deadline t ->
    fetch_time (attempts k) = Some d -> fetch_outcome (attempts k) = FetchOk ->
    wait_spec (Returned true (t + d))
| spec_timeout k t :
    earlier_rounds_failed k -> round_start k = Some t -> ~ before_deadline t ->
    wait_spec (Returned false t)
| spec_hang k t :
    earlier_rounds_failed k -> round_start k = Some t -> before_deadline t ->
    fetch_time (attempts k) = None ->
    wait_spec Hangs.

End WaitForServer.

End Lighthouse.

(** * Properties *)

Module LighthouseProps.
Import Lighthouse.
Local Open Scope Z_scope.

(** ** Binary64 facts *)

Lemma digits2_pos_bound m : Z.pos m < 2 ^ Z.pos (digits2_pos m).
Proof.
  induction m as [m IH|m IH|]; simpl; [| |lia];
    rewrite Pos2Z.inj_succ, Z.pow_succ_r by lia; lia.
Qed.

(** A finite float's mantissa has at most 53 bits. *)
Lemma finite_mantissa_bound x s m e :
  Prim2SF x = S754_finite s m e -> Z.pos m < 2 ^ 53.
Proof.
  intros Hx. pose proof (Prim2SF_valid x) as V. rewrite Hx in V.
  unfold valid_binary, bounded, canonical_mantissa, fexp, emin, emax, prec in V.
  apply andb_prop in V as [V _]. apply Z.eqb_eq in V.
  pose proof (digits2_pos_bound m).
  assert (Zpos (digits2_pos m) <= 53) by lia.
  eapply Z.lt_le_trans; [eassumption|]. apply Z.pow_le_mono_r; lia.
Qed.

Lemma prim2sf_zero : Prim2SF 0%float = S754_zero false.
Proof. vm_compute. reflexivity. Qed.

Lemma prim2sf_hundred : Prim2SF 100%float = S754_finite false 7036874417766400 (-46).
Proof. vm_compute. reflexivity. Qed.

Lemma sfleb_finite_pos m1 e1 m2 e2 :
  SFleb (S754_finite false m1 e1) (S754_finite false m2 e2) = true ->
  e1 < e2 \/ (e1 = e2 /\ Z.pos m1 <= Z.pos m2).
Proof.
  unfold SFleb, SFcompare. destruct (Z.compare_spec e1 e2); [|lia|discriminate].
  change (Pos.compare_cont Eq m1 m2) with (Pos.compare m1 m2).
  destruct (Pos.compare_spec m1 m2); try discriminate; lia.
Qed.

(** A float [x] with [0 <= x <= 100] is a zero or a positive
    [m * 2^e] with [e < 0] and [m <= 100 * 2^-e]. *)
Lemma percent_cases x :
  (0 <=? x)%float = true -> (x <=? 100)%float = true ->
  (exists b, Prim2SF x = S754_zero b) \/
  (exists m e, Prim2SF x = S754_finite false m e /\ e < 0 /\ Z.pos m <= 100 * 2 ^ (- e)).
Proof.
  rewrite !leb_spec, prim2sf_zero, prim2sf_hundred.
  destruct (Prim2SF x) as [b|b| |[] m e] eqn:Hx; try (destruct b); try discriminate; eauto.
  intros _ H. right. exists m, e. split; [reflexivity|].
  pose proof (finite_mantissa_bound _ _ _ _ Hx) as Hm.
  assert (H100 : 7036874417766400 = 100 * 2 ^ 46) by reflexivity.
  assert (H53 : 2 ^ 53 <= 100 * 2 ^ 47) by (vm_compute; discriminate).
  destruct (sfleb_finite_pos _ _ _ _ H) as [He|[-> Hle]].
  - assert (2 ^ 47 <= 2 ^ (- e)) by (apply Z.pow_le_mono_r; lia). lia.
  - split; [lia|]. rewrite H100 in Hle. exact Hle.
Qed.

Lemma round_half_up_percent m e :
  e < 0 -> Z.pos m <= 100 * 2 ^ (- e) -> 0 <= round_half_up m e <= 100.
Proof.
  intros He Hm. unfold round_half_up. destruct (Z.leb_spec 0 e); [lia|].
  assert (Hd : 0 < 2 ^ (- e)) by (apply Z.pow_pos_nonneg; lia).
  pose proof (Z.div_mod (Z.pos m) (2 ^ (- e)) ltac:(lia)).
  pose proof (Z.mod_pos_bound (Z.pos m) (2 ^ (- e)) Hd).
  pose proof (Z.div_pos (Z.pos m) (2 ^ (- e)) ltac:(lia) Hd).
  destruct (Z.leb_spec (2 ^ (- e)) (2 * (Z.pos m mod 2 ^ (- e)))); nia.
Qed.

Lemma not_at_least_1e21 m e :
  e < 0 -> Z.pos m <= 100 * 2 ^ (- e) -> at_least_1e21 m e = false.
Proof.
  intros He Hm. unfold at_least_1e21. destruct (Z.leb_spec 0 e); [lia|].
  assert (0 < 2 ^ (- e)) by (apply Z.pow_pos_nonneg; lia). apply Z.leb_gt. nia.
Qed.

Lemma int_to_string_percent_length n :
  0 <= n <= 100 -> (String.length (int_to_string n) <= 3)%nat.
Proof.
  intros Hn.
  pose proof (forallb_seq_below
    (fun k => Nat.leb (String.length (int_to_string (Z.of_nat k))) 3) 101
    ltac:(vm_compute; reflexivity) (Z.to_nat n) ltac:(lia)) as Hall.
  cbv beta in Hall. rewrite Z2Nat.id in Hall by lia. apply Nat.leb_le, Hall.
Qed.

(** [toFixed(0)] of a float in [[0, 100]] has at most three characters. *)
Lemma toFixed0_percent_length f x :
  (0 <=? x)%float = true -> (x <=? 100)%float = true ->
  (String.length (toFixed0 f x) <= 3)%nat.
Proof.
  intros H0 H1. unfold toFixed0.
  destruct (percent_cases x H0 H1) as [[b ->]|(m & e & -> & He & Hm)]; [simpl; lia|].
  rewrite not_at_least_1e21 by assumption. rewrite str_app_nil_l.
  apply int_to_string_percent_length, round_half_up_percent; assumption.
Qed.

Lemma spaces_length n : String.length (spaces n) = n.
Proof. induction n; simpl; congruence. Qed.

Lemma padStart_length n s : String.length (padStart n s) = Nat.max n (String.length s).
Proof.
  unfold padStart. destruct (Nat.leb_spec n (String.length s)).
  - lia.
  - rewrite str_length_app, spaces_length. lia.
Qed.

Lemma score_row_length f label x :
  (0 <=? x)%float = true -> (x <=? 100)%float = true ->
  String.length (score_row f label x)
  = (2 * String.length frame_side + 11 + String.length (getEmoji x) + String.length label)%nat.
Proof.
  intros H0 H1. unfold score_row. rewrite !str_length_app, padStart_length.
  pose proof (toFixed0_percent_length f x H0 H1). simpl. lia.
Qed.

(** A score in [[0, 100]], as a category score in [[0, 1]] times 100 is. *)
Definition percent (x : float) : Prop := (0 <=? x)%float = true /\ (x <=? 100)%float = true.

(** For scores in [[0, 100]] the number cell of every row of the
    report is exactly three characters wide, so a row's length is fixed
    by its emoji and its label; the SEO label is one space longer than
    the other three, so that row is one character wider than the rows
    above it. *)
Theorem report_row_lengths f s :
  percent (performance s) -> percent (accessibility s) ->
  percent (bestPractices s) -> percent (seo s) ->
  let w := (2 * String.length frame_side + 27)%nat in
  map String.length (score_rows f s)
  = [w + String.length (getEmoji (performance s));
     w + String.length (getEmoji (accessibility s));
     w + String.length (getEmoji (bestPractices s));
     S w + String.length (getEmoji (seo s))]%nat.
Proof.
  intros [? ?] [? ?] [? ?] [? ?] w. unfold score_rows. cbn [map].
  rewrite !score_row_length by assumption. subst w. simpl. repeat f_equal; lia.
Qed.

(** ** No score is [NaN] *)

Lemma shr_1_nonneg mrs : 0 <= shr_m mrs -> 0 <= shr_m (shr_1 mrs).
Proof. destruct mrs as [[|[p|p|]|p] r s]; simpl; lia. Qed.

Lemma iter_shr_1_nonneg n mrs : 0 <= shr_m mrs -> 0 <= shr_m (iter_pos shr_1 n mrs).
Proof. revert mrs. induction n; intros mrs H; simpl; auto using shr_1_nonneg. Qed.

Lemma shr_record_of_loc_m m l : shr_m (shr_record_of_loc m l) = m.
Proof. destruct l as [|[]]; reflexivity. Qed.

Lemma shr_fexp_nonneg m e l : 0 <= m -> 0 <= shr_m (fst (shr_fexp prec emax m e l)).
Proof.
  intros Hm. unfold shr_fexp, shr.
  destruct (fexp prec emax (Zdigits2 m + e) - e); simpl;
    try apply iter_shr_1_nonneg; rewrite shr_record_of_loc_m; exact Hm.
Qed.

Lemma round_nearest_even_nonneg m l : 0 <= m -> 0 <= round_nearest_even m l.
Proof. destruct l as [|[]]; simpl; try destruct (Z.even m); lia. Qed.

(** Rounding a positive product never gives [NaN]. *)
Lemma binary_round_aux_not_nan sx m e : binary_round_aux prec emax sx (Zpos m) e loc_Exact <> S754_nan.
Proof.
  unfold binary_round_aux.
  pose proof (shr_fexp_nonneg (Zpos m) e loc_Exact ltac:(lia)) as H1.
  destruct (shr_fexp prec emax (Zpos m) e loc_Exact) as [mrs' e']. simpl in H1.
  pose proof (shr_fexp_nonneg _ e' loc_Exact
                (round_nearest_even_nonneg _ (loc_of_shr_record mrs') H1)) as H2.
  destruct (shr_fexp prec emax _ e' loc_Exact) as [mrs'' e'']. simpl in H2.
  destruct (shr_m mrs''); [discriminate| |lia]. destruct (_ <=? _); discriminate.
Qed.

(** [x * 100] is [NaN] only when [x] is. *)
Lemma times_hundred_not_nan x : Prim2SF x <> S754_nan -> Prim2SF (x * 100)%float <> S754_nan.
Proof.
  intros Hx. rewrite mul_spec, prim2sf_hundred. unfold SF64mul, SFmul.
  destruct (Prim2SF x); try discriminate; [congruence|apply binary_round_aux_not_nan].
Qed.

Lemma truthy_not_nan x : float_truthy x = true -> Prim2SF x <> S754_nan.
Proof.
  unfold float_truthy. intros [_ Hx]%andb_prop Hn. rewrite eqb_spec, Hn in Hx. discriminate.
Qed.

Lemma category_percent_not_nan r key : Prim2SF (category_percent r key) <> S754_nan.
Proof.
  unfold category_percent. destruct (_ ≫= cat_score) as [x|];
    [destruct (float_truthy x) eqn:Hx; [by apply times_hundred_not_nan, truthy_not_nan|]|];
    rewrite prim2sf_zero; discriminate.
Qed.

(** C35: whatever the Lighthouse result, [extractScores] yields four
    numbers, never [NaN]: a missing, [null], zero or [NaN] category score
    reads 0, and any other is multiplied by 100, which cannot give [NaN]. *)
Theorem extractScores_numbers r :
  Forall (fun x => Prim2SF x <> S754_nan)
    [performance (extractScores r); accessibility (extractScores r);
     bestPractices (extractScores r); seo (extractScores r)].
Proof. repeat constructor; apply category_percent_not_nan. Qed.

(** ** The two readings of the same audits *)

(** [extractCoreWebVitals] and [extractPerformanceMetrics] read the
    same audits: they agree on LCP, and they agree on CLS exactly when
    the audit's value is truthy: a CLS of [0] (a page with no layout
    shift) is [null] in the Core Web Vitals and [0] in the metrics. *)
Theorem vitals_vs_metrics r :
  cwv_lcp (extractCoreWebVitals r) = pm_lcp (extractPerformanceMetrics r) /\
  (cwv_cls (extractCoreWebVitals r) = pm_cls (extractPerformanceMetrics r) <->
   forall v, numeric_value r "cumulative-layout-shift" = Some v -> float_truthy v = true).
Proof.
  split; [reflexivity|].
  unfold extractCoreWebVitals, extractPerformanceMetrics. cbn [cwv_cls pm_cls].
  destruct (numeric_value r "cumulative-layout-shift") as [v|]; simpl; [|split; congruence].
  destruct (float_truthy v) eqn:Hv; split; try congruence.
  intros H. specialize (H v eq_refl). congruence.
Qed.

(** ** [getFailedAccessibilityAudits] against a reference *)

(** What the loop pushes for one audit id, if anything. *)
Definition failed_entry (result : RunnerResult) (auditId : string) : option failed_audit :=
  a ← lhr_audits (runner_lhr result) !! auditId;
  if audit_failed a then Some (mkFailedAudit auditId (audit_title a) (audit_description a))
  else None.

Lemma push_if_failed_entry result acc auditId :
  push_if_failed result acc auditId = acc ++ option_list (failed_entry result auditId).
Proof.
  unfold push_if_failed, failed_entry.
  destruct (lhr_audits (runner_lhr result) !! auditId) as [a|]; simpl; [|by rewrite app_nil_r].
  destruct (audit_failed a); simpl; by rewrite ?app_nil_r.
Qed.

Lemma fold_push_if_failed result ids acc :
  fold_left (push_if_failed result) ids acc = acc ++ omap (failed_entry result) ids.
Proof.
  revert acc. induction ids as [|i ids IH]; intros acc; simpl; [by rewrite app_nil_r|].
  rewrite IH, push_if_failed_entry, <- app_assoc.
  destruct (failed_entry result i); reflexivity.
Qed.

Lemma failed_entry_id result i fa : failed_entry result i = Some fa -> failed_id fa = i.
Proof.
  unfold failed_entry. destruct (lhr_audits _ !! i); simpl; [|discriminate].
  case_match; intros; simplify_eq; reflexivity.
Qed.

Lemma omap_ids result ids : map failed_id (omap (failed_entry result) ids) `sublist_of` ids.
Proof.
  induction ids as [|i ids IH]; simpl; [constructor|].
  destruct (failed_entry result i) eqn:E; simpl.
  - rewrite (failed_entry_id _ _ _ E). by apply sublist_skip.
  - by apply sublist_cons.
Qed.

Lemma a11yAudits_NoDup : NoDup a11yAudits.
Proof. apply (bool_decide_eq_true_1 (NoDup a11yAudits)). vm_compute. reflexivity. Qed.

Lemma omap_ext_eq {A B} (f g : A -> option B) (l : list A) :
  (forall x, f x = g x) -> omap f l = omap g l.
Proof. intros H. induction l as [|x l IH]; [reflexivity|]. cbn. rewrite H, IH. reflexivity. Qed.

(** C15: the [forEach]/[push] loop of [getFailedAccessibilityAudits]
    returns, in the order of its 32 audit ids, one entry for each id
    whose audit is present with a score that is not [null] and is below 1
    (the condition [audit && audit.score !== null && audit.score < 1]
    written out on the result), with the audit's title and description;
    so it reports each audit at most once and at most 32 of them. *)
Theorem failed_audits_reference r :
  getFailedAccessibilityAudits r =
    omap (fun auditId =>
            a ← lhr_audits (runner_lhr r) !! auditId;
            s ← audit_score a;
            if (s <? 1)%float
            then Some (mkFailedAudit auditId (audit_title a) (audit_description a)) else None)
      a11yAudits /\
  NoDup (map failed_id (getFailedAccessibilityAudits r)) /\
  (length (getFailedAccessibilityAudits r) <= 32)%nat.
Proof.
  assert (Href : getFailedAccessibilityAudits r = omap (failed_entry r) a11yAudits)
    by (unfold getFailedAccessibilityAudits; rewrite fold_push_if_failed; reflexivity).
  pose proof (omap_ids r a11yAudits) as Hsub. rewrite Href. split; [|split].
  - apply omap_ext_eq. intros i. unfold failed_entry, audit_failed.
    destruct (lhr_audits (runner_lhr r) !! i) as [a|]; [|reflexivity]. cbn [mbind option_bind].
    destruct (audit_score a); reflexivity.
  - exact (sublist_NoDup _ _ a11yAudits_NoDup Hsub).
  - apply sublist_length in Hsub. rewrite length_map in Hsub. exact Hsub.
Qed.

(** ** [waitForServer] meets its contract *)

Section WaitProps.
Variable timeout : Z.
Variable startTime : Z.
Variable attempts : nat -> attempt.

Lemma earlier_rounds_failed_0 : earlier_rounds_failed timeout startTime attempts 0.
Proof. intros i Hi. lia. Qed.

Lemma earlier_rounds_failed_S k t d :
  earlier_rounds_failed timeout startTime attempts k ->
  round_start startTime attempts k = Some t -> before_deadline timeout startTime t ->
  fetch_time (attempts k) = Some d -> fetch_outcome (attempts k) <> FetchOk ->
  earlier_rounds_failed timeout startTime attempts (S k).
Proof.
  intros Hk Ht Hb _ Ho i Hi. destruct (decide (i = k)) as [->|]; [eauto|].
  apply Hk. lia.
Qed.

Lemma round_start_S k t d :
  round_start startTime attempts k = Some t -> fetch_time (attempts k) = Some d ->
  round_start startTime attempts (S k) = Some (t + d + sleep_time (attempts k)).
Proof. intros Ht Hd. simpl. rewrite Ht, Hd. reflexivity. Qed.

(** Every result of the loop is one the contract allows. *)
Lemma wait_loop_spec fuel k now r :
  round_start startTime attempts k = Some now ->
  earlier_rounds_failed timeout startTime attempts k ->
  wait_loop timeout startTime attempts fuel k now = Some r ->
  wait_spec timeout startTime attempts r.
Proof.
  revert k now. induction fuel as [|fuel IH]; intros k now Hs Hk; simpl;
    destruct (Z.ltb_spec (now - startTime) timeout) as [Hb|Hb]; intros E; try discriminate;
    try (injection E as <-; eapply spec_timeout; eauto; unfold before_deadline; lia).
  destruct (fetch_time (attempts k)) as [d|] eqn:Hd; [|injection E as <-; eapply spec_hang; eauto].
  destruct (fetch_outcome (attempts k)) eqn:Ho;
    [injection E as <-; eapply spec_up; eauto| |];
    (eapply IH; [eapply round_start_S; eauto|eapply earlier_rounds_failed_S; eauto; congruence|exact E]).
Qed.

(** Out of fuel after [fuel] rounds from round [k]: those rounds all
    failed and the next one starts before the deadline. *)
Lemma wait_loop_out_of_fuel fuel k now :
  round_start startTime attempts k = Some now ->
  earlier_rounds_failed timeout startTime attempts k ->
  wait_loop timeout startTime attempts fuel k now = None ->
  earlier_rounds_failed timeout startTime attempts (fuel + k)%nat /\
  exists t, round_start startTime attempts (fuel + k)%nat = Some t /\ before_deadline timeout startTime t.
Proof.
  revert k now. induction fuel as [|fuel IH]; intros k now Hs Hk E; cbn [wait_loop] in E;
    destruct (Z.ltb_spec (now - startTime) timeout) as [Hb|Hb]; try discriminate.
  - split; [exact Hk|]. exists now. split; [exact Hs|exact Hb].
  - destruct (fetch_time (attempts k)) as [d|] eqn:Hd; [|discriminate].
    destruct (fetch_outcome (attempts k)) eqn:Ho; [discriminate| |];
      (replace (S fuel + k)%nat with (fuel + S k)%nat by lia;
       eapply IH; [eapply round_start_S; eauto|eapply earlier_rounds_failed_S; eauto; congruence|exact E]).
Qed.

(** With more fuel the loop returns the same result. *)
Lemma wait_loop_fuel_mono fuel fuel' k now r :
  (fuel <= fuel')%nat ->
  wait_loop timeout startTime attempts fuel k now = Some r ->
  wait_loop timeout startTime attempts fuel' k now = Some r.
Proof.
  revert fuel' k now. induction fuel as [|fuel IH]; intros [|fuel'] k now Hle E; simpl in *;
    destruct (now - startTime <? timeout); try congruence; try lia.
  destruct (fetch_time (attempts k)); [|exact E].
  destruct (fetch_outcome (attempts k)); [exact E| |]; apply IH; (lia || exact E).
Qed.

Section Progress.
(** The environment's fetches settle, in non-negative time, and the
    timer waits at least its 1000 ms. *)
Hypothesis fetch_settles : forall k, exists d, fetch_time (attempts k) = Some d /\ 0 <= d.
Hypothesis sleep_at_least : forall k, 1000 <= sleep_time (attempts k).

Lemma wait_loop_returns fuel k now :
  timeout <= now - startTime + 1000 * Z.of_nat fuel ->
  exists r, wait_loop timeout startTime attempts fuel k now = Some r /\ r <> Hangs.
Proof.
  revert k now. induction fuel as [|fuel IH]; intros k now Hf; simpl;
    destruct (Z.ltb_spec (now - startTime) timeout); try (eexists; split; [reflexivity|discriminate]);
    [lia|].
  destruct (fetch_settles k) as (d & -> & Hd). pose proof (sleep_at_least k).
  destruct (fetch_outcome (attempts k)); [eexists; split; [reflexivity|discriminate]| |];
    apply IH; lia.
Qed.

Lemma round_start_mono i j ti tj :
  (i <= j)%nat -> round_start startTime attempts i = Some ti ->
  round_start startTime attempts j = Some tj -> ti <= tj.
Proof.
  intros Hij. revert tj. induction Hij as [|j Hij IH]; intros tj Hi Hj;
    [rewrite Hi in Hj; injection Hj as ->; lia|].
  simpl in Hj. destruct (round_start startTime attempts j) as [t|] eqn:Ht; [|discriminate].
  destruct (fetch_settles j) as (d & Hd & Hd0). rewrite Hd in Hj. simpl in Hj.
  pose proof (sleep_at_least j). specialize (IH t Hi eq_refl). injection Hj as <-. lia.
Qed.

End Progress.
End WaitProps.

(** C12: whatever the environment and the bound [fuel] on the rounds,
    the loop's outcome is one its contract [wait_spec] allows or it is
    still polling.  A value is [true] when a round started before the
    deadline got an [ok] response, [false] at the first round that
    starts past the deadline, and no result ([Hangs]) when a round's
    [fetch] never settles, every earlier round having failed.  Running
    out of fuel happens only while polling: the [fuel] rounds run all
    failed and the next round starts before the deadline. *)
Theorem waitForServer_refines timeout startTime attempts fuel :
  match waitForServer timeout startTime attempts fuel with
  | Some r => wait_spec timeout startTime attempts r
  | None =>
      earlier_rounds_failed timeout startTime attempts fuel /\
      exists t, round_start startTime attempts fuel = Some t /\ before_deadline timeout startTime t
  end.
Proof.
  destruct (waitForServer timeout startTime attempts fuel) as [r|] eqn:E.
  - exact (wait_loop_spec _ _ _ fuel 0 startTime r eq_refl (earlier_rounds_failed_0 _ _ _) E).
  - rewrite <-(Nat.add_0_r fuel).
    exact (wait_loop_out_of_fuel _ _ _ fuel 0 startTime eq_refl (earlier_rounds_failed_0 _ _ _) E).
Qed.

Lemma waitForServer_returns timeout startTime attempts :
  (forall k, exists d, fetch_time (attempts k) = Some d /\ 0 <= d) ->
  (forall k, 1000 <= sleep_time (attempts k)) ->
  exists r, waitForServer timeout startTime attempts (Z.to_nat (timeout / 1000) + 1) = Some r
            /\ r <> Hangs.
Proof.
  intros Hf Hs. apply wait_loop_returns; [exact Hf|exact Hs|].
  pose proof (Z.mod_pos_bound timeout 1000). pose proof (Z.div_mod timeout 1000). lia.
Qed.

(** C13: when every [fetch] settles and every sleep lasts its 1000 ms,
    [waitForServer] resolves after at most [timeout / 1000 + 1] rounds,
    and any larger bound on the rounds gives the same result.  The sleep
    is the environment's: [setTimeout(resolve, 1000)] fires no earlier
    than 1000 ms, but possibly later, so the model takes each round's
    sleep from the environment and the theorem assumes only the lower
    bound the timer guarantees. *)
Theorem waitForServer_terminates timeout startTime attempts :
  (forall k, exists d, fetch_time (attempts k) = Some d /\ 0 <= d) ->
  (forall k, 1000 <= sleep_time (attempts k)) ->
  exists r, r <> Hangs /\
    forall fuel, (Z.to_nat (timeout / 1000) + 1 <= fuel)%nat ->
    waitForServer timeout startTime attempts fuel = Some r.
Proof.
  intros Hf Hs. destruct (waitForServer_returns timeout startTime attempts Hf Hs) as (r & Hr & Hn).
  exists r. split; [exact Hn|]. intros fuel Hle. exact (wait_loop_fuel_mono _ _ _ _ _ _ _ _ Hle Hr).
Qed.

(** C14: when every [fetch] settles and the server answers [ok] in a
    round that starts before the deadline, [waitForServer] resolves to
    [true]. *)
Theorem waitForServer_live timeout startTime attempts k t :
  (forall k, exists d, fetch_time (attempts k) = Some d /\ 0 <= d) ->
  (forall k, 1000 <= sleep_time (attempts k)) ->
  round_start startTime attempts k = Some t -> before_deadline timeout startTime t ->
  fetch_outcome (attempts k) = FetchOk ->
  exists t', waitForServer timeout startTime attempts (Z.to_nat (timeout / 1000) + 1)
             = Some (Returned true t').
Proof.
  intros Hf Hs Ht Hb Hok.
  destruct (waitForServer_returns timeout startTime attempts Hf Hs) as (r & Hr & Hnh).
  rewrite Hr. apply wait_loop_spec in Hr; [|reflexivity|apply earlier_rounds_failed_0].
  destruct Hr as [k' t' d' _ _ _ _ _|k' t' Hk' Ht' Hb'|k' t' _ _ _ Hd]; [eauto| |congruence].
  destruct (Nat.lt_ge_cases k k') as [Hlt|Hge].
  - destruct (Hk' k Hlt) as [Hno _]. congruence.
  - pose proof (round_start_mono startTime attempts Hf Hs k' k t' t Hge Ht' Ht).
    unfold before_deadline in *. lia.
Qed.

End LighthouseProps.

Module LighthouseRuns.
Import Lighthouse LighthouseProps.
Local Open Scope Z_scope.

Definition no_large (x : float) : string := EmptyString.

Definition demo_scores : scores := mkScores 57%float 92%float 100%float 0.5%float.

Lemma report_row_lengths_witness :
  let w := (2 * String.length frame_side + 27)%nat in
  map String.length (score_rows no_large demo_scores)
  = [w + String.length (getEmoji 57%float); w + String.length (getEmoji 92%float);
     w + String.length (getEmoji 100%float); S w + String.length (getEmoji 0.5%float)]%nat.
Proof.
  apply (report_row_lengths no_large demo_scores); split; vm_compute; reflexivity.
Defined.

(** Two refused connections, then the server is up. *)
Definition boot_attempts (k : nat) : attempt :=
  if (k <? 2)%nat then mkAttempt (Some 20) FetchThrows 1000 else mkAttempt (Some 15) FetchOk 1000.

Lemma boot_settles k : exists d, fetch_time (boot_attempts k) = Some d /\ 0 <= d.
Proof. unfold boot_attempts. destruct (k <? 2)%nat; eexists; split; [reflexivity|lia|reflexivity|lia]. Qed.

Lemma boot_sleeps k : 1000 <= sleep_time (boot_attempts k).
Proof. unfold boot_attempts. destruct (k <? 2)%nat; simpl; lia. Qed.

Lemma waitForServer_refines_witness :
  wait_spec default_timeout 0 boot_attempts (Returned true 2055) /\
  earlier_rounds_failed default_timeout 0 boot_attempts 1.
Proof.
  pose proof (waitForServer_refines default_timeout 0 boot_attempts 31) as H31.
  pose proof (waitForServer_refines default_timeout 0 boot_attempts 1) as H1.
  assert (E31 : waitForServer default_timeout 0 boot_attempts 31 = Some (Returned true 2055))
    by (vm_compute; reflexivity).
  assert (E1 : waitForServer default_timeout 0 boot_attempts 1 = None) by (vm_compute; reflexivity).
  rewrite E31 in H31. rewrite E1 in H1. split; [exact H31|exact (proj1 H1)].
Defined.

Lemma waitForServer_terminates_witness :
  exists r, r <> Hangs /\
    forall fuel, (Z.to_nat (default_timeout / 1000) + 1 <= fuel)%nat ->
    waitForServer default_timeout 0 boot_attempts fuel = Some r.
Proof. exact (waitForServer_terminates default_timeout 0 boot_attempts boot_settles boot_sleeps). Defined.

Lemma waitForServer_live_witness :
  exists t', waitForServer default_timeout 0 boot_attempts (Z.to_nat (default_timeout / 1000) + 1)
             = Some (Returned true t').
Proof.
  apply (waitForServer_live default_timeout 0 boot_attempts 2 2040 boot_settles boot_sleeps);
    [reflexivity|unfold before_deadline, default_timeout; lia|reflexivity].
Defined.

End LighthouseRuns.
