(* ===== verification/LighthouseSuites.v ===== *)
(** * The Lighthouse audit suites: [src/unnamed/part_008] and [part_009]

    Three Vitest suites audit the running application with Lighthouse:
    "Lighthouse Audits" ([lighthouse.test.ts], the first part of
    [part_008]) checks the four category scores against [THRESHOLDS];
    "Lighthouse Detailed Metrics" ([lighthouse-detailed.test.ts], its
    second part) checks audit values (FCP, LCP, CLS, TBT, Speed Index), a
    list of accessibility audits and the image audits; "Lighthouse
    Example Tests" ([lighthouse-example.test.ts], [part_009]) goes
    through the helpers of [utils.ts].

    The browser and Lighthouse are the environment: [chrome] is the port
    of the launched Chrome ([None] when [chromeLauncher.launch] failed and
    [chrome] stayed [undefined]), and [lighthouse url options] is what the
    awaited call gives: a rejection, [undefined], or a [RunnerResult].  A
    test is the body of its [it] callback, an [outcome] that resolves
    when the test passes; a failed [expect] is an [AssertionError], a
    property read on [undefined] a [TypeError].  The JavaScript
    conversions the bodies rely on are written out: [null * 100] is [0],
    [undefined / 1000] is [NaN], and [undefined.toFixed(n)] throws.  The
    [console.log] calls print and are otherwise ignored, except for the
    [toFixed] they call, which can throw. *)

From S2P Require Import Prelude JsString Lighthouse.
From Stdlib Require Import Floats.
Local Set Warnings "-inexact-float".

Module Vitest.
Import Lighthouse.

(** How a test body fails. *)
Inductive test_error : Type :=
| AssertionError (matcher : string)   (** an [expect(...)] matcher failed *)
| TypeError (reading : string)        (** a property read on [undefined] *)
| LighthouseFailed.                   (** [lighthouse(...)] rejected *)

Definition test_outcome : Type := outcome test_error unit.

Definition pass : test_outcome := Resolved tt.

(** [expect(x).toBeDefined()], followed by the [x!] of the next line. *)
Definition toBeDefined {A} (x : option A) : outcome test_error A :=
  match x with
  | Some a => Resolved a
  | None => Rejected (AssertionError "toBeDefined")
  end.

(** The number matchers: JavaScript's [>=], [>] and [<], false on [NaN]. *)
Definition toBeGreaterThanOrEqual (x y : float) : test_outcome :=
  if (y <=? x)%float then pass else Rejected (AssertionError "toBeGreaterThanOrEqual").

Definition toBeGreaterThan (x y : float) : test_outcome :=
  if (y <? x)%float then pass else Rejected (AssertionError "toBeGreaterThan").

Definition toBeLessThan (x y : float) : test_outcome :=
  if (x <? y)%float then pass else Rejected (AssertionError "toBeLessThan").

(** The matchers on an array's [length], a small integer. *)
Definition length_toBeLessThanOrEqual (n m : nat) : test_outcome :=
  if (n <=? m)%nat then pass else Rejected (AssertionError "toBeLessThanOrEqual").

Definition length_toBeGreaterThan (n m : nat) : test_outcome :=
  if (m <? n)%nat then pass else Rejected (AssertionError "toBeGreaterThan").

(** [x.port], [x.score], ... on a value that may be [undefined]. *)
Definition read {A} (what : string) (x : option A) : outcome test_error A :=
  match x with
  | Some a => Resolved a
  | None => Rejected (TypeError what)
  end.

(** [ToNumber] of a [number | null] ([null] is [0]) and of a
    [number | undefined] ([undefined] is [NaN]). *)
Definition null_to_number (x : option float) : float :=
  match x with Some v => v | None => 0%float end.

Definition undefined_to_number (x : option float) : float :=
  match x with Some v => v | None => nan end.

(** The options object every test passes to [lighthouse]. *)
Record options : Type := mkOptions {
  logLevel : string;
  output : string;
  onlyCategories : list string;
  port : Z
}.

(** [{ logLevel: "error", output: "json", onlyCategories, port: chrome.port }]:
    reading [chrome.port] throws when the launch failed. *)
Definition test_options (chrome : option Z) (categories : list string)
    : outcome test_error options :=
  let* p := read "port" chrome in
  Resolved (mkOptions "error" "json" categories p).

(** [(await lighthouse(url, options)) as RunnerResult | undefined], then
    [expect(runnerResult).toBeDefined()]. *)
Definition audit_url (lighthouse : string -> options -> outcome test_error (option RunnerResult))
    (url : string) (opts : options) : outcome test_error RunnerResult :=
  let* r := lighthouse url opts in
  toBeDefined r.

(** [runnerResult!.lhr.categories[key].score! * 100]. *)
Definition category_score (r : RunnerResult) (key : string) : outcome test_error float :=
  let* c := read "score" (lhr_categories (runner_lhr r) !! key) in
  Resolved (null_to_number (cat_score c) * 100)%float.

(** [runnerResult!.lhr.audits[key].numericValue!]. *)
Definition audit_numericValue_of (r : RunnerResult) (key : string)
    : outcome test_error (option float) :=
  let* a := read "numericValue" (lhr_audits (runner_lhr r) !! key) in
  Resolved (audit_numericValue a).

(** The [toFixed] call of a [console.log] on a [number | undefined]. *)
Definition log_toFixed (x : option float) : test_outcome :=
  let* _ := read "toFixed" x in pass.

(** A test passes when its body resolves. *)
Definition passed (o : test_outcome) : bool :=
  match o with Resolved _ => true | Rejected _ => false end.

(** [if (x) { ... }] on a [number | null]. *)
Definition if_truthy (x : option float) (k : float -> test_outcome) : test_outcome :=
  match x with
  | Some v => if float_truthy v then k v else pass
  | None => pass
  end.

End Vitest.

(** ** "Lighthouse Audits": the first part of [part_008] *)

Module LighthouseAudits.
Import Lighthouse Vitest.

Definition APP_URL : string := "http://localhost:5173".

Record thresholds : Type := mkThresholds {
  t_performance : float;
  t_accessibility : float;
  t_best_practices : float;
  t_seo : float
}.

Definition THRESHOLDS : thresholds := mkThresholds 55 85 80 80.

Section Suite.
Variable chrome : option Z.
Variable lighthouse : string -> options -> outcome test_error (option RunnerResult).

(** The four category tests share one body: audit [APP_URL] for the one
    category [key] and compare [score * 100] with its threshold. *)
Definition category_test (key : string) (threshold : float) : test_outcome :=
  let* opts := test_options chrome [key] in
  let* runnerResult := audit_url lighthouse APP_URL opts in
  let* score := category_score runnerResult key in
  toBeGreaterThanOrEqual score threshold.

Definition performance_test : test_outcome :=
  category_test "performance" (t_performance THRESHOLDS).

Definition accessibility_test : test_outcome :=
  category_test "accessibility" (t_accessibility THRESHOLDS).

Definition best_practices_test : test_outcome :=
  category_test "best-practices" (t_best_practices THRESHOLDS).

Definition seo_test : test_outcome :=
  category_test "seo" (t_seo THRESHOLDS).

(** "should audit product detail page". *)
Definition product_detail_test : test_outcome :=
  let* opts := test_options chrome ["performance"; "accessibility"] in
  let* runnerResult := audit_url lighthouse (APP_URL +++ "/product/1") opts in
  let* perfScore := category_score runnerResult "performance" in
  let* a11yScore := category_score runnerResult "accessibility" in
  let* _ := toBeGreaterThanOrEqual perfScore (t_performance THRESHOLDS) in
  toBeGreaterThanOrEqual a11yScore (t_accessibility THRESHOLDS).

(** "should generate comprehensive report for home page": the four
    scores are read in the order of the object literal, then checked. *)
Definition comprehensive_report_test : test_outcome :=
  let* opts := test_options chrome ["performance"; "accessibility"; "best-practices"; "seo"] in
  let* runnerResult := audit_url lighthouse APP_URL opts in
  let* performance := category_score runnerResult "performance" in
  let* accessibility := category_score runnerResult "accessibility" in
  let* bestPractices := category_score runnerResult "best-practices" in
  let* seo := category_score runnerResult "seo" in
  let* _ := toBeGreaterThanOrEqual performance (t_performance THRESHOLDS) in
  let* _ := toBeGreaterThanOrEqual accessibility (t_accessibility THRESHOLDS) in
  let* _ := toBeGreaterThanOrEqual bestPractices (t_best_practices THRESHOLDS) in
  toBeGreaterThanOrEqual seo (t_seo THRESHOLDS).

End Suite.
End LighthouseAudits.

(** ** "Lighthouse Detailed Metrics": the second part of [part_008] *)

Module LighthouseDetailed.
Import Lighthouse Vitest.

Definition APP_URL : string := "http://localhost:5173".

(** The accessibility audits this suite checks. *)
Definition a11yAudits : list string :=
  ["aria-allowed-attr"; "aria-required-attr"; "button-name"; "color-contrast";
   "document-title"; "html-has-lang"; "image-alt"; "label"; "link-name"]%string.

Definition imageAudits : list string :=
  ["modern-image-formats"; "uses-optimized-images"; "uses-responsive-images"]%string.

(** The [forEach] callback: [if (audit && audit.score !== null &&
    audit.score < 1) failedAudits.push(auditId)]. *)
Definition push_failed_id (runnerResult : RunnerResult) (failedAudits : list string)
    (auditId : string) : list string :=
  match lhr_audits (runner_lhr runnerResult) !! auditId with
  | Some audit => if audit_failed audit then failedAudits ++ [auditId] else failedAudits
  | None => failedAudits
  end.

Definition failedAudits (runnerResult : RunnerResult) : list string :=
  fold_left (push_failed_id runnerResult) a11yAudits [].

(** [runnerResult!.lhr.audits[id]?.score === 1]. *)
Definition score_is_one (runnerResult : RunnerResult) (id : string) : bool :=
  match lhr_audits (runner_lhr runnerResult) !! id ≫= audit_score with
  | Some s => (s =? 1)%float
  | None => false
  end.

Definition passingAudits (runnerResult : RunnerResult) : list string :=
  List.filter (score_is_one runnerResult) imageAudits.

Section Suite.
Variable chrome : option Z.
Variable lighthouse : string -> options -> outcome test_error (option RunnerResult).

(** The home page audited for one category. *)
Definition home_run (category : string) : outcome test_error RunnerResult :=
  let* opts := test_options chrome [category] in
  audit_url lighthouse APP_URL opts.

(** FCP, LCP and Speed Index: [numericValue! / 1000], in seconds. *)
Definition seconds_test (key : string) (limit : float) : test_outcome :=
  let* runnerResult := home_run "performance" in
  let* v := audit_numericValue_of runnerResult key in
  toBeLessThan (undefined_to_number v / 1000) limit.

Definition fcp_test : test_outcome := seconds_test "first-contentful-paint" 7.
Definition lcp_test : test_outcome := seconds_test "largest-contentful-paint" 12.
Definition speed_index_test : test_outcome := seconds_test "speed-index" 7.

(** CLS and TBT: [numericValue!] as is, printed with [toFixed] first. *)
Definition raw_value_test (key : string) (limit : float) : test_outcome :=
  let* runnerResult := home_run "performance" in
  let* v := audit_numericValue_of runnerResult key in
  let* _ := log_toFixed v in
  toBeLessThan (undefined_to_number v) limit.

Definition cls_test : test_outcome := raw_value_test "cumulative-layout-shift" 0.1.
Definition tbt_test : test_outcome := raw_value_test "total-blocking-time" 300.

(** "should check accessibility issues". *)
Definition accessibility_issues_test : test_outcome :=
  let* runnerResult := home_run "accessibility" in
  length_toBeLessThanOrEqual (length (failedAudits runnerResult)) 2.

(** "should have optimal image optimization". *)
Definition image_optimization_test : test_outcome :=
  let* runnerResult := home_run "performance" in
  length_toBeGreaterThan (length (passingAudits runnerResult)) 0.

End Suite.
End LighthouseDetailed.

(** ** "Lighthouse Example Tests": [part_009] *)

Module LighthouseExample.
Import Lighthouse Vitest.

Definition APP_URL : string := "http://localhost:5173".

Record page : Type := mkPage { page_name : string; page_url : string }.

Definition pages : list page :=
  [mkPage "Home" APP_URL; mkPage "Register" (APP_URL +++ "/register");
   mkPage "Product Detail" (APP_URL +++ "/product/1")].

Section Suite.
Variable chrome : option Z.
Variable lighthouse : string -> options -> outcome test_error (option RunnerResult).

(** "should generate a comprehensive audit report". *)
Definition comprehensive_audit_test : test_outcome :=
  let* opts := test_options chrome ["performance"; "accessibility"; "best-practices"; "seo"] in
  let* runnerResult := audit_url lighthouse APP_URL opts in
  let scores := extractScores runnerResult in
  let* _ := toBeGreaterThan (performance scores) 0 in
  let* _ := toBeGreaterThan (accessibility scores) 0 in
  let* _ := toBeGreaterThan (bestPractices scores) 0 in
  toBeGreaterThan (seo scores) 0.

(** "should verify Core Web Vitals are within acceptable ranges". *)
Definition core_web_vitals_test : test_outcome :=
  let* opts := test_options chrome ["performance"] in
  let* runnerResult := audit_url lighthouse APP_URL opts in
  let cwv := extractCoreWebVitals runnerResult in
  let* _ := if_truthy (cwv_lcp cwv) (fun lcp => toBeLessThan lcp 12) in
  if_truthy (cwv_cls cwv) (fun cls => toBeLessThan cls 0.25).

(** The [for ... of pages] loop: each page in turn, the first failure
    ends the test. *)
Fixpoint audit_pages (opts : options) (ps : list page) : test_outcome :=
  match ps with
  | [] => pass
  | page :: ps' =>
      let* runnerResult := audit_url lighthouse (page_url page) opts in
      let scores := extractScores runnerResult in
      let* _ := toBeGreaterThan (performance scores) 40 in
      let* _ := toBeGreaterThan (accessibility scores) 70 in
      audit_pages opts ps'
  end.

(** "should audit multiple pages". *)
Definition multiple_pages_test : test_outcome :=
  let* opts := test_options chrome ["performance"; "accessibility"] in
  audit_pages opts pages.

End Suite.
End LighthouseExample.

(** * Properties *)

Module SuitesProps.
Import Lighthouse Vitest.

(** ** Scores as Lighthouse reports them *)

Definition float_of_nat (n : nat) : float := of_uint63 (Uint63.of_Z (Z.of_nat n)).

(** Lighthouse rounds a category score to two decimals
    ([Math.round(x * 100) / 100]): the float [k / 100] for an integer
    [k] in [0 .. 100]. *)
Definition two_decimal (k : nat) : float := (float_of_nat k / 100)%float.

(** The comparisons of [score * 100] with the thresholds the suites use
    decide the integer comparison exactly, although [0.55 * 100] is
    [55.00000000000001]: checked on every two-decimal score. *)
Lemma two_decimal_ge t k :
  t ∈ [0; 40; 55; 70; 80; 85]%nat -> (k <= 100)%nat ->
  (float_of_nat t <=? two_decimal k * 100)%float = (t <=? k)%nat.
Proof.
  intros Ht Hk.
  pose proof (forallb_seq_below (fun k => forallb (fun t =>
    Bool.eqb (float_of_nat t <=? two_decimal k * 100)%float (t <=? k)%nat)
    [0; 40; 55; 70; 80; 85]%nat) 101 ltac:(vm_compute; reflexivity) k ltac:(lia)) as H.
  cbv beta in H. rewrite forallb_forall in H.
  apply Bool.eqb_prop, H, list_elem_of_In, Ht.
Qed.

Lemma two_decimal_gt t k :
  t ∈ [0; 40; 70]%nat -> (k <= 100)%nat ->
  (float_of_nat t <? two_decimal k * 100)%float = (t <? k)%nat.
Proof.
  intros Ht Hk.
  pose proof (forallb_seq_below (fun k => forallb (fun t =>
    Bool.eqb (float_of_nat t <? two_decimal k * 100)%float (t <? k)%nat)
    [0; 40; 70]%nat) 101 ltac:(vm_compute; reflexivity) k ltac:(lia)) as H.
  cbv beta in H. rewrite forallb_forall in H.
  apply Bool.eqb_prop, H, list_elem_of_In, Ht.
Qed.

(** The exactness depends on the threshold: a threshold of 57 would
    reject the score [0.57], whose [* 100] is [56.99999999999999]. *)
Lemma two_decimal_57_inexact :
  (float_of_nat 57 <=? two_decimal 57 * 100)%float = false.
Proof. vm_compute. reflexivity. Qed.

(** Only the score [0] is falsy, so [extractScores] reads a two-decimal
    score as [score * 100]. *)
Lemma two_decimal_truthy k :
  (k <= 100)%nat -> float_truthy (two_decimal k) = negb (k =? 0)%nat.
Proof.
  intros Hk.
  pose proof (forallb_seq_below (fun k =>
    Bool.eqb (float_truthy (two_decimal k)) (negb (k =? 0)%nat)) 101
    ltac:(vm_compute; reflexivity) k ltac:(lia)) as H.
  apply Bool.eqb_prop, H.
Qed.

Lemma category_percent_two_decimal r key k :
  lhr_categories (runner_lhr r) !! key = Some (mkCategory (Some (two_decimal k))) ->
  (k <= 100)%nat -> category_percent r key = (two_decimal k * 100)%float.
Proof.
  intros Hc Hk. unfold category_percent. rewrite Hc. simpl.
  rewrite two_decimal_truthy by exact Hk.
  destruct (Nat.eqb_spec k 0) as [->|]; reflexivity.
Qed.

Lemma thresholds_nat :
  LighthouseAudits.THRESHOLDS =
  LighthouseAudits.mkThresholds (float_of_nat 55) (float_of_nat 85) (float_of_nat 80) (float_of_nat 80).
Proof. vm_compute. reflexivity. Qed.

(** [undefined / 1000] is [NaN], below nothing. *)
Lemma nan_seconds_ltb x : (nan / 1000 <? x)%float = false.
Proof.
  rewrite FloatAxioms.ltb_spec. change (Prim2SF (nan / 1000)%float) with S754_nan.
  reflexivity.
Qed.

(** ** Running a test against a given Lighthouse *)

(** Unfold the options and the Lighthouse call of a test body, with the
    hypothesis [H] giving what the call returns. *)
Ltac run_env H :=
  unfold test_options, audit_url, read; cbn [obind];
  rewrite ?H; cbn [obind toBeDefined].

Lemma read_some {A} what (a : A) : read what (Some a) = Resolved a.
Proof. reflexivity. Qed.

Lemma passed_ge x y : passed (toBeGreaterThanOrEqual x y) = (y <=? x)%float.
Proof. unfold toBeGreaterThanOrEqual. by destruct (y <=? x)%float. Qed.

Lemma passed_gt x y : passed (toBeGreaterThan x y) = (y <? x)%float.
Proof. unfold toBeGreaterThan. by destruct (y <? x)%float. Qed.

Lemma passed_lt x y : passed (toBeLessThan x y) = (x <? y)%float.
Proof. unfold toBeLessThan. by destruct (x <? y)%float. Qed.

(** A sequence of two checks passes when both do. *)
Lemma passed_seq (o k : test_outcome) :
  passed (let* _ := o in k) = passed o && passed k.
Proof. destruct o as [[]|]; reflexivity. Qed.

End SuitesProps.

Module AuditsProps.
Import Lighthouse Vitest LighthouseAudits SuitesProps.

Section Env.
Variable p : Z.
Variable lighthouse : string -> options -> outcome test_error (option RunnerResult).
Variable r : RunnerResult.
(** Lighthouse audits the home page and returns [r]. *)
Hypothesis Hlh : forall opts, lighthouse APP_URL opts = Resolved (Some r).

Lemma category_score_two_decimal key k :
  lhr_categories (runner_lhr r) !! key = Some (mkCategory (Some (two_decimal k))) ->
  category_score r key = Resolved (two_decimal k * 100)%float.
Proof. intros Hc. unfold category_score, read. rewrite Hc. reflexivity. Qed.

Lemma category_test_passed key T :
  passed (category_test (Some p) lighthouse key T) =
  match lhr_categories (runner_lhr r) !! key with
  | Some c => (T <=? null_to_number (cat_score c) * 100)%float
  | None => false
  end.
Proof.
  unfold category_test. run_env Hlh. unfold category_score, read.
  destruct (lhr_categories (runner_lhr r) !! key); [apply passed_ge | reflexivity].
Qed.

Lemma category_test_two_decimal key t k :
  lhr_categories (runner_lhr r) !! key = Some (mkCategory (Some (two_decimal k))) ->
  (k <= 100)%nat -> t ∈ [0; 40; 55; 70; 80; 85]%nat ->
  passed (category_test (Some p) lighthouse key (float_of_nat t)) = (t <=? k)%nat.
Proof.
  intros Hc Hk Ht. rewrite category_test_passed, Hc. apply two_decimal_ge; assumption.
Qed.

(** C36: on two-decimal scores, the "Lighthouse Audits" suite decides
    exactly the integer thresholds of [THRESHOLDS]: each category test
    passes iff the score, in percent, reaches 55 (performance), 85
    (accessibility), 80 (best practices) or 80 (SEO), and the
    comprehensive report test passes iff all four do; the binary64
    rounding of [score * 100] never flips a decision. *)
Theorem audits_thresholds_exact (k : string -> nat) :
  (forall key, key ∈ ["performance"; "accessibility"; "best-practices"; "seo"]%string ->
     lhr_categories (runner_lhr r) !! key = Some (mkCategory (Some (two_decimal (k key)))) /\
     (k key <= 100)%nat) ->
  passed (performance_test (Some p) lighthouse) = Nat.leb 55 (k "performance") /\
  passed (accessibility_test (Some p) lighthouse) = Nat.leb 85 (k "accessibility") /\
  passed (best_practices_test (Some p) lighthouse) = Nat.leb 80 (k "best-practices") /\
  passed (seo_test (Some p) lighthouse) = Nat.leb 80 (k "seo") /\
  passed (comprehensive_report_test (Some p) lighthouse) =
    Nat.leb 55 (k "performance") && Nat.leb 85 (k "accessibility") &&
    Nat.leb 80 (k "best-practices") && Nat.leb 80 (k "seo").
Proof.
  intros Hk.
  destruct (Hk "performance" ltac:(in_list)) as [Hp Hpk].
  destruct (Hk "accessibility" ltac:(in_list)) as [Ha Hak].
  destruct (Hk "best-practices" ltac:(in_list)) as [Hb Hbk].
  destruct (Hk "seo" ltac:(in_list)) as [Hs Hsk].
  unfold performance_test, accessibility_test, best_practices_test, seo_test,
    comprehensive_report_test.
  rewrite thresholds_nat. cbn [t_performance t_accessibility t_best_practices t_seo].
  repeat split; try (apply category_test_two_decimal; [assumption|assumption|in_list]).
  run_env Hlh.
  rewrite (category_score_two_decimal _ _ Hp), (category_score_two_decimal _ _ Ha),
    (category_score_two_decimal _ _ Hb), (category_score_two_decimal _ _ Hs).
  cbn [obind]. rewrite !passed_seq, !passed_ge, !two_decimal_ge by (assumption || in_list).
  rewrite !andb_assoc. reflexivity.
Qed.

End Env.
End AuditsProps.

Module DetailedProps.
Import Lighthouse Vitest LighthouseDetailed SuitesProps.

(** Whether [getFailedAccessibilityAudits] reports the audit [i]. *)
Definition reports_failed (r : RunnerResult) (i : string) : bool :=
  match lhr_audits (runner_lhr r) !! i with
  | Some a => audit_failed a
  | None => false
  end.

Lemma fold_push_failed_id r ids acc :
  fold_left (push_failed_id r) ids acc = acc ++ List.filter (reports_failed r) ids.
Proof.
  revert acc. induction ids as [|i ids IH]; intros acc; simpl; [by rewrite app_nil_r|].
  rewrite IH. unfold push_failed_id, reports_failed.
  destruct (lhr_audits (runner_lhr r) !! i) as [a|]; [destruct (audit_failed a)|];
    by rewrite <-?app_assoc.
Qed.

Lemma failed_entry_reports r i :
  match LighthouseProps.failed_entry r i with
  | Some fa => failed_id fa = i /\ reports_failed r i = true
  | None => reports_failed r i = false
  end.
Proof.
  unfold LighthouseProps.failed_entry, reports_failed.
  destruct (lhr_audits (runner_lhr r) !! i) as [a|]; cbn [mbind option_bind]; [|reflexivity].
  by destruct (audit_failed a).
Qed.

Lemma failed_ids_filter r ids :
  map failed_id (omap (LighthouseProps.failed_entry r) ids) = List.filter (reports_failed r) ids.
Proof.
  induction ids as [|i ids IH]; [reflexivity|].
  pose proof (failed_entry_reports r i) as Hi.
  change (omap (LighthouseProps.failed_entry r) (i :: ids)) with
    (match LighthouseProps.failed_entry r i with
     | Some fa => fa :: omap (LighthouseProps.failed_entry r) ids
     | None => omap (LighthouseProps.failed_entry r) ids
     end).
  cbn [List.filter]. destruct (LighthouseProps.failed_entry r i) as [fa|].
  - destruct Hi as [Hid ->]. cbn [map]. by rewrite Hid, IH.
  - by rewrite Hi.
Qed.

Lemma filter_comm {A} (f g : A -> bool) l :
  List.filter f (List.filter g l) = List.filter g (List.filter f l).
Proof.
  induction l as [|x l IH]; [reflexivity|]. simpl.
  destruct (f x) eqn:Hf, (g x) eqn:Hg; simpl; rewrite ?Hf, ?Hg, IH; reflexivity.
Qed.

(** The suite's nine ids, in their order, are the ones of [utils.ts]'s
    list that it names. *)
Lemma a11yAudits_sublist :
  List.filter (fun i => bool_decide (i ∈ LighthouseDetailed.a11yAudits)) Lighthouse.a11yAudits
  = LighthouseDetailed.a11yAudits.
Proof. vm_compute. reflexivity. Qed.

(** The "should check accessibility issues" test counts exactly the
    audits [getFailedAccessibilityAudits] of [utils.ts] reports among its
    own nine ids, in the same order; with Lighthouse returning [r] the
    test passes iff at most two of them failed. *)
Theorem detailed_a11y_matches_utils r :
  failedAudits r =
  List.filter (fun i => bool_decide (i ∈ LighthouseDetailed.a11yAudits))
    (map failed_id (getFailedAccessibilityAudits r)) /\
  forall p lighthouse,
    lighthouse APP_URL (mkOptions "error" "json" ["accessibility"] p) = Resolved (Some r) ->
    passed (accessibility_issues_test (Some p) lighthouse) =
    (length (failedAudits r) <=? 2)%nat.
Proof.
  split.
  - unfold failedAudits, getFailedAccessibilityAudits.
    rewrite fold_push_failed_id, LighthouseProps.fold_push_if_failed, !app_nil_l,
      failed_ids_filter, filter_comm, a11yAudits_sublist.
    reflexivity.
  - intros p lighthouse Hlh. unfold accessibility_issues_test, home_run. run_env Hlh.
    unfold length_toBeLessThanOrEqual. by destruct (_ <=? _)%nat.
Qed.

(** ** A missing metric *)

Section Env.
Variable p : Z.
Variable lighthouse : string -> options -> outcome test_error (option RunnerResult).
Variable r : RunnerResult.
Hypothesis Hlh : forall opts, lighthouse APP_URL opts = Resolved (Some r).

Lemma seconds_test_missing key a limit :
  lhr_audits (runner_lhr r) !! key = Some a -> audit_numericValue a = None ->
  seconds_test (Some p) lighthouse key limit = Rejected (AssertionError "toBeLessThan").
Proof.
  intros Ha Hv. unfold seconds_test, home_run. run_env Hlh.
  unfold audit_numericValue_of, read. rewrite Ha. cbn [obind]. rewrite Hv.
  unfold toBeLessThan, undefined_to_number. by rewrite nan_seconds_ltb.
Qed.

Lemma raw_value_test_missing key a limit :
  lhr_audits (runner_lhr r) !! key = Some a -> audit_numericValue a = None ->
  raw_value_test (Some p) lighthouse key limit = Rejected (TypeError "toFixed").
Proof.
  intros Ha Hv. unfold raw_value_test, home_run. run_env Hlh.
  unfold audit_numericValue_of, read. rewrite Ha. cbn [obind]. rewrite Hv.
  reflexivity.
Qed.

Lemma metric_test_no_audit key limit :
  lhr_audits (runner_lhr r) !! key = None ->
  seconds_test (Some p) lighthouse key limit = Rejected (TypeError "numericValue") /\
  raw_value_test (Some p) lighthouse key limit = Rejected (TypeError "numericValue").
Proof.
  intros Ha. unfold seconds_test, raw_value_test, home_run. run_env Hlh.
  unfold audit_numericValue_of, read. rewrite Ha. split; reflexivity.
Qed.

(** an audit Lighthouse reports without a [numericValue] fails
    every metric test of "Lighthouse Detailed Metrics", but not in the
    same way: FCP, LCP and Speed Index divide [undefined] by 1000 and
    fail their [toBeLessThan] on [NaN]; CLS and TBT throw a [TypeError]
    from the [toFixed] of their [console.log] before any [expect]. *)
Theorem missing_metric_errors :
  (forall key, key ∈ ["first-contentful-paint"; "largest-contentful-paint"; "speed-index";
                      "cumulative-layout-shift"; "total-blocking-time"]%string ->
     exists a, lhr_audits (runner_lhr r) !! key = Some a /\ audit_numericValue a = None) ->
  fcp_test (Some p) lighthouse = Rejected (AssertionError "toBeLessThan") /\
  lcp_test (Some p) lighthouse = Rejected (AssertionError "toBeLessThan") /\
  speed_index_test (Some p) lighthouse = Rejected (AssertionError "toBeLessThan") /\
  cls_test (Some p) lighthouse = Rejected (TypeError "toFixed") /\
  tbt_test (Some p) lighthouse = Rejected (TypeError "toFixed").
Proof.
  intros Hk.
  unfold fcp_test, lcp_test, speed_index_test, cls_test, tbt_test.
  repeat split;
    match goal with
    | |- seconds_test _ _ ?key _ = _ =>
        destruct (Hk key ltac:(in_list)) as (a & Ha & Hv); exact (seconds_test_missing _ _ _ Ha Hv)
    | |- raw_value_test _ _ ?key _ = _ =>
        destruct (Hk key ltac:(in_list)) as (a & Ha & Hv); exact (raw_value_test_missing _ _ _ Ha Hv)
    end.
Qed.

End Env.
End DetailedProps.

Module ExampleProps.
Import Lighthouse Vitest LighthouseExample SuitesProps.

Section Env.
Variable p : Z.
Variable lighthouse : string -> options -> outcome test_error (option RunnerResult).
Variable r : RunnerResult.
(** Lighthouse returns [r] for every page it is asked to audit. *)
Hypothesis Hlh : forall url opts, lighthouse url opts = Resolved (Some r).

(** the Core Web Vitals test of the example suite passes on a
    result that has neither an LCP nor a CLS audit, because it checks a
    metric only [if (cwv.lcp)] / [if (cwv.cls)]; on the same result the
    detailed suite's LCP and CLS tests fail with a [TypeError]. *)
Theorem cwv_checks_disagree :
  lhr_audits (runner_lhr r) !! "largest-contentful-paint" = None ->
  lhr_audits (runner_lhr r) !! "cumulative-layout-shift" = None ->
  core_web_vitals_test (Some p) lighthouse = pass /\
  LighthouseDetailed.lcp_test (Some p) lighthouse = Rejected (TypeError "numericValue") /\
  LighthouseDetailed.cls_test (Some p) lighthouse = Rejected (TypeError "numericValue").
Proof.
  intros Hl Hc. split; [|split].
  - unfold core_web_vitals_test. run_env Hlh.
    unfold extractCoreWebVitals, numeric_value. rewrite Hl, Hc. reflexivity.
  - apply (DetailedProps.metric_test_no_audit p lighthouse r (fun opts => Hlh _ opts) _ _ Hl).
  - apply (DetailedProps.metric_test_no_audit p lighthouse r (fun opts => Hlh _ opts) _ _ Hc).
Qed.

End Env.

(** The pages of the loop pass their checks. *)
Definition page_ok (p : Z) (lighthouse : string -> options -> outcome test_error (option RunnerResult))
    (pg : page) : Prop :=
  exists r,
    lighthouse (page_url pg) (mkOptions "error" "json" ["performance"; "accessibility"] p)
      = Resolved (Some r) /\
    (40 <? performance (extractScores r))%float = true /\
    (70 <? accessibility (extractScores r))%float = true.

Lemma audit_pages_spec lighthouse opts p ps :
  opts = mkOptions "error" "json" ["performance"; "accessibility"] p ->
  audit_pages lighthouse opts ps = pass <-> Forall (page_ok p lighthouse) ps.
Proof.
  intros ->. induction ps as [|pg ps IH]; simpl; [split; auto|].
  rewrite Forall_cons, <- IH. unfold page_ok, audit_url.
  destruct (lighthouse (page_url pg) _) as [[r|]|e]; cbn [obind toBeDefined].
  2,3: split; [discriminate|intros ((r' & Hr & _) & _); discriminate].
  unfold toBeGreaterThan.
  destruct (40 <? category_percent r "performance")%float eqn:E1; cbn [obind];
    [destruct (70 <? category_percent r "accessibility")%float eqn:E2; cbn [obind]|].
  - split; [intros H; split; [eauto|exact H]|intros [_ H]; exact H].
  - split; [discriminate|intros ((r' & Hr & _ & H2) & _); injection Hr as <-; simpl in *; congruence].
  - split; [discriminate|intros ((r' & Hr & H1 & _) & _); injection Hr as <-; simpl in *; congruence].
Qed.

(** "should audit multiple pages" passes iff Lighthouse gives a
    result for each of Home, Register and Product Detail, in that order,
    whose performance score exceeds 40 and accessibility score exceeds
    70; the options, built once before the loop, are the same for all
    three pages. *)
Theorem multiple_pages_spec p lighthouse :
  multiple_pages_test (Some p) lighthouse = pass <->
  page_ok p lighthouse (mkPage "Home" APP_URL) /\
  page_ok p lighthouse (mkPage "Register" (APP_URL +++ "/register")) /\
  page_ok p lighthouse (mkPage "Product Detail" (APP_URL +++ "/product/1")).
Proof.
  unfold multiple_pages_test, test_options, read. cbn [obind].
  rewrite audit_pages_spec by reflexivity. unfold pages.
  rewrite !Forall_cons. split; [intros (? & ? & ? & _); auto|intros (? & ? & ?); auto].
Qed.

End ExampleProps.

(** * Runs on sample results *)

Module SuitesRuns.
Import Lighthouse Vitest SuitesProps.

Definition chrome_port : Z := 9222.

(** A result with the four category scores and no audits. *)
Definition scores_only : RunnerResult :=
  mkRunnerResult (mkLhr
    (<["performance" := mkCategory (Some (two_decimal 57))]>
     (<["accessibility" := mkCategory (Some (two_decimal 92))]>
      (<["best-practices" := mkCategory (Some (two_decimal 80))]>
       (<["seo" := mkCategory (Some (two_decimal 55))]> ∅))))
    ∅).

Definition scores_only_k (key : string) : nat :=
  if String.eqb key "performance" then 57
  else if String.eqb key "accessibility" then 92
  else if String.eqb key "best-practices" then 80 else 55.

Definition valueless (title : string) (score : option float) : audit :=
  mkAudit score None title "".

(** The five metric audits without a value, and two failing
    accessibility audits, one of them outside the detailed suite's list. *)
Definition metrics_missing : RunnerResult :=
  mkRunnerResult (mkLhr ∅
    (<["first-contentful-paint" := valueless "First Contentful Paint" (Some 1%float)]>
     (<["largest-contentful-paint" := valueless "Largest Contentful Paint" (Some 1%float)]>
      (<["speed-index" := valueless "Speed Index" (Some 1%float)]>
       (<["cumulative-layout-shift" := valueless "Cumulative Layout Shift" (Some 1%float)]>
        (<["total-blocking-time" := valueless "Total Blocking Time" (Some 1%float)]>
         (<["color-contrast" := valueless "Contrast" (Some 0%float)]>
          (<["tabindex" := valueless "Tab index" (Some 0.5%float)]>
           (<["label" := valueless "Labels" None]> ∅))))))))).

Lemma audits_thresholds_exact_witness :
  passed (LighthouseAudits.performance_test (Some chrome_port) (fun _ _ => Resolved (Some scores_only))) = true /\
  passed (LighthouseAudits.accessibility_test (Some chrome_port) (fun _ _ => Resolved (Some scores_only))) = true /\
  passed (LighthouseAudits.best_practices_test (Some chrome_port) (fun _ _ => Resolved (Some scores_only))) = true /\
  passed (LighthouseAudits.seo_test (Some chrome_port) (fun _ _ => Resolved (Some scores_only))) = false /\
  passed (LighthouseAudits.comprehensive_report_test (Some chrome_port) (fun _ _ => Resolved (Some scores_only))) = false.
Proof.
  apply (AuditsProps.audits_thresholds_exact chrome_port _ scores_only (fun _ => eq_refl) scores_only_k).
  intros key Hkey. apply list_elem_of_In in Hkey. simpl in Hkey.
  repeat destruct Hkey as [<-|Hkey]; try contradiction; (split; [vm_compute; reflexivity|vm_compute; lia]).
Defined.

Lemma detailed_a11y_matches_utils_witness :
  LighthouseDetailed.failedAudits metrics_missing = ["color-contrast"]%string /\
  passed (LighthouseDetailed.accessibility_issues_test (Some chrome_port)
            (fun _ _ => Resolved (Some metrics_missing))) = true.
Proof.
  destruct (DetailedProps.detailed_a11y_matches_utils metrics_missing) as [H1 H2]. split.
  - rewrite H1. vm_compute. reflexivity.
  - rewrite (H2 chrome_port _ eq_refl). vm_compute. reflexivity.
Defined.

Lemma missing_metric_errors_witness :
  LighthouseDetailed.fcp_test (Some chrome_port) (fun _ _ => Resolved (Some metrics_missing))
    = Rejected (AssertionError "toBeLessThan") /\
  LighthouseDetailed.lcp_test (Some chrome_port) (fun _ _ => Resolved (Some metrics_missing))
    = Rejected (AssertionError "toBeLessThan") /\
  LighthouseDetailed.speed_index_test (Some chrome_port) (fun _ _ => Resolved (Some metrics_missing))
    = Rejected (AssertionError "toBeLessThan") /\
  LighthouseDetailed.cls_test (Some chrome_port) (fun _ _ => Resolved (Some metrics_missing))
    = Rejected (TypeError "toFixed") /\
  LighthouseDetailed.tbt_test (Some chrome_port) (fun _ _ => Resolved (Some metrics_missing))
    = Rejected (TypeError "toFixed").
Proof.
  apply (DetailedProps.missing_metric_errors chrome_port _ metrics_missing (fun _ => eq_refl)).
  intros key Hkey. apply list_elem_of_In in Hkey. simpl in Hkey.
  repeat destruct Hkey as [<-|Hkey]; try contradiction; eexists; split; reflexivity.
Defined.

Lemma cwv_checks_disagree_witness :
  LighthouseExample.core_web_vitals_test (Some chrome_port) (fun _ _ => Resolved (Some scores_only)) = pass /\
  LighthouseDetailed.lcp_test (Some chrome_port) (fun _ _ => Resolved (Some scores_only))
    = Rejected (TypeError "numericValue") /\
  LighthouseDetailed.cls_test (Some chrome_port) (fun _ _ => Resolved (Some scores_only))
    = Rejected (TypeError "numericValue").
Proof.
  apply (ExampleProps.cwv_checks_disagree chrome_port _ scores_only (fun _ _ => eq_refl));
    reflexivity.
Defined.

Lemma multiple_pages_spec_witness :
  LighthouseExample.multiple_pages_test (Some chrome_port) (fun _ _ => Resolved (Some scores_only)) = pass.
Proof.
  apply ExampleProps.multiple_pages_spec. unfold ExampleProps.page_ok.
  split; [|split]; exists scores_only; (split; [reflexivity|split; vm_compute; reflexivity]).
Defined.

End SuitesRuns.
