(* ===== verification/SuiteLifecycle.v ===== *)
(** * The life cycle of the Lighthouse suites: Chrome between [beforeAll] and [afterAll]

    Each of the three [describe] blocks of [src/unnamed/part_008] and
    [part_009] shares one mutable variable [let chrome: LaunchedChrome]
    between its hooks and its tests:

    - [beforeAll(async () => { chrome = await chromeLauncher.launch(
      { chromeFlags: [...] }); }, 30000)] starts a Chrome process and
      stores it, within a hook timeout of 30 s;
    - each [it(name, fn, timeout)] reads [chrome.port] when it runs;
    - [afterAll(async () => { if (chrome) await chrome.kill(); })]
      stops the process the variable refers to, if any.

    Vitest's runner is the environment's: it runs [beforeAll]; when the
    hook fails (its promise rejects, or it has not settled when its
    timeout expires) the suite fails and its tests are skipped;
    otherwise it runs the tests in registration order, each failing when
    it outlasts its own timeout; in every case it runs [afterAll].  A
    hook that times out is not cancelled: its [launch] keeps running and,
    when it resolves, the assignment [chrome = ...] still happens.

    [suite_state] is the shared variable [chrome] (the port of the
    [LaunchedChrome] object, [None] while [undefined]), the Chrome process
    actually running, and the trace of the events a process monitor
    sees.  [run_suite] is the runner on one [describe] block; the launch
    and the time each test takes are the environment, as Section
    variables.  The launch wins its race against the hook timeout when
    it settles strictly before it.  [chrome.kill()] is taken to succeed;
    a timed-out test's body, which Vitest does not stop either, is not
    followed after its timeout. *)

From S2P Require Import Prelude Lighthouse LighthouseSuites.

Module Lifecycle.
Import Lighthouse Vitest.

(** What the awaited [chromeLauncher.launch(...)] gives, after how many
    milliseconds. *)
Inductive launch_result : Type :=
| LaunchResolved (port : Z) (duration : Z)
| LaunchRejected (duration : Z).

(** An [it(name, fn, timeout)] registration: the body reads [chrome]
    when it runs. *)
Record test_spec : Type := mkTest {
  test_name : string;
  test_timeout : Z;
  test_body : option Z -> test_outcome
}.

(** A [describe] block: the flags and the timeout of its [beforeAll],
    and its tests in order. *)
Record suite : Type := mkSuite {
  suite_name : string;
  chromeFlags : list string;
  beforeAll_timeout : Z;
  suite_tests : list test_spec
}.

Inductive hook_error : Type :=
| HookTimedOut (ms : Z)      (** "Hook timed out in 30000ms" *)
| LaunchError.               (** [launch] rejected *)

Inductive test_result : Type :=
| Passed
| Failed (e : test_error)
| TimedOut (ms : Z)          (** "Test timed out in ...ms" *)
| Skipped.

Inductive event : Type :=
| ELaunch (flags : list string)      (** [chromeLauncher.launch] called *)
| EHookFailed (e : hook_error)
| EChromeUp (port : Z)               (** the launch resolved: [chrome = ...] *)
| ERun (name : string) (r : test_result)
| EKill (port : Z).                  (** [chrome.kill()] *)

Record suite_state : Type := mkState {
  chrome : option Z;          (** the suite's [let chrome] *)
  running : option Z;         (** the Chrome process alive, by its port *)
  trace : list event
}.

Definition emit (e : event) (st : suite_state) : suite_state :=
  mkState (chrome st) (running st) (trace st ++ [e]).

(** [chrome = await chromeLauncher.launch(...)] once the launch resolves. *)
Definition chrome_assigned (port : Z) (st : suite_state) : suite_state :=
  mkState (Some port) (Some port) (trace st ++ [EChromeUp port]).

(** [afterAll(async () => { if (chrome) await chrome.kill(); })]. *)
Definition afterAll_kill (st : suite_state) : suite_state :=
  match chrome st with
  | Some p => mkState (chrome st) None (trace st ++ [EKill p])
  | None => st
  end.

Section Run.
Variable launch : list string -> launch_result.
Variable test_duration : string -> Z.

(** The result Vitest records for a test run with [chrome]. *)
Definition result_of (c : option Z) (t : test_spec) : test_result :=
  if (test_timeout t <? test_duration (test_name t))%Z then TimedOut (test_timeout t)
  else match test_body t c with
       | Resolved _ => Passed
       | Rejected e => Failed e
       end.

Definition run_test (st : suite_state) (t : test_spec) : suite_state :=
  emit (ERun (test_name t) (result_of (chrome st) t)) st.

Definition skip_test (st : suite_state) (t : test_spec) : suite_state :=
  emit (ERun (test_name t) Skipped) st.

(** The hook failed: the tests are skipped and [afterAll] runs. *)
Definition hook_failed (e : hook_error) (s : suite) (st : suite_state) : suite_state :=
  afterAll_kill (fold_left skip_test (suite_tests s) (emit (EHookFailed e) st)).

(** Vitest's runner on one [describe] block. *)
Definition run_suite (s : suite) : suite_state :=
  let st0 := mkState None None [ELaunch (chromeFlags s)] in
  let T := beforeAll_timeout s in
  match launch (chromeFlags s) with
  | LaunchResolved port d =>
      if (d <? T)%Z then afterAll_kill (fold_left run_test (suite_tests s) (chrome_assigned port st0))
      else chrome_assigned port (hook_failed (HookTimedOut T) s st0)
  | LaunchRejected d =>
      hook_failed (if (d <? T)%Z then LaunchError else HookTimedOut T) s st0
  end.

End Run.

(** ** The three [describe] blocks *)

Section Suites.
Variable lighthouse : string -> options -> outcome test_error (option RunnerResult).

Definition headless_flags : list string := ["--headless"; "--disable-gpu"; "--no-sandbox"].

Definition audits_suite : suite :=
  mkSuite "Lighthouse Audits" headless_flags 30000%Z
    [mkTest "should meet performance thresholds on home page" 60000%Z
       (fun c => LighthouseAudits.performance_test c lighthouse);
     mkTest "should meet accessibility thresholds on home page" 60000%Z
       (fun c => LighthouseAudits.accessibility_test c lighthouse);
     mkTest "should meet best practices thresholds on home page" 60000%Z
       (fun c => LighthouseAudits.best_practices_test c lighthouse);
     mkTest "should meet SEO thresholds on home page" 60000%Z
       (fun c => LighthouseAudits.seo_test c lighthouse);
     mkTest "should audit product detail page" 60000%Z
       (fun c => LighthouseAudits.product_detail_test c lighthouse);
     mkTest "should generate comprehensive report for home page" 90000%Z
       (fun c => LighthouseAudits.comprehensive_report_test c lighthouse)].

Definition detailed_suite : suite :=
  mkSuite "Lighthouse Detailed Metrics" headless_flags 30000%Z
    [mkTest "should have acceptable First Contentful Paint (FCP)" 60000%Z
       (fun c => LighthouseDetailed.fcp_test c lighthouse);
     mkTest "should have acceptable Largest Contentful Paint (LCP)" 60000%Z
       (fun c => LighthouseDetailed.lcp_test c lighthouse);
     mkTest "should have acceptable Cumulative Layout Shift (CLS)" 60000%Z
       (fun c => LighthouseDetailed.cls_test c lighthouse);
     mkTest "should have acceptable Total Blocking Time (TBT)" 60000%Z
       (fun c => LighthouseDetailed.tbt_test c lighthouse);
     mkTest "should have acceptable Speed Index" 60000%Z
       (fun c => LighthouseDetailed.speed_index_test c lighthouse);
     mkTest "should check accessibility issues" 60000%Z
       (fun c => LighthouseDetailed.accessibility_issues_test c lighthouse);
     mkTest "should have optimal image optimization" 60000%Z
       (fun c => LighthouseDetailed.image_optimization_test c lighthouse)].

Definition example_suite : suite :=
  mkSuite "Lighthouse Example Tests" headless_flags 30000%Z
    [mkTest "should generate a comprehensive audit report" 90000%Z
       (fun c => LighthouseExample.comprehensive_audit_test c lighthouse);
     mkTest "should verify Core Web Vitals are within acceptable ranges" 60000%Z
       (fun c => LighthouseExample.core_web_vitals_test c lighthouse);
     mkTest "should audit multiple pages" 180000%Z
       (fun c => LighthouseExample.multiple_pages_test c lighthouse)].

End Suites.

End Lifecycle.

(** * Properties *)

Module LifecycleProps.
Import Lighthouse Vitest Lifecycle.

(** The contract of a suite's hooks, as a language of traces, with the
    Chrome left running at the end: Chrome is launched once with the
    suite's flags; either it comes up, every test of the suite runs
    against it (its body sees [chrome] set to that Chrome, [exec] says
    how a test runs on a given [chrome]) and it is killed after the last
    test; or the hook fails, every test is skipped and nothing is
    left running. *)
Inductive lifecycle (exec : option Z -> test_spec -> test_result) (s : suite)
    : list event -> option Z -> Prop :=
| lc_ran p :
    lifecycle exec s
      ([ELaunch (chromeFlags s); EChromeUp p] ++
       map (fun t => ERun (test_name t) (exec (Some p) t)) (suite_tests s) ++ [EKill p]) None
| lc_failed e :
    lifecycle exec s
      ([ELaunch (chromeFlags s); EHookFailed e] ++
       map (fun t => ERun (test_name t) Skipped) (suite_tests s)) None.

(** The launch settles before the hook's timeout. *)
Definition settles_before (l : launch_result) (T : Z) : bool :=
  match l with
  | LaunchResolved _ d | LaunchRejected d => (d <? T)%Z
  end.

Section Env.
Variable launch : list string -> launch_result.
Variable test_duration : string -> Z.

Lemma fold_run_test ts st :
  fold_left (run_test test_duration) ts st =
  mkState (chrome st) (running st)
    (trace st ++ map (fun t => ERun (test_name t) (result_of test_duration (chrome st) t)) ts).
Proof.
  revert st; induction ts as [|t ts IH]; intros [c r tr]; simpl.
  - by rewrite app_nil_r.
  - rewrite IH. simpl. by rewrite <-?app_assoc.
Qed.

Lemma fold_skip_test ts st :
  fold_left skip_test ts st =
  mkState (chrome st) (running st) (trace st ++ map (fun t => ERun (test_name t) Skipped) ts).
Proof.
  revert st; induction ts as [|t ts IH]; intros [c r tr]; simpl.
  - by rewrite app_nil_r.
  - rewrite IH. simpl. by rewrite <-?app_assoc.
Qed.

(** A failed hook leaves [chrome] undefined: [afterAll] kills nothing. *)
Lemma hook_failed_state e s tr :
  hook_failed e s (mkState None None tr) =
  mkState None None (tr ++ [EHookFailed e] ++ map (fun t => ERun (test_name t) Skipped) (suite_tests s)).
Proof. unfold hook_failed. rewrite fold_skip_test. simpl. by rewrite <-?app_assoc. Qed.

(** A launch that resolves in time: the tests run against it, then it
    is killed. *)
Lemma run_suite_launched s p d :
  launch (chromeFlags s) = LaunchResolved p d -> (d < beforeAll_timeout s)%Z ->
  run_suite launch test_duration s =
  mkState (Some p) None
    ([ELaunch (chromeFlags s); EChromeUp p] ++
     map (fun t => ERun (test_name t) (result_of test_duration (Some p) t)) (suite_tests s) ++
     [EKill p]).
Proof.
  intros Hl Hd. unfold run_suite. rewrite Hl.
  destruct (Z.ltb_spec d (beforeAll_timeout s)); [|lia].
  rewrite fold_run_test. unfold afterAll_kill. simpl. by rewrite <-?app_assoc.
Qed.

(** C37: refinement of the hooks' contract.  Whenever
    [chromeLauncher.launch] settles before the 30 s hook timeout, the
    run of a suite is one the contract [lifecycle] allows: Chrome is
    launched once; if it comes up, every test runs, in order, with
    [chrome] set to that Chrome, and [afterAll] kills it after the last
    test; if the launch rejects, every test is skipped; in both cases no
    Chrome is left running. *)
Theorem run_suite_refines s :
  settles_before (launch (chromeFlags s)) (beforeAll_timeout s) = true ->
  lifecycle (result_of test_duration) s
    (trace (run_suite launch test_duration s)) (running (run_suite launch test_duration s)).
Proof.
  unfold settles_before. intros Hs.
  destruct (launch (chromeFlags s)) as [p d|d] eqn:Hl; apply Z.ltb_lt in Hs.
  - rewrite (run_suite_launched s p d Hl Hs). apply lc_ran.
  - unfold run_suite. rewrite Hl. apply Z.ltb_lt in Hs. rewrite Hs, hook_failed_state.
    apply lc_failed.
Qed.

(** C38: the leak.  A suite ends with a Chrome process running exactly
    when the launch resolves after the hook timeout: the hook has
    failed, every test is skipped and [afterAll] has found [chrome]
    still undefined, so no kill happens; the launch then resolves and
    assigns [chrome], and nothing stops that Chrome. *)
Theorem chrome_left_running_iff_late s :
  running (run_suite launch test_duration s) <> None <->
  exists p d, launch (chromeFlags s) = LaunchResolved p d /\ (beforeAll_timeout s <= d)%Z /\
    trace (run_suite launch test_duration s) =
      [ELaunch (chromeFlags s); EHookFailed (HookTimedOut (beforeAll_timeout s))] ++
      map (fun t => ERun (test_name t) Skipped) (suite_tests s) ++ [EChromeUp p].
Proof.
  unfold run_suite. destruct (launch (chromeFlags s)) as [p d|d] eqn:Hl.
  - destruct (Z.ltb_spec d (beforeAll_timeout s)) as [Hd|Hd].
    + rewrite fold_run_test. unfold afterAll_kill. simpl. split; [congruence|].
      intros (p' & d' & [= <- <-] & ? & _). lia.
    + rewrite hook_failed_state. simpl. split; [|congruence].
      intros _. exists p, d. split_and!; [done|done|]. by rewrite <-?app_assoc.
  - rewrite hook_failed_state. simpl. split; [congruence|]. by intros (? & ? & ? & _).
Qed.

End Env.

End LifecycleProps.

(** * Runs *)

Module LifecycleRuns.
Import Lighthouse Vitest Lifecycle LifecycleProps.

(** Lighthouse unreachable: every audit rejects. *)
Definition no_lighthouse : string -> options -> outcome test_error (option RunnerResult) :=
  fun _ _ => Rejected LighthouseFailed.

Definition quick_launch : list string -> launch_result := fun _ => LaunchResolved 9222 1500.
Definition slow_launch : list string -> launch_result := fun _ => LaunchResolved 9222 45000.
Definition every_test_20s : string -> Z := fun _ => 20000%Z.

Lemma run_suite_refines_witness :
  lifecycle (result_of every_test_20s) (audits_suite no_lighthouse)
    (trace (run_suite quick_launch every_test_20s (audits_suite no_lighthouse)))
    (running (run_suite quick_launch every_test_20s (audits_suite no_lighthouse))).
Proof. apply run_suite_refines. reflexivity. Defined.

(** A launch of 45 s, past the 30 s hook timeout, leaves Chrome 9222
    running after the detailed suite. *)
Lemma chrome_left_running_iff_late_witness :
  running (run_suite slow_launch every_test_20s (detailed_suite no_lighthouse)) <> None.
Proof.
  apply (chrome_left_running_iff_late slow_launch every_test_20s (detailed_suite no_lighthouse)).
  exists 9222%Z, 45000%Z. split_and!; [reflexivity | cbv; discriminate | reflexivity].
Defined.

End LifecycleRuns.
