(* ===== verification/TestConfig.v ===== *)
(** * The test configurations: [src/lighthouse.config.js] and
      [src/vitest.lighthouse.prod.config.ts]

    [lighthouse.config.js] holds two default exports one after the other:
    the Lighthouse configuration (desktop form factor, screen emulation,
    throttling, the four categories) and the Vitest configuration of the
    unit tests (jsdom, the setup file, the excluded directories, the
    coverage settings).  [vitest.lighthouse.prod.config.ts] opens with the
    Vitest configuration of the Lighthouse run against the production
    preview: it includes [lighthouse/**/*.test.ts] and sets the
    environment variable [APP_URL] to the preview server.

    The configuration objects are records with the fields the files set;
    a field the file leaves out is [None] (Vitest then applies its
    default).  Vitest selects files with glob patterns: [Glob] interprets
    the wildcards the configurations use, [*] and [?] inside a path
    segment and [**] for any number of segments, with picomatch's rule
    that wildcards match a segment starting with a dot only under the
    [dot] option; the theorems hold for both settings of [dot].  Brace
    alternatives ([*.{ts,tsx}]) are kept as written and not interpreted:
    no theorem reads them. *)

From S2P Require Import Prelude JsString Lighthouse LighthouseSuites.
From Stdlib Require Import Floats.

(** ** Glob patterns *)

Module Glob.

Inductive token : Type :=
| TStar               (** [*]: any characters of one segment *)
| TOne                (** [?]: one character *)
| TChar (c : ascii).  (** a literal character *)

Inductive segment : Type :=
| Globstar                  (** [**]: any number of segments *)
| Seg (ts : list token).    (** one segment *)

Fixpoint tokens (s : string) : list token :=
  match s with
  | EmptyString => []
  | String c s' =>
      (if Ascii.eqb c "*" then TStar else if Ascii.eqb c "?" then TOne else TChar c)
      :: tokens s'
  end.

(** The segments of a path, split at every ["/"]. *)
Fixpoint path_segments_aux (s : string) (cur : list ascii) : list string :=
  match s with
  | EmptyString => [string_of_list_ascii (rev cur)]
  | String c s' =>
      if Ascii.eqb c "/" then string_of_list_ascii (rev cur) :: path_segments_aux s' []
      else path_segments_aux s' (c :: cur)
  end.

Definition path_segments (s : string) : list string := path_segments_aux s [].

Definition parse_segment (s : string) : segment :=
  if String.eqb s "**" then Globstar else Seg (tokens s).

Definition parse_glob (s : string) : list segment := map parse_segment (path_segments s).

(** A segment is hidden when it starts with a dot. *)
Definition hidden (s : string) : bool :=
  match s with
  | String c _ => Ascii.eqb c "."
  | EmptyString => false
  end.

Definition visible (dot : bool) (s : string) : bool := dot || negb (hidden s).

Fixpoint seg_match (ts : list token) (s : string) {struct ts} : bool :=
  match ts with
  | [] => match s with EmptyString => true | String _ _ => false end
  | TStar :: ts' =>
      (fix star (s : string) : bool :=
         seg_match ts' s || match s with EmptyString => false | String _ s' => star s' end) s
  | TOne :: ts' => match s with EmptyString => false | String _ s' => seg_match ts' s' end
  | TChar c :: ts' =>
      match s with EmptyString => false | String c' s' => Ascii.eqb c c' && seg_match ts' s' end
  end.

(** A pattern segment that starts with a wildcard does not match a hidden
    segment unless [dot] is set. *)
Definition seg_ok (dot : bool) (ts : list token) (s : string) : bool :=
  match ts with TChar _ :: _ => true | _ => visible dot s end && seg_match ts s.

Fixpoint glob_match (dot : bool) (gs : list segment) (p : list string) {struct gs} : bool :=
  match gs with
  | [] => match p with [] => true | _ :: _ => false end
  | Globstar :: gs' =>
      (fix any (p : list string) : bool :=
         glob_match dot gs' p || match p with [] => false | s :: p' => visible dot s && any p' end) p
  | Seg ts :: gs' =>
      match p with
      | [] => false
      | s :: p' => seg_ok dot ts s && glob_match dot gs' p'
      end
  end.

Definition matches (dot : bool) (pattern path : string) : bool :=
  glob_match dot (parse_glob pattern) (path_segments path).

(** A file is selected by a list of patterns when one of them matches. *)
Definition matches_any (dot : bool) (patterns : list string) (path : string) : bool :=
  existsb (fun pat => matches dot pat path) patterns.

End Glob.

(** ** The Lighthouse configuration: [lighthouse.config.js], first export *)

Module LighthouseConfig.

Record screenEmulation_t : Type := mkScreenEmulation {
  se_mobile : bool;
  se_width : Z;
  se_height : Z;
  se_deviceScaleFactor : Z;
  se_disabled : bool
}.

Record throttling_t : Type := mkThrottling {
  rttMs : Z;
  throughputKbps : Z;
  cpuSlowdownMultiplier : Z
}.

Record settings_t : Type := mkSettings {
  formFactor : string;
  screenEmulation : screenEmulation_t;
  throttling : throttling_t;
  onlyCategories : list string
}.

Record config : Type := mkConfig {
  extends : string;
  settings : settings_t
}.

Definition default_export : config := {|
  extends := "lighthouse:default";
  settings := {|
    formFactor := "desktop";
    screenEmulation := mkScreenEmulation false 1350 940 1 false;
    throttling := mkThrottling 40 (10 * 1024) 1;
    onlyCategories := ["performance"; "accessibility"; "best-practices"; "seo"]
  |}
|}.

End LighthouseConfig.

(** ** The Vitest configurations *)

Module VitestConfig.

Record coverage_t : Type := mkCoverage {
  provider : string;
  reporter : list string;
  cov_exclude : list string;
  cov_include : list string;
  all : bool;
  lines : Z;
  functions : Z;
  branches : Z;
  statements : Z
}.

(** The [test] block; [None] where the file leaves a field to Vitest's
    default. *)
Record test_t : Type := mkTest {
  globals : bool;
  environment : option string;
  setupFiles : option string;
  css : option bool;
  include : option (list string);
  exclude : option (list string);
  testTimeout : option Z;
  hookTimeout : option Z;
  env : list (string * string);
  coverage : option coverage_t
}.

Record config : Type := mkConfig {
  plugins : list string;
  test : test_t
}.

(** [lighthouse.config.js], second export: the unit tests. *)
Definition unit_config : config := {|
  plugins := ["react()"];
  test := {|
    globals := true;
    environment := Some "jsdom";
    setupFiles := Some "./src/setupTests.ts";
    css := Some true;
    include := None;
    exclude := Some ["**/node_modules/**"; "**/e2e/**"; "**/lighthouse/**"];
    testTimeout := None;
    hookTimeout := None;
    env := [];
    coverage := Some {|
      provider := "v8";
      reporter := ["text"; "json"; "html"; "lcov"];
      cov_exclude := ["**/node_modules/**"; "**/e2e/**"; "**/lighthouse/**"; "**/*.config.*";
                      "**/*.d.ts"; "**/dist/**"; "**/__tests__/**"; "**/setupTests.ts";
                      "**/vite-env.d.ts"; "**/css-modules.d.ts"];
      cov_include := ["src/**/*.{ts,tsx}"];
      all := true;
      lines := 80;
      functions := 80;
      branches := 80;
      statements := 80
    |}
  |}
|}.

(** [vitest.lighthouse.prod.config.ts]: the Lighthouse suites against the
    production preview. *)
Definition prod_config : config := {|
  plugins := [];
  test := {|
    globals := true;
    environment := None;
    setupFiles := None;
    css := None;
    include := Some ["lighthouse/**/*.test.ts"];
    exclude := None;
    testTimeout := Some 90000%Z;
    hookTimeout := Some 30000%Z;
    env := [("APP_URL", "http://localhost:4173")];
    coverage := None
  |}
|}.

(** The files a configuration runs, given Vitest's defaults for what it
    leaves out. *)
Definition runs (dot : bool) (default_include default_exclude : list string)
    (c : config) (path : string) : bool :=
  Glob.matches_any dot (default (default_include) (include (test c))) path &&
  negb (Glob.matches_any dot (default default_exclude (exclude (test c))) path).

End VitestConfig.

(** [process.env.APP_URL] as a configuration sets it. *)
Definition app_url_env (c : VitestConfig.config) : option string :=
  snd <$> List.find (fun kv => String.eqb (fst kv) "APP_URL") (VitestConfig.env (VitestConfig.test c)).

(** * Properties *)

Module GlobProps.
Import Glob.

Lemma seg_cons dot ts gs s p :
  glob_match dot (Seg ts :: gs) (s :: p) = seg_ok dot ts s && glob_match dot gs p.
Proof. reflexivity. Qed.

Lemma seg_nil dot ts gs : glob_match dot (Seg ts :: gs) [] = false.
Proof. reflexivity. Qed.

Lemma globstar_nil dot gs : glob_match dot (Globstar :: gs) [] = glob_match dot gs [].
Proof. simpl. by rewrite orb_false_r. Qed.

Lemma globstar_cons dot gs s p :
  glob_match dot (Globstar :: gs) (s :: p) =
  glob_match dot gs (s :: p) || (visible dot s && glob_match dot (Globstar :: gs) p).
Proof. reflexivity. Qed.

(** [**] matches a run of visible segments, then the rest of the pattern
    the rest of the path. *)
Lemma globstar_spec dot gs p :
  glob_match dot (Globstar :: gs) p = true <->
  exists p1 p2, p = p1 ++ p2 /\ forallb (visible dot) p1 = true /\ glob_match dot gs p2 = true.
Proof.
  induction p as [|s p IH].
  - rewrite globstar_nil. split; [intros H; exists [], []; split_and!; auto|].
    intros (p1 & p2 & Hp & _ & H). symmetry in Hp. apply app_eq_nil in Hp as [-> ->]. exact H.
  - rewrite globstar_cons, orb_true_iff, andb_true_iff, IH. split.
    + intros [H | [Hv (p1 & p2 & -> & Hf & H)]].
      * exists [], (s :: p). split_and!; auto.
      * exists (s :: p1), p2. simpl. rewrite Hv, Hf. split_and!; auto.
    + intros (p1 & p2 & Hp & Hf & H). destruct p1 as [|s' p1]; simpl in *.
      * subst p2. left. exact H.
      * injection Hp as -> ->. apply andb_true_iff in Hf as [Hv Hf]. right.
        split; [exact Hv|]. exists p1, p2. split_and!; auto.
Qed.

Lemma prod_include_parsed :
  parse_glob "lighthouse/**/*.test.ts" =
  [Seg (tokens "lighthouse"); Globstar; Seg (TStar :: tokens ".test.ts")].
Proof. vm_compute. reflexivity. Qed.

Lemma lighthouse_exclude_parsed :
  parse_glob "**/lighthouse/**" = [Globstar; Seg (tokens "lighthouse"); Globstar].
Proof. vm_compute. reflexivity. Qed.

(** Whatever [lighthouse/**/*.test.ts] matches, [**/lighthouse/**]
    matches: the file's directories and name are visible segments. *)
Lemma lighthouse_dir_excluded dot p :
  glob_match dot [Seg (tokens "lighthouse"); Globstar; Seg (TStar :: tokens ".test.ts")] p = true ->
  glob_match dot [Globstar; Seg (tokens "lighthouse"); Globstar] p = true.
Proof.
  destruct p as [|s p]; [discriminate|].
  rewrite seg_cons, andb_true_iff. intros [Hs H].
  apply globstar_spec in H as (p1 & p2 & -> & Hv & H).
  destruct p2 as [|f p2]; [rewrite seg_nil in H; discriminate|].
  rewrite seg_cons, andb_true_iff in H. destruct H as [Hf Hnil].
  destruct p2; [|discriminate].
  apply globstar_spec. exists [], (s :: p1 ++ [f]). do 2 (split; [reflexivity|]).
  rewrite seg_cons, Hs. apply globstar_spec. exists (p1 ++ [f]), [].
  rewrite app_nil_r. split; [reflexivity|]. split; [|reflexivity].
  cbn [seg_ok] in Hf. apply andb_true_iff in Hf as [Hf _].
  rewrite forallb_app, Hv. simpl. by rewrite Hf.
Qed.

End GlobProps.

Module ConfigProps.
Import Glob GlobProps VitestConfig Lighthouse Vitest.

(** No file runs under both configurations: whatever Vitest's
    defaults, a file that the production Lighthouse configuration runs
    ([lighthouse/**/*.test.ts]) is excluded from the unit test run by
    its pattern [**/lighthouse/**], with or without the [dot] option. *)
Theorem lighthouse_suites_not_unit_tests dot default_include default_exclude path :
  runs dot default_include default_exclude prod_config path = true ->
  runs dot default_include default_exclude unit_config path = false.
Proof.
  unfold runs. cbn [test prod_config unit_config include exclude default id].
  intros [Hin _]%andb_true_iff. unfold matches_any in Hin. cbn [existsb] in Hin.
  rewrite orb_false_r in Hin. unfold matches in Hin. rewrite prod_include_parsed in Hin.
  apply lighthouse_dir_excluded in Hin.
  apply andb_false_iff. right. apply negb_false_iff, existsb_exists.
  exists "**/lighthouse/**"%string. split; [simpl; auto|].
  unfold matches. rewrite lighthouse_exclude_parsed. exact Hin.
Qed.

(** The tests of the three Lighthouse suites, the files the production
    configuration runs. *)
Definition lighthouse_suite_tests
    : list (option Z -> (string -> options -> outcome test_error (option RunnerResult)) -> test_outcome) :=
  [LighthouseAudits.performance_test; LighthouseAudits.accessibility_test;
   LighthouseAudits.best_practices_test; LighthouseAudits.seo_test;
   LighthouseAudits.product_detail_test; LighthouseAudits.comprehensive_report_test;
   LighthouseDetailed.fcp_test; LighthouseDetailed.lcp_test; LighthouseDetailed.cls_test;
   LighthouseDetailed.tbt_test; LighthouseDetailed.speed_index_test;
   LighthouseDetailed.accessibility_issues_test; LighthouseDetailed.image_optimization_test;
   LighthouseExample.comprehensive_audit_test; LighthouseExample.core_web_vitals_test;
   LighthouseExample.multiple_pages_test].

(** A URL outside the server that [APP_URL] names. *)
Definition outside_app_url_env (c : VitestConfig.config) (url : string) : Prop :=
  match app_url_env c with
  | Some u => String.prefix u url = false
  | None => True
  end.

Section Agree.
Variables lh1 lh2 : string -> options -> outcome test_error (option RunnerResult).
Hypothesis Hagree :
  forall url opts, outside_app_url_env prod_config url -> lh1 url opts = lh2 url opts.

Lemma audit_url_agree url opts :
  outside_app_url_env prod_config url -> audit_url lh1 url opts = audit_url lh2 url opts.
Proof. intros Hu. unfold audit_url. by rewrite Hagree. Qed.

Lemma home_run_agree chrome cat :
  LighthouseDetailed.home_run chrome lh1 cat = LighthouseDetailed.home_run chrome lh2 cat.
Proof.
  unfold LighthouseDetailed.home_run. apply obind_ext. intros opts.
  apply audit_url_agree. vm_compute. reflexivity.
Qed.

Lemma audit_pages_agree opts ps :
  Forall (fun pg => outside_app_url_env prod_config (LighthouseExample.page_url pg)) ps ->
  LighthouseExample.audit_pages lh1 opts ps = LighthouseExample.audit_pages lh2 opts ps.
Proof.
  induction 1 as [|pg ps Hpg _ IH]; [reflexivity|]. simpl.
  rewrite audit_url_agree by exact Hpg. apply obind_ext. intros r.
  apply obind_ext. intros []. apply obind_ext. intros []. exact IH.
Qed.

End Agree.

(** The production configuration sets [APP_URL] to the preview
    server, but no suite reads it: two Lighthouse runs that agree on
    every URL outside [http://localhost:4173] give every test of the
    three suites the same outcome, whatever the preview server answers;
    each suite audits its own constant [http://localhost:5173]. *)
Theorem suites_ignore_app_url_env chrome lh1 lh2 :
  app_url_env prod_config = Some "http://localhost:4173"%string /\
  ((forall url opts, outside_app_url_env prod_config url -> lh1 url opts = lh2 url opts) ->
   Forall (fun t => t chrome lh1 = t chrome lh2) lighthouse_suite_tests).
Proof.
  split; [reflexivity|]. intros Hagree.
  repeat constructor; cbv beta.
  all: unfold LighthouseAudits.performance_test, LighthouseAudits.accessibility_test,
    LighthouseAudits.best_practices_test, LighthouseAudits.seo_test,
    LighthouseAudits.category_test, LighthouseAudits.product_detail_test,
    LighthouseAudits.comprehensive_report_test,
    LighthouseDetailed.fcp_test, LighthouseDetailed.lcp_test, LighthouseDetailed.cls_test,
    LighthouseDetailed.tbt_test, LighthouseDetailed.speed_index_test,
    LighthouseDetailed.seconds_test, LighthouseDetailed.raw_value_test,
    LighthouseDetailed.accessibility_issues_test, LighthouseDetailed.image_optimization_test,
    LighthouseExample.comprehensive_audit_test, LighthouseExample.core_web_vitals_test,
    LighthouseExample.multiple_pages_test.
  all: rewrite ?(home_run_agree lh1 lh2 Hagree); try reflexivity.
  all: apply obind_ext; intros opts.
  all: first
    [ rewrite (audit_url_agree lh1 lh2 Hagree) by (vm_compute; reflexivity); reflexivity
    | apply (audit_pages_agree lh1 lh2 Hagree); repeat constructor; vm_compute; reflexivity ].
Qed.

(** the scores [extractScores] reads are the categories the
    Lighthouse configuration asks for: two results that agree on the
    configuration's [onlyCategories] give the same scores. *)
Theorem extractScores_reads_config_categories r r' :
  (forall key, key ∈ LighthouseConfig.onlyCategories (LighthouseConfig.settings LighthouseConfig.default_export) ->
     lhr_categories (runner_lhr r) !! key = lhr_categories (runner_lhr r') !! key) ->
  extractScores r = extractScores r'.
Proof.
  intros H. unfold extractScores, category_percent.
  rewrite (H "performance"), (H "accessibility"), (H "best-practices"), (H "seo") by in_list.
  reflexivity.
Qed.

End ConfigProps.

(** * Runs *)

Module ConfigRuns.
Import VitestConfig Lighthouse Vitest ConfigProps.

Definition vitest_default_include : list string := ["**/*.test.ts"; "**/*.test.tsx"].

Lemma lighthouse_suites_not_unit_tests_witness :
  runs false vitest_default_include [] prod_config "lighthouse/lighthouse.test.ts" = true /\
  runs false vitest_default_include [] unit_config "lighthouse/lighthouse.test.ts" = false.
Proof.
  assert (H : runs false vitest_default_include [] prod_config "lighthouse/lighthouse.test.ts" = true)
    by (vm_compute; reflexivity).
  split; [exact H|]. exact (lighthouse_suites_not_unit_tests false _ _ _ H).
Defined.

(** A preview server that is down, and a dev server that answers. *)
Definition dev_only (url : string) (_ : options) : outcome test_error (option RunnerResult) :=
  if String.prefix "http://localhost:4173" url then Rejected LighthouseFailed
  else Resolved (Some SuitesRuns.scores_only).

Definition both_up (_ : string) (_ : options) : outcome test_error (option RunnerResult) :=
  Resolved (Some SuitesRuns.scores_only).

Lemma suites_ignore_app_url_env_witness :
  Forall (fun t => t (Some SuitesRuns.chrome_port) both_up = t (Some SuitesRuns.chrome_port) dev_only)
    lighthouse_suite_tests.
Proof.
  destruct (suites_ignore_app_url_env (Some SuitesRuns.chrome_port) both_up dev_only) as [Henv H].
  apply H. intros url opts Hu. unfold outside_app_url_env in Hu. rewrite Henv in Hu.
  unfold dev_only. rewrite Hu. reflexivity.
Defined.

Lemma extractScores_reads_config_categories_witness :
  extractScores SuitesRuns.scores_only =
  extractScores (mkRunnerResult (mkLhr
    (<["pwa" := mkCategory None]> (lhr_categories (runner_lhr SuitesRuns.scores_only))) ∅)).
Proof.
  apply extractScores_reads_config_categories. intros key Hkey.
  apply list_elem_of_In in Hkey. simpl in Hkey.
  repeat destruct Hkey as [<-|Hkey]; try contradiction; vm_compute; reflexivity.
Defined.

End ConfigRuns.
