(* ===== verification/Api.v ===== *)
(** * The API client: [src/unnamed/part_006] ([src/api/api.ts]) and the
      DTOs of [src/unnamed/part_003] ([src/types/api.ts])

    Every exported function of [api.ts] performs one [fetch] and passes
    the [Response] to [handleResponse].  The model keeps that shape:
    [*_request] builds the arguments of the [fetch] call (method, URL,
    headers, JSON body) exactly as each function writes them, and
    [api_fetch] runs a request through a transport and [handleResponse].

    The transport ([fetch]) and [JSON.parse] (behind [res.json()]) are
    browser services, not code of the repository: they are the section
    variables [fetch] and [json_parse].  Every theorem holds for all of
    them.  [handleResponse] reads its argument through [response_ops]:
    the unit tests pass it [Response]-like object literals
    ([ApiTests]).  The cast [res.json() as Promise<T>] checks nothing at run
    time, so [handleResponse] yields the parsed JSON value itself
    ([Some v]) or [undefined] ([None]). *)

From S2P Require Import Prelude JsString.
From Stdlib Require Import QArith.

(** ** JSON values *)

(** What [JSON.parse] returns.  Numbers are integers in this model: the
    only numbers [handleResponse] inspects are inside error bodies. *)
#[warnings="-register-all"]
Inductive json : Type :=
| JSNull
| JSBool (b : bool)
| JSNumber (n : Z)
| JSString (s : string)
| JSArray (l : list json)
| JSObject (fields : list (string * json)).

(** JavaScript truthiness of a parsed value. *)
Definition json_truthy (v : json) : bool :=
  match v with
  | JSNull => false
  | JSBool b => b
  | JSNumber n => negb (n =? 0)%Z
  | JSString s => str_truthy (Some s)
  | JSArray _ | JSObject _ => true
  end.

(** [v?.message] on a parsed value: the field of an object ([JSON.parse]
    keeps the last of duplicated keys); [undefined] on anything else. *)
Fixpoint get_field (k : string) (fields : list (string * json)) : option json :=
  match fields with
  | [] => None
  | (k', v) :: r =>
      match get_field k r with
      | Some w => Some w
      | None => if String.eqb k k' then Some v else None
      end
  end.

Definition get_message (v : json) : option json :=
  match v with
  | JSObject fs => get_field "message"%string fs
  | _ => None
  end.

(** [String(v)], the conversion [new Error(v)] applies to its argument:
    arrays are joined with commas, [null] elements giving [""]. *)
Fixpoint js_to_string (v : json) : string :=
  match v with
  | JSNull => "null"%string
  | JSBool true => "true"%string
  | JSBool false => "false"%string
  | JSNumber n => int_to_string n
  | JSString s => s
  | JSArray l =>
      (fix join (l : list json) : string :=
         match l with
         | [] => EmptyString
         | [x] => match x with JSNull => EmptyString | _ => js_to_string x end
         | x :: r =>
             match x with JSNull => EmptyString | _ => js_to_string x end
             +++ ","%string +++ join r
         end) l
  | JSObject _ => "[object Object]"%string
  end.

(** ** Rejections *)

(** A value a promise rejects with.  [fetch] rejects with a [TypeError],
    [res.json()] with a [SyntaxError] and [handleResponse] throws an
    [Error]: all are [instanceof Error] and carry a message.  [RejValue]
    is any other thrown value; the pages handle it with a fallback
    message. *)
Inductive rejection : Type :=
| RejError (msg : string)
| RejValue (v : json).

(** [err instanceof Error ? err.message : fallback], the expression every
    page's [catch] block uses. *)
Definition error_message (r : rejection) (fallback : string) : string :=
  match r with
  | RejError m => m
  | RejValue _ => fallback
  end.

Abbreviation api_result := (outcome rejection).

(** ** [Response] and [handleResponse] *)

Record response : Type := mkResponse {
  res_status : Z;
  res_statusText : string;
  res_body : string
}.

(** [res.ok]: the status is in the range 200-299. *)
Definition res_ok (res : response) : bool :=
  (200 <=? res_status res)%Z && (res_status res <=? 299)%Z.

(** What [handleResponse] reads of its argument [res]: [res.ok],
    [res.status], [res.statusText] and the promise [res.json()] returns.
    A [Response] of [fetch] is one such object ([fetch_response]); the
    unit tests pass literals [{ ok, status, statusText, json } as
    Response] ([ApiTests.mock_response]), where a missing field reads
    [undefined] ([None]) and a missing [json] makes the call
    [res.json()] throw a [TypeError]. *)
Record response_ops (R : Type) : Type := mkResponseOps {
  ok_of : R -> bool;
  status_of : R -> option Z;
  statusText_of : R -> option string;
  json_of : R -> api_result json
}.

Arguments mkResponseOps {R}.
Arguments ok_of {R}.
Arguments status_of {R}.
Arguments statusText_of {R}.
Arguments json_of {R}.

Section Handle.
Context {R : Type} (ops : response_ops R).

(** [res.status === n]. *)
Definition status_is (res : R) (n : Z) : bool :=
  match status_of ops res with Some s => (s =? n)%Z | None => false end.

(** [let err = res.statusText]: [undefined] is falsy like [null], and
    [err] is only stringified when it is truthy. *)
Definition statusText_value (res : R) : json :=
  match statusText_of ops res with Some s => JSString s | None => JSNull end.

(** The template [`HTTP ${res.status}`]. *)
Definition http_status (res : R) : string :=
  "HTTP "%string +++ match status_of ops res with
                     | Some n => int_to_string n
                     | None => "undefined"%string
                     end.

(** The error text [handleResponse] throws for a response that is not
    [ok]: the body's [message] when it parses and is truthy, else the
    status text, else [HTTP <status>]. *)
Definition error_text (res : R) : string :=
  let err :=
    match json_of ops res with
    | Resolved body =>
        match get_message body with
        | Some m => if json_truthy m then m else statusText_value res
        | None => statusText_value res
        end
    | Rejected _ => statusText_value res
    end in
  if json_truthy err then js_to_string err else http_status res.

Definition handleResponse (res : R) : api_result (option json) :=
  if ok_of ops res then
    if status_is res 204 then Resolved None
    else let* v := json_of ops res in Resolved (Some v)
  else Rejected (RejError (error_text res)).

End Handle.

Section Client.

(** [JSON.parse] of a body text: a value, or the message of the
    [SyntaxError] it throws. *)
Context (json_parse : string -> string + json).

(** [res.json()] *)
Definition res_json (res : response) : api_result json :=
  match json_parse (res_body res) with
  | inl msg => Rejected (RejError msg)
  | inr v => Resolved v
  end.

(** A [Response] of [fetch]: [ok] is the 2xx test, the status and its
    text are always present, and [json()] parses the body. *)
Definition fetch_response : response_ops response :=
  mkResponseOps res_ok (fun res => Some (res_status res)) (fun res => Some (res_statusText res))
    res_json.

End Client.

(** ** DTOs ([src/types/api.ts]) *)

Record UserDto : Type := mkUserDto {
  user_id : Z;
  user_username : string;
  user_email : string
}.

(** Prices are decimal numbers; they are modelled as rationals. *)
Record ProductDto : Type := mkProductDto {
  product_id : Z;
  product_name : string;
  product_description : option string;
  product_price : Q;
  product_stockQuantity : Z
}.

Record CartItemDto : Type := mkCartItemDto {
  item_id : Z;
  item_productId : Z;
  item_productName : string;
  item_price : Q;
  item_quantity : Z;
  item_subtotal : Q
}.

Record AddToCartRequest : Type := mkAddToCartRequest {
  add_productId : Z;
  add_quantity : Z
}.

Record CheckoutResultDto : Type := mkCheckoutResultDto {
  checkout_success : bool;
  checkout_message : string;
  checkout_totalAmount : option Q;
  checkout_purchasedItems : option (list CartItemDto)
}.

Record CreateUserRequest : Type := mkCreateUserRequest {
  create_username : string;
  create_email : string
}.

Record UpdateUserRequest : Type := mkUpdateUserRequest {
  update_username : option string;
  update_email : option string
}.

(** Decidable equality of the DTOs (a [Q] compares numerator and
    denominator). *)
#[export] Instance Q_eq_dec : EqDecision QArith_base.Q.
Proof. solve_decision. Defined.
#[export] Instance ProductDto_eq_dec : EqDecision ProductDto.
Proof. solve_decision. Defined.
#[export] Instance CartItemDto_eq_dec : EqDecision CartItemDto.
Proof. solve_decision. Defined.
#[export] Instance AddToCartRequest_eq_dec : EqDecision AddToCartRequest.
Proof. solve_decision. Defined.
#[export] Instance CreateUserRequest_eq_dec : EqDecision CreateUserRequest.
Proof. solve_decision. Defined.
#[export] Instance UpdateUserRequest_eq_dec : EqDecision UpdateUserRequest.
Proof. solve_decision. Defined.

(** [JSON.stringify] of the request bodies: [undefined] fields are left
    out. *)
Definition create_user_json (dto : CreateUserRequest) : json :=
  JSObject [("username"%string, JSString (create_username dto));
            ("email"%string, JSString (create_email dto))].

Definition update_user_json (dto : UpdateUserRequest) : json :=
  JSObject (match update_username dto with
            | Some u => [("username"%string, JSString u)] | None => [] end ++
            match update_email dto with
            | Some e => [("email"%string, JSString e)] | None => [] end).

Definition add_to_cart_json (r : AddToCartRequest) : json :=
  JSObject [("productId"%string, JSNumber (add_productId r));
            ("quantity"%string, JSNumber (add_quantity r))].

(** ** The [fetch] calls of the endpoints *)

(** The arguments of one [fetch(url, init)] call; [fetch] defaults the
    method to [GET] and sends no header the code does not name. *)
Record request : Type := mkRequest {
  req_method : string;
  req_url : string;
  req_headers : list (string * string);
  req_body : option json
}.

Definition accept_json : string * string := ("Accept"%string, "application/json"%string).
Definition content_json : string * string := ("Content-Type"%string, "application/json"%string).

(** The calls the pages and the user administration make, one
    constructor per exported function of [api.ts]. *)
Inductive api_call : Type :=
| CreateUser (dto : CreateUserRequest)
| GetUsers
| GetUserById (id : Z)
| UpdateUser (id : Z) (dto : UpdateUserRequest)
| DeleteUser (id : Z)
| GetProducts
| GetProductById (id : jsint)
| GetCart (userId : Z)
| AddToCart (userId : Z) (req : AddToCartRequest)
| RemoveFromCart (userId productId : Z)
| Checkout (userId : Z).

#[export] Instance api_call_eq_dec : EqDecision api_call.
Proof. solve_decision. Defined.

Section Endpoints.

(** [import.meta.env.VITE_API_BASE_URL ?? ""] *)
Context (BASE : string).

Definition call_request (c : api_call) : request :=
  match c with
  | CreateUser dto =>
      mkRequest "POST" (BASE +++ "/api/users") [content_json; accept_json]
        (Some (create_user_json dto))
  | GetUsers => mkRequest "GET" (BASE +++ "/api/users") [accept_json] None
  | GetUserById id =>
      mkRequest "GET" (BASE +++ "/api/users/" +++ int_to_string id) [accept_json] None
  | UpdateUser id dto =>
      mkRequest "PUT" (BASE +++ "/api/users/" +++ int_to_string id)
        [content_json; accept_json] (Some (update_user_json dto))
  | DeleteUser id =>
      mkRequest "DELETE" (BASE +++ "/api/users/" +++ int_to_string id) [] None
  | GetProducts => mkRequest "GET" (BASE +++ "/api/products") [accept_json] None
  | GetProductById id =>
      mkRequest "GET" (BASE +++ "/api/products/" +++ jsint_to_string id) [accept_json] None
  | GetCart userId =>
      mkRequest "GET" (BASE +++ "/api/cart?userId=" +++ int_to_string userId)
        [accept_json] None
  | AddToCart userId r =>
      mkRequest "POST" (BASE +++ "/api/cart/add?userId=" +++ int_to_string userId)
        [content_json; accept_json] (Some (add_to_cart_json r))
  | RemoveFromCart userId productId =>
      mkRequest "DELETE"
        (BASE +++ "/api/cart/remove/" +++ int_to_string productId
              +++ "?userId=" +++ int_to_string userId) [] None
  | Checkout userId =>
      mkRequest "POST" (BASE +++ "/api/cart/checkout?userId=" +++ int_to_string userId)
        [accept_json] None
  end%string.

End Endpoints.

Section Transport.

Context (BASE : string) {R : Type} (ops : response_ops R).

(** [fetch(url, init)]: a response, or the message of the [TypeError]
    it rejects with when no response arrives. *)
Context (fetch : request -> string + R).

(** One exported function of [api.ts]:
    [const res = await fetch(...); return handleResponse<T>(res);]. *)
Definition api_fetch (c : api_call) : api_result (option json) :=
  match fetch (call_request BASE c) with
  | inl msg => Rejected (RejError msg)
  | inr res => handleResponse ops res
  end.

End Transport.

(** * Properties of [handleResponse] *)

Section HandleResponseProps.

Context (json_parse : string -> string + json).

(** The truthy [message] field of a parsed error body, if any. *)
Definition body_message (res : response) : option json :=
  match json_parse (res_body res) with
  | inr body =>
      match get_message body with
      | Some m => if json_truthy m then Some m else None
      | None => None
      end
  | inl _ => None
  end.

(** [handleResponse] on a [Response] of [fetch]. *)
Lemma handleResponse_fetch res :
  handleResponse (fetch_response json_parse) res =
  if res_ok res then
    if (res_status res =? 204)%Z then Resolved None
    else let* v := res_json json_parse res in Resolved (Some v)
  else Rejected (RejError (error_text (fetch_response json_parse) res)).
Proof. reflexivity. Qed.

Lemma error_text_body_message res :
  error_text (fetch_response json_parse) res
  = match body_message res with
    | Some m => js_to_string m
    | None =>
        if str_truthy (Some (res_statusText res)) then res_statusText res
        else "HTTP "%string +++ int_to_string (res_status res)
    end.
Proof.
  unfold error_text, body_message, statusText_value, http_status. cbn [json_of fetch_response].
  unfold res_json. destruct (json_parse (res_body res)) as [msg|body]; simpl; [reflexivity|].
  destruct (get_message body) as [m|]; [|reflexivity].
  destruct (json_truthy m) eqn:Hm; [rewrite Hm|]; reflexivity.
Qed.

(** [String(v)] of a truthy value is not empty unless [v] is an array. *)
Lemma js_to_string_truthy_nonempty v :
  json_truthy v = true -> (forall l, v <> JSArray l) -> js_to_string v <> EmptyString.
Proof.
  destruct v as [|[]|n|s|l|fs]; simpl; intros Ht Hna; try discriminate.
  - apply int_to_string_nonempty.
  - destruct s; discriminate.
  - exfalso. exact (Hna l eq_refl).
Qed.

(** [handleResponse] on a 204 (No Content) resolves with [undefined]
    whatever the body and whatever [JSON.parse] would do with it: the
    body is never parsed. *)
Theorem handleResponse_no_content res :
  res_status res = 204%Z -> handleResponse (fetch_response json_parse) res = Resolved None.
Proof. intros H. rewrite handleResponse_fetch. unfold res_ok. rewrite H. reflexivity. Qed.

(** A 2xx response other than 204 resolves with the parsed body. *)
Theorem handleResponse_success_body res v :
  res_ok res = true -> res_status res <> 204%Z -> json_parse (res_body res) = inr v ->
  handleResponse (fetch_response json_parse) res = Resolved (Some v).
Proof.
  intros Hok H204 Hp. rewrite handleResponse_fetch. unfold res_json.
  rewrite Hok, Hp. destruct (Z.eqb_spec (res_status res) 204); [contradiction | reflexivity].
Qed.

(** C6: a 2xx response other than 204 whose body is not JSON rejects with
    the parser's error, despite the success status. *)
Theorem handleResponse_malformed res msg :
  res_ok res = true -> res_status res <> 204%Z -> json_parse (res_body res) = inl msg ->
  handleResponse (fetch_response json_parse) res = Rejected (RejError msg).
Proof.
  intros Hok H204 Hp. rewrite handleResponse_fetch. unfold res_json.
  rewrite Hok, Hp. destruct (Z.eqb_spec (res_status res) 204); [contradiction | reflexivity].
Qed.

(** C7: a non-2xx response whose body is an object with a non-empty
    string [message] rejects with an [Error] carrying that message. *)
Theorem handleResponse_error_body_message res fields s :
  res_ok res = false -> json_parse (res_body res) = inr (JSObject fields) ->
  get_field "message" fields = Some (JSString s) -> s <> EmptyString ->
  handleResponse (fetch_response json_parse) res = Rejected (RejError s).
Proof.
  intros Hok Hp Hm Hs. rewrite handleResponse_fetch. rewrite Hok, error_text_body_message.
  unfold body_message. rewrite Hp. simpl. rewrite Hm.
  destruct s; [congruence | reflexivity].
Qed.

(** C8: a non-2xx response with no usable [message] (body not JSON, no
    such field, or a falsy one) rejects with the status text when it is
    not empty, and with ["HTTP <status>"] otherwise. *)
Theorem handleResponse_error_fallbacks res :
  res_ok res = false -> body_message res = None ->
  handleResponse (fetch_response json_parse) res
  = Rejected (RejError (if str_truthy (Some (res_statusText res)) then res_statusText res
                        else "HTTP "%string +++ int_to_string (res_status res))).
Proof.
  intros Hok Hm. rewrite handleResponse_fetch. rewrite Hok, error_text_body_message, Hm.
  reflexivity.
Qed.

(** C5: a non-2xx response always rejects with a non-empty message unless
    its body's [message] field is an array (whose [String()] may be
    empty). *)
Theorem handleResponse_error_nonempty res :
  res_ok res = false -> (forall l, body_message res <> Some (JSArray l)) ->
  exists m, handleResponse (fetch_response json_parse) res = Rejected (RejError m) /\ m <> EmptyString.
Proof.
  intros Hok Harr. rewrite handleResponse_fetch. rewrite Hok. eexists; split; [reflexivity|].
  rewrite error_text_body_message. destruct (body_message res) as [m|] eqn:E.
  - apply js_to_string_truthy_nonempty.
    + unfold body_message in E. repeat case_match; simplify_eq; assumption.
    + intros l ->. exact (Harr l eq_refl).
  - destruct (res_statusText res) as [|c t]; simpl; discriminate.
Qed.

End HandleResponseProps.

(** * Properties of the endpoints *)

(** Every request that carries a JSON body declares it with
    [Content-Type: application/json]. *)
Theorem call_request_content_type BASE c :
  req_body (call_request BASE c) <> None -> content_json ∈ req_headers (call_request BASE c).
Proof. destruct c; simpl; intros H; try congruence; set_solver. Qed.

(** every request except the two [DELETE]s asks for JSON with
    [Accept: application/json]; the [DELETE]s send no header at all. *)
Theorem call_request_accept BASE c :
  (req_method (call_request BASE c) <> "DELETE"%string ->
   accept_json ∈ req_headers (call_request BASE c)) /\
  (req_method (call_request BASE c) = "DELETE"%string -> req_headers (call_request BASE c) = []).
Proof. destruct c; simpl; split; intros H; try congruence; set_solver. Qed.

Section TransportProps.

Context (BASE : string) (json_parse : string -> string + json)
        (fetch : request -> string + response).

(** When no response arrives, the call rejects with the transport's
    message unchanged. *)
Theorem api_fetch_transport_error c msg :
  fetch (call_request BASE c) = inl msg ->
  api_fetch BASE (fetch_response json_parse) fetch c = Rejected (RejError msg).
Proof. intros H. unfold api_fetch. rewrite H. reflexivity. Qed.

(** Every rejection of an API call is an [Error]: a page's
    [err instanceof Error ? err.message : fallback] always shows the
    error's own message, never the fallback. *)
Theorem api_fetch_rejects_with_error c r fallback :
  api_fetch BASE (fetch_response json_parse) fetch c = Rejected r ->
  exists m, r = RejError m /\ error_message r fallback = m.
Proof.
  unfold api_fetch. intros H.
  destruct (fetch (call_request BASE c)) as [msg|res]; [simplify_eq; eauto|].
  rewrite handleResponse_fetch in H. unfold res_json, obind in H.
  repeat case_match; simplify_eq; eauto.
Qed.

End TransportProps.

(** * Concrete runs *)

(** A [JSON.parse] for the bodies of the runs below. *)
Definition demo_parse (body : string) : string + json :=
  if String.eqb body "stock-error" then
    inr (JSObject [("message"%string, JSString "Insufficient stock")])
  else if String.eqb body "array-message" then
    inr (JSObject [("message"%string, JSArray [])])
  else if String.eqb body "no-items" then inr (JSArray [])
  else inl "Unexpected end of JSON input"%string.

Definition demo_base : string := "http://localhost:5000".

(** A backend that answers every request with [res]. *)
Definition demo_fetch (res : response) (r : request) : string + response := inr res.

Lemma handleResponse_no_content_witness :
  res_status (mkResponse 204 "No Content" "not json") = 204%Z /\
  handleResponse (fetch_response demo_parse) (mkResponse 204 "No Content" "not json") = Resolved None.
Proof. split; [reflexivity | apply handleResponse_no_content; reflexivity]. Defined.

Lemma handleResponse_success_body_witness :
  handleResponse (fetch_response demo_parse) (mkResponse 200 "OK" "no-items") = Resolved (Some (JSArray [])).
Proof. apply handleResponse_success_body; [reflexivity | discriminate | reflexivity]. Defined.

Lemma handleResponse_malformed_witness :
  handleResponse (fetch_response demo_parse) (mkResponse 200 "OK" "")
  = Rejected (RejError "Unexpected end of JSON input").
Proof. apply handleResponse_malformed; [reflexivity | discriminate | reflexivity]. Defined.

Lemma handleResponse_error_body_message_witness :
  handleResponse (fetch_response demo_parse) (mkResponse 400 "Bad Request" "stock-error")
  = Rejected (RejError "Insufficient stock").
Proof.
  apply (handleResponse_error_body_message demo_parse _
           [("message"%string, JSString "Insufficient stock")]);
    [reflexivity | reflexivity | reflexivity | discriminate].
Defined.

Lemma handleResponse_error_fallbacks_witness :
  handleResponse (fetch_response demo_parse) (mkResponse 500 "" "") = Rejected (RejError "HTTP 500") /\
  handleResponse (fetch_response demo_parse) (mkResponse 404 "Not Found" "")
  = Rejected (RejError "Not Found").
Proof.
  split.
  - rewrite handleResponse_error_fallbacks; reflexivity.
  - rewrite handleResponse_error_fallbacks; reflexivity.
Defined.

Lemma handleResponse_error_nonempty_witness :
  exists m, handleResponse (fetch_response demo_parse) (mkResponse 409 "" "stock-error")
            = Rejected (RejError m) /\ m <> EmptyString.
Proof.
  apply handleResponse_error_nonempty; [reflexivity|].
  intros l. vm_compute. discriminate.
Defined.

(** the exception to the non-empty message: an error body
    [{"message": []}] makes [handleResponse] throw an [Error] whose
    message is the empty string. *)
Theorem handleResponse_empty_message :
  res_ok (mkResponse 400 "Bad Request" "array-message") = false /\
  handleResponse (fetch_response demo_parse) (mkResponse 400 "Bad Request" "array-message")
  = Rejected (RejError EmptyString).
Proof. split; reflexivity. Qed.

Lemma call_request_content_type_witness :
  content_json ∈ req_headers (call_request demo_base (AddToCart 1 (mkAddToCartRequest 3 2))).
Proof. apply call_request_content_type. simpl. discriminate. Defined.

Lemma call_request_accept_witness :
  accept_json ∈ req_headers (call_request demo_base (GetCart 1)) /\
  req_headers (call_request demo_base (RemoveFromCart 1 3)) = [].
Proof.
  split.
  - apply (call_request_accept demo_base (GetCart 1)). simpl. discriminate.
  - apply (call_request_accept demo_base (RemoveFromCart 1 3)). reflexivity.
Defined.

Lemma api_fetch_transport_error_witness :
  api_fetch demo_base (fetch_response demo_parse) (fun _ => inl "Failed to fetch"%string) GetProducts
  = Rejected (RejError "Failed to fetch").
Proof. apply api_fetch_transport_error. reflexivity. Defined.

Lemma api_fetch_rejects_with_error_witness :
  exists m, RejError "Not Found" = RejError m /\
            error_message (RejError "Not Found") "Failed to load cart" = m.
Proof.
  apply (api_fetch_rejects_with_error demo_base demo_parse
           (demo_fetch (mkResponse 404 "Not Found" "")) (GetCart 1)).
  reflexivity.
Defined.
