(* ===== verification/ApiTests.v ===== *)
(** * The API module's advanced unit tests, replayed on the model

    [src/src/__tests__/api.advanced.test.ts] replaces [global.fetch] by a
    [vi.fn()] and gives each test a mocked answer: either an object
    literal [{ ok, status, statusText, json } as Response] that
    [mockResolvedValue] returns, or an [Error] that [mockRejectedValue]
    rejects with.  The literals are not [Response]s: [ok] is given
    directly, [status] and [statusText] may be missing (they read
    [undefined]), and without a [json] field the call [res.json()]
    throws a [TypeError].  [mock_response] is that object as
    [handleResponse] reads it, through the same [response_ops] as a
    [Response] of [fetch], so the tests run the code's [handleResponse]
    and [api_fetch] unchanged.

    Each exported function performs exactly one [fetch(url, init)], with
    the arguments [call_request] builds: [toHaveBeenCalledWith] is a
    check on that request.  [JSON.stringify] lists an object's keys in
    their order of insertion and is injective on the values of the
    model, so comparing two stringified bodies is structural equality
    of the two values ([json_eqb]).

    [VITE_API_BASE_URL] is whatever the test environment sets: every
    test is replayed for every [BASE].  The mock of "handles slow
    network for getProducts" answers after a 100 ms [setTimeout]; only
    the answer matters to the test, and the model has no clock.  Four
    tests are not replayed: two call [getProductById(null as any)] and
    [removeFromCart(1, null as any)], an argument outside the model's
    integer ids, and two mock a body holding the non-integer number
    [99.99], outside the model's integer JSON numbers (one of them only
    checks the URL, the other that the result is the mock's value).

    Module [ApiClientTests] replays, with the same mocks and matchers,
    the [API Client] suite of [src/src/__tests__/Register.test.tsx]. *)

From S2P Require Import Prelude JsString Api.

Module ApiTests.

(** ** The mocks *)

(** An object literal [{ ok, status, statusText, json } as Response]. *)
Record mock : Type := mkMock {
  m_ok : bool;
  m_status : option Z;
  m_statusText : option string;
  m_json : option (api_result json)     (** what [json: () => ...] returns *)
}.

Definition mock_response : response_ops mock :=
  mkResponseOps m_ok m_status m_statusText
    (fun m => match m_json m with
              | Some p => p
              | None => Rejected (RejError "res.json is not a function")
              end).

(** [{ ok: false, status, statusText }]. *)
Definition failing (status : Z) (statusText : string) : mock :=
  mkMock false (Some status) (Some statusText) None.

(** [{ ok: true, json: () => Promise.resolve(v) }]. *)
Definition ok_json (v : json) : mock := mkMock true None None (Some (Resolved v)).

(** [{ ok: true, json: () => Promise.reject(new Error(msg)) }]. *)
Definition ok_json_rejecting (msg : string) : mock :=
  mkMock true None None (Some (Rejected (RejError msg))).

(** [vi.mocked(fetch).mockResolvedValue(m)] and
    [.mockRejectedValue(new Error(msg))]. *)
Definition resolves_with (m : mock) : request -> string + mock := fun _ => inr m.
Definition rejects_with (msg : string) : request -> string + mock := fun _ => inl msg.

Section Tests.
Variable BASE : string.

(** [await f(...)] with [fetch] mocked. *)
Definition call (fetch : request -> string + mock) (c : api_call) : api_result (option json) :=
  api_fetch BASE mock_response fetch c.

(** ** The matchers *)

(** [await expect(p).rejects.toThrow()]. *)
Definition rejects (o : api_result (option json)) : bool :=
  match o with Rejected _ => true | Resolved _ => false end.

(** [await p] does not throw (a test that awaits a call fails when it
    rejects). *)
Definition resolves (o : api_result (option json)) : bool :=
  match o with Resolved _ => true | Rejected _ => false end.

(** [await expect(p).rejects.toThrow(msg)]: an [Error] whose message
    contains [msg]. *)
Definition rejects_toThrow (msg : string) (o : api_result (option json)) : bool :=
  match o with Rejected (RejError m) => str_includes msg m | _ => false end.

(** Deep equality of parsed values ([toEqual] on the values of the
    tests, and the comparison of two stringified bodies). *)
Fixpoint json_eqb (a b : json) : bool :=
  match a, b with
  | JSNull, JSNull => true
  | JSBool x, JSBool y => Bool.eqb x y
  | JSNumber x, JSNumber y => (x =? y)%Z
  | JSString x, JSString y => String.eqb x y
  | JSArray xs, JSArray ys =>
      (fix go (xs ys : list json) : bool :=
         match xs, ys with
         | [], [] => true
         | x :: xs', y :: ys' => json_eqb x y && go xs' ys'
         | _, _ => false
         end) xs ys
  | JSObject xs, JSObject ys =>
      (fix go (xs ys : list (string * json)) : bool :=
         match xs, ys with
         | [], [] => true
         | (k, x) :: xs', (k', y) :: ys' => String.eqb k k' && json_eqb x y && go xs' ys'
         | _, _ => false
         end) xs ys
  | _, _ => false
  end.

(** [expect(await p).toEqual(v)]. *)
Definition resolves_toEqual (v : json) (o : api_result (option json)) : bool :=
  match o with Resolved (Some w) => json_eqb w v | _ => false end.

(** [Array.isArray(result)], [typeof result === "object"] and
    [expect(result).toHaveProperty(k)]. *)
Definition result_is_array (o : api_result (option json)) : bool :=
  match o with Resolved (Some (JSArray _)) => true | _ => false end.

Definition result_is_object (o : api_result (option json)) : bool :=
  match o with Resolved (Some (JSObject _ | JSArray _ | JSNull)) => true | _ => false end.

Definition result_has (k : string) (o : api_result (option json)) : bool :=
  match o with
  | Resolved (Some (JSObject fs)) => bool_decide (is_Some (get_field k fs))
  | _ => false
  end.

(** [expect(fetch).toHaveBeenCalledWith(expect.stringContaining(path), ...)]. *)
Definition url_contains (c : api_call) (path : string) : bool :=
  str_includes path (req_url (call_request BASE c)).

(** [expect.objectContaining({ method })], [{ body: JSON.stringify(v) }]
    and [{ headers: expect.objectContaining({ k: v }) }]. *)
Definition method_is (c : api_call) (m : string) : bool :=
  String.eqb (req_method (call_request BASE c)) m.

Definition body_is (c : api_call) (v : json) : bool :=
  match req_body (call_request BASE c) with Some b => json_eqb b v | None => false end.

Definition header_is (c : api_call) (h : string * string) : bool :=
  bool_decide (h ∈ req_headers (call_request BASE c)).

(** ** The tests *)

Definition user_json : json :=
  JSObject [("id", JSNumber 1); ("username", JSString "test"); ("email", JSString "test@example.com")]%string.

Definition test_user : CreateUserRequest := mkCreateUserRequest "test" "test@example.com".

(** getProducts Error Scenarios *)
Definition products_not_ok : bool :=
  rejects (call (resolves_with (failing 500 "Internal Server Error")) GetProducts).
Definition products_network : bool :=
  rejects_toThrow "Network error" (call (rejects_with "Network error") GetProducts).
Definition products_bad_json : bool :=
  rejects_toThrow "Invalid JSON" (call (resolves_with (ok_json_rejecting "Invalid JSON")) GetProducts).
Definition products_404 : bool := rejects (call (resolves_with (failing 404 "Not Found")) GetProducts).
Definition products_403 : bool := rejects (call (resolves_with (failing 403 "Forbidden")) GetProducts).
Definition products_timeout : bool :=
  rejects_toThrow "Request timeout" (call (rejects_with "Request timeout") GetProducts).
Definition products_empty : bool :=
  resolves_toEqual (JSArray []) (call (resolves_with (ok_json (JSArray []))) GetProducts).

(** getProductById Error Scenarios *)
Definition product_invalid_id : bool :=
  rejects (call (resolves_with (failing 404 "Product not found")) (GetProductById (JInt 999))).
Definition product_network : bool :=
  rejects_toThrow "Connection refused" (call (rejects_with "Connection refused") (GetProductById (JInt 1))).
Definition product_negative_id : bool :=
  rejects (call (resolves_with (failing 400 "Bad Request")) (GetProductById (JInt (-1)))).
Definition product_zero_id : bool :=
  rejects (call (resolves_with (failing 400 "Bad Request")) (GetProductById (JInt 0))).

(** createUser Error Scenarios *)
Definition create_missing_username : bool :=
  rejects (call (resolves_with (failing 400 "Bad Request"))
                (CreateUser (mkCreateUserRequest "" "test@example.com"))).
Definition create_invalid_email : bool :=
  rejects (call (resolves_with (failing 400 "Invalid email format"))
                (CreateUser (mkCreateUserRequest "testuser" "invalid"))).
Definition create_exists : bool :=
  rejects (call (resolves_with (failing 409 "Conflict"))
                (CreateUser (mkCreateUserRequest "existing" "test@example.com"))).
Definition create_server_error : bool :=
  rejects (call (resolves_with (failing 500 "Internal Server Error")) (CreateUser test_user)).
Definition create_body : bool :=
  resolves (call (resolves_with (ok_json user_json)) (CreateUser test_user)) &&
  method_is (CreateUser test_user) "POST" &&
  body_is (CreateUser test_user)
    (JSObject [("username", JSString "test"); ("email", JSString "test@example.com")])%string.

(** addToCart Error Scenarios *)
Definition add_user_not_found : bool :=
  rejects (call (resolves_with (failing 404 "User not found")) (AddToCart 999 (mkAddToCartRequest 1 1))).
Definition add_product_not_found : bool :=
  rejects (call (resolves_with (failing 404 "Product not found")) (AddToCart 1 (mkAddToCartRequest 999 1))).
Definition add_invalid_quantity : bool :=
  rejects (call (resolves_with (failing 400 "Invalid quantity")) (AddToCart 1 (mkAddToCartRequest 1 0))).
Definition add_exceeds_stock : bool :=
  rejects (call (resolves_with (failing 400 "Insufficient stock")) (AddToCart 1 (mkAddToCartRequest 1 1000))).
Definition add_negative : bool :=
  rejects (call (resolves_with (failing 400 "Quantity must be positive"))
                (AddToCart 1 (mkAddToCartRequest 1 (-5)))).
Definition add_request : bool :=
  let c := AddToCart 123 (mkAddToCartRequest 456 2) in
  resolves (call (resolves_with (ok_json (JSObject []))) c) &&
  url_contains c "/api/cart/add?userId=123" && method_is c "POST" &&
  body_is c (JSObject [("productId", JSNumber 456); ("quantity", JSNumber 2)])%string.

(** getCart Error Scenarios *)
Definition cart_user_not_found : bool :=
  rejects (call (resolves_with (failing 404 "User not found")) (GetCart 999)).
Definition cart_empty : bool :=
  resolves_toEqual (JSArray []) (call (resolves_with (ok_json (JSArray []))) (GetCart 1)).
Definition cart_unauthorized : bool :=
  rejects (call (resolves_with (failing 401 "Unauthorized")) (GetCart 1)).
Definition cart_endpoint : bool := url_contains (GetCart 789) "/api/cart?userId=789".

(** removeFromCart Error Scenarios *)
Definition remove_not_in_cart : bool :=
  rejects (call (resolves_with (failing 404 "Item not found in cart")) (RemoveFromCart 1 999)).
Definition remove_user_not_found : bool :=
  rejects (call (resolves_with (failing 404 "User not found")) (RemoveFromCart 999 1)).
Definition remove_unauthorized : bool :=
  rejects (call (resolves_with (failing 403 "Forbidden")) (RemoveFromCart 1 1)).
Definition remove_request : bool :=
  url_contains (RemoveFromCart 123 456) "/api/cart/remove/456?userId=123" &&
  method_is (RemoveFromCart 123 456) "DELETE".

(** checkout Error Scenarios *)
Definition checkout_empty : bool :=
  rejects (call (resolves_with (failing 400 "Cart is empty")) (Checkout 1)).
Definition checkout_user_not_found : bool :=
  rejects (call (resolves_with (failing 404 "User not found")) (Checkout 999)).
Definition checkout_payment : bool :=
  rejects (call (resolves_with (failing 402 "Payment Required")) (Checkout 1)).
Definition checkout_stock : bool :=
  rejects (call (resolves_with (failing 409 "Items out of stock")) (Checkout 1)).
Definition checkout_request : bool :=
  url_contains (Checkout 123) "/api/cart/checkout?userId=123" && method_is (Checkout 123) "POST".

(** Network Conditions *)
Definition slow_network : bool :=
  resolves_toEqual (JSArray []) (call (resolves_with (ok_json (JSArray []))) GetProducts).
Definition connection_reset : bool :=
  rejects_toThrow "ECONNRESET" (call (rejects_with "ECONNRESET") GetProducts).
Definition dns_failure : bool :=
  rejects_toThrow "ENOTFOUND" (call (rejects_with "ENOTFOUND") GetProducts).
Definition connection_refused : bool :=
  rejects_toThrow "ECONNREFUSED" (call (rejects_with "ECONNREFUSED") GetProducts).

(** Content-Type Headers *)
Definition create_headers : bool := header_is (CreateUser test_user) content_json.
Definition add_headers : bool := header_is (AddToCart 1 (mkAddToCartRequest 1 1)) content_json.
Definition checkout_accept : bool := header_is (Checkout 1) accept_json.

(** API Base URL: the loop over the seven endpoints. *)
Definition endpoints : list (api_call * string) :=
  [(GetProducts, "/api/products"); (GetProductById (JInt 1), "/api/products/1");
   (CreateUser test_user, "/api/users"); (AddToCart 1 (mkAddToCartRequest 1 1), "/api/cart/add");
   (GetCart 1, "/api/cart"); (RemoveFromCart 1 1, "/api/cart/remove");
   (Checkout 1, "/api/cart/checkout")]%string.

Definition base_urls : bool := forallb (fun '(c, path) => url_contains c path) endpoints.

(** Response Data Types *)
Definition products_array : bool :=
  result_is_array (call (resolves_with (ok_json (JSArray
    [JSObject [("id", JSNumber 1); ("name", JSString "Product"); ("price", JSNumber 10);
               ("stockQuantity", JSNumber 5)]%string]))) GetProducts).
Definition product_object : bool :=
  let o := call (resolves_with (ok_json (JSObject
             [("id", JSNumber 1); ("name", JSString "Product"); ("price", JSNumber 10);
              ("stockQuantity", JSNumber 5)]%string))) (GetProductById (JInt 1)) in
  result_is_object o && result_has "id" o.
Definition user_object : bool :=
  let o := call (resolves_with (ok_json user_json)) (CreateUser test_user) in
  result_has "id" o && result_has "username" o.

(** The replayed tests in the file's order. *)
Definition api_tests : list bool :=
  [products_not_ok; products_network; products_bad_json; products_404; products_403;
   products_timeout; products_empty; product_invalid_id; product_network; product_negative_id;
   product_zero_id; create_missing_username; create_invalid_email; create_exists;
   create_server_error; create_body; add_user_not_found; add_product_not_found;
   add_invalid_quantity; add_exceeds_stock; add_negative; add_request; cart_user_not_found;
   cart_empty; cart_unauthorized; cart_endpoint; remove_not_in_cart; remove_user_not_found;
   remove_unauthorized; remove_request; checkout_empty; checkout_user_not_found;
   checkout_payment; checkout_stock; checkout_request; slow_network; connection_reset;
   dns_failure; connection_refused; create_headers; add_headers; checkout_accept; base_urls;
   products_array; product_object; user_object].

End Tests.

End ApiTests.

(** * The [API Client] suite of [src/src/__tests__/Register.test.tsx]

    The same mocks and matchers as the advanced suite.  Two tests are not
    replayed: "fetches products successfully" and "fetches product by ID
    successfully" mock bodies holding the non-integer prices [999.99],
    [29.99] and [199.99], outside the model's integer JSON numbers. *)

Module ApiClientTests.
Import ApiTests.

(** [{ ok: false, status, statusText, json: async () => ({ message }) }]. *)
Definition error_body (status : Z) (statusText message : string) : mock :=
  mkMock false (Some status) (Some statusText)
    (Some (Resolved (JSObject [("message", JSString message)]%string))).

(** [{ ok: true, status: 204 }] and [{ ok: true, status: 200, json }]. *)
Definition no_content : mock := mkMock true (Some 204%Z) None None.
Definition ok_status_json (status : Z) (v : json) : mock := mkMock true (Some status) None (Some (Resolved v)).

Definition user_obj (id : Z) (username email : string) : json :=
  JSObject [("id", JSNumber id); ("username", JSString username); ("email", JSString email)]%string.

Definition checkout_result : json :=
  JSObject [("success", JSBool true); ("message", JSString "Checkout completed");
            ("totalAmount", JSNumber 150); ("purchasedItems", JSArray [])]%string.

Definition cart_items : json :=
  JSArray [JSObject [("id", JSNumber 1); ("productId", JSNumber 10); ("productName", JSString "Product 1");
                     ("price", JSNumber 50); ("quantity", JSNumber 2); ("subtotal", JSNumber 100)]%string].

Definition new_user : CreateUserRequest := mkCreateUserRequest "testuser" "test@example.com".
Definition update_data : UpdateUserRequest := mkUpdateUserRequest (Some "updated"%string) (Some "updated@example.com"%string).

Section Tests.
Variable BASE : string.

(** [expect.objectContaining({ headers: { ... } })]: exactly these headers. *)
Definition headers_are (c : api_call) (hs : list (string * string)) : bool :=
  bool_decide (length (req_headers (call_request BASE c)) = length hs) &&
  forallb (fun h => header_is BASE c h) hs.

(** [await expect(p).resolves.toBeUndefined()]. *)
Definition resolves_undefined (o : api_result (option json)) : bool :=
  match o with Resolved None => true | _ => false end.

Definition products_fail : bool :=
  rejects_toThrow "Server error"
    (call BASE (resolves_with (error_body 500 "Internal Server Error" "Server error")) GetProducts).

Definition create_success : bool :=
  url_contains BASE (CreateUser new_user) "/api/users" && method_is BASE (CreateUser new_user) "POST" &&
  headers_are (CreateUser new_user) [("Content-Type", "application/json"); ("Accept", "application/json")]%string &&
  body_is BASE (CreateUser new_user)
    (JSObject [("username", JSString "testuser"); ("email", JSString "test@example.com")]%string) &&
  resolves_toEqual (user_obj 1 "testuser" "test@example.com")
    (call BASE (resolves_with (ok_json (user_obj 1 "testuser" "test@example.com"))) (CreateUser new_user)).

Definition create_custom_message : bool :=
  rejects_toThrow "Username already taken"
    (call BASE (resolves_with (error_body 400 "Bad Request" "Username already taken"))
       (CreateUser (mkCreateUserRequest "existing" "test@example.com"))).

Definition add_success : bool :=
  resolves (call BASE (resolves_with (ok_status_json 200 (JSObject []))) (AddToCart 1 (mkAddToCartRequest 2 3))) &&
  url_contains BASE (AddToCart 1 (mkAddToCartRequest 2 3)) "/api/cart/add?userId=1" &&
  method_is BASE (AddToCart 1 (mkAddToCartRequest 2 3)) "POST" &&
  body_is BASE (AddToCart 1 (mkAddToCartRequest 2 3))
    (JSObject [("productId", JSNumber 2); ("quantity", JSNumber 3)]%string).

Definition add_out_of_stock : bool :=
  rejects_toThrow "Insufficient stock"
    (call BASE (resolves_with (error_body 400 "Bad Request" "Insufficient stock"))
       (AddToCart 1 (mkAddToCartRequest 2 100))).

Definition checkout_success : bool :=
  url_contains BASE (Checkout 1) "/api/cart/checkout?userId=1" && method_is BASE (Checkout 1) "POST" &&
  resolves_toEqual checkout_result (call BASE (resolves_with (ok_json checkout_result)) (Checkout 1)).

Definition users_success : bool :=
  url_contains BASE GetUsers "/api/users" && headers_are GetUsers [("Accept", "application/json")]%string &&
  resolves_toEqual (JSArray [user_obj 1 "user1" "user1@example.com"; user_obj 2 "user2" "user2@example.com"])
    (call BASE (resolves_with (ok_json (JSArray [user_obj 1 "user1" "user1@example.com";
                                                 user_obj 2 "user2" "user2@example.com"]))) GetUsers).

Definition users_empty : bool :=
  resolves_toEqual (JSArray []) (call BASE (resolves_with (ok_json (JSArray []))) GetUsers).

Definition user_by_id : bool :=
  url_contains BASE (GetUserById 5) "/api/users/5" &&
  headers_are (GetUserById 5) [("Accept", "application/json")]%string &&
  resolves_toEqual (user_obj 5 "specificuser" "specific@example.com")
    (call BASE (resolves_with (ok_json (user_obj 5 "specificuser" "specific@example.com"))) (GetUserById 5)).

Definition user_not_found : bool :=
  rejects_toThrow "User not found"
    (call BASE (resolves_with (error_body 404 "Not Found" "User not found")) (GetUserById 999)).

Definition update_success : bool :=
  url_contains BASE (UpdateUser 1 update_data) "/api/users/1" && method_is BASE (UpdateUser 1 update_data) "PUT" &&
  headers_are (UpdateUser 1 update_data) [("Content-Type", "application/json"); ("Accept", "application/json")]%string &&
  body_is BASE (UpdateUser 1 update_data)
    (JSObject [("username", JSString "updated"); ("email", JSString "updated@example.com")]%string) &&
  resolves_toEqual (user_obj 1 "updated" "updated@example.com")
    (call BASE (resolves_with (ok_json (user_obj 1 "updated" "updated@example.com"))) (UpdateUser 1 update_data)).

Definition update_invalid : bool :=
  rejects_toThrow "Invalid email format"
    (call BASE (resolves_with (error_body 400 "Bad Request" "Invalid email format"))
       (UpdateUser 1 (mkUpdateUserRequest (Some "test"%string) (Some "invalid"%string)))).

Definition delete_success : bool :=
  resolves (call BASE (resolves_with no_content) (DeleteUser 1)) &&
  url_contains BASE (DeleteUser 1) "/api/users/1" && method_is BASE (DeleteUser 1) "DELETE".

Definition delete_fail : bool :=
  rejects_toThrow "User not found"
    (call BASE (resolves_with (error_body 404 "Not Found" "User not found")) (DeleteUser 999)).

Definition product_not_found : bool :=
  rejects_toThrow "Product not found"
    (call BASE (resolves_with (error_body 404 "Not Found" "Product not found")) (GetProductById (JInt 9999))).

Definition cart_success : bool :=
  url_contains BASE (GetCart 5) "/api/cart?userId=5" &&
  headers_are (GetCart 5) [("Accept", "application/json")]%string &&
  resolves_toEqual cart_items (call BASE (resolves_with (ok_json cart_items)) (GetCart 5)).

Definition cart_empty : bool :=
  resolves_toEqual (JSArray []) (call BASE (resolves_with (ok_json (JSArray []))) (GetCart 1)).

Definition remove_success : bool :=
  resolves (call BASE (resolves_with no_content) (RemoveFromCart 1 10)) &&
  url_contains BASE (RemoveFromCart 1 10) "/api/cart/remove/10?userId=1" &&
  method_is BASE (RemoveFromCart 1 10) "DELETE".

Definition remove_fail : bool :=
  rejects_toThrow "Item not found in cart"
    (call BASE (resolves_with (error_body 404 "Not Found" "Item not found in cart")) (RemoveFromCart 1 999)).

Definition network_error : bool := rejects_toThrow "Network error" (call BASE (rejects_with "Network error") GetProducts).

Definition non_json_error : bool :=
  rejects (call BASE (resolves_with (mkMock false (Some 500%Z) (Some "Internal Server Error"%string)
                                       (Some (Rejected (RejError "Invalid JSON"))))) GetProducts).

Definition no_content_undefined : bool := resolves_undefined (call BASE (resolves_with no_content) (DeleteUser 1)).

Definition api_client_tests : list bool :=
  [products_fail; create_success; create_custom_message; add_success; add_out_of_stock;
   checkout_success; users_success; users_empty; user_by_id; user_not_found; update_success;
   update_invalid; delete_success; delete_fail; product_not_found; cart_success; cart_empty;
   remove_success; remove_fail; network_error; non_json_error; no_content_undefined].

End Tests.

End ApiClientTests.

(** * Properties *)

Module ApiTestsProps.
Import ApiTests.

(** [BASE] is a prefix of every URL the client builds. *)
Lemma call_request_url BASE c :
  req_url (call_request BASE c) = BASE +++ req_url (call_request "" c).
Proof. destruct c; simpl; rewrite ?str_app_nil_l; reflexivity. Qed.

Lemma url_contains_base BASE c path :
  url_contains "" c path = true -> url_contains BASE c path = true.
Proof. unfold url_contains. rewrite (call_request_url BASE). apply str_includes_app_l. Qed.

(** One replayed test: evaluated, or split into its checks with the URL
    checks taken back to [BASE = ""]. *)
Ltac replay_test :=
  first
    [ solve [vm_compute; reflexivity]
    | solve [apply url_contains_base; vm_compute; reflexivity]
    | lazymatch goal with |- ?t _ = true => unfold t end;
      try unfold endpoints; cbn [forallb];
      repeat (apply andb_true_intro; split);
      solve [vm_compute; reflexivity | apply url_contains_base; vm_compute; reflexivity] ].

(** Replayed on the model, every test of the API module's advanced
    suite that stays within the model's values passes, whatever
    [VITE_API_BASE_URL] is: the error responses reject, the transport's
    errors and a failing [res.json()] keep their message, the success
    bodies come back as parsed, and each call's URL, method, body and
    headers are the ones the tests expect. *)
Theorem api_tests_pass BASE : forallb id (api_tests BASE) = true.
Proof.
  unfold api_tests. cbn [forallb id].
  repeat (apply andb_true_intro; split); replay_test.
Qed.

Lemma headers_are_base BASE c hs :
  ApiClientTests.headers_are "" c hs = ApiClientTests.headers_are BASE c hs.
Proof. destruct c; reflexivity. Qed.

(** Every replayed test of the [API Client] suite of [Register.test.tsx]
    passes, whatever [VITE_API_BASE_URL] is. *)
Theorem api_client_tests_pass BASE : forallb id (ApiClientTests.api_client_tests BASE) = true.
Proof.
  unfold ApiClientTests.api_client_tests. cbn [forallb id].
  repeat (apply andb_true_intro; split);
    try (lazymatch goal with |- ?t _ = true => unfold t end;
         repeat (apply andb_true_intro; split);
         try (rewrite <-headers_are_base));
    replay_test.
Qed.

End ApiTestsProps.
