(* ===== verification/Session.v ===== *)
(** * The session context: [src/unnamed/part_007]
      ([src/context/UserContext.tsx]) and the logout of
      [src/src/components/Header.tsx]

    [UserContextProvider] keeps [currentUserId : number | null] in React
    state (initially [null]) and mirrors it in [localStorage] under
    ["ai-store-user-id"].  Its mount effect reads the key back with
    [parseInt(stored, 10)]; [setCurrentUserId] writes or removes the key;
    [clearUser] (the header's Logout button) is [setCurrentUserId(null)].

    The model: [session] pairs the React cell with the whole
    [localStorage] map; [session_step] is the life cycle (set, clear,
    reload of the page, which remounts the provider).  The interface the
    pages see is the class [UserContextType]; [useUser] returns the
    nearest provider's value or throws outside every provider. *)

From S2P Require Import Prelude JsString.

(** ** The interface the pages use ([UserContextType] in the source) *)

Class UserContextType (S : Type) := {
  currentUserId : S -> option Z;
  setCurrentUserId : option Z -> S -> S
}.

(** [clearUser = () => setCurrentUserId(null)] *)
Definition clearUser {S} `{UserContextType S} (s : S) : S := setCurrentUserId None s.

(** What a client of the context may rely on: the id it sets is the id it
    reads back. *)
Class UserContextLaws (S : Type) `{UserContextType S} := {
  set_then_get : forall id s, currentUserId (setCurrentUserId id s) = id
}.

(** ** The provider *)

Definition USER_ID_STORAGE_KEY : string := "ai-store-user-id".

Record session : Type := mkSession {
  sess_userId : option Z;
  sess_storage : gmap string string
}.

(** [useState<number | null>(null)] on a fresh mount. *)
Definition session_init (ls : gmap string string) : session := mkSession None ls.

(** What the mount effect finds in the storage:
    [if (stored) { const id = parseInt(stored, 10); if (!isNaN(id)) ... }]. *)
Definition stored_user_id (ls : gmap string string) : option Z :=
  match ls !! USER_ID_STORAGE_KEY with
  | Some stored =>
      if str_truthy (Some stored) then
        match parseInt stored with
        | JInt id => Some id
        | JNaN => None
        end
      else None
  | None => None
  end.

(** The mount effect: the state is set only when a number was read. *)
Definition provider_mount (s : session) : session :=
  match stored_user_id (sess_storage s) with
  | Some id => mkSession (Some id) (sess_storage s)
  | None => s
  end.

(** [setCurrentUserId]: the state, then the storage. *)
Definition session_setCurrentUserId (id : option Z) (s : session) : session :=
  mkSession id
    (match id with
     | Some i => <[USER_ID_STORAGE_KEY := int_to_string i]> (sess_storage s)
     | None => delete USER_ID_STORAGE_KEY (sess_storage s)
     end).

#[export] Instance session_user_context : UserContextType session := {
  currentUserId := sess_userId;
  setCurrentUserId := session_setCurrentUserId
}.

(** A page load: the provider mounts over what the storage holds. *)
Definition boot (ls : gmap string string) : session := provider_mount (session_init ls).

(** [useUser()]: the value of the nearest provider ([None] outside every
    provider, where [useContext] gives [undefined]), else the [Error] it
    throws. *)
Definition useUser {C : Type} (context : option C) : outcome string C :=
  match context with
  | None => Rejected "useUser must be used within a UserContextProvider"%string
  | Some c => Resolved c
  end.

(** ** Life cycle *)

Inductive session_event : Type :=
| EvSet (id : option Z)     (** [setCurrentUserId(id)], e.g. after registering *)
| EvLogout                  (** the header's Logout button: [clearUser()] *)
| EvReload.                 (** the browser reloads: the provider remounts *)

Definition session_apply (e : session_event) (s : session) : session :=
  match e with
  | EvSet id => setCurrentUserId id s
  | EvLogout => clearUser s
  | EvReload => boot (sess_storage s)
  end.

Inductive session_step : session -> session -> Prop :=
| session_step_event e s : session_step s (session_apply e s).

Inductive session_reachable (ls0 : gmap string string) : session -> Prop :=
| reach_boot : session_reachable ls0 (boot ls0)
| reach_step s s' : session_reachable ls0 s -> session_step s s' -> session_reachable ls0 s'.

(** The invariant: the React cell agrees with what a fresh mount would
    read from the storage. *)
Definition session_consistent (s : session) : Prop :=
  sess_userId s = stored_user_id (sess_storage s).

(** ** The header ([Header.tsx]) *)

Inductive header_item : Type :=
| LinkProducts
| LinkCart
| UserInfo (id : Z)
| LogoutButton
| LinkRegister.

(** [{currentUserId ? <>Cart, User ID, Logout</> : <Register / Login/>}] *)
Definition header_items (uid : option Z) : list header_item :=
  LinkProducts ::
  match uid with
  | Some id => if num_truthy uid then [LinkCart; UserInfo id; LogoutButton] else [LinkRegister]
  | None => [LinkRegister]
  end.

(** * Properties *)

#[export] Instance session_user_context_laws : UserContextLaws session.
Proof. constructor. intros id s. reflexivity. Qed.

(** The key written by [setCurrentUserId(i)] reads back as [i]. *)
Lemma stored_user_id_insert ls i :
  stored_user_id (<[USER_ID_STORAGE_KEY := int_to_string i]> ls) = Some i.
Proof.
  unfold stored_user_id. rewrite lookup_insert_eq.
  destruct (int_to_string i) as [|c r] eqn:E; [exfalso; exact (int_to_string_nonempty i E)|].
  simpl. rewrite <- E.
  rewrite <- (str_app_nil_r (int_to_string i)), parseInt_int_to_string_app by reflexivity.
  reflexivity.
Qed.

Lemma stored_user_id_delete ls : stored_user_id (delete USER_ID_STORAGE_KEY ls) = None.
Proof. unfold stored_user_id. rewrite lookup_delete_eq. reflexivity. Qed.

Lemma boot_consistent ls : session_consistent (boot ls).
Proof.
  unfold session_consistent, boot, provider_mount, session_init. simpl.
  destruct (stored_user_id ls) eqn:E; simpl; congruence.
Qed.

Lemma setCurrentUserId_consistent id s : session_consistent (setCurrentUserId id s).
Proof.
  unfold session_consistent. destruct id as [i|]; simpl.
  - rewrite stored_user_id_insert. reflexivity.
  - rewrite stored_user_id_delete. reflexivity.
Qed.

#[local] Hint Resolve boot_consistent setCurrentUserId_consistent : store.

Lemma session_apply_consistent e s : session_consistent (session_apply e s).
Proof. destruct e; simpl; unfold clearUser; auto with store. Qed.

Lemma session_reachable_consistent ls0 s :
  session_reachable ls0 s -> session_consistent s.
Proof.
  induction 1 as [|s s' _ _ Hstep]; [apply boot_consistent|].
  destruct Hstep. apply session_apply_consistent.
Qed.

(** reloading the page restores the signed-in user: from any
    reachable state, a reload leaves [currentUserId] unchanged. *)
Theorem session_reload_restores ls0 s :
  session_reachable ls0 s -> currentUserId (session_apply EvReload s) = currentUserId s.
Proof.
  intros Hr. pose proof (session_reachable_consistent ls0 s Hr) as Hc.
  unfold session_consistent in Hc. simpl.
  unfold boot, provider_mount, session_init. simpl.
  rewrite <- Hc. destruct (sess_userId s); reflexivity.
Qed.

(** The session writes only its own key. *)
Lemma session_apply_other_keys e s k :
  k <> USER_ID_STORAGE_KEY ->
  sess_storage (session_apply e s) !! k = sess_storage s !! k.
Proof.
  intros Hk. destruct e as [[i|]| |]; simpl.
  - by rewrite lookup_insert_ne.
  - by rewrite lookup_delete_ne.
  - by rewrite lookup_delete_ne.
  - unfold boot, provider_mount, session_init. simpl.
    destruct (stored_user_id s.(sess_storage)); reflexivity.
Qed.

(** C11: the user id survives a reload through [localStorage], from any
    session: [setCurrentUserId(z)] stores [String(z)] and the provider's
    mount effect reads it back with [parseInt] as [z]; after
    [setCurrentUserId(null)] a reload finds no user; and a stored value
    with a fractional part, as ["2.7"], is read as its integer part. *)
Theorem user_id_roundtrip s z frac ls :
  currentUserId (session_apply EvReload (session_apply (EvSet (Some z)) s)) = Some z /\
  currentUserId (session_apply EvReload (session_apply (EvSet None) s)) = None /\
  stored_user_id (<[USER_ID_STORAGE_KEY := int_to_string z +++ "." +++ frac]> ls) = Some z.
Proof.
  split; [|split].
  - cbn. unfold boot, provider_mount, session_init. cbn [sess_storage].
    rewrite stored_user_id_insert. reflexivity.
  - cbn. unfold boot, provider_mount, session_init. cbn [sess_storage].
    rewrite stored_user_id_delete. reflexivity.
  - unfold stored_user_id. rewrite lookup_insert_eq.
    assert (Ht : str_truthy (Some (int_to_string z +++ "." +++ frac)) = true).
    { destruct (int_to_string z) as [|c r] eqn:E; [exfalso; exact (int_to_string_nonempty z E)|].
      rewrite str_app_cons. reflexivity. }
    rewrite Ht, parseInt_int_to_string_app by reflexivity. reflexivity.
Qed.

(** C9: in every state the session reaches from a page load, through
    any sequence of sets, logouts and reloads, the React cell holds
    exactly the id a fresh mount would read from [localStorage], and every
    other [localStorage] entry still holds what it held at the load. *)
Theorem session_invariant ls0 s :
  session_reachable ls0 s ->
  session_consistent s /\
  forall k, k <> USER_ID_STORAGE_KEY -> sess_storage s !! k = ls0 !! k.
Proof.
  intros Hr. split; [exact (session_reachable_consistent ls0 s Hr)|].
  intros k Hk. induction Hr as [|s s' _ IH Hstep].
  - unfold boot, provider_mount, session_init. simpl.
    destruct (stored_user_id ls0); reflexivity.
  - destruct Hstep as [e s]. rewrite session_apply_other_keys by exact Hk. exact IH.
Qed.

(** After Logout the header offers Register / Login, also after a
    reload. *)
Theorem logout_anonymous s :
  header_items (currentUserId (session_apply EvLogout s)) = [LinkProducts; LinkRegister] /\
  header_items (currentUserId (session_apply EvReload (session_apply EvLogout s)))
  = [LinkProducts; LinkRegister].
Proof.
  split; [reflexivity|]. simpl. unfold boot, provider_mount, session_init. simpl.
  rewrite stored_user_id_delete. reflexivity.
Qed.


Lemma session_invariant_witness :
  session_consistent (session_apply (EvSet (Some 42%Z)) (boot {["theme" := "dark"]})) /\
  forall k, k <> USER_ID_STORAGE_KEY ->
    sess_storage (session_apply (EvSet (Some 42%Z)) (boot {["theme" := "dark"]})) !! k
    = ({["theme" := "dark"]} : gmap string string) !! k.
Proof.
  apply session_invariant. eapply reach_step; [apply reach_boot | constructor].
Defined.

Lemma session_reload_restores_witness :
  currentUserId (session_apply EvReload (session_apply (EvSet (Some 42%Z)) (boot ∅)))
  = Some 42%Z.
Proof.
  rewrite (session_reload_restores ∅).
  - reflexivity.
  - eapply reach_step; [apply reach_boot | constructor].
Defined.
