(* ===== verification/Runtime.v ===== *)
(** * The event loop the pages run in

    Every page of the client is a React function component: a few
    [useState] cells, an effect that runs on mount, and [async] handlers
    shaped as "set some cells; [await] one API call; set cells again",
    sometimes arming a [setTimeout].  Between the [await] and its
    continuation, anything else may happen: other clicks, other
    responses, timers.  Nothing is cancelled or serialised (spec section 5).

    This file models that runtime once for all pages.  A [page] gives
    - [page_init]: the state of the first render and the mount effect;
    - [page_enabled]: whether the control that fires an event is rendered
      (and not [disabled]) in a state;
    - [page_event], [page_settle], [page_timer]: the synchronous code run
      by an event handler, by the continuation of an [await] when the
      promise settles, and by a timer callback.  Each returns the new state
      and the effects it starts: API calls (with the await point that
      continues them), timers and navigations.
    A [config] is the state with the list of pending tasks and the log of
    the requests issued and navigations made.  [step] lets any enabled
    event happen, any pending call settle with any outcome of the right
    type, and any pending timer fire, in any order: every interleaving the
    browser can produce is a sequence of steps.

    The values a page receives are those of [Api.api_fetch] after the
    unchecked cast [as Promise<T>]; [payload] lists the DTO shapes, and a
    call settles only with a payload of its endpoint's type
    ([payload_fits]).  A page that navigates away is unmounted; its state
    is no longer observed, so the model keeps running it, which can only
    add behaviours.

    The generic lemmas: rule induction on runs ([reachable_ind]), what
    issued a logged request ([step_issued]), the number of pending loads
    against a loading flag ([reachable_load_count]), a property of every
    logged request and navigation ([reachable_log_forall]).  [ustep] is
    a page's own step inside the application (no context event), and a
    step of the page ([ustep_step]); pages that differ only in their
    mount take the same steps ([step_same_handlers]).

    For the unit tests: [act] performs one scripted action (an event, a
    pending call settling with a given outcome, a timer) and [run] a
    script of them, each a [step] when it applies ([run_reachable]);
    [element] is what the testing library sees of a rendered view
    (headings, texts, buttons and labelled inputs), [get_one] the query
    [getByText] that finds exactly one element, [query_none] the
    assertion that [queryByText] finds none. *)

From S2P Require Import Prelude JsString Api.

(** ** What an awaited API call resolves to *)

Inductive payload : Type :=
| PVoid                             (** [Promise<void>]: nothing the caller reads *)
| PUser (u : UserDto)
| PUsers (l : list UserDto)
| PProduct (p : ProductDto)
| PProducts (l : list ProductDto)
| PCart (l : list CartItemDto)
| PCheckout (r : CheckoutResultDto)
| PNull.                            (** [null]: fits no call's type; only an untyped mock gives it *)

(** The return type of each function of [api.ts]. *)
Definition payload_fits (c : api_call) (p : payload) : bool :=
  match c, p with
  | CreateUser _, PUser _ | GetUsers, PUsers _ | GetUserById _, PUser _
  | UpdateUser _ _, PUser _ | DeleteUser _, PVoid
  | GetProducts, PProducts _ | GetProductById _, PProduct _
  | GetCart _, PCart _ | AddToCart _ _, PVoid | RemoveFromCart _ _, PVoid
  | Checkout _, PCheckout _ => true
  | _, _ => false
  end.

Definition outcome_fits (c : api_call) (o : api_result payload) : bool :=
  match o with
  | Resolved p => payload_fits c p
  | Rejected _ => true
  end.

(** ** Pages and their configurations *)

Section Runtime.

Context {S E K T : Type}.

Inductive effect : Type :=
| Call (k : K) (c : api_call)     (** [await api(...)], continued at [k] *)
| Timer (t : T)                   (** [setTimeout(t, delay)] *)
| Navigate (route : string).      (** [navigate(route)] *)

Inductive task : Type :=
| TCall (k : K) (c : api_call)
| TTimer (t : T).

Inductive trace_event : Type :=
| Issued (c : api_call)
| Navigated (route : string).

Record page : Type := mkPage {
  page_init : S * list effect;
  page_enabled : E -> S -> bool;
  page_event : E -> S -> S * list effect;
  page_settle : K -> api_result payload -> S -> S * list effect;
  page_timer : T -> S -> S * list effect
}.

Record config : Type := mkConfig {
  cfg_state : S;
  cfg_tasks : list task;
  cfg_log : list trace_event
}.

Definition effect_task (e : effect) : option task :=
  match e with
  | Call k c => Some (TCall k c)
  | Timer t => Some (TTimer t)
  | Navigate _ => None
  end.

Definition effect_trace (e : effect) : option trace_event :=
  match e with
  | Call _ c => Some (Issued c)
  | Timer _ => None
  | Navigate r => Some (Navigated r)
  end.

(** Run the synchronous part of a handler: install its state, queue its
    tasks, log its requests and navigations. *)
Definition exec (r : S * list effect) (tasks : list task) (log : list trace_event) : config :=
  mkConfig r.1 (tasks ++ omap effect_task r.2) (log ++ omap effect_trace r.2).

Definition init_config (P : page) : config := exec (page_init P) [] [].

Inductive step (P : page) : config -> config -> Prop :=
| step_event e c :
    page_enabled P e (cfg_state c) = true ->
    step P c (exec (page_event P e (cfg_state c)) (cfg_tasks c) (cfg_log c))
| step_settle c i k call o :
    cfg_tasks c !! i = Some (TCall k call) -> outcome_fits call o = true ->
    step P c (exec (page_settle P k o (cfg_state c)) (delete i (cfg_tasks c)) (cfg_log c))
| step_timer c i t :
    cfg_tasks c !! i = Some (TTimer t) ->
    step P c (exec (page_timer P t (cfg_state c)) (delete i (cfg_tasks c)) (cfg_log c)).

Definition reachable (P : page) (c : config) : Prop := rtc (step P) (init_config P) c.

(** ** Generic lemmas *)

(** Invariants are proved by induction on the steps. *)
Lemma reachable_ind (P : page) (I : config -> Prop) :
  I (init_config P) -> (forall c c', I c -> step P c c' -> I c') ->
  forall c, reachable P c -> I c.
Proof.
  intros Hinit Hstep c Hr. unfold reachable in Hr. revert Hinit.
  induction Hr as [x|x y z Hxy _ IH]; eauto.
Qed.

Lemma reachable_step P c c' : reachable P c -> step P c c' -> reachable P c'.
Proof. intros Hr Hs. unfold reachable in *. eapply rtc_r; eauto. Qed.

(** A step extends the log with the requests and navigations of the code
    it ran, in order. *)
Lemma step_log P c c' :
  step P c c' -> exists effs, cfg_log c' = cfg_log c ++ omap effect_trace effs.
Proof. destruct 1; eexists; reflexivity. Qed.

(** What the step that issued a request ran: the handler of an enabled
    event, the continuation of a pending call, or a timer, in the state
    before the step. *)
Definition ran (P : page) (st : S) (effs : list effect) : Prop :=
  (exists e, page_enabled P e st = true /\ effs = (page_event P e st).2) \/
  (exists k o, effs = (page_settle P k o st).2) \/
  (exists t, effs = (page_timer P t st).2).

Lemma step_issued P c c' x :
  step P c c' -> x ∈ cfg_log c' -> x ∉ cfg_log c ->
  exists effs, ran P (cfg_state c) effs /\ x ∈ omap effect_trace effs.
Proof.
  intros Hs Hin Hnot.
  destruct Hs as [e c He|c i k call o _ _|c i t _]; simpl in Hin;
    apply elem_of_app in Hin as [Hin|Hin]; try contradiction;
    eexists; (split; [|exact Hin]); unfold ran; eauto 10.
Qed.

(** ** Counting pending loads

    A page that shows a spinner while a load is pending keeps a flag in
    its state.  The flag is right when the number of pending loads is 1
    when it is set and 0 otherwise; the handlers keep this when each of
    them changes the count by what it does to the flag. *)
Section LoadCount.

Context (P : page) (is_load : K -> bool) (flag : S -> bool).

Definition load_task (t : task) : bool :=
  match t with
  | TCall k _ => is_load k
  | TTimer _ => false
  end.

Definition loads (ts : list task) : nat := length (filter (fun t => load_task t = true) ts).

Definition flag_count (st : S) : nat := if flag st then 1 else 0.

Lemma loads_app ts1 ts2 : loads (ts1 ++ ts2) = (loads ts1 + loads ts2)%nat.
Proof. unfold loads. rewrite filter_app, length_app. reflexivity. Qed.

Hypothesis init_ok :
  loads (omap effect_task (page_init P).2) = flag_count (page_init P).1.
Hypothesis event_ok : forall e st, page_enabled P e st = true ->
  (flag_count st + loads (omap effect_task (page_event P e st).2))%nat
  = flag_count (page_event P e st).1.
Hypothesis settle_ok : forall k o st, (is_load k = true -> flag st = true) ->
  (flag_count st - (if is_load k then 1 else 0) + loads (omap effect_task (page_settle P k o st).2))%nat
  = flag_count (page_settle P k o st).1.
Hypothesis timer_ok : forall t st,
  (flag_count st + loads (omap effect_task (page_timer P t st).2))%nat
  = flag_count (page_timer P t st).1.

Lemma reachable_load_count c : reachable P c -> loads (cfg_tasks c) = flag_count (cfg_state c).
Proof.
  revert c. apply (reachable_ind P (fun c => loads (cfg_tasks c) = flag_count (cfg_state c))).
  - simpl. exact init_ok.
  - intros c0 c1 Hinv Hs. destruct Hs as [e c0 He|c0 i k call o Hi _|c0 i t Hi]; simpl;
      rewrite loads_app.
    + rewrite Hinv. apply event_ok. exact He.
    + unfold loads in Hinv |- *. rewrite (length_filter_delete _ _ _ _ Hi) in Hinv.
      rewrite <- settle_ok.
      * unfold flag_count in *. simpl in Hinv.
        destruct (is_load k), (flag (cfg_state c0)); simpl in *; unfold loads; lia.
      * intros Hk. unfold flag_count in Hinv. simpl in Hinv. rewrite Hk in Hinv.
        destruct (flag (cfg_state c0)); [reflexivity | simpl in Hinv; lia].
    + unfold loads in Hinv |- *. rewrite (length_filter_delete _ _ _ _ Hi) in Hinv.
      rewrite <- timer_ok. simpl in Hinv. unfold loads. lia.
Qed.

End LoadCount.

(** ** Steps of a page inside the application

    Inside the application the context changes only through the
    provider: a page's own steps are those of [step] except the events
    that stand for a context change ([ctx_event]), which the application
    delivers itself.  Every such step is a step of the page. *)
Inductive ustep (P : page) (ctx_event : E -> bool) : config -> config -> Prop :=
| ustep_event e c :
    page_enabled P e (cfg_state c) = true -> ctx_event e = false ->
    ustep P ctx_event c (exec (page_event P e (cfg_state c)) (cfg_tasks c) (cfg_log c))
| ustep_settle c i k call o :
    cfg_tasks c !! i = Some (TCall k call) -> outcome_fits call o = true ->
    ustep P ctx_event c (exec (page_settle P k o (cfg_state c)) (delete i (cfg_tasks c)) (cfg_log c))
| ustep_timer c i t :
    cfg_tasks c !! i = Some (TTimer t) ->
    ustep P ctx_event c (exec (page_timer P t (cfg_state c)) (delete i (cfg_tasks c)) (cfg_log c)).

Lemma ustep_step P ctx_event c c' : ustep P ctx_event c c' -> step P c c'.
Proof. destruct 1; econstructor; eassumption. Qed.

(** The steps of a page that is no longer rendered: its pending calls
    still settle and its timers still fire, but no event reaches it. *)
Inductive bstep (P : page) : config -> config -> Prop :=
| bstep_settle c i k call o :
    cfg_tasks c !! i = Some (TCall k call) -> outcome_fits call o = true ->
    bstep P c (exec (page_settle P k o (cfg_state c)) (delete i (cfg_tasks c)) (cfg_log c))
| bstep_timer c i t :
    cfg_tasks c !! i = Some (TTimer t) ->
    bstep P c (exec (page_timer P t (cfg_state c)) (delete i (cfg_tasks c)) (cfg_log c)).

Lemma bstep_step P c c' : bstep P c c' -> step P c c'.
Proof. destruct 1; econstructor; eassumption. Qed.

(** A projection of the state that the page's own steps keep. *)
Lemma ustep_preserves {X} P ctx_event (f : S -> X) c c' :
  (forall e st, page_enabled P e st = true -> ctx_event e = false -> f (page_event P e st).1 = f st) ->
  (forall k o st, f (page_settle P k o st).1 = f st) ->
  (forall t st, f (page_timer P t st).1 = f st) ->
  ustep P ctx_event c c' -> f (cfg_state c') = f (cfg_state c).
Proof. intros He Hs Ht. destruct 1; simpl; auto. Qed.

(** Two pages that differ only in their mount take the same steps. *)
Definition same_handlers (P Q : page) : Prop :=
  page_enabled P = page_enabled Q /\ page_event P = page_event Q /\
  page_settle P = page_settle Q /\ page_timer P = page_timer Q.

Lemma step_same_handlers P Q c c' : same_handlers P Q -> step P c c' -> step Q c c'.
Proof.
  intros (He & Hev & Hs & Ht) Hstep. destruct Hstep as [e c Hen|c i k call o Hi Ho|c i t Hi].
  - rewrite Hev. apply step_event. rewrite <- He. exact Hen.
  - rewrite Hs. eapply step_settle; eassumption.
  - rewrite Ht. eapply step_timer; eassumption.
Qed.

(** So a configuration one page reaches is extended by a step of the
    other. *)
Lemma reachable_same P Q c c' :
  same_handlers P Q -> reachable Q c -> step P c c' -> reachable Q c'.
Proof.
  intros Hs Hr Hst. eapply reachable_step; [exact Hr|]. eapply step_same_handlers; [|exact Hst].
  destruct Hs as (? & ? & ? & ?). repeat split; congruence.
Qed.

(** ** A property of every logged request and navigation

    When the mount, every enabled event, every continuation and every
    timer only issue requests and navigations satisfying [Q], so does
    every run. *)
Section LogInvariant.

Context (P : page) (Q : trace_event -> Prop).

Definition effects_ok (effs : list effect) : Prop :=
  forall x, x ∈ omap effect_trace effs -> Q x.

Hypothesis init_log_ok : effects_ok (page_init P).2.
Hypothesis event_log_ok : forall e st, page_enabled P e st = true -> effects_ok (page_event P e st).2.
Hypothesis settle_log_ok : forall k o st, effects_ok (page_settle P k o st).2.
Hypothesis timer_log_ok : forall t st, effects_ok (page_timer P t st).2.

Lemma reachable_log_forall c : reachable P c -> forall x, x ∈ cfg_log c -> Q x.
Proof.
  revert c. apply (reachable_ind P (fun c => forall x, x ∈ cfg_log c -> Q x)).
  - intros x Hx. simpl in Hx. exact (init_log_ok x Hx).
  - unfold effects_ok in *. intros c c' IH Hs x Hx.
    destruct Hs as [e c0 He|c0 i k call o _ _|c0 i t _]; simpl in Hx;
      apply elem_of_app in Hx as [Hx|Hx]; eauto.
Qed.

End LogInvariant.

(** ** Scripted runs

    A test drives a page with [fireEvent] on a rendered control and
    decides how each mocked call settles.  [act] performs one such
    action, when the step exists: an event on an enabled control, the
    [i]-th pending call settling with an outcome of its type, or the
    [i]-th pending timer firing; [run] performs a script. *)
Inductive action : Type :=
| AEvent (e : E)
| ASettle (i : nat) (o : api_result payload)
| ATimer (i : nat).

Definition act (P : page) (a : action) (c : config) : option config :=
  match a with
  | AEvent e =>
      if page_enabled P e (cfg_state c)
      then Some (exec (page_event P e (cfg_state c)) (cfg_tasks c) (cfg_log c)) else None
  | ASettle i o =>
      match cfg_tasks c !! i with
      | Some (TCall k call) =>
          if outcome_fits call o
          then Some (exec (page_settle P k o (cfg_state c)) (delete i (cfg_tasks c)) (cfg_log c))
          else None
      | _ => None
      end
  | ATimer i =>
      match cfg_tasks c !! i with
      | Some (TTimer t) =>
          Some (exec (page_timer P t (cfg_state c)) (delete i (cfg_tasks c)) (cfg_log c))
      | _ => None
      end
  end.

Fixpoint run (P : page) (script : list action) (c : config) : option config :=
  match script with
  | [] => Some c
  | a :: rest => act P a c ≫= run P rest
  end.

Lemma act_step P a c c' : act P a c = Some c' -> step P c c'.
Proof.
  destruct a as [e|i o|i]; simpl.
  - destruct (page_enabled P e (cfg_state c)) eqn:He; intros; simplify_eq; by constructor.
  - destruct (cfg_tasks c !! i) as [[k call|t]|] eqn:Hi; try discriminate.
    destruct (outcome_fits call o) eqn:Ho; intros; simplify_eq; by econstructor.
  - destruct (cfg_tasks c !! i) as [[k call|t]|] eqn:Hi; intros; simplify_eq; by econstructor.
Qed.

(** A scripted response is a page's own step inside the application. *)
Lemma act_settle_ustep P ctx_event i o c c' :
  act P (ASettle i o) c = Some c' -> ustep P ctx_event c c'.
Proof.
  simpl. destruct (cfg_tasks c !! i) as [[k call|t]|] eqn:Hi; try discriminate.
  destruct (outcome_fits call o) eqn:Ho; intros; simplify_eq. by eapply ustep_settle.
Qed.

(** A scripted run only reaches configurations the page can reach. *)
Lemma run_reachable P script c c' :
  reachable P c -> run P script c = Some c' -> reachable P c'.
Proof.
  revert c. induction script as [|a rest IH]; intros c Hr; simpl; [congruence|].
  destruct (act P a c) as [c1|] eqn:Ha; simpl; [|discriminate].
  intros Hrun. eapply IH; [|exact Hrun]. eapply reachable_step; [exact Hr|]. exact (act_step P a c c1 Ha).
Qed.

End Runtime.

(** Close a hypothesis [x ∈ omap effect_trace effs] on a concrete list of
    effects: one goal per matching element, with the equation solved. *)
Ltac trace_mem H :=
  simpl in H;
  repeat match type of H with
  | _ ∈ [] => apply elem_of_nil in H; contradiction
  | _ ∈ _ :: _ => apply elem_of_cons in H as [H|H]
  end; simplify_eq.

Arguments effect : clear implicits.
Arguments task : clear implicits.
Arguments page : clear implicits.
Arguments config : clear implicits.
Arguments action : clear implicits.

(** ** What a test sees of a render

    The elements a page renders, in document order, as the testing
    library finds them: a heading, an element holding text (its own text
    nodes, trimmed), a button (its label and [disabled]), an [<input>]
    with its [<label>]'s text, its value and [disabled]. *)
Inductive element : Type :=
| Heading (level : nat) (text : string)                  (** [<h1>] .. [<h6>] *)
| Text (text : string)
| Button (text : string) (disabled : bool)
| Link (text : string) (to : string)                      (** [<Link to>], [<a href>] *)
| Input (type : string) (label : string) (value : string) (disabled : bool).

#[export] Instance element_eq_dec : EqDecision element.
Proof. solve_decision. Defined.

Definition element_text (e : element) : option string :=
  match e with
  | Heading _ t | Text t | Button t _ | Link t _ => Some t
  | Input _ _ _ _ => None
  end.

Definition element_disabled (e : element) : bool :=
  match e with
  | Button _ d | Input _ _ _ d => d
  | Heading _ _ | Text _ | Link _ _ => false
  end.

(** A [getBy*] query: the one element that matches, or an error ([None])
    when none or several do. *)
Definition get_one (p : element -> bool) (els : list element) : option element :=
  match filter p els with
  | [e] => Some e
  | _ => None
  end.

(** [queryBy*(...)] is [null]: no element matches. *)
Definition query_none (p : element -> bool) (els : list element) : bool :=
  bool_decide (filter p els = []).

Definition with_text (s : string) (e : element) : bool := bool_decide (element_text e = Some s).

(** [getByRole("button", { name: /needle/i })]. *)
Definition button_named (needle : string) (e : element) : bool :=
  match e with Button t _ => contains_ci needle t | _ => false end.

(** [getByRole("heading", { name })]. *)
Definition heading_named (name : string) (e : element) : bool :=
  match e with Heading _ t => String.eqb t name | _ => false end.

(** [getByLabelText(label)]. *)
Definition labelled (label : string) (e : element) : bool :=
  match e with Input _ l _ _ => String.eqb l label | _ => false end.

#[export] Instance trace_event_eq_dec : EqDecision trace_event.
Proof. solve_decision. Defined.
