(* ===== verification/ProductDetail.v ===== *)
(** * The product detail page: [ProductDetail] in the second part of
      [src/src/pages/CartPage.tsx] (lines 184-343)

    State: the [useState] cells [product], [loading], [error], [quantity]
    and [message], with the context's [currentUserId].  The mount effect
    loads the product named by the route parameter ([parseInt(id, 10)]);
    the quantity input keeps [parseInt] of its text, or 1 for [NaN];
    [handleAddToCart] checks the user, the product, [quantity > 0] and
    [quantity <= stockQuantity] before it awaits [addToCart], then shows
    "Item added to cart!" and arms a 3 s timer that clears the message.

    The page runs in the runtime of [Runtime]; the theorems are about
    every interleaving of clicks, responses and timers.  [pd_elements]
    is the view as the unit tests query it. *)

From S2P Require Import Prelude JsString Api Session Runtime.
From Stdlib Require QArith_base.

Module ProductDetail.

Record pd_state : Type := mkPdState {
  pd_userId : option Z;
  pd_product : option ProductDto;
  pd_loading : bool;
  pd_error : option string;
  pd_quantity : Z;
  pd_message : option string
}.

(** The controls of the page and the context change a re-render sees. *)
Inductive pd_event : Type :=
| QuantityInput (text : string)      (** [onChange] of the quantity input *)
| AddToCartClick                     (** the Add to Cart button *)
| BackToProducts                     (** a Back to Products button *)
| RegisterClick                      (** the Register / Login button *)
| UserChanged (u : option Z).        (** [currentUserId] changes (Logout) *)

(** The two [await]s of the page. *)
Inductive pd_await : Type :=
| AwaitProduct                       (** [await getProductById(productId)] *)
| AwaitAdd.                          (** [await addToCart(...)] *)

Inductive pd_timer : Type :=
| TimerToRegister                    (** [setTimeout(() => navigate("/register"), 2000)] *)
| TimerClearMessage.                 (** [setTimeout(() => setMessage(null), 3000)] *)

Abbreviation pd_effect := (effect pd_await pd_timer).

(** ** The state setters *)

Definition setUserId (u : option Z) (st : pd_state) : pd_state :=
  mkPdState u (pd_product st) (pd_loading st) (pd_error st) (pd_quantity st) (pd_message st).
Definition setProduct (p : option ProductDto) (st : pd_state) : pd_state :=
  mkPdState (pd_userId st) p (pd_loading st) (pd_error st) (pd_quantity st) (pd_message st).
Definition setLoading (b : bool) (st : pd_state) : pd_state :=
  mkPdState (pd_userId st) (pd_product st) b (pd_error st) (pd_quantity st) (pd_message st).
Definition setError (e : option string) (st : pd_state) : pd_state :=
  mkPdState (pd_userId st) (pd_product st) (pd_loading st) e (pd_quantity st) (pd_message st).
Definition setQuantity (q : Z) (st : pd_state) : pd_state :=
  mkPdState (pd_userId st) (pd_product st) (pd_loading st) (pd_error st) q (pd_message st).
Definition setMessage (m : option string) (st : pd_state) : pd_state :=
  mkPdState (pd_userId st) (pd_product st) (pd_loading st) (pd_error st) (pd_quantity st) m.

(** ** The handlers *)

(** [loadProduct(productId)] up to its [await]. *)
Definition loadProduct (productId : jsint) (st : pd_state) : pd_state * list pd_effect :=
  (setError None (setLoading true st), [Call AwaitProduct (GetProductById productId)]).

(** First render, then the mount effect [if (id) loadProduct(parseInt(id, 10))]. *)
Definition pd_init (id : option string) (uid : option Z) : pd_state * list pd_effect :=
  let st := mkPdState uid None true None 1 None in
  match id with
  | Some s => if str_truthy (Some s) then loadProduct (parseInt s) st else (st, [])
  | None => (st, [])
  end.

Definition out_of_stock_message (stock : Z) : string :=
  "Only " +++ int_to_string stock +++ " items available in stock".

(** [handleAddToCart] up to its [await]. *)
Definition handleAddToCart (st : pd_state) : pd_state * list pd_effect :=
  match truthy_id (pd_userId st) with
  | None =>
      (setMessage (Some "Please register or login to add items to cart") st,
       [Timer TimerToRegister])
  | Some u =>
      match pd_product st with
      | None => (st, [])
      | Some p =>
          if (pd_quantity st <=? 0)%Z then
            (setMessage (Some "Quantity must be greater than 0") st, [])
          else if (product_stockQuantity p <? pd_quantity st)%Z then
            (setMessage (Some (out_of_stock_message (product_stockQuantity p))) st, [])
          else
            (setMessage None st,
             [Call AwaitAdd (AddToCart u (mkAddToCartRequest (product_id p) (pd_quantity st)))])
      end
  end%string.

(** The quantity input: [const val = parseInt(e.target.value, 10);
    setQuantity(isNaN(val) ? 1 : val)], where the value of the
    [type="number"] input is the text typed when it is a valid number
    and empty otherwise. *)
Definition quantity_of_input (text : string) : Z :=
  match parseInt (number_value text) with
  | JInt v => v
  | JNaN => 1
  end.

Definition pd_event_handler (e : pd_event) (st : pd_state) : pd_state * list pd_effect :=
  match e with
  | QuantityInput text => (setQuantity (quantity_of_input text) st, [])
  | AddToCartClick => handleAddToCart st
  | BackToProducts => (st, [Navigate "/"])
  | RegisterClick => (st, [Navigate "/register"])
  | UserChanged u => (setUserId u st, [])
  end%string.

(** The code after each [await], the [catch] blocks and the [finally]. *)
Definition pd_settle (k : pd_await) (o : api_result payload) (st : pd_state)
    : pd_state * list pd_effect :=
  match k, o with
  | AwaitProduct, Resolved (PProduct p) => (setLoading false (setProduct (Some p) st), [])
  | AwaitProduct, Resolved PNull => (setLoading false (setProduct None st), [])
  | AwaitProduct, Resolved _ => (setLoading false st, [])
  | AwaitProduct, Rejected r =>
      (setLoading false (setError (Some (error_message r "Failed to load product")) st), [])
  | AwaitAdd, Resolved _ => (setMessage (Some "Item added to cart!") st, [Timer TimerClearMessage])
  | AwaitAdd, Rejected r => (setError (Some (error_message r "Failed to add to cart")) st, [])
  end%string.

Definition pd_timer_handler (t : pd_timer) (st : pd_state) : pd_state * list pd_effect :=
  match t with
  | TimerToRegister => (st, [Navigate "/register"%string])
  | TimerClearMessage => (setMessage None st, [])
  end.

(** ** What the page renders *)

Inductive pd_purchase : Type :=
| CanAdd                     (** quantity input and Add to Cart button *)
| OutOfStock                 (** the same controls, [disabled] *)
| LoginPrompt.               (** the Register / Login prompt *)

Inductive pd_view : Type :=
| LoadingView
| ErrorView (text : string)
| ProductView (p : ProductDto) (message : option string) (purchase : pd_purchase).

Definition pd_render (st : pd_state) : pd_view :=
  if pd_loading st then LoadingView
  else match pd_product st with
       | Some p =>
           if str_truthy (pd_error st) then ErrorView (default "" (pd_error st))
           else ProductView p (if str_truthy (pd_message st) then pd_message st else None)
                  (if num_truthy (pd_userId st) then
                     if (product_stockQuantity p <=? 0)%Z then OutOfStock else CanAdd
                   else LoginPrompt)
       | None =>
           ErrorView (if str_truthy (pd_error st) then default "" (pd_error st)
                      else "Product not found")
       end%string.

(** The elements rendered, in document order: the quantity input shows
    [quantity]; when the product is out of stock the input and the button
    are [disabled] and the button reads "Out of Stock". *)
Definition pd_elements (st : pd_state) : list element :=
  match pd_render st with
  | LoadingView => [Text "Loading product..."%string]
  | ErrorView text => [Text text; Button "Back to Products"%string false]
  | ProductView p message purchase =>
      let out := (product_stockQuantity p <=? 0)%Z in
      [Button "← Back to Products"%string false; Heading 1 (product_name p);
       Text ("$"%string +++ toFixed 2 (product_price p))] ++
      (if str_truthy (product_description p) then map Text (option_list (product_description p))
       else []) ++
      [Text (if out then "Out of Stock"%string
             else int_to_string (product_stockQuantity p) +++ " available"%string)] ++
      map Text (option_list message) ++
      match purchase with
      | CanAdd | OutOfStock =>
          [Text "Quantity:"%string; Input "number" "Quantity:"%string (int_to_string (pd_quantity st)) out;
           Button (if out then "Out of Stock"%string else "Add to Cart"%string) out]
      | LoginPrompt =>
          [Text "Please register or login to purchase this product"%string;
           Button "Register / Login"%string false]
      end
  end.

Definition pd_enabled (e : pd_event) (st : pd_state) : bool :=
  match e, pd_render st with
  | (QuantityInput _ | AddToCartClick), ProductView _ _ CanAdd => true
  | BackToProducts, (ErrorView _ | ProductView _ _ _) => true
  | RegisterClick, ProductView _ _ LoginPrompt => true
  | UserChanged _, _ => true
  | _, _ => false
  end.

Definition product_detail (id : option string) (uid : option Z)
    : page pd_state pd_event pd_await pd_timer :=
  mkPage (pd_init id uid) pd_enabled pd_event_handler pd_settle pd_timer_handler.

End ProductDetail.

(** * Properties *)

Module ProductDetailProps.
Import ProductDetail.

(** The only code of the page that sends [addToCart] is the end of
    [handleAddToCart], past its four guards. *)
Lemma handleAddToCart_issues st u r :
  Issued (AddToCart u r) ∈ omap effect_trace (handleAddToCart st).2 ->
  exists p, pd_product st = Some p /\ add_productId r = product_id p /\
    add_quantity r = pd_quantity st /\
    (0 < add_quantity r <= product_stockQuantity p)%Z /\ truthy_id (pd_userId st) = Some u.
Proof.
  unfold handleAddToCart. intros H.
  destruct (truthy_id (pd_userId st)) as [u'|] eqn:Hu; [|trace_mem H].
  destruct (pd_product st) as [p|]; [|trace_mem H].
  destruct (Z.leb_spec (pd_quantity st) 0); [trace_mem H|].
  destruct (Z.ltb_spec (product_stockQuantity p) (pd_quantity st)); trace_mem H.
  exists p. simpl. repeat split; auto; lia.
Qed.

Lemma pd_settle_issues_nothing k o st x : x ∈ omap effect_trace (pd_settle k o st).2 -> False.
Proof. destruct k, o as [[]|]; intros H; trace_mem H. Qed.

(** C1: every [addToCart] request the product page sends, in any
    interleaving of clicks, responses and timers, is for a signed-in
    user, for the product on display, with the quantity in the input,
    and that quantity is positive and at most the product's stock. *)
Theorem add_to_cart_guarded id uid c c' u r :
  step (product_detail id uid) c c' ->
  Issued (AddToCart u r) ∈ cfg_log c' -> Issued (AddToCart u r) ∉ cfg_log c ->
  exists p, pd_product (cfg_state c) = Some p /\ add_productId r = product_id p /\
    add_quantity r = pd_quantity (cfg_state c) /\
    (0 < add_quantity r <= product_stockQuantity p)%Z /\
    truthy_id (pd_userId (cfg_state c)) = Some u.
Proof.
  intros Hs Hin Hnot. destruct (step_issued _ _ _ _ Hs Hin Hnot) as (effs & Hran & Hx).
  destruct Hran as [(e & _ & ->)|[(k & o & ->)|(t & ->)]].
  - destruct e; simpl in Hx; [trace_mem Hx | by apply handleAddToCart_issues
                               | trace_mem Hx | trace_mem Hx | trace_mem Hx].
  - exfalso. exact (pd_settle_issues_nothing _ _ _ _ Hx).
  - destruct t; trace_mem Hx.
Qed.

(** Typing [text] in the quantity input, then clicking Add to Cart. *)
Definition add_with_input (text : string) (st : pd_state) : pd_state * list pd_effect :=
  pd_event_handler AddToCartClick (pd_event_handler (QuantityInput text) st).1.

(** C19: the quantity rules of the spec on a product with 5 in stock, for
    a signed-in user and whatever else the page holds: 5 sends the
    request, 6 is refused with "Only 5 items available in stock", 0 with
    "Quantity must be greater than 0", and before any guard runs the
    input "abc" becomes 1, "2.7" becomes 2, and "1e3" (a valid number,
    1000) becomes 1. *)
Theorem quantity_rules st p u :
  pd_product st = Some p -> product_stockQuantity p = 5%Z ->
  truthy_id (pd_userId st) = Some u ->
  (add_with_input "5" st).2
    = [Call AwaitAdd (AddToCart u (mkAddToCartRequest (product_id p) 5))] /\
  add_with_input "6" st
    = (setMessage (Some "Only 5 items available in stock") (setQuantity 6 st), []) /\
  add_with_input "0" st
    = (setMessage (Some "Quantity must be greater than 0") (setQuantity 0 st), []) /\
  pd_quantity (pd_event_handler (QuantityInput "abc") st).1 = 1%Z /\
  pd_quantity (pd_event_handler (QuantityInput "2.7") st).1 = 2%Z /\
  pd_quantity (pd_event_handler (QuantityInput "1e3") st).1 = 1%Z.
Proof.
  intros Hp Hs Hu. unfold add_with_input, pd_event_handler, handleAddToCart. simpl.
  rewrite Hu, Hp, Hs. repeat split; reflexivity.
Qed.

(** The await point of the product load. *)
Definition is_product_load (k : pd_await) : bool :=
  match k with AwaitProduct => true | AwaitAdd => false end.

Abbreviation product_loads := (loads is_product_load).

Lemma handleAddToCart_no_load st :
  pd_loading (handleAddToCart st).1 = pd_loading st /\
  product_loads (omap effect_task (handleAddToCart st).2) = 0%nat.
Proof. unfold handleAddToCart. repeat case_match; split; reflexivity. Qed.

(** C20: on the route [/product/:id] (a non-empty [id]), the page shows its
    loading state exactly while the product request is pending, and at
    most one is: in every reachable configuration, the number of pending
    product loads is 1 when [loading] is set and 0 otherwise.  In
    particular the spinner ends when the request settles, whether it
    resolves or rejects. *)
Theorem loading_iff_product_pending id uid c :
  str_truthy (Some id) = true -> reachable (product_detail (Some id) uid) c ->
  product_loads (cfg_tasks c) = if pd_loading (cfg_state c) then 1%nat else 0%nat.
Proof.
  intros Hid. apply (reachable_load_count _ is_product_load pd_loading).
  - unfold product_detail, page_init, pd_init. rewrite Hid. reflexivity.
  - intros e st _. unfold flag_count, loads.
    destruct e; simpl; [..|destruct (pd_loading st); reflexivity];
      try (destruct (pd_loading st); reflexivity).
    destruct (handleAddToCart_no_load st) as [Hl Hn]. unfold loads in Hn.
    rewrite Hl, Hn. lia.
  - intros k o st Hk. unfold flag_count, loads.
    destruct k, o as [[]|]; simpl in *; rewrite ?Hk by reflexivity; simpl;
      try reflexivity; destruct (pd_loading st); reflexivity.
  - intros t st. unfold flag_count, loads. destruct t; simpl; destruct (pd_loading st); reflexivity.
Qed.

(** a failed add-to-cart replaces the whole product view by the error
    view carrying the error's message: the product, the quantity input
    and the button disappear (spec section 4.2 describes action failures
    as a banner beside the unchanged page). *)
Theorem add_failure_hides_product st p msg pur m :
  pd_render st = ProductView p msg pur -> m <> EmptyString ->
  pd_render (pd_settle AwaitAdd (Rejected (RejError m)) st).1 = ErrorView m.
Proof.
  unfold pd_render. intros Hr Hm. simpl.
  destruct (pd_loading st); [discriminate|].
  destruct (pd_product st); [|discriminate].
  destruct m; [congruence | reflexivity].
Qed.

(** A route parameter that is not a number ([/product/abc]) is not
    rejected by the page: it sends [GET /api/products/NaN]. *)
Theorem nan_route_id id uid BASE :
  str_truthy (Some id) = true -> parseInt id = JNaN ->
  cfg_log (init_config (product_detail (Some id) uid)) = [Issued (GetProductById JNaN)] /\
  req_url (call_request BASE (GetProductById JNaN)) = (BASE +++ "/api/products/NaN")%string.
Proof.
  intros Hid Hnan. unfold init_config, product_detail, page_init, pd_init.
  rewrite Hid, Hnan. split; reflexivity.
Qed.

(** ** The anonymous branch of [handleAddToCart] *)

Definition register_prompt : string := "Please register or login to add items to cart".

(** No register redirect armed and no register prompt shown. *)
Definition prompt_free (tasks : list (task pd_await pd_timer)) (st : pd_state) : Prop :=
  (TTimer TimerToRegister ∉ tasks) /\ pd_message st <> Some register_prompt.

(** The Add to Cart button is rendered for a signed-in user only. *)
Lemma add_click_signed_in st :
  pd_enabled AddToCartClick st = true -> exists u, truthy_id (pd_userId st) = Some u.
Proof.
  unfold pd_enabled, pd_render. intros H.
  destruct (truthy_id (pd_userId st)) as [u|] eqn:E; [eauto|exfalso].
  assert (Hn : num_truthy (pd_userId st) = false)
    by (rewrite num_truthy_truthy_id, E; reflexivity).
  rewrite Hn in H. repeat case_match; discriminate.
Qed.

(** A handler result keeps [prompt_free] when its state has no prompt and
    its effects arm no redirect. *)
Lemma exec_prompt_free (r : pd_state * list pd_effect) tasks log :
  TTimer TimerToRegister ∉ tasks -> TTimer TimerToRegister ∉ omap effect_task r.2 ->
  pd_message r.1 <> Some register_prompt ->
  prompt_free (cfg_tasks (exec r tasks log)) (cfg_state (exec r tasks log)).
Proof. intros Ht He Hm. split; [simpl; rewrite elem_of_app; intros [H|H]; contradiction|exact Hm]. Qed.

Ltac no_redirect := let H := fresh in intros H; trace_mem H.

Lemma event_prompt_free e st :
  pd_enabled e st = true -> pd_message st <> Some register_prompt ->
  (TTimer TimerToRegister ∉ omap effect_task (pd_event_handler e st).2) /\
  pd_message (pd_event_handler e st).1 <> Some register_prompt.
Proof.
  intros He Hm. destruct e; simpl; try (split; [no_redirect | exact Hm]).
  destruct (add_click_signed_in _ He) as [u Hu]. unfold handleAddToCart. rewrite Hu.
  repeat case_match; simpl; (split; [no_redirect|]); try exact Hm; discriminate.
Qed.

Lemma settle_prompt_free k o st :
  pd_message st <> Some register_prompt ->
  (TTimer TimerToRegister ∉ omap effect_task (pd_settle k o st).2) /\
  pd_message (pd_settle k o st).1 <> Some register_prompt.
Proof.
  intros Hm. destruct k, o as [[]|]; simpl; (split; [no_redirect|]); try exact Hm; discriminate.
Qed.

(** C33: the anonymous branch of [handleAddToCart] is dead code: the Add
    to Cart button is rendered only for a signed-in user, so in every run
    of the page the "Please register or login to add items to cart"
    message is never shown and the redirect to [/register] never armed. *)
Theorem no_anonymous_add id uid c :
  reachable (product_detail id uid) c -> prompt_free (cfg_tasks c) (cfg_state c).
Proof.
  revert c. apply (reachable_ind _ (fun c => prompt_free (cfg_tasks c) (cfg_state c))).
  - unfold init_config, product_detail, pd_init, loadProduct. simpl.
    repeat case_match; (split; [simpl; no_redirect | discriminate]).
  - intros c c' [Ht Hm] Hs.
    destruct Hs as [e c He|c i k call o Hi _|c i t Hi].
    + destruct (event_prompt_free e _ He Hm). apply exec_prompt_free; assumption.
    + destruct (settle_prompt_free k o _ Hm). apply exec_prompt_free; try assumption.
      intros Hd. apply list_elem_of_delete_inv in Hd. contradiction.
    + destruct t.
      * exfalso. apply Ht. exact (list_elem_of_lookup_2 _ _ _ Hi).
      * apply exec_prompt_free; simpl; [|no_redirect|discriminate].
        intros Hd. apply list_elem_of_delete_inv in Hd. contradiction.
Qed.

End ProductDetailProps.

(** * Concrete runs *)

Module ProductDetailRuns.
Import ProductDetail ProductDetailProps.

Definition demo_product : ProductDto := mkProductDto 7 "Desk lamp" None (QArith_base.Qmake 25 1) 5.

(** The page of product 7 for user 3, loaded, quantity 1. *)
Definition demo_state : pd_state := mkPdState (Some 3%Z) (Some demo_product) false None 1 None.

Definition demo_page := product_detail (Some "7"%string) (Some 3%Z).

Lemma add_to_cart_guarded_witness :
  exists p, pd_product demo_state = Some p /\ add_productId (mkAddToCartRequest 7 1) = product_id p /\
    add_quantity (mkAddToCartRequest 7 1) = pd_quantity demo_state /\
    (0 < add_quantity (mkAddToCartRequest 7 1) <= product_stockQuantity p)%Z /\
    truthy_id (pd_userId demo_state) = Some 3%Z.
Proof.
  apply (add_to_cart_guarded (Some "7"%string) (Some 3%Z) (mkConfig demo_state [] [])
           (exec (pd_event_handler AddToCartClick demo_state) [] [])).
  - apply (step_event demo_page AddToCartClick (mkConfig demo_state [] [])). reflexivity.
  - simpl. apply list_elem_of_singleton. reflexivity.
  - apply not_elem_of_nil.
Defined.

Lemma quantity_rules_witness :
  (add_with_input "5" demo_state).2
    = [Call AwaitAdd (AddToCart 3 (mkAddToCartRequest 7 5))].
Proof. apply (quantity_rules demo_state demo_product 3%Z); reflexivity. Defined.

(** The configuration after the product request resolved. *)
Definition loaded_config : config pd_state pd_await pd_timer :=
  exec (pd_settle AwaitProduct (Resolved (PProduct demo_product))
          (cfg_state (init_config demo_page)))
       (delete 0%nat (cfg_tasks (init_config demo_page))) (cfg_log (init_config demo_page)).

Lemma loaded_reachable : reachable demo_page loaded_config.
Proof.
  eapply reachable_step; [apply rtc_refl|].
  eapply (step_settle demo_page _ 0%nat AwaitProduct (GetProductById (JInt 7))); reflexivity.
Qed.

Lemma loading_iff_product_pending_witness :
  product_loads (cfg_tasks (init_config demo_page)) = 1%nat /\
  product_loads (cfg_tasks loaded_config) = 0%nat.
Proof.
  split.
  - rewrite (loading_iff_product_pending "7" (Some 3%Z)); [reflexivity | reflexivity | apply rtc_refl].
  - rewrite (loading_iff_product_pending "7" (Some 3%Z)); [reflexivity | reflexivity |].
    exact loaded_reachable.
Defined.

Lemma add_failure_hides_product_witness :
  pd_render (pd_settle AwaitAdd (Rejected (RejError "Insufficient stock")) demo_state).1
  = ErrorView "Insufficient stock".
Proof. apply (add_failure_hides_product demo_state demo_product None CanAdd); [reflexivity | discriminate]. Defined.

Lemma nan_route_id_witness :
  cfg_log (init_config (product_detail (Some "abc"%string) (Some 3%Z)))
    = [Issued (GetProductById JNaN)] /\
  req_url (call_request "" (GetProductById JNaN)) = "/api/products/NaN"%string.
Proof. apply nan_route_id; reflexivity. Defined.

(** The run of the stale-timer trace: load, add 1 (success, which arms
    the 3 s timer), type 6, add again (refused by the stock guard), then
    the first timer fires. *)
Definition after_event (e : pd_event) (c : config pd_state pd_await pd_timer) :=
  exec (pd_event_handler e (cfg_state c)) (cfg_tasks c) (cfg_log c).

Definition added_config : config pd_state pd_await pd_timer :=
  after_event AddToCartClick loaded_config.

Definition add_resolved_config : config pd_state pd_await pd_timer :=
  exec (pd_settle AwaitAdd (Resolved PVoid) (cfg_state added_config))
       (delete 0%nat (cfg_tasks added_config)) (cfg_log added_config).

Definition refused_config : config pd_state pd_await pd_timer :=
  after_event AddToCartClick (after_event (QuantityInput "6") add_resolved_config).

Lemma step_after_event e c :
  pd_enabled e (cfg_state c) = true -> step demo_page c (after_event e c).
Proof. intros H. exact (step_event demo_page e c H). Qed.

Lemma refused_reachable : reachable demo_page refused_config.
Proof.
  assert (R2 : reachable demo_page added_config).
  { eapply reachable_step; [exact loaded_reachable | apply step_after_event; reflexivity]. }
  assert (R3 : reachable demo_page add_resolved_config).
  { eapply reachable_step; [exact R2|].
    eapply (step_settle demo_page _ 0%nat AwaitAdd (AddToCart 3 (mkAddToCartRequest 7 1)));
      reflexivity. }
  eapply reachable_step; [|apply step_after_event; reflexivity].
  eapply reachable_step; [exact R3 | apply step_after_event; reflexivity].
Qed.

(** The "Item added to cart!" timer is never cancelled: when a later
    action sets a new message within the 3 s, the old timer clears that
    new message.  Here the stock guard's "Only 5 items available in
    stock" is erased by the timer of the earlier successful add. *)
Theorem stale_timer_clears_newer_message :
  reachable demo_page refused_config /\
  pd_message (cfg_state refused_config) = Some "Only 5 items available in stock"%string /\
  cfg_tasks refused_config !! 0%nat = Some (TTimer TimerClearMessage) /\
  pd_message (pd_timer_handler TimerClearMessage (cfg_state refused_config)).1 = None.
Proof. split; [exact refused_reachable | repeat split; reflexivity]. Qed.

Lemma no_anonymous_add_witness : prompt_free (cfg_tasks loaded_config) (cfg_state loaded_config).
Proof. exact (no_anonymous_add _ _ _ loaded_reachable). Defined.

End ProductDetailRuns.
