(* ===== verification/CartPage.v ===== *)
(** * The cart page: [CartPage] in [src/src/pages/CartPage.tsx] (lines 15-183)
      with the [CartItem] component of [src/unnamed/part_004]

    State: the [useState] cells [cartItems], [loading], [error] and
    [checkoutResult], with the context's [currentUserId].  The effect on
    [currentUserId] redirects an anonymous visitor to [/register] and
    otherwise runs [loadCart].  [handleRemove] (the [onRemove] callback of
    each [CartItem]) clears the error, awaits [removeFromCart] and then
    [loadCart]; [handleCheckout] refuses an empty cart, clears the error,
    awaits [checkout] and stores the result, emptying the cart on success.
    While a checkout result is stored the page shows it instead of the
    cart, with "Continue Shopping" as the only control.  A rejected
    [getCart] only sets [error]: the page has no error state of its
    own and shows the error above the empty cart's view.

    An [await] continuation runs the closure of the render that started
    it: the [loadCart] after a removal uses the user id of that render,
    which the await point [AwaitRemove] carries.

    Module [CartItem] is [src/unnamed/part_004]: the line's elements
    with prices through [toFixed(2)] and its Remove button, whose
    [onRemove] receives the line's product id.  [cp_elements] is the
    page's view as the tests query it. *)

From S2P Require Import Prelude JsString Api Session Runtime.
From Stdlib Require QArith_base Qring.

(** ** The [CartItem] component ([src/unnamed/part_004]) *)

Module CartItem.

(** [handleRemove = () => onRemove(item.productId)]: the argument the
    row's Remove button passes to the page's callback. *)
Definition handleRemove (item : CartItemDto) : Z := item_productId item.

(** The elements the component renders, in document order: the name
    ([<h3>]), the price, the quantity, the subtotal's label and value,
    the Remove button. *)
Definition CartItem (item : CartItemDto) : list element :=
  [Heading 3 (item_productName item);
   Text ("Price: $" +++ toFixed 2 (item_price item));
   Text ("Quantity: " +++ int_to_string (item_quantity item));
   Text "Subtotal:";
   Text ("$" +++ toFixed 2 (item_subtotal item));
   Button "Remove" false]%string.

End CartItem.

Module CartPage.

Record cp_state : Type := mkCpState {
  cp_userId : option Z;
  cp_items : list CartItemDto;
  cp_loading : bool;
  cp_error : option string;
  cp_checkoutResult : option CheckoutResultDto
}.

Inductive cp_event : Type :=
| RemoveClick (productId : Z)        (** a [CartItem]'s Remove button *)
| CheckoutClick                      (** Proceed to Checkout *)
| ContinueShopping                   (** the button of the checkout result *)
| StartShopping                      (** the button of the empty cart *)
| UserChanged (u : option Z).        (** [currentUserId] changes *)

Inductive cp_await : Type :=
| AwaitCart                          (** [await getCart(currentUserId)] in [loadCart] *)
| AwaitRemove (u : Z)                (** [await removeFromCart(u, productId)] *)
| AwaitCheckout.                     (** [await checkout(currentUserId)] *)

(** The page arms no timer. *)
Inductive cp_timer : Type := .

Abbreviation cp_effect := (effect cp_await cp_timer).

(** ** The state setters *)

Definition setUserId (u : option Z) (st : cp_state) : cp_state :=
  mkCpState u (cp_items st) (cp_loading st) (cp_error st) (cp_checkoutResult st).
Definition setCartItems (l : list CartItemDto) (st : cp_state) : cp_state :=
  mkCpState (cp_userId st) l (cp_loading st) (cp_error st) (cp_checkoutResult st).
Definition setLoading (b : bool) (st : cp_state) : cp_state :=
  mkCpState (cp_userId st) (cp_items st) b (cp_error st) (cp_checkoutResult st).
Definition setError (e : option string) (st : cp_state) : cp_state :=
  mkCpState (cp_userId st) (cp_items st) (cp_loading st) e (cp_checkoutResult st).
Definition setCheckoutResult (r : option CheckoutResultDto) (st : cp_state) : cp_state :=
  mkCpState (cp_userId st) (cp_items st) (cp_loading st) (cp_error st) r.

(** ** The handlers *)

(** [loadCart] up to its [await], for the user id of its closure. *)
Definition loadCart (uid : option Z) (st : cp_state) : cp_state * list cp_effect :=
  match truthy_id uid with
  | None => (st, [])
  | Some u => (setError None (setLoading true st), [Call AwaitCart (GetCart u)])
  end.

(** The effect [if (!currentUserId) { navigate("/register"); return; } loadCart();]. *)
Definition cart_effect (st : cp_state) : cp_state * list cp_effect :=
  match truthy_id (cp_userId st) with
  | None => (st, [Navigate "/register"%string])
  | Some _ => loadCart (cp_userId st) st
  end.

Definition cp_init (uid : option Z) : cp_state * list cp_effect :=
  cart_effect (mkCpState uid [] true None None).

(** [handleRemove(productId)] up to its first [await]. *)
Definition handleRemove (productId : Z) (st : cp_state) : cp_state * list cp_effect :=
  match truthy_id (cp_userId st) with
  | None => (st, [])
  | Some u => (setError None st, [Call (AwaitRemove u) (RemoveFromCart u productId)])
  end.

(** [handleCheckout] up to its [await]. *)
Definition handleCheckout (st : cp_state) : cp_state * list cp_effect :=
  match truthy_id (cp_userId st) with
  | None => (st, [])
  | Some u =>
      match cp_items st with
      | [] => (setError (Some "Your cart is empty"%string) st, [])
      | _ => (setError None st, [Call AwaitCheckout (Checkout u)])
      end
  end.

(** A re-render with a new context value re-runs the effect when the
    value changed (its dependency list is [[currentUserId, navigate]]). *)
Definition cp_event_handler (e : cp_event) (st : cp_state) : cp_state * list cp_effect :=
  match e with
  | RemoveClick pid => handleRemove pid st
  | CheckoutClick => handleCheckout st
  | ContinueShopping | StartShopping => (st, [Navigate "/"%string])
  | UserChanged u =>
      if decide (u = cp_userId st) then (st, []) else cart_effect (setUserId u st)
  end.

Definition cp_settle (k : cp_await) (o : api_result payload) (st : cp_state)
    : cp_state * list cp_effect :=
  match k, o with
  | AwaitCart, Resolved (PCart l) => (setLoading false (setCartItems l st), [])
  | AwaitCart, Resolved _ => (setLoading false st, [])
  | AwaitCart, Rejected r =>
      (setLoading false (setError (Some (error_message r "Failed to load cart")) st), [])
  | AwaitRemove u, Resolved _ => loadCart (Some u) st
  | AwaitRemove _, Rejected r => (setError (Some (error_message r "Failed to remove item")) st, [])
  | AwaitCheckout, Resolved (PCheckout res) =>
      let st' := setCheckoutResult (Some res) st in
      (if checkout_success res then setCartItems [] st' else st', [])
  | AwaitCheckout, Resolved _ => (st, [])
  | AwaitCheckout, Rejected r => (setError (Some (error_message r "Checkout failed")) st, [])
  end%string.

Definition cp_timer_handler (t : cp_timer) (st : cp_state) : cp_state * list cp_effect :=
  match t with end.

(** [calculateTotal]: [cartItems.reduce((sum, item) => sum + item.subtotal, 0)]. *)
Definition calculateTotal (items : list CartItemDto) : QArith_base.Q :=
  fold_left (fun sum item => QArith_base.Qplus sum (item_subtotal item)) items
    (QArith_base.Qmake 0 1).

(** ** What the page renders *)

Inductive cp_view : Type :=
| NullView                                         (** [return null] *)
| CartLoadingView
| ResultView (success : bool) (message : string)
    (total : option QArith_base.Q) (purchased : list CartItemDto)
| EmptyCartView (error : option string)
| ItemsView (error : option string) (items : list CartItemDto) (total : QArith_base.Q).

Definition cp_render (st : cp_state) : cp_view :=
  if negb (num_truthy (cp_userId st)) then NullView
  else if cp_loading st then CartLoadingView
  else match cp_checkoutResult st with
       | Some r =>
           ResultView (checkout_success r) (checkout_message r)
             (if checkout_success r then checkout_totalAmount r else None)
             (default [] (checkout_purchasedItems r))
       | None =>
           let err := if str_truthy (cp_error st) then cp_error st else None in
           match cp_items st with
           | [] => EmptyCartView err
           | items => ItemsView err items (calculateTotal items)
           end
       end.

(** The elements rendered, in document order. *)
Definition cp_elements (st : cp_state) : list element :=
  match cp_render st with
  | NullView => []
  | CartLoadingView => [Text "Loading cart..."%string]
  | ResultView success message total purchased =>
      [Heading 2 (if success then "✓ Checkout Successful!"%string else "Checkout Failed"%string); Text message] ++
      (match total with Some t => [Text "Total Amount:"%string; Text ("$"%string +++ toFixed 2 t)] | None => [] end) ++
      (match purchased with
       | [] => []
       | _ => Heading 3 "Purchased Items:"%string :: map (fun item => Text (item_productName item +++ " x "%string
                +++ int_to_string (item_quantity item) +++ " - $"%string +++ toFixed 2 (item_subtotal item)))
                purchased
       end) ++ [Button "Continue Shopping"%string false]
  | EmptyCartView err =>
      [Heading 2 "Shopping Cart"%string] ++ map Text (option_list err) ++
      [Text "Your cart is empty"%string; Button "Start Shopping"%string false]
  | ItemsView err items total =>
      [Heading 2 "Shopping Cart"%string] ++ map Text (option_list err) ++ List.concat (map CartItem.CartItem items) ++
      [Text "Total:"%string; Text ("$"%string +++ toFixed 2 total); Button "Proceed to Checkout"%string false]
  end.

Definition cp_enabled (e : cp_event) (st : cp_state) : bool :=
  match e, cp_render st with
  | RemoveClick pid, ItemsView _ items _ => bool_decide (pid ∈ map item_productId items)
  | CheckoutClick, ItemsView _ _ _ => true
  | ContinueShopping, ResultView _ _ _ _ => true
  | StartShopping, EmptyCartView _ => true
  | UserChanged _, _ => true
  | _, _ => false
  end.

Definition cart_page (uid : option Z) : page cp_state cp_event cp_await cp_timer :=
  mkPage (cp_init uid) cp_enabled cp_event_handler cp_settle cp_timer_handler.

End CartPage.

(** * Properties *)

Module CartPageProps.
Import CartPage.

(** an anonymous visitor (no user id, or the falsy id 0) who opens
    the cart is sent to [/register] by the first effect, and the page
    sends no request and renders nothing. *)
Theorem anonymous_redirect uid :
  truthy_id uid = None ->
  cfg_log (init_config (cart_page uid)) = [Navigated "/register"%string] /\
  cfg_tasks (init_config (cart_page uid)) = [] /\
  cp_render (cfg_state (init_config (cart_page uid))) = NullView.
Proof.
  intros Hu. unfold init_config, cart_page, page_init, cp_init, cart_effect. simpl.
  rewrite Hu. unfold cp_render. simpl. rewrite num_truthy_truthy_id, Hu.
  repeat split; reflexivity.
Qed.

(** C16: a checkout that resolves with [success = false] is a result, not
    an error: the page stores and shows it ("Checkout Failed" with the
    server's message), keeps the cart as it was and leaves the error
    banner alone; with [success = true] it empties the cart and shows the
    total. *)
Theorem checkout_result_handling st res :
  let st' := (cp_settle AwaitCheckout (Resolved (PCheckout res)) st).1 in
  cp_checkoutResult st' = Some res /\ cp_error st' = cp_error st /\
  cp_items st' = (if checkout_success res then [] else cp_items st) /\
  (num_truthy (cp_userId st) = true -> cp_loading st = false ->
   cp_render st' = ResultView (checkout_success res) (checkout_message res)
                     (if checkout_success res then checkout_totalAmount res else None)
                     (default [] (checkout_purchasedItems res))).
Proof.
  simpl. destruct (checkout_success res) eqn:Hs; simpl;
    (split; [reflexivity|]); (split; [reflexivity|]); (split; [reflexivity|]);
    intros Hu Hl; unfold cp_render; simpl; rewrite Hu, Hl, Hs; reflexivity.
Qed.

(** The settled checkout is never dropped by any code of the page. *)
Lemma event_keeps_result e st :
  cp_checkoutResult st <> None -> cp_checkoutResult (cp_event_handler e st).1 <> None.
Proof.
  intros H. destruct e; simpl; unfold handleRemove, handleCheckout, cart_effect, loadCart;
    repeat case_match; simpl; assumption.
Qed.

Lemma settle_keeps_result k o st :
  cp_checkoutResult st <> None -> cp_checkoutResult (cp_settle k o st).1 <> None.
Proof.
  intros H. destruct k, o as [[]|]; simpl; unfold loadCart; repeat case_match; simpl;
    try assumption; discriminate.
Qed.

(** C17: the checkout result is terminal: once a checkout has settled with
    a result, every later step keeps a result, and while it is shown the
    only controls are Continue Shopping (to [/]) and a change of user. *)
Theorem checkout_result_terminal uid c c' :
  step (cart_page uid) c c' -> cp_checkoutResult (cfg_state c) <> None ->
  cp_checkoutResult (cfg_state c') <> None /\
  (forall e, cp_enabled e (cfg_state c') = true ->
   (exists s m t l, cp_render (cfg_state c') = ResultView s m t l) ->
   e = ContinueShopping \/ exists u, e = UserChanged u).
Proof.
  intros Hs Hr. split.
  - destruct Hs as [e c0 _|c0 i k call o _ _|c0 i t _]; simpl.
    + apply event_keeps_result. exact Hr.
    + apply settle_keeps_result. exact Hr.
    + destruct t.
  - intros e He (s & m & t & l & Hv). unfold cp_enabled in He. rewrite Hv in He.
    destruct e; try discriminate; eauto.
Qed.

(** The requests the page may send, in the state of the step that sends
    them. *)
Definition cart_request_ok (st : cp_state) (call : api_call) : Prop :=
  match call with
  | GetCart u => u <> 0%Z
  | RemoveFromCart u _ => u <> 0%Z
  | Checkout u => truthy_id (cp_userId st) = Some u /\ cp_items st <> []
  | _ => False
  end.

Lemma loadCart_issues uid st call :
  Issued call ∈ omap effect_trace (loadCart uid st).2 ->
  exists u, call = GetCart u /\ truthy_id uid = Some u.
Proof. unfold loadCart. destruct (truthy_id uid) eqn:E; intros H; trace_mem H. eauto. Qed.

Lemma loadCart_request_ok uid st st' call :
  Issued call ∈ omap effect_trace (loadCart uid st).2 -> cart_request_ok st' call.
Proof.
  intros H. destruct (loadCart_issues _ _ _ H) as (u & -> & Hu).
  apply truthy_id_some in Hu as [_ Hu]. exact Hu.
Qed.

Lemma event_request_ok e st call :
  Issued call ∈ omap effect_trace (cp_event_handler e st).2 -> cart_request_ok st call.
Proof.
  destruct e; simpl; intros H.
  - unfold handleRemove in H. destruct (truthy_id (cp_userId st)) eqn:Hu; trace_mem H.
    apply truthy_id_some in Hu as [_ Hu]. exact Hu.
  - unfold handleCheckout in H. destruct (truthy_id (cp_userId st)) eqn:Hu; [|trace_mem H].
    destruct (cp_items st) eqn:Hi; trace_mem H. split; [exact Hu | congruence].
  - trace_mem H.
  - trace_mem H.
  - case_decide; [trace_mem H|]. unfold cart_effect in H.
    destruct (truthy_id (cp_userId (setUserId u st))); [|trace_mem H].
    eapply loadCart_request_ok. exact H.
Qed.

Lemma settle_request_ok k o st call :
  Issued call ∈ omap effect_trace (cp_settle k o st).2 -> cart_request_ok st call.
Proof.
  destruct k, o as [[]|]; simpl; intros H; try trace_mem H;
    eapply loadCart_request_ok; exact H.
Qed.

(** C2: the cart page sends only cart requests, each for a real (truthy)
    user id, and asks for a checkout only for the signed-in user and only
    while the cart it shows is not empty, in every interleaving. *)
Theorem cart_requests_guarded uid c c' call :
  step (cart_page uid) c c' -> Issued call ∈ cfg_log c' -> Issued call ∉ cfg_log c ->
  cart_request_ok (cfg_state c) call.
Proof.
  intros Hs Hin Hnot. destruct (step_issued _ _ _ _ Hs Hin Hnot) as (effs & Hran & Hx).
  destruct Hran as [(e & _ & ->)|[(k & o & ->)|(t & ->)]].
  - eapply event_request_ok. exact Hx.
  - eapply settle_request_ok. exact Hx.
  - destruct t.
Qed.

(** every checkout attempt clears the previous error before it
    awaits: after a first failure ("Payment failed", say), a second
    failing attempt shows the second message and nothing of the first. *)
Theorem second_failure_replaces_first st m :
  truthy_id (cp_userId st) <> None -> cp_items st <> [] -> cp_loading st = false ->
  cp_checkoutResult st = None -> m <> EmptyString ->
  let st1 := (cp_event_handler CheckoutClick st).1 in
  cp_error st1 = None /\
  cp_render (cp_settle AwaitCheckout (Rejected (RejError m)) st1).1
  = ItemsView (Some m) (cp_items st) (calculateTotal (cp_items st)).
Proof.
  intros Hu Hi Hl Hr Hm. simpl. unfold handleCheckout.
  destruct (truthy_id (cp_userId st)) as [u|] eqn:Eu; [|congruence].
  destruct (cp_items st) as [|it its] eqn:Ei; [congruence|].
  split; [reflexivity|].
  unfold cp_render. simpl. rewrite num_truthy_truthy_id, Eu, Hl, Hr, Ei.
  destruct m; [congruence | reflexivity].
Qed.

(** A signed-in visitor's cart page mounts with one [getCart] pending. *)
Lemma cart_init_signed_in uid u :
  truthy_id uid = Some u ->
  init_config (cart_page uid)
  = mkConfig (mkCpState uid [] true None None) [TCall AwaitCart (GetCart u)] [Issued (GetCart u)].
Proof.
  intros Hu. unfold init_config, cart_page, page_init, cp_init, cart_effect, loadCart.
  cbn -[truthy_id]. rewrite Hu. reflexivity.
Qed.

(** The cart page after its load settles with [o]. *)
Definition cart_loaded (uid : option Z) (o : api_result payload) :=
  run (cart_page uid) [ASettle 0 o] (init_config (cart_page uid)).

(** C18: a failed cart load has no state of its own: the page renders the
    empty-cart view of a loaded empty cart, "Your cart is empty" and the
    "Start Shopping" button, with the error text above it; the only
    action offered besides a change of user is the way back to the
    product list, with no retry. *)
Theorem failed_cart_load_renders_empty uid u m :
  truthy_id uid = Some u -> m <> EmptyString ->
  exists c c0,
    cart_loaded uid (Rejected (RejError m)) = Some c /\
    cart_loaded uid (Resolved (PCart [])) = Some c0 /\
    cp_render (cfg_state c) = EmptyCartView (Some m) /\
    cp_elements (cfg_state c)
    = [Heading 2 "Shopping Cart"; Text m; Text "Your cart is empty"; Button "Start Shopping" false] /\
    cp_elements (cfg_state c0)
    = [Heading 2 "Shopping Cart"; Text "Your cart is empty"; Button "Start Shopping" false] /\
    (forall e, cp_enabled e (cfg_state c) = true -> e = StartShopping \/ exists v, e = UserChanged v).
Proof.
  intros Hu Hm. unfold cart_loaded. rewrite (cart_init_signed_in uid u Hu).
  assert (Hn : num_truthy uid = true) by (rewrite num_truthy_truthy_id, Hu; reflexivity).
  assert (Ht : str_truthy (Some m) = true) by (apply str_truthy_spec; eauto).
  do 2 eexists. split; [reflexivity|]. split; [reflexivity|].
  unfold cp_elements, cp_enabled, cp_render; cbn -[str_truthy num_truthy]; rewrite Hn, Ht.
  split_and!; try reflexivity.
  intros []; cbn; try discriminate; eauto.
Qed.

End CartPageProps.

(** * Concrete runs *)

Module CartPageRuns.
Import CartPage CartPageProps.

Definition demo_item : CartItemDto :=
  mkCartItemDto 1 7 "Desk lamp" (QArith_base.Qmake 25 1) 1 (QArith_base.Qmake 25 1).

Definition demo_result (ok : bool) (msg : string) : CheckoutResultDto :=
  mkCheckoutResultDto ok msg (if ok then Some (QArith_base.Qmake 25 1) else None) None.

(** The cart of user 3 holding one lamp, loaded. *)
Definition demo_cart : cp_state := mkCpState (Some 3%Z) [demo_item] false None None.

Definition demo_page := cart_page (Some 3%Z).

Lemma anonymous_redirect_witness :
  cfg_log (init_config (cart_page None)) = [Navigated "/register"%string] /\
  cfg_tasks (init_config (cart_page None)) = [] /\
  cp_render (cfg_state (init_config (cart_page None))) = NullView.
Proof. apply anonymous_redirect. reflexivity. Defined.

Lemma checkout_result_handling_witness :
  cp_render (cp_settle AwaitCheckout
               (Resolved (PCheckout (demo_result false "Some items out of stock"))) demo_cart).1
  = ResultView false "Some items out of stock" None [] /\
  cp_items (cp_settle AwaitCheckout
               (Resolved (PCheckout (demo_result false "Some items out of stock"))) demo_cart).1
  = [demo_item].
Proof.
  destruct (checkout_result_handling demo_cart (demo_result false "Some items out of stock"))
    as (_ & _ & Hi & Hr).
  split; [apply Hr; reflexivity | exact Hi].
Defined.

Definition paid_config : config cp_state cp_await cp_timer :=
  exec (cp_settle AwaitCheckout (Resolved (PCheckout (demo_result true "Order placed"))) demo_cart)
       [] [].

Lemma checkout_result_terminal_witness :
  cp_checkoutResult (cfg_state (exec (cp_event_handler ContinueShopping (cfg_state paid_config))
                                  (cfg_tasks paid_config) (cfg_log paid_config))) <> None.
Proof.
  apply (checkout_result_terminal (Some 3%Z) paid_config).
  - apply (step_event demo_page ContinueShopping paid_config). reflexivity.
  - discriminate.
Defined.

Lemma cart_requests_guarded_witness :
  cart_request_ok demo_cart (Checkout 3).
Proof.
  apply (cart_requests_guarded (Some 3%Z) (mkConfig demo_cart [] [])
           (exec (cp_event_handler CheckoutClick demo_cart) [] [])).
  - apply (step_event demo_page CheckoutClick (mkConfig demo_cart [] [])). reflexivity.
  - simpl. apply list_elem_of_singleton. reflexivity.
  - apply not_elem_of_nil.
Defined.

Lemma second_failure_replaces_first_witness :
  cp_error (cp_event_handler CheckoutClick (setError (Some "Payment failed"%string) demo_cart)).1
    = None /\
  cp_render (cp_settle AwaitCheckout (Rejected (RejError "Card declined"))
               (cp_event_handler CheckoutClick (setError (Some "Payment failed"%string) demo_cart)).1).1
  = ItemsView (Some "Card declined"%string) [demo_item] (calculateTotal [demo_item]).
Proof.
  apply (second_failure_replaces_first (setError (Some "Payment failed"%string) demo_cart));
    simpl; congruence.
Defined.

(** The double checkout: the cart is loaded, the button is clicked twice
    before the first response, the first checkout succeeds and the second
    finds the cart already empty. *)
Definition loaded_cart_config : config cp_state cp_await cp_timer :=
  exec (cp_settle AwaitCart (Resolved (PCart [demo_item])) (cfg_state (init_config demo_page)))
       (delete 0%nat (cfg_tasks (init_config demo_page))) (cfg_log (init_config demo_page)).

Definition after_event (e : cp_event) (c : config cp_state cp_await cp_timer) :=
  exec (cp_event_handler e (cfg_state c)) (cfg_tasks c) (cfg_log c).

Definition after_settle (o : api_result payload) (c : config cp_state cp_await cp_timer) :=
  exec (cp_settle AwaitCheckout o (cfg_state c)) (delete 0%nat (cfg_tasks c)) (cfg_log c).

Definition twice_clicked : config cp_state cp_await cp_timer :=
  after_event CheckoutClick (after_event CheckoutClick loaded_cart_config).

Definition overwritten_config : config cp_state cp_await cp_timer :=
  after_settle (Resolved (PCheckout (demo_result false "Your cart is empty")))
    (after_settle (Resolved (PCheckout (demo_result true "Order placed"))) twice_clicked).

Lemma overwritten_reachable : reachable demo_page overwritten_config.
Proof.
  assert (R1 : reachable demo_page loaded_cart_config).
  { eapply reachable_step; [apply rtc_refl|].
    eapply (step_settle demo_page _ 0%nat AwaitCart (GetCart 3)); reflexivity. }
  assert (R2 : reachable demo_page twice_clicked).
  { eapply reachable_step; [|apply (step_event demo_page CheckoutClick); reflexivity].
    eapply reachable_step; [exact R1 | apply (step_event demo_page CheckoutClick); reflexivity]. }
  eapply reachable_step; [|eapply (step_settle demo_page _ 0%nat AwaitCheckout (Checkout 3));
                           reflexivity].
  eapply reachable_step; [exact R2|].
  eapply (step_settle demo_page _ 0%nat AwaitCheckout (Checkout 3)); reflexivity.
Qed.

(** Nothing stops a second click on Proceed to Checkout while the
    first is pending; the two checkouts race and the last response wins
    the screen.  Here the order is placed, yet the page ends on "Checkout
    Failed" with the second request's message. *)
Theorem double_checkout_last_wins :
  reachable demo_page overwritten_config /\
  cfg_log overwritten_config = [Issued (GetCart 3); Issued (Checkout 3); Issued (Checkout 3)] /\
  cp_render (cfg_state overwritten_config)
  = ResultView false "Your cart is empty" None [].
Proof. split; [exact overwritten_reachable | split; reflexivity]. Qed.

Lemma failed_cart_load_renders_empty_witness :
  exists c c0,
    CartPageProps.cart_loaded (Some 3%Z) (Rejected (RejError "Network error")) = Some c /\
    CartPageProps.cart_loaded (Some 3%Z) (Resolved (PCart [])) = Some c0 /\
    cp_render (cfg_state c) = EmptyCartView (Some "Network error"%string) /\
    cp_elements (cfg_state c)
    = [Heading 2 "Shopping Cart"; Text "Network error"; Text "Your cart is empty";
       Button "Start Shopping" false] /\
    cp_elements (cfg_state c0)
    = [Heading 2 "Shopping Cart"; Text "Your cart is empty"; Button "Start Shopping" false] /\
    (forall e, cp_enabled e (cfg_state c) = true -> e = StartShopping \/ exists v, e = UserChanged v).
Proof. apply (failed_cart_load_renders_empty (Some 3%Z) 3%Z); [reflexivity | discriminate]. Defined.

End CartPageRuns.

(** * The total of the cart *)

Module CartTotal.
Import CartPage QArith_base Qring.
Local Open Scope Q_scope.

(** The reference sum of the line subtotals. *)
Definition sum_subtotals (items : list CartItemDto) : Q :=
  fold_right (fun item acc => item_subtotal item + acc) 0 items.

Lemma calculateTotal_acc items a :
  fold_left (fun sum item => sum + item_subtotal item) items a == a + sum_subtotals items.
Proof.
  revert a. induction items as [|it items IH]; intros a; simpl.
  - ring.
  - rewrite IH. ring.
Qed.

Lemma calculateTotal_sum_subtotals items : calculateTotal items == sum_subtotals items.
Proof. unfold calculateTotal. rewrite calculateTotal_acc. ring. Qed.

Lemma sum_subtotals_perm items1 items2 :
  Permutation items1 items2 -> sum_subtotals items1 == sum_subtotals items2.
Proof.
  induction 1 as [|x l1 l2 _ IH|x y l|l1 l2 l3 _ IH1 _ IH2]; simpl.
  - reflexivity.
  - rewrite IH. reflexivity.
  - ring.
  - rewrite IH1. exact IH2.
Qed.

#[export] Instance calculateTotal_proper : Proper (Permutation ==> Qeq) calculateTotal.
Proof.
  intros l1 l2 Hp. rewrite !calculateTotal_sum_subtotals. apply sum_subtotals_perm. exact Hp.
Qed.

(** the total the cart shows ([calculateTotal], a left fold from 0)
    is the sum of the line subtotals, and two listings of the same lines
    in another order show equal totals. *)
Theorem rendered_total st err items t :
  cp_render st = ItemsView err items t ->
  t == sum_subtotals items /\
  forall st' items' t', cp_render st' = ItemsView err items' t' ->
    Permutation items items' -> t == t'.
Proof.
  unfold cp_render. intros Hv.
  assert (Ht : forall s e l x, (if negb (num_truthy (cp_userId s)) then NullView
     else if cp_loading s then CartLoadingView
     else match cp_checkoutResult s with
          | Some r => ResultView (checkout_success r) (checkout_message r)
                        (if checkout_success r then checkout_totalAmount r else None)
                        (default [] (checkout_purchasedItems r))
          | None => let err := if str_truthy (cp_error s) then cp_error s else None in
                    match cp_items s with
                    | [] => EmptyCartView err
                    | items => ItemsView err items (calculateTotal items)
                    end
          end) = ItemsView e l x -> x = calculateTotal l).
  { intros s e l x H. repeat case_match; congruence. }
  apply Ht in Hv as ->. split; [apply calculateTotal_sum_subtotals|].
  intros st' items' t' Hv' Hp. apply Ht in Hv' as ->. rewrite Hp. reflexivity.
Qed.

Lemma rendered_total_witness :
  calculateTotal [CartPageRuns.demo_item] == sum_subtotals [CartPageRuns.demo_item].
Proof.
  apply (rendered_total CartPageRuns.demo_cart None).
  reflexivity.
Defined.

End CartTotal.
