(* ===== verification/Home.v ===== *)
(** * The product list: [Home] in [src/src/pages/Home.tsx] (lines 14-95)
      and the [ProductCard] component of [src/unnamed/part_005]

    State: the [useState] cells [products], [loading], [error] and
    [message], with the context's [currentUserId].  [loadProducts] runs on
    mount and on Retry; [handleAddToCart(productId, quantity)] is the
    [onAddToCart] callback each [ProductCard] calls with quantity 1 when
    its Add to Cart button is clicked by a signed-in user.  A failed
    add-to-cart sets [error], which replaces the list by the error view.

    The card's own logic (the truthiness guard of its click handler, the
    disabled button when out of stock, the description cut at 100
    characters) is in [ProductCard]. *)

From S2P Require Import Prelude JsString Api Session Runtime.

(** ** [ProductCard] *)

Module ProductCard.

Inductive card_button : Type :=
| AddButton (disabled : bool)         (** [<button disabled={isOutOfStock}>] *)
| RegisterToPurchase.                 (** [<Link to="/register">] *)

Record card_view : Type := mkCardView {
  card_route : string;
  card_name : string;
  card_description : option string;
  card_price : string;                  (** [${product.price.toFixed(2)}] *)
  card_stock : string;
  card_action : card_button
}.

(** [description.length > 100 ? `${description.substring(0, 100)}...` : description] *)
Definition shown_description (d : string) : string :=
  if (100 <? String.length d)%nat then substring 0 100 d +++ "..." else d.

Definition isOutOfStock (p : ProductDto) : bool := (product_stockQuantity p <=? 0)%Z.

Definition card (uid : option Z) (p : ProductDto) : card_view :=
  mkCardView ("/product/" +++ int_to_string (product_id p)) (product_name p)
    (match product_description p with
     | Some d => if str_truthy (Some d) then Some (shown_description d) else None
     | None => None
     end)
    ("$" +++ toFixed 2 (product_price p))
    (if isOutOfStock p then "Out of Stock" else int_to_string (product_stockQuantity p) +++ " in stock")
    (if num_truthy uid then AddButton (isOutOfStock p) else RegisterToPurchase).

(** The card's elements in document order: the title inside its link
    (React Testing Library finds the text on the [<h3>], the link itself
    holds no text node), the description, the price, the stock and the
    button or the register link. *)
Definition card_elements (v : card_view) : list element :=
  [Heading 3 (card_name v)] ++ map Text (option_list (card_description v)) ++
  [Text (card_price v); Text (card_stock v)] ++
  [match card_action v with
   | AddButton d => Button (if d then "Out of Stock" else "Add to Cart")%string d
   | RegisterToPurchase => Link "Register to purchase"%string "/register"%string
   end].

(** The card's click handler: [if (onAddToCart && currentUserId)
    onAddToCart(product.id, 1)]; the list always passes [onAddToCart]. *)
Definition card_click (uid : option Z) (p : ProductDto) : option (Z * Z) :=
  if num_truthy uid then Some (product_id p, 1%Z) else None.

End ProductCard.

(** ** [Home] *)

Module Home.
Import ProductCard.

Record home_state : Type := mkHomeState {
  h_userId : option Z;
  h_products : list ProductDto;
  h_loading : bool;
  h_error : option string;
  h_message : option string
}.

Inductive home_event : Type :=
| CardAddClick (p : ProductDto)       (** the Add to Cart button of [p]'s card *)
| Retry                               (** the Retry button of the error view *)
| OpenProduct (p : ProductDto)        (** the title link of [p]'s card *)
| RegisterLink                        (** a card's Register to purchase link *)
| UserChanged (u : option Z).

Inductive home_await : Type :=
| AwaitProducts                       (** [await getProducts()] *)
| AwaitAdd.                           (** [await addToCart(...)] *)

Inductive home_timer : Type :=
| TimerClearMessage.                  (** [setTimeout(() => setMessage(null), 3000)] *)

Abbreviation home_effect := (effect home_await home_timer).

Definition setUserId (u : option Z) (st : home_state) : home_state :=
  mkHomeState u (h_products st) (h_loading st) (h_error st) (h_message st).
Definition setProducts (l : list ProductDto) (st : home_state) : home_state :=
  mkHomeState (h_userId st) l (h_loading st) (h_error st) (h_message st).
Definition setLoading (b : bool) (st : home_state) : home_state :=
  mkHomeState (h_userId st) (h_products st) b (h_error st) (h_message st).
Definition setError (e : option string) (st : home_state) : home_state :=
  mkHomeState (h_userId st) (h_products st) (h_loading st) e (h_message st).
Definition setMessage (m : option string) (st : home_state) : home_state :=
  mkHomeState (h_userId st) (h_products st) (h_loading st) (h_error st) m.

(** [loadProducts] up to its [await]. *)
Definition loadProducts (st : home_state) : home_state * list home_effect :=
  (setError None (setLoading true st), [Call AwaitProducts GetProducts]).

Definition home_init (uid : option Z) : home_state * list home_effect :=
  loadProducts (mkHomeState uid [] true None None).

(** [handleAddToCart(productId, quantity)] up to its [await]. *)
Definition handleAddToCart (productId quantity : Z) (st : home_state)
    : home_state * list home_effect :=
  match truthy_id (h_userId st) with
  | None => (setMessage (Some "Please register or login to add items to cart"%string) st, [])
  | Some u =>
      (setMessage None st, [Call AwaitAdd (AddToCart u (mkAddToCartRequest productId quantity))])
  end.

Definition home_event_handler (e : home_event) (st : home_state)
    : home_state * list home_effect :=
  match e with
  | CardAddClick p =>
      match card_click (h_userId st) p with
      | Some (pid, q) => handleAddToCart pid q st
      | None => (st, [])
      end
  | Retry => loadProducts st
  | OpenProduct p => (st, [Navigate (card_route (card (h_userId st) p))])
  | RegisterLink => (st, [Navigate "/register"%string])
  | UserChanged u => (setUserId u st, [])
  end.

Definition home_settle (k : home_await) (o : api_result payload) (st : home_state)
    : home_state * list home_effect :=
  match k, o with
  | AwaitProducts, Resolved (PProducts l) => (setLoading false (setProducts l st), [])
  | AwaitProducts, Resolved _ => (setLoading false st, [])
  | AwaitProducts, Rejected r =>
      (setLoading false (setError (Some (error_message r "Failed to load products")) st), [])
  | AwaitAdd, Resolved _ => (setMessage (Some "Item added to cart!") st, [Timer TimerClearMessage])
  | AwaitAdd, Rejected r => (setError (Some (error_message r "Failed to add to cart")) st, [])
  end%string.

Definition home_timer_handler (t : home_timer) (st : home_state)
    : home_state * list home_effect :=
  match t with
  | TimerClearMessage => (setMessage None st, [])
  end.

(** ** What the page renders *)

Inductive home_view : Type :=
| LoadingView
| ErrorView (text : string)                        (** with its Retry button *)
| EmptyView (message : option string)              (** "No products available" *)
| ListView (message : option string) (cards : list card_view).

Definition home_render (st : home_state) : home_view :=
  if h_loading st then LoadingView
  else if str_truthy (h_error st) then ErrorView (default "" (h_error st))
  else
    let msg := if str_truthy (h_message st) then h_message st else None in
    match h_products st with
    | [] => EmptyView msg
    | l => ListView msg (map (card (h_userId st)) l)
    end.

(** The elements rendered, in document order. *)
Definition home_elements (st : home_state) : list element :=
  match home_render st with
  | LoadingView => [Text "Loading products..."%string]
  | ErrorView t => [Text t; Button "Retry"%string false]
  | EmptyView msg =>
      [Heading 2 "Products"%string] ++ map Text (option_list msg) ++ [Text "No products available"%string]
  | ListView msg cards =>
      [Heading 2 "Products"%string] ++ map Text (option_list msg) ++ List.concat (map card_elements cards)
  end.

Definition home_enabled (e : home_event) (st : home_state) : bool :=
  match e, home_render st with
  | CardAddClick p, ListView _ _ =>
      bool_decide (p ∈ h_products st) && num_truthy (h_userId st) && negb (isOutOfStock p)
  | OpenProduct p, ListView _ _ => bool_decide (p ∈ h_products st)
  | RegisterLink, ListView _ _ => negb (num_truthy (h_userId st))
  | Retry, ErrorView _ => true
  | UserChanged _, _ => true
  | _, _ => false
  end.

Definition home_page (uid : option Z) : page home_state home_event home_await home_timer :=
  mkPage (home_init uid) home_enabled home_event_handler home_settle home_timer_handler.

End Home.

(** * Properties *)

Module HomeProps.
Import ProductCard Home.

(** C21: every [addToCart] the product list sends is for quantity 1, for
    the signed-in user, and for a product of the list that is in stock
    (its card's button is not disabled). *)
Theorem home_add_guarded uid c c' u r :
  step (home_page uid) c c' ->
  Issued (AddToCart u r) ∈ cfg_log c' -> Issued (AddToCart u r) ∉ cfg_log c ->
  add_quantity r = 1%Z /\ truthy_id (h_userId (cfg_state c)) = Some u /\
  exists p, p ∈ h_products (cfg_state c) /\ product_id p = add_productId r /\
            (0 < product_stockQuantity p)%Z.
Proof.
  intros Hs Hin Hnot. destruct (step_issued _ _ _ _ Hs Hin Hnot) as (effs & Hran & Hx).
  destruct Hran as [(e & He & ->)|[(k & o & ->)|(t & ->)]].
  - destruct e as [p| |p| |u']; simpl in Hx; try (trace_mem Hx; fail).
    unfold card_click in Hx. simpl in He.
    destruct (home_render (cfg_state c)); try discriminate.
    apply andb_true_iff in He as [He Hstock]. apply andb_true_iff in He as [Hmem Hu].
    rewrite Hu in Hx. unfold handleAddToCart in Hx.
    destruct (truthy_id (h_userId (cfg_state c))) eqn:Eu; trace_mem Hx.
    split; [reflexivity|]. split; [reflexivity|].
    exists p. split; [exact (bool_decide_eq_true_1 _ Hmem)|]. split; [reflexivity|].
    unfold isOutOfStock in Hstock. apply negb_true_iff, Z.leb_gt in Hstock. exact Hstock.
  - destruct k, o as [[]|]; simpl in Hx; trace_mem Hx.
  - destruct t; trace_mem Hx.
Qed.

Definition is_products_load (k : home_await) : bool :=
  match k with AwaitProducts => true | AwaitAdd => false end.

(** the list shows its loading state exactly while the products
    request is pending, and never has two of them pending: Retry is only
    offered once the previous load has failed. *)
Theorem home_loading_iff_pending uid c :
  reachable (home_page uid) c ->
  loads is_products_load (cfg_tasks c) = if h_loading (cfg_state c) then 1%nat else 0%nat.
Proof.
  apply (reachable_load_count _ is_products_load h_loading).
  - reflexivity.
  - intros e st He. unfold flag_count, loads.
    destruct e as [p| |p| |u']; simpl.
    + unfold card_click, handleAddToCart.
      destruct (num_truthy (h_userId st)); [destruct (truthy_id (h_userId st))|]; simpl;
        destruct (h_loading st); reflexivity.
    + destruct (h_loading st) eqn:El; [|reflexivity]. exfalso.
      simpl in He. unfold home_enabled, home_render in He. rewrite El in He. discriminate He.
    + destruct (h_loading st); reflexivity.
    + destruct (h_loading st); reflexivity.
    + destruct (h_loading st); reflexivity.
  - intros k o st Hk. unfold flag_count, loads.
    destruct k, o as [[]|]; simpl in *; rewrite ?Hk by reflexivity; simpl;
      try reflexivity; destruct (h_loading st); reflexivity.
  - intros t st. unfold flag_count, loads. destruct t; simpl.
    destruct (h_loading st); reflexivity.
Qed.

(** a failed add-to-cart on the list replaces the whole list by the
    error view with the error's message and a Retry button, which reloads
    the products; the message banner the spec describes for action
    results is not used. *)
Theorem home_add_failure_hides_list st msg cards m :
  home_render st = ListView msg cards -> m <> EmptyString ->
  let st' := (home_settle AwaitAdd (Rejected (RejError m)) st).1 in
  home_render st' = ErrorView m /\ home_enabled Retry st' = true /\
  h_message st' = h_message st.
Proof.
  intros Hv Hm. unfold home_render in Hv.
  destruct (h_loading st) eqn:El; [discriminate|].
  destruct (str_truthy (h_error st)); [discriminate|].
  destruct m as [|a m]; [congruence|].
  unfold home_enabled, home_render. simpl. rewrite El. repeat split; reflexivity.
Qed.

(** Retry re-enters the loading state and asks for the products again;
    when they arrive the list shows them. *)
Theorem retry_reloads st text l :
  home_render st = ErrorView text -> l <> [] ->
  let r := home_event_handler Retry st in
  home_render r.1 = LoadingView /\ r.2 = [Call AwaitProducts GetProducts] /\
  home_render (home_settle AwaitProducts (Resolved (PProducts l)) r.1).1
  = ListView (if str_truthy (h_message st) then h_message st else None)
             (map (ProductCard.card (h_userId st)) l).
Proof.
  intros _ Hl. simpl. split; [reflexivity|]. split; [reflexivity|].
  unfold home_render. simpl. destruct l; [congruence | reflexivity].
Qed.

(** A card shows at most 103 characters of a description: the first
    100 and "...", and the whole text when it is not longer than 100. *)
Theorem shown_description_bound d :
  (String.length (shown_description d) <= 103)%nat /\
  ((String.length d <= 100)%nat -> shown_description d = d) /\
  ((100 < String.length d)%nat -> shown_description d = substring 0 100 d +++ "...").
Proof.
  unfold shown_description. destruct (Nat.ltb_spec 100 (String.length d)).
  - rewrite str_length_app, substring_0_length, Nat.min_l by lia.
    change (String.length "...") with 3%nat. repeat split; intros; (lia || reflexivity).
  - repeat split; intros; (lia || reflexivity).
Qed.

End HomeProps.

(** * Concrete runs *)

Module HomeRuns.
Import ProductCard Home HomeProps.

Definition lamp : ProductDto := mkProductDto 7 "Desk lamp" None (QArith_base.Qmake 25 1) 5.

Definition demo_list : home_state := mkHomeState (Some 3%Z) [lamp] false None None.

Definition demo_page := home_page (Some 3%Z).

Lemma home_add_guarded_witness :
  add_quantity (mkAddToCartRequest 7 1) = 1%Z /\ truthy_id (h_userId demo_list) = Some 3%Z /\
  exists p, p ∈ h_products demo_list /\ product_id p = add_productId (mkAddToCartRequest 7 1) /\
            (0 < product_stockQuantity p)%Z.
Proof.
  apply (home_add_guarded (Some 3%Z) (mkConfig demo_list [] [])
           (exec (home_event_handler (CardAddClick lamp) demo_list) [] [])).
  - apply (step_event demo_page (CardAddClick lamp) (mkConfig demo_list [] [])). reflexivity.
  - simpl. apply list_elem_of_singleton. reflexivity.
  - apply not_elem_of_nil.
Defined.

Lemma home_loading_iff_pending_witness :
  loads is_products_load (cfg_tasks (init_config demo_page)) = 1%nat.
Proof. rewrite (home_loading_iff_pending (Some 3%Z)); [reflexivity | apply rtc_refl]. Defined.

Lemma home_add_failure_hides_list_witness :
  home_render (home_settle AwaitAdd (Rejected (RejError "Insufficient stock")) demo_list).1
  = ErrorView "Insufficient stock".
Proof.
  apply (home_add_failure_hides_list demo_list None [card (Some 3%Z) lamp]);
    [reflexivity | discriminate].
Defined.

Lemma retry_reloads_witness :
  (home_event_handler Retry (setError (Some "Failed to fetch"%string) demo_list)).2
  = [Call AwaitProducts GetProducts].
Proof.
  apply (retry_reloads (setError (Some "Failed to fetch"%string) demo_list) "Failed to fetch" [lamp]);
    [reflexivity | discriminate].
Defined.

Lemma shown_description_bound_witness :
  shown_description "A small lamp" = "A small lamp"%string.
Proof. apply shown_description_bound. simpl. lia. Defined.

End HomeRuns.
