(* ===== verification/Register.v ===== *)
(** * The registration page: [Register] in [src/src/pages/Register.tsx]
      (lines 12-137)

    A signed-in user sees "Already Logged In"; otherwise the page is a
    form with the cells [username], [email], [loading] and [error].
    [handleSubmit] clears the error, checks that the trimmed username and
    email are not empty and that the (untrimmed) email matches
    [/^[^\s@]+@[^\s@]+\.[^\s@]+$/], then awaits [createUser] with the
    trimmed fields, stores the new id with [setCurrentUserId] and
    navigates to [/].

    [EmailCheck] gives an executable matcher for the regular expression
    and proves it equal to the language the expression denotes.  The page
    is written against the context interface [Session.UserContextType]:
    its theorems use only the interface's law, and [registration_persists]
    instantiates it with the [localStorage]-backed session.  What the
    inputs deliver is their sanitized value ([JsString.text_value],
    [JsString.email_value]).  [reg_elements] is the view as the unit
    tests query it. *)

From S2P Require Import Prelude JsString Api Session Runtime.

(** ** The e-mail check *)

Module EmailCheck.

(** [[^\s@]]: neither white space nor ['@']. *)
Definition ok_char (c : ascii) : bool := negb (is_space c) && negb (Ascii.eqb c "@"%char).

Fixpoint all_ok (s : string) : bool :=
  match s with
  | String c r => ok_char c && all_ok r
  | EmptyString => true
  end.

Definition nonempty (s : string) : bool :=
  match s with EmptyString => false | String _ _ => true end.

(** The text before the first ['@'] and the text after it. *)
Fixpoint split_at_sign (s : string) : option (string * string) :=
  match s with
  | EmptyString => None
  | String c r =>
      if Ascii.eqb c "@"%char then Some (EmptyString, r)
      else match split_at_sign r with
           | Some (a, b) => Some (String c a, b)
           | None => None
           end
  end.

(** Some ['.'] of [s] is followed by at least one character. *)
Fixpoint dot_then_more (s : string) : bool :=
  match s with
  | EmptyString => false
  | String c r => (Ascii.eqb c "."%char && nonempty r) || dot_then_more r
  end.

(** Some ['.'] of [s] is neither its first nor its last character. *)
Definition inner_dot (s : string) : bool :=
  match s with
  | EmptyString => false
  | String _ r => dot_then_more r
  end.

(** [emailRegex.test(email)] *)
Definition emailRegex_test (s : string) : bool :=
  match split_at_sign s with
  | Some (a, r) => nonempty a && all_ok a && all_ok r && inner_dot r
  | None => false
  end.

(** The language of [^[^\s@]+@[^\s@]+\.[^\s@]+$]. *)
Definition email_lang (s : string) : Prop :=
  exists a b c, s = a +++ String "@" (b +++ String "." c) /\
    a <> EmptyString /\ b <> EmptyString /\ c <> EmptyString /\
    all_ok a = true /\ all_ok b = true /\ all_ok c = true.

Lemma all_ok_app a b : all_ok (a +++ b) = all_ok a && all_ok b.
Proof.
  induction a as [|x a IH]; [reflexivity|].
  rewrite str_app_cons. simpl. rewrite IH, andb_assoc. reflexivity.
Qed.

Lemma split_at_sign_app a r :
  all_ok a = true -> split_at_sign (a +++ String "@" r) = Some (a, r).
Proof.
  induction a as [|x a IH]; [reflexivity|]. rewrite str_app_cons. simpl.
  intros H. apply andb_true_iff in H as [Hx Ha]. unfold ok_char in Hx.
  apply andb_true_iff in Hx as [_ Hx]. apply negb_true_iff in Hx. rewrite Hx, IH by exact Ha.
  reflexivity.
Qed.

Lemma split_at_sign_some s a r :
  split_at_sign s = Some (a, r) -> s = a +++ String "@" r.
Proof.
  revert a. induction s as [|x s IH]; intros a; simpl; [discriminate|].
  destruct (Ascii.eqb_spec x "@"%char) as [->|_].
  - injection 1 as <- <-. reflexivity.
  - destruct (split_at_sign s) as [[a' b]|]; [|discriminate].
    injection 1 as <- <-. rewrite str_app_cons, <- IH; reflexivity.
Qed.

Lemma dot_then_more_spec s :
  dot_then_more s = true <-> exists b c, s = b +++ String "." c /\ c <> EmptyString.
Proof.
  induction s as [|x s IH]; simpl.
  - split; [discriminate|]. intros (b & c & H & _). destruct b; discriminate.
  - rewrite orb_true_iff, IH. split.
    + intros [H|(b & c & -> & Hc)].
      * apply andb_true_iff in H as [Hx Hs]. apply Ascii.eqb_eq in Hx as ->.
        exists EmptyString, s. split; [reflexivity|]. destruct s; [discriminate | congruence].
      * exists (String x b), c. split; [reflexivity | exact Hc].
    + intros ([|y b] & c & H & Hc).
      * injection H as -> ->. left. destruct c; [congruence | reflexivity].
      * rewrite str_app_cons in H. injection H as -> ->. right. eauto.
Qed.

Lemma inner_dot_spec s :
  inner_dot s = true <->
  exists b c, s = b +++ String "." c /\ b <> EmptyString /\ c <> EmptyString.
Proof.
  destruct s as [|x s]; simpl.
  - split; [discriminate|]. intros (b & c & H & Hb & _). destruct b; [congruence | discriminate].
  - rewrite dot_then_more_spec. split.
    + intros (b & c & -> & Hc). exists (String x b), c. split; [reflexivity|]. split; [discriminate | exact Hc].
    + intros ([|y b] & c & H & Hb & Hc); [congruence|].
      rewrite str_app_cons in H. injection H as -> ->. eauto.
Qed.

Lemma ok_char_dot : ok_char "."%char = true.
Proof. reflexivity. Qed.

Lemma all_ok_no_space s : all_ok s = true -> no_space s = true.
Proof.
  induction s as [|c r IH]; [reflexivity|]. simpl.
  intros H. apply andb_true_iff in H as [Hc Hr]. unfold ok_char in Hc.
  apply andb_true_iff in Hc as [Hc _]. rewrite Hc, IH by exact Hr. reflexivity.
Qed.

(** The matcher accepts exactly the language of
    [/^[^\s@]+@[^\s@]+\.[^\s@]+$/]: a non-empty local part, one ['@'],
    and a domain with a dot that is neither its first nor its last
    character, none of the three parts holding white space or ['@']. *)
Theorem emailRegex_test_correct s : emailRegex_test s = true <-> email_lang s.
Proof.
  unfold emailRegex_test, email_lang. split.
  - destruct (split_at_sign s) as [[a r]|] eqn:Hs; [|discriminate].
    intros H. apply andb_true_iff in H as [H Hdot]. apply andb_true_iff in H as [H Hr].
    apply andb_true_iff in H as [Hne Ha].
    apply inner_dot_spec in Hdot as (b & c & -> & Hb & Hc).
    rewrite all_ok_app in Hr. simpl in Hr. apply andb_true_iff in Hr as [Hb' Hc'].
    exists a, b, c. split; [exact (split_at_sign_some _ _ _ Hs)|].
    repeat split; try assumption. destruct a; [discriminate | congruence].
  - intros (a & b & c & -> & Ha & Hb & Hc & Hoka & Hokb & Hokc).
    rewrite split_at_sign_app by exact Hoka.
    rewrite Hoka, all_ok_app. simpl. rewrite Hokb, Hokc.
    destruct a; [congruence|]. simpl.
    apply inner_dot_spec. eauto.
Qed.

(** An address the check accepts has no white space. *)
Lemma email_lang_no_space s : email_lang s -> no_space s = true.
Proof.
  intros (a & b & c & -> & _ & _ & _ & Ha & Hb & Hc).
  rewrite no_space_app. simpl. rewrite no_space_app. simpl.
  rewrite !all_ok_no_space by assumption. reflexivity.
Qed.

(** So the [.trim()] applied to it before the request changes nothing. *)
Lemma email_lang_trim s : email_lang s -> trim s = s.
Proof. intros H. apply trim_no_space, email_lang_no_space, H. Qed.

Lemma email_lang_nonempty s : email_lang s -> s <> EmptyString.
Proof. intros (a & b & c & -> & Ha & _). destruct a; [congruence | discriminate]. Qed.

End EmailCheck.

(** ** The page *)

Module RegisterPage.
Import EmailCheck.

Section Page.

(** The context the page reads and writes, through its interface. *)
Context {C : Type} `{UserContextType C}.

Record reg_state : Type := mkRegState {
  r_ctx : C;
  r_username : string;
  r_email : string;
  r_loading : bool;
  r_error : option string
}.

Inductive reg_event : Type :=
| UsernameInput (text : string)       (** typing into [<input type="text">] *)
| EmailInput (text : string)          (** typing into [<input type="email">] *)
| Submit                              (** the form's [onSubmit] *)
| GoProducts                          (** "Go to Products" when signed in *)
| ViewCart                            (** "View Cart" when signed in *)
| ContextSet (u : option Z).          (** another component sets the user *)

Inductive reg_await : Type :=
| AwaitCreate.                        (** [await createUser(...)] *)

Inductive reg_timer : Type := .

Definition setCtx (c : C) (st : reg_state) : reg_state :=
  mkRegState c (r_username st) (r_email st) (r_loading st) (r_error st).
Definition setUsername (u : string) (st : reg_state) : reg_state :=
  mkRegState (r_ctx st) u (r_email st) (r_loading st) (r_error st).
Definition setEmail (e : string) (st : reg_state) : reg_state :=
  mkRegState (r_ctx st) (r_username st) e (r_loading st) (r_error st).
Definition setLoading (b : bool) (st : reg_state) : reg_state :=
  mkRegState (r_ctx st) (r_username st) (r_email st) b (r_error st).
Definition setError (e : option string) (st : reg_state) : reg_state :=
  mkRegState (r_ctx st) (r_username st) (r_email st) (r_loading st) e.

(** [handleSubmit] up to its [await]. *)
Definition handleSubmit (st0 : reg_state) : reg_state * list (effect reg_await reg_timer) :=
  let st := setError None st0 in
  if negb (str_truthy (Some (trim (r_username st)))) then
    (setError (Some "Username is required") st, [])
  else if negb (str_truthy (Some (trim (r_email st)))) then
    (setError (Some "Email is required") st, [])
  else if negb (emailRegex_test (r_email st)) then
    (setError (Some "Please enter a valid email address") st, [])
  else
    (setLoading true st,
     [Call AwaitCreate (CreateUser (mkCreateUserRequest (trim (r_username st)) (trim (r_email st))))])%string.

Definition reg_event_handler (e : reg_event) (st : reg_state)
    : reg_state * list (effect reg_await reg_timer) :=
  match e with
  | UsernameInput t => (setUsername (text_value t) st, [])
  | EmailInput t => (setEmail (email_value t) st, [])
  | Submit => handleSubmit st
  | GoProducts => (st, [Navigate "/"%string])
  | ViewCart => (st, [Navigate "/cart"%string])
  | ContextSet u => (setCtx (setCurrentUserId u (r_ctx st)) st, [])
  end.

(** After the [await]: store the id, navigate home; [finally] clears
    [loading]. *)
Definition reg_settle (k : reg_await) (o : api_result payload) (st : reg_state)
    : reg_state * list (effect reg_await reg_timer) :=
  match k, o with
  | AwaitCreate, Resolved (PUser user) =>
      (setLoading false (setCtx (setCurrentUserId (Some (user_id user)) (r_ctx st)) st),
       [Navigate "/"%string])
  | AwaitCreate, Resolved _ => (setLoading false st, [])
  | AwaitCreate, Rejected r =>
      (setLoading false (setError (Some (error_message r "Failed to create user"%string)) st), [])
  end.

Definition reg_timer_handler (t : reg_timer) (st : reg_state)
    : reg_state * list (effect reg_await reg_timer) :=
  match t with end.

Inductive reg_view : Type :=
| AlreadyLoggedIn (id : Z)
| FormView (error : option string) (username email : string) (submitting : bool).

Definition reg_render (st : reg_state) : reg_view :=
  match currentUserId (r_ctx st) with
  | Some id =>
      if num_truthy (Some id) then AlreadyLoggedIn id
      else FormView (if str_truthy (r_error st) then r_error st else None)
             (r_username st) (r_email st) (r_loading st)
  | None =>
      FormView (if str_truthy (r_error st) then r_error st else None)
        (r_username st) (r_email st) (r_loading st)
  end.

(** The elements rendered, in document order. *)
Definition reg_elements (st : reg_state) : list element :=
  match reg_render st with
  | AlreadyLoggedIn id =>
      [Heading 2 "Already Logged In"%string;
       Text ("You are currently logged in as User ID: "%string +++ int_to_string id);
       Button "Go to Products"%string false; Button "View Cart"%string false]
  | FormView err username email submitting =>
      [Heading 2 "Register / Login"%string;
       Text "Create a new account or login with your existing credentials"%string] ++
      map Text (option_list err) ++
      [Text "Username"%string; Input "text" "Username"%string username submitting;
       Text "Email"%string; Input "email" "Email"%string email submitting;
       Button (if submitting then "Creating Account..."%string else "Register"%string) submitting]
  end.

(** The inputs and the submit button are [disabled={loading}]. *)
Definition reg_enabled (e : reg_event) (st : reg_state) : bool :=
  match e, reg_render st with
  | (UsernameInput _ | EmailInput _ | Submit), FormView _ _ _ false => true
  | (GoProducts | ViewCart), AlreadyLoggedIn _ => true
  | ContextSet _, _ => true
  | _, _ => false
  end.

Definition register_page (ctx : C) : page reg_state reg_event reg_await reg_timer :=
  mkPage (mkRegState ctx "" "" false None, []) reg_enabled reg_event_handler reg_settle
    reg_timer_handler.

End Page.

End RegisterPage.

(** * Properties *)

Module RegisterProps.
Import EmailCheck RegisterPage.

Lemma str_truthy_some_iff s : str_truthy (Some s) = true <-> s <> EmptyString.
Proof. destruct s; simpl; split; congruence. Qed.

Section Props.

Context {C : Type} `{UserContextLaws C}.

Lemma handleSubmit_issues (st : @reg_state C) dto :
  Issued (CreateUser dto) ∈ omap effect_trace (handleSubmit st).2 ->
  create_username dto = trim (r_username st) /\ create_username dto <> EmptyString /\
  email_lang (r_email st) /\ create_email dto = r_email st.
Proof.
  unfold handleSubmit. cbv zeta.
  change (r_username (setError None st)) with (r_username st).
  change (r_email (setError None st)) with (r_email st).
  destruct (str_truthy (Some (trim (r_username st)))) eqn:Hu; [|simpl; intros Hx; trace_mem Hx].
  destruct (str_truthy (Some (trim (r_email st)))) eqn:He; [|simpl; intros Hx; trace_mem Hx].
  destruct (emailRegex_test (r_email st)) eqn:Hm; simpl; intros Hx; trace_mem Hx.
  apply emailRegex_test_correct in Hm.
  split; [reflexivity|]. split; [apply str_truthy_some_iff; exact Hu|].
  split; [exact Hm | apply email_lang_trim; exact Hm].
Qed.

(** C22: the page asks the server to create a user only with a username
    that is not blank once trimmed (and sent trimmed) and an e-mail
    address in the language of the page's regular expression, sent as
    typed. *)
Theorem register_request_valid (ctx : C) c c' dto :
  step (register_page ctx) c c' ->
  Issued (CreateUser dto) ∈ cfg_log c' -> Issued (CreateUser dto) ∉ cfg_log c ->
  create_username dto = trim (r_username (cfg_state c)) /\
  create_username dto <> EmptyString /\
  email_lang (r_email (cfg_state c)) /\ create_email dto = r_email (cfg_state c).
Proof.
  intros Hs Hin Hnot. destruct (step_issued _ _ _ _ Hs Hin Hnot) as (effs & Hran & Hx).
  destruct Hran as [(e & _ & ->)|[(k & o & ->)|(t & ->)]].
  - destruct e; simpl in Hx; try (trace_mem Hx; fail). apply handleSubmit_issues. exact Hx.
  - destruct k, o as [[]|]; simpl in Hx; trace_mem Hx.
  - destruct t.
Qed.

(** A username of white space only is refused with "Username is
    required" before any request, whatever the previous error was. *)
Theorem blank_username_refused (st : @reg_state C) :
  all_space (r_username st) = true ->
  handleSubmit st = (setError (Some "Username is required"%string) (setError None st), []).
Proof.
  intros Hs. unfold handleSubmit. simpl.
  apply trim_empty_iff in Hs. rewrite Hs. reflexivity.
Qed.

(** a successful registration signs the new user in through the
    context (by the context's law, whatever its implementation),
    navigates to [/], ends the submitting state, and the page then shows
    "Already Logged In" for a non-zero id. *)
Theorem registration_signs_in (st : @reg_state C) u :
  let r := reg_settle AwaitCreate (Resolved (PUser u)) st in
  currentUserId (r_ctx r.1) = Some (user_id u) /\ r.2 = [Navigate "/"%string] /\
  r_loading r.1 = false /\
  (user_id u <> 0%Z -> reg_render r.1 = AlreadyLoggedIn (user_id u)).
Proof.
  simpl. rewrite set_then_get. split; [reflexivity|]. split; [reflexivity|].
  split; [reflexivity|]. intros Hu. unfold reg_render. simpl. rewrite set_then_get.
  simpl. destruct (Z.eqb_spec (user_id u) 0); [contradiction | reflexivity].
Qed.

End Props.

Lemma space_not_email c e : is_space c = true -> emailRegex_test (String c e) = false.
Proof.
  intros Hc. unfold emailRegex_test. simpl.
  destruct (Ascii.eqb_spec c "@"%char) as [->|_]; [discriminate Hc|].
  destruct (split_at_sign e) as [[a b]|]; [|reflexivity].
  simpl. unfold ok_char. rewrite Hc. reflexivity.
Qed.

(** The vertical tab: white space for [\s] and [trim], not for HTML. *)
Definition vertical_tab : ascii := ascii_of_nat 11.

(** C39: the e-mail input itself drops surrounding ASCII white space, so
    an address typed after a space registers as the bare address; but the
    regular expression is tested before [.trim()], so an address typed
    after a vertical tab (kept by the input, white space for [\s] and
    [trim]) is refused as invalid although the trimmed address the page
    would send is valid. *)
Theorem padded_email_refused {C} `{UserContextType C} (st : @reg_state C) e :
  all_space (r_username st) = false -> email_lang e ->
  r_email (reg_event_handler (EmailInput (String " " e)) st).1 = e /\
  let st' := (reg_event_handler (EmailInput (String vertical_tab e)) st).1 in
  r_email st' = String vertical_tab e /\ email_lang (trim (r_email st')) /\
  handleSubmit st'
  = (setError (Some "Please enter a valid email address"%string) (setError None st'), []).
Proof.
  intros Hu He. pose proof (email_lang_no_space _ He) as Hs.
  pose proof (email_lang_nonempty _ He) as Hne. simpl.
  rewrite email_value_ws, email_value_no_space by (reflexivity || exact Hs).
  split; [reflexivity|].
  rewrite email_value_keep by (reflexivity || assumption).
  assert (Ht : trim (String vertical_tab e) = e) by exact (email_lang_trim _ He).
  split; [reflexivity|]. rewrite Ht. split; [exact He|].
  unfold handleSubmit. cbv zeta. simpl. rewrite Ht.
  apply not_true_iff_false in Hu. rewrite <- trim_empty_iff in Hu.
  destruct (trim (r_username st)) as [|x y]; [congruence|]. simpl.
  destruct e as [|x' y']; [congruence|]. simpl.
  rewrite space_not_email by reflexivity. reflexivity.
Qed.

(** With the [localStorage]-backed session as the context, the new user
    is still signed in after a reload. *)
Theorem registration_persists (st : @reg_state session) u :
  currentUserId
    (session_apply EvReload (r_ctx (reg_settle AwaitCreate (Resolved (PUser u)) st).1))
  = Some (user_id u).
Proof.
  simpl. unfold boot, provider_mount, session_init. simpl.
  rewrite stored_user_id_insert. reflexivity.
Qed.

End RegisterProps.

(** * Concrete runs *)

Module RegisterRuns.
Import EmailCheck RegisterPage RegisterProps.

Definition form (username email : string) : @reg_state session :=
  mkRegState (boot ∅) username email false None.

Definition demo_page := register_page (boot ∅).

Lemma emailRegex_test_correct_witness :
  email_lang "alice@example.com" /\ ~ email_lang "alice@example".
Proof.
  split.
  - apply emailRegex_test_correct. reflexivity.
  - intros H. apply emailRegex_test_correct in H. discriminate H.
Defined.

Lemma register_request_valid_witness :
  create_username (mkCreateUserRequest "alice" "alice@example.com") = trim " alice " /\
  create_username (mkCreateUserRequest "alice" "alice@example.com") <> EmptyString /\
  email_lang "alice@example.com" /\
  create_email (mkCreateUserRequest "alice" "alice@example.com") = "alice@example.com"%string.
Proof.
  apply (register_request_valid (boot ∅) (mkConfig (form " alice " "alice@example.com") [] [])
           (exec (reg_event_handler Submit (form " alice " "alice@example.com")) [] [])).
  - apply (step_event demo_page Submit (mkConfig (form " alice " "alice@example.com") [] [])).
    reflexivity.
  - simpl. apply list_elem_of_singleton. reflexivity.
  - apply not_elem_of_nil.
Defined.

Lemma blank_username_refused_witness :
  handleSubmit (form "   " "alice@example.com")
  = (setError (Some "Username is required"%string) (setError None (form "   " "alice@example.com")), []).
Proof. apply blank_username_refused. reflexivity. Defined.

Lemma registration_signs_in_witness :
  reg_render (reg_settle AwaitCreate (Resolved (PUser (mkUserDto 42 "alice" "alice@example.com")))
                (form "alice" "alice@example.com")).1 = AlreadyLoggedIn 42.
Proof. apply (registration_signs_in (form "alice" "alice@example.com")). discriminate. Defined.

Lemma alice_email : email_lang "alice@example.com".
Proof. exists "alice"%string, "example"%string, "com"%string. repeat split; discriminate. Qed.

Lemma padded_email_refused_witness :
  r_email (reg_event_handler (EmailInput " alice@example.com") (form "alice" "")).1
  = "alice@example.com"%string.
Proof. apply (padded_email_refused (form "alice" "") _ eq_refl alice_email). Defined.

End RegisterRuns.
