(* ===== verification/App.v ===== *)
(** * The application shell: [App], [NotFound] and [main.tsx]

    The second and third parts of [src/src/pages/Home.tsx] (lines 96-188)
    are [App.tsx] and [main.tsx].  [main.tsx] renders [App] inside
    [BrowserRouter] and [UserContextProvider]; [App] renders the [Header]
    and a [<Routes>] table with lazily loaded pages:
    [/] [Home], [/product/:id] [ProductDetail], [/register] [Register],
    [/cart] [CartPage], and [*] [NotFound].

    [route_of] is the matching react-router performs on that table: a
    static segment matches without regard to case, trailing slashes are
    ignored, and [:id] is one non-empty segment.  [mount] is the page a
    route renders, with the user id of the provider's session.  The
    theorems say that every navigation a page performs and every link of
    the header and of [NotFound] reaches a page of the table, and that the
    link of a product card opens the detail page of that very product. *)

From S2P Require Import Prelude JsString Api Session Runtime ProductDetail CartPage Home Register.

Module App.
Import ProductDetail CartPage Home RegisterPage.

(** The elements of [<Routes>]. *)
Inductive route : Type :=
| RHome
| RProduct (id : string)
| RRegister
| RCart
| RNotFound.

#[export] Instance route_eq_dec : EqDecision route.
Proof. solve_decision. Defined.

Definition is_slash (c : ascii) : bool := Ascii.eqb c "/"%char.

(** React-router compiles its patterns with the [i] flag: a segment is
    compared lower-cased. *)
Definition seg_is (seg lit : string) : bool := String.eqb (lower_string seg) lit.

(** The pattern's trailing [\/*$]: remove every trailing slash. *)
Fixpoint drop_trailing (s : string) : string :=
  match s with
  | EmptyString => EmptyString
  | String c r =>
      let r' := drop_trailing r in
      if is_slash c && String.eqb r' EmptyString then EmptyString else String c r'
  end.

Fixpoint split_slash (s : string) : list string :=
  match s with
  | EmptyString => [EmptyString]
  | String c r =>
      let l := split_slash r in
      if is_slash c then EmptyString :: l
      else match l with
           | seg :: rest => String c seg :: rest
           | [] => [String c EmptyString]
           end
  end.

(** The route a location's path renders. *)
Definition route_of (path : string) : route :=
  match drop_trailing path with
  | EmptyString => RHome
  | String c rest =>
      if is_slash c then
        match split_slash rest with
        | [a] =>
            if seg_is a "cart" then RCart
            else if seg_is a "register" then RRegister
            else RNotFound
        | [a; id] =>
            if seg_is a "product" && negb (String.eqb id EmptyString) then RProduct id
            else RNotFound
        | _ => RNotFound
        end
      else RNotFound
  end%string.

(** A mounted page with its configuration in the event loop. *)
Inductive mounted : Type :=
| MHome (c : config home_state home_await home_timer)
| MProduct (id : string) (c : config pd_state pd_await pd_timer)
| MRegister (c : config (@reg_state session) reg_await reg_timer)
| MCart (c : config cp_state cp_await cp_timer)
| MNotFound.

(** The element of each route, rendered under the provider: the pages
    read [currentUserId] from its session, [Register] uses the session
    as its [UserContextType]. *)
Definition mount (r : route) (s : session) : mounted :=
  match r with
  | RHome => MHome (init_config (home_page (sess_userId s)))
  | RProduct id => MProduct id (init_config (product_detail (Some id) (sess_userId s)))
  | RRegister => MRegister (init_config (register_page s))
  | RCart => MCart (init_config (cart_page (sess_userId s)))
  | RNotFound => MNotFound
  end.

(** The [to] of the header's links. *)
Definition header_link (it : header_item) : option string :=
  match it with
  | LinkProducts => Some "/"
  | LinkCart => Some "/cart"
  | LinkRegister => Some "/register"
  | UserInfo _ | LogoutButton => None
  end%string.

(** The [to] of the header's logo, the [<Link to="/">] around its [<h1>]. *)
Definition logo_link : string := "/".

(** [NotFound]'s [<a href="/">Go back to home</a>]. *)
Definition notfound_link : string := "/".

(** ** What the application renders *)

(** [Header] ([src/src/components/Header.tsx]): the logo's [<h1>] inside
    its link (the text is found on the [<h1>]), the [Products] link, and
    the signed-in user's part or the register link. *)
Definition header_element (it : header_item) : element :=
  match it with
  | LinkProducts => Link "Products" "/"
  | LinkCart => Link "Cart" "/cart"
  | UserInfo id => Text ("User ID: " +++ int_to_string id)
  | LogoutButton => Button "Logout" false
  | LinkRegister => Link "Register / Login" "/register"
  end%string.

Definition header_elements (uid : option Z) : list element :=
  Heading 1 "AI Store"%string :: map header_element (header_items uid).

(** [NotFound]. *)
Definition notfound_elements : list element :=
  [Heading 1 "404 - Page Not Found"; Text "The page you're looking for doesn't exist.";
   Link "Go back to home" notfound_link]%string.

(** The element of the route, as [<Routes>] renders it. *)
Definition mounted_elements (m : mounted) : list element :=
  match m with
  | MHome c => home_elements (cfg_state c)
  | MProduct _ c => pd_elements (cfg_state c)
  | MRegister c => reg_elements (cfg_state c)
  | MCart c => cp_elements (cfg_state c)
  | MNotFound => notfound_elements
  end.

End App.

(** * Properties *)

Module AppProps.
Import App ProductCard ProductDetail CartPage Home RegisterPage.

Definition no_slash (s : string) : bool := str_forall (fun c => negb (is_slash c)) s.

(** A request, or a navigation to a page of the table. *)
Definition resolves (x : trace_event) : Prop :=
  match x with
  | Navigated r => route_of r <> RNotFound
  | Issued _ => True
  end.

Lemma split_slash_no_slash s : no_slash s = true -> split_slash s = [s].
Proof.
  induction s as [|c r IH]; [reflexivity|].
  unfold no_slash. simpl. intros [Hc Hr]%andb_true_iff. apply negb_true_iff in Hc.
  rewrite Hc, IH by exact Hr. reflexivity.
Qed.

Lemma drop_trailing_no_slash s : no_slash s = true -> drop_trailing s = s.
Proof.
  induction s as [|c r IH]; [reflexivity|].
  unfold no_slash. simpl. intros [Hc Hr]%andb_true_iff. apply negb_true_iff in Hc.
  rewrite Hc, IH by exact Hr. reflexivity.
Qed.

Lemma drop_trailing_app a s :
  drop_trailing s = s -> s <> EmptyString -> drop_trailing (a +++ s) = a +++ s.
Proof.
  intros Hs Hne. induction a as [|c a IH]; [exact Hs|].
  rewrite str_app_cons. simpl. rewrite IH.
  destruct a as [|c' a']; [destruct s; [congruence|]|]; rewrite ?str_app_nil_l, ?str_app_cons;
    simpl; rewrite andb_false_r; reflexivity.
Qed.

Lemma int_to_string_no_slash z : no_slash (int_to_string z) = true.
Proof.
  unfold no_slash. apply (str_forall_impl (fun c => is_digit c || Ascii.eqb c "-"%char));
    [|apply int_to_string_chars].
  intros c Hc. apply negb_true_iff. unfold is_slash.
  destruct (Ascii.eqb_spec c "/"%char) as [->|]; [vm_compute in Hc; discriminate|reflexivity].
Qed.

(** The link of a product card is a route of the table with the id as
    its parameter. *)
Lemma route_of_product_link z :
  route_of ("/product/" +++ int_to_string z) = RProduct (int_to_string z).
Proof.
  pose proof (int_to_string_no_slash z) as Hs. pose proof (int_to_string_nonempty z) as Hne.
  unfold route_of. rewrite drop_trailing_app by auto using drop_trailing_no_slash.
  rewrite !str_app_cons, str_app_nil_l. simpl. rewrite (split_slash_no_slash _ Hs).
  destruct (int_to_string z); [congruence|reflexivity].
Qed.

(** The code of the pages' handlers, unfolded to check their effects. *)
Create HintDb page_code.
#[export] Hint Unfold home_init loadProducts home_event_handler Home.handleAddToCart home_settle
  home_timer_handler pd_init loadProduct pd_event_handler ProductDetail.handleAddToCart pd_settle
  pd_timer_handler cp_init cart_effect loadCart cp_event_handler handleRemove handleCheckout
  cp_settle cp_timer_handler reg_event_handler handleSubmit reg_settle reg_timer_handler : page_code.

(** Close one of the hypotheses of [reachable_log_forall] for [resolves]:
    unfold the handler, split its cases and check each target. *)
Ltac nav_effects :=
  unfold effects_ok; intros;
  match goal with H : _ ∈ omap effect_trace _ |- _ =>
    simpl in H; autounfold with page_code in H; simpl in H; repeat case_match; trace_mem H end;
  cbn [resolves];
  first [exact I | vm_compute; discriminate | rewrite route_of_product_link; discriminate].

Lemma home_navigations uid c x : reachable (home_page uid) c -> x ∈ cfg_log c -> resolves x.
Proof. intros Hr. revert x. apply (reachable_log_forall (home_page uid) resolves); [nav_effects..|exact Hr]. Qed.

Lemma product_navigations id uid c x :
  reachable (product_detail id uid) c -> x ∈ cfg_log c -> resolves x.
Proof. intros Hr. revert x. apply (reachable_log_forall (product_detail id uid) resolves); [nav_effects..|exact Hr]. Qed.

Lemma cart_navigations uid c x : reachable (cart_page uid) c -> x ∈ cfg_log c -> resolves x.
Proof. intros Hr. revert x. apply (reachable_log_forall (cart_page uid) resolves); [nav_effects..|exact Hr]. Qed.

Lemma register_navigations {C} `{UserContextType C} (ctx : C) c x :
  reachable (register_page ctx) c -> x ∈ cfg_log c -> resolves x.
Proof. intros Hr. revert x. apply (reachable_log_forall (register_page ctx) resolves); [nav_effects..|exact Hr]. Qed.

(** C31: every navigation any page performs, in any run, and every link
    of the header (its logo included) and of [NotFound] lead to a page of
    the route table, never to [NotFound]. *)
Theorem navigation_targets_resolve :
  (forall uid c x, reachable (home_page uid) c -> x ∈ cfg_log c -> resolves x) /\
  (forall id uid c x, reachable (product_detail id uid) c -> x ∈ cfg_log c -> resolves x) /\
  (forall uid c x, reachable (cart_page uid) c -> x ∈ cfg_log c -> resolves x) /\
  (forall C `{UserContextType C} (ctx : C) c x,
     reachable (register_page ctx) c -> x ∈ cfg_log c -> resolves x) /\
  (forall uid it to, it ∈ header_items uid -> header_link it = Some to -> route_of to <> RNotFound) /\
  route_of logo_link <> RNotFound /\ route_of notfound_link <> RNotFound.
Proof.
  split; [exact home_navigations|]. split; [exact product_navigations|].
  split; [exact cart_navigations|]. split; [intros; eapply register_navigations; eauto|].
  split; [|split; vm_compute; discriminate].
  intros uid it to Hit Hl. unfold header_items in Hit.
  repeat case_match; repeat (apply elem_of_cons in Hit as [Hit|Hit] || apply elem_of_nil in Hit);
    try contradiction; subst; simplify_eq/=; vm_compute; discriminate.
Qed.

(** C32: a product card links to [/product/<id>], which the route table
    sends to the detail page of that product; on mount the page shows
    its loading state and requests exactly that product. *)
Theorem card_link_opens_product (s : session) (p : ProductDto) :
  let id := int_to_string (product_id p) in
  route_of (card_route (card (sess_userId s) p)) = RProduct id /\
  mount (route_of (card_route (card (sess_userId s) p))) s
  = MProduct id (init_config (product_detail (Some id) (sess_userId s))) /\
  pd_loading (cfg_state (init_config (product_detail (Some id) (sess_userId s)))) = true /\
  cfg_log (init_config (product_detail (Some id) (sess_userId s)))
  = [Issued (GetProductById (JInt (product_id p)))].
Proof.
  cbn zeta. unfold card, card_route. rewrite route_of_product_link.
  split; [reflexivity|]. split; [reflexivity|].
  unfold init_config, product_detail, pd_init. simpl.
  destruct (int_to_string (product_id p)) as [|c r] eqn:E;
    [exfalso; exact (int_to_string_nonempty _ E)|].
  simpl. rewrite <- E, parseInt_int_to_string_nil. split; reflexivity.
Qed.

End AppProps.

Module AppRuns.
Import App AppProps CartPage.

Lemma navigation_targets_resolve_witness :
  reachable (cart_page None) (init_config (cart_page None)) /\
  Navigated "/register"%string ∈ cfg_log (init_config (cart_page None)) /\
  route_of "/register" <> RNotFound.
Proof.
  assert (Hr : reachable (cart_page None) (init_config (cart_page None))) by constructor.
  assert (Hin : Navigated "/register"%string ∈ cfg_log (init_config (cart_page None)))
    by (simpl; constructor).
  split; [exact Hr|]. split; [exact Hin|].
  exact (proj1 (proj2 (proj2 navigation_targets_resolve)) None _ _ Hr Hin).
Defined.

End AppRuns.
