(* ===== verification/Shell.v ===== *)
(** * The whole application: provider, header, router and the mounted page

    [main.tsx] renders [App] inside [BrowserRouter] and
    [UserContextProvider]; [App] shows the [Header] above the element of
    the current route.  A [shell] is the provider's session, the path of
    the location and the page mounted for it, with its configuration in
    the event loop of [Runtime].

    [shell_step] lets the mounted page take any step of its own
    ([ustep]: clicks, responses, timers, but not the context changes),
    and the user click a link or Logout in the header, or load a path in
    the browser (a reload, a typed address, [NotFound]'s plain
    [<a href="/">]).  A navigation the page performs mounts the element
    of its route (a navigation within the same route keeps the page),
    following the navigation a mount performs itself: the cart redirects
    a signed-out visitor at mount.  A context change (Logout, or the
    registration's [setCurrentUserId]) reaches the mounted page as its
    [UserChanged] event ([ContextSet] for [Register]), as the re-render
    of a context consumer does.

    A page that is unmounted with work still pending becomes an orphan:
    its responses still arrive and its timers still fire ([bstep]), its
    requests and navigations still happen, and a registration that
    completes there signs the user in through the provider
    ([set_user]); only its state is no longer shown.  A page load
    discards everything but the storage. *)

From S2P Require Import Prelude JsString Api Session Runtime ProductDetail CartPage Home Register App.

Module Shell.
Import App.

Record shell : Type := mkShell {
  sh_session : session;
  sh_path : string;
  sh_page : mounted;
  sh_orphans : list mounted          (** unmounted pages with work still pending *)
}.

(** The events of each page that stand for a context change. *)
Definition home_ctx_event (e : Home.home_event) : bool :=
  match e with Home.UserChanged _ => true | _ => false end.
Definition pd_ctx_event (e : ProductDetail.pd_event) : bool :=
  match e with ProductDetail.UserChanged _ => true | _ => false end.
Definition cp_ctx_event (e : CartPage.cp_event) : bool :=
  match e with CartPage.UserChanged _ => true | _ => false end.
Definition reg_ctx_event (e : RegisterPage.reg_event) : bool :=
  match e with RegisterPage.ContextSet _ => true | _ => false end.

Definition mounted_log (m : mounted) : list trace_event :=
  match m with
  | MHome c => cfg_log c
  | MProduct _ c => cfg_log c
  | MRegister c => cfg_log c
  | MCart c => cfg_log c
  | MNotFound => []
  end.

(** The route of the last [navigate] among logged events. *)
Fixpoint last_nav (log : list trace_event) : option string :=
  match log with
  | [] => None
  | Issued _ :: r => last_nav r
  | Navigated p :: r => match last_nav r with Some q => Some q | None => Some p end
  end.

(** Mount the element of [path]'s route, and follow the navigation its
    mount performs, with [fuel] navigations at most; a page left this way
    joins the orphans [os]. *)
Fixpoint open_path (fuel : nat) (s : session) (path : string) (os : list mounted) : shell :=
  let m := mount (route_of path) s in
  match fuel, last_nav (mounted_log m) with
  | S f, Some p => open_path f s p (m :: os)
  | _, _ => mkShell s path m os
  end.

(** One redirect at mount (the cart's) and the page it leads to. *)
Definition open_fuel : nat := 2.

Definition go (s : session) (path : string) (os : list mounted) : shell :=
  open_path open_fuel s path os.

(** [navigate(to)]: the same route keeps its page; another route mounts
    its element and the page left keeps its pending work as an orphan. *)
Definition navigate_to (s : session) (path : string) (m : mounted) (os : list mounted)
    (to : string) : shell :=
  if decide (route_of to = route_of path) then mkShell s to m os else go s to (m :: os).

(** After code that logged [new]: follow its last navigation. *)
Definition follow (s : session) (path : string) (m : mounted) (os : list mounted)
    (new : list trace_event) : shell :=
  match last_nav new with
  | Some to => navigate_to s path m os to
  | None => mkShell s path m os
  end.

(** The part of a page's log a step added. *)
Definition added (c c' : list trace_event) : list trace_event := drop (length c) c'.

(** The re-render of the mounted page with the context's new value. *)
Definition deliver (s : session) (m : mounted) : mounted * list trace_event :=
  match m with
  | MHome c =>
      let r := Home.home_event_handler (Home.UserChanged (sess_userId s)) (cfg_state c) in
      (MHome (exec r (cfg_tasks c) (cfg_log c)), omap effect_trace r.2)
  | MProduct id c =>
      let r := ProductDetail.pd_event_handler (ProductDetail.UserChanged (sess_userId s)) (cfg_state c) in
      (MProduct id (exec r (cfg_tasks c) (cfg_log c)), omap effect_trace r.2)
  | MRegister c =>
      let r := RegisterPage.reg_event_handler (RegisterPage.ContextSet (sess_userId s)) (cfg_state c) in
      (MRegister (exec r (cfg_tasks c) (cfg_log c)), omap effect_trace r.2)
  | MCart c =>
      let r := CartPage.cp_event_handler (CartPage.UserChanged (sess_userId s)) (cfg_state c) in
      (MCart (exec r (cfg_tasks c) (cfg_log c)), omap effect_trace r.2)
  | MNotFound => (MNotFound, [])
  end.

(** The provider's [setCurrentUserId(u)] called by code that then logged
    [new]: the provider's state and storage change, the mounted page
    re-renders with the new value, and the last navigation is followed. *)
Definition set_user (u : option Z) (s : session) (path : string) (m : mounted)
    (os : list mounted) (new : list trace_event) : shell :=
  let s' := setCurrentUserId u s in
  let d := deliver s' m in
  follow s' path d.1 os (d.2 ++ new).

(** The id the continuation of [createUser] passes to [setCurrentUserId]. *)
Definition created_user (o : api_result payload) : option Z :=
  match o with
  | Resolved (PUser u) => Some (user_id u)
  | _ => None
  end.

(** [main.tsx]: a page load at [path] over the browser's storage. *)
Definition shell_init (ls : gmap string string) (path : string) : shell := go (boot ls) path [].

Inductive shell_step : shell -> shell -> Prop :=
| sh_home s path os c c' :
    ustep (Home.home_page (sess_userId s)) home_ctx_event c c' ->
    shell_step (mkShell s path (MHome c) os)
      (follow s path (MHome c') os (added (cfg_log c) (cfg_log c')))
| sh_product s path os id c c' :
    ustep (ProductDetail.product_detail (Some id) (sess_userId s)) pd_ctx_event c c' ->
    shell_step (mkShell s path (MProduct id c) os)
      (follow s path (MProduct id c') os (added (cfg_log c) (cfg_log c')))
| sh_cart s path os c c' :
    ustep (CartPage.cart_page (sess_userId s)) cp_ctx_event c c' ->
    shell_step (mkShell s path (MCart c) os)
      (follow s path (MCart c') os (added (cfg_log c) (cfg_log c')))
| sh_register s path os c c' :
    ustep (RegisterPage.register_page s) reg_ctx_event c c' ->
    shell_step (mkShell s path (MRegister c) os)
      (follow (RegisterPage.r_ctx (cfg_state c')) path (MRegister c') os
         (added (cfg_log c) (cfg_log c')))
| sh_link s path m os it to :
    it ∈ header_items (sess_userId s) -> header_link it = Some to ->
    shell_step (mkShell s path m os) (navigate_to s path m os to)
| sh_logout s path m os :
    LogoutButton ∈ header_items (sess_userId s) ->
    shell_step (mkShell s path m os) (set_user None s path m os [])
| sh_load s path m os to :
    shell_step (mkShell s path m os) (shell_init (sess_storage s) to)
| sh_orphan_home s path m os j c c' :
    os !! j = Some (MHome c) -> bstep (Home.home_page None) c c' ->
    shell_step (mkShell s path m os)
      (follow s path m (<[j := MHome c']> os) (added (cfg_log c) (cfg_log c')))
| sh_orphan_product s path m os j id c c' :
    os !! j = Some (MProduct id c) -> bstep (ProductDetail.product_detail (Some id) None) c c' ->
    shell_step (mkShell s path m os)
      (follow s path m (<[j := MProduct id c']> os) (added (cfg_log c) (cfg_log c')))
| sh_orphan_cart s path m os j c c' :
    os !! j = Some (MCart c) -> bstep (CartPage.cart_page None) c c' ->
    shell_step (mkShell s path m os)
      (follow s path m (<[j := MCart c']> os) (added (cfg_log c) (cfg_log c')))
| sh_orphan_register s path m os j c i call o :
    os !! j = Some (MRegister c) ->
    cfg_tasks c !! i = Some (TCall RegisterPage.AwaitCreate call) -> outcome_fits call o = true ->
    let c' := exec (RegisterPage.reg_settle RegisterPage.AwaitCreate o (cfg_state c))
                (delete i (cfg_tasks c)) (cfg_log c) in
    let os' := <[j := MRegister c']> os in
    shell_step (mkShell s path m os)
      (match created_user o with
       | Some id => set_user (Some id) s path m os' (added (cfg_log c) (cfg_log c'))
       | None => follow s path m os' (added (cfg_log c) (cfg_log c'))
       end).

(** What [App] renders: the [Header], then the element of the route. *)
Definition shell_elements (sh : shell) : list element :=
  header_elements (sess_userId (sh_session sh)) ++ mounted_elements (sh_page sh).

(** The mounted page's [i]-th pending call settles with [o], when it can:
    the settle steps of [shell_step], as a function. *)
Definition shell_settle (sh : shell) (i : nat) (o : api_result payload) : option shell :=
  let '(mkShell s path m os) := sh in
  match m with
  | MHome c =>
      (fun c' => follow s path (MHome c') os (added (cfg_log c) (cfg_log c')))
        <$> act (Home.home_page (sess_userId s)) (ASettle i o) c
  | MProduct id c =>
      (fun c' => follow s path (MProduct id c') os (added (cfg_log c) (cfg_log c')))
        <$> act (ProductDetail.product_detail (Some id) (sess_userId s)) (ASettle i o) c
  | MCart c =>
      (fun c' => follow s path (MCart c') os (added (cfg_log c) (cfg_log c')))
        <$> act (CartPage.cart_page (sess_userId s)) (ASettle i o) c
  | MRegister c =>
      (fun c' => follow (RegisterPage.r_ctx (cfg_state c')) path (MRegister c') os
                   (added (cfg_log c) (cfg_log c')))
        <$> act (RegisterPage.register_page s) (ASettle i o) c
  | MNotFound => None
  end.

Inductive shell_reachable : shell -> Prop :=
| shell_reach_init ls path : shell_reachable (shell_init ls path)
| shell_reach_step sh sh' : shell_reachable sh -> shell_step sh sh' -> shell_reachable sh'.

End Shell.

(** * Properties *)

Module ShellProps.
Import App AppProps Shell.

(** The mounted page sees the provider's user. *)
Definition page_sees (s : session) (m : mounted) : Prop :=
  match m with
  | MHome c => Home.h_userId (cfg_state c) = sess_userId s
  | MProduct _ c => ProductDetail.pd_userId (cfg_state c) = sess_userId s
  | MCart c => CartPage.cp_userId (cfg_state c) = sess_userId s
  | MRegister c => RegisterPage.r_ctx (cfg_state c) = s
  | MNotFound => True
  end.

(** The mounted page is the element of the location's route. *)
Definition routed (path : string) (m : mounted) : Prop :=
  match route_of path, m with
  | RHome, MHome _ | RRegister, MRegister _ | RCart, MCart _ | RNotFound, MNotFound => True
  | RProduct id, MProduct id' _ => id' = id
  | _, _ => False
  end.

(** The mounted page's configuration is one its own model reaches. *)
Definition page_reachable (m : mounted) : Prop :=
  match m with
  | MHome c => exists uid, reachable (Home.home_page uid) c
  | MProduct id c => exists uid, reachable (ProductDetail.product_detail (Some id) uid) c
  | MRegister c => exists ctx, reachable (RegisterPage.register_page ctx) c
  | MCart c => exists uid, reachable (CartPage.cart_page uid) c
  | MNotFound => True
  end.

Definition shell_ok (sh : shell) : Prop :=
  session_consistent (sh_session sh) /\ page_sees (sh_session sh) (sh_page sh) /\
  routed (sh_path sh) (sh_page sh) /\ page_reachable (sh_page sh) /\
  Forall page_reachable (sh_orphans sh).

(** ** The pages' own steps keep the user they see *)

Ltac keeps_user :=
  first [intros e st _ He; destruct e; try discriminate | intros k o st | intros t st];
  simpl; autounfold with page_code; repeat case_match; reflexivity.

Lemma home_keeps_user u c c' :
  ustep (Home.home_page u) home_ctx_event c c' ->
  Home.h_userId (cfg_state c') = Home.h_userId (cfg_state c).
Proof. apply (ustep_preserves _ _ Home.h_userId); keeps_user. Qed.

Lemma product_keeps_user id u c c' :
  ustep (ProductDetail.product_detail id u) pd_ctx_event c c' ->
  ProductDetail.pd_userId (cfg_state c') = ProductDetail.pd_userId (cfg_state c).
Proof. apply (ustep_preserves _ _ ProductDetail.pd_userId); keeps_user. Qed.

Lemma cart_keeps_user u c c' :
  ustep (CartPage.cart_page u) cp_ctx_event c c' ->
  CartPage.cp_userId (cfg_state c') = CartPage.cp_userId (cfg_state c).
Proof. apply (ustep_preserves _ _ CartPage.cp_userId); keeps_user. Qed.

(** The registration page changes the context only by signing a user in. *)
Lemma register_ctx_step (ctx : session) c c' :
  ustep (RegisterPage.register_page ctx) reg_ctx_event c c' ->
  RegisterPage.r_ctx (cfg_state c') = RegisterPage.r_ctx (cfg_state c) \/
  exists id, RegisterPage.r_ctx (cfg_state c') = setCurrentUserId (Some id) (RegisterPage.r_ctx (cfg_state c)).
Proof.
  destruct 1 as [e c _ He|c i k call o _ _|c i t _]; simpl.
  - left. destruct e; try discriminate; simpl; autounfold with page_code; repeat case_match; reflexivity.
  - destruct k, o as [[]|]; simpl; eauto.
  - destruct t.
Qed.

(** ** Mounting a route *)

Lemma mount_sees s r : page_sees s (mount r s).
Proof.
  destruct r; simpl; autounfold with page_code; simpl; repeat case_match; reflexivity.
Qed.

Lemma mount_reachable s r : page_reachable (mount r s).
Proof. destruct r; simpl; try exact I; eexists; apply rtc_refl. Qed.

Lemma mount_ok s path os :
  session_consistent s -> Forall page_reachable os ->
  shell_ok (mkShell s path (mount (route_of path) s) os).
Proof.
  intros Hc Ho. repeat split; simpl; auto using mount_sees, mount_reachable.
  unfold routed. destruct (route_of path); simpl; auto.
Qed.

Lemma open_path_ok f s path os :
  session_consistent s -> Forall page_reachable os -> shell_ok (open_path f s path os).
Proof.
  revert path os. induction f as [|f IH]; intros path os Hc Ho; simpl; [apply mount_ok; assumption|].
  destruct (last_nav _); [apply IH; [exact Hc|constructor; [apply mount_reachable|exact Ho]]|].
  apply mount_ok; assumption.
Qed.

Lemma go_ok s path os :
  session_consistent s -> Forall page_reachable os -> shell_ok (go s path os).
Proof. apply open_path_ok. Qed.

Lemma navigate_to_ok s path m os to :
  shell_ok (mkShell s path m os) -> shell_ok (navigate_to s path m os to).
Proof.
  intros (Hc & Hs & Hr & Hp & Ho). unfold navigate_to.
  destruct (decide (route_of to = route_of path)) as [E|].
  - repeat split; try assumption. simpl in *. unfold routed in *. rewrite E. exact Hr.
  - apply go_ok; [exact Hc | constructor; assumption].
Qed.

Lemma follow_ok s path m os new :
  shell_ok (mkShell s path m os) -> shell_ok (follow s path m os new).
Proof. intros H. unfold follow. destruct (last_nav new); [apply navigate_to_ok|]; exact H. Qed.

(** ** Context changes *)

(** The mounted page re-rendered with the new context value sees it. *)
Lemma deliver_ok u s path m os :
  shell_ok (mkShell s path m os) ->
  shell_ok (mkShell (setCurrentUserId u s) path (deliver (setCurrentUserId u s) m).1 os).
Proof.
  intros (Hc & Hs & Hr & Hp & Ho). split; [apply setCurrentUserId_consistent|].
  split; [|split; [|split; [|exact Ho]]]; simpl in *;
    destruct m as [c|id c|c|c|]; simpl in *; try exact I; try exact Hr.
  - reflexivity.
  - reflexivity.
  - rewrite Hs. reflexivity.
  - unfold CartPage.cp_event_handler. case_match; simpl; [congruence|].
    autounfold with page_code. simpl. repeat case_match; reflexivity.
  - destruct Hp as [v Hv]. exists v. eapply reachable_step; [exact Hv|].
    apply (step_event (Home.home_page v) (Home.UserChanged u)).
    unfold Home.home_enabled. simpl. repeat case_match; reflexivity.
  - destruct Hp as [v Hv]. exists v. eapply reachable_step; [exact Hv|].
    apply (step_event (ProductDetail.product_detail (Some id) v) (ProductDetail.UserChanged u)).
    unfold ProductDetail.pd_enabled. simpl. repeat case_match; reflexivity.
  - destruct Hp as [ctx Hv]. exists ctx. eapply reachable_step; [exact Hv|].
    exact (step_event (RegisterPage.register_page ctx) (RegisterPage.ContextSet u) c eq_refl).
  - destruct Hp as [v Hv]. exists v. eapply reachable_step; [exact Hv|].
    apply (step_event (CartPage.cart_page v) (CartPage.UserChanged u)).
    unfold CartPage.cp_enabled. simpl. repeat case_match; reflexivity.
Qed.

Lemma set_user_ok u s path m os new :
  shell_ok (mkShell s path m os) -> shell_ok (set_user u s path m os new).
Proof. intros H. apply follow_ok, deliver_ok, H. Qed.

(** ** Steps of the pages *)

Ltac same := repeat split.

Lemma orphans_update os j m m' :
  Forall page_reachable os -> os !! j = Some m -> (page_reachable m -> page_reachable m') ->
  Forall page_reachable (<[j := m']> os).
Proof. intros Ho Hj Hm. apply Forall_insert; [exact Ho|]. apply Hm. exact (Forall_lookup_1 _ _ _ _ Ho Hj). Qed.

(** A step of the mounted page: it keeps the user it sees ([keeps]) and
    is a step of its own model. *)
Ltac mounted_step keeps Hu Hs Hp :=
  apply follow_ok; repeat split; simpl; try assumption;
  [ erewrite keeps by exact Hu; exact Hs
  | let v := fresh "v" in let Hv := fresh "Hv" in
    destruct Hp as [v Hv]; exists v; eapply reachable_same, ustep_step, Hu; [same|exact Hv] ].

(** A step of an orphan: a step of its own model, in place in the list. *)
Ltac orphan_step Hos Hj Hb :=
  apply follow_ok; repeat split; try assumption; simpl; apply (orphans_update _ _ _ _ Hos Hj);
  let v := fresh "v" in let Hv := fresh "Hv" in
  intros [v Hv]; exists v; eapply reachable_same, bstep_step, Hb; [same|exact Hv].

(** C3: in every state the application reaches, the provider's state
    agrees with [localStorage], the mounted page sees the provider's
    user and is the element of the location's route, and the
    configurations of the mounted page and of every unmounted page with
    pending work are ones their own models reach, so that every theorem
    proved of a page holds of it inside the application. *)
Theorem shell_invariant sh : shell_reachable sh -> shell_ok sh.
Proof.
  induction 1 as [ls path|sh sh' _ IH Hstep]; [apply go_ok; [apply boot_consistent|constructor]|].
  destruct Hstep as [s path os c c' Hu|s path os id c c' Hu|s path os c c' Hu|s path os c c' Hu
                    |s path m os it to _ _|s path m os _|s path m os to
                    |s path m os j c c' Hj Hb|s path m os j id c c' Hj Hb|s path m os j c c' Hj Hb
                    |s path m os j c i call o Hj Hi Ho];
    pose proof IH as IH'; destruct IH as (Hc & Hs & Hr & Hp & Hos); simpl in *.
  - mounted_step home_keeps_user Hu Hs Hp.
  - mounted_step product_keeps_user Hu Hs Hp.
  - mounted_step cart_keeps_user Hu Hs Hp.
  - apply follow_ok. repeat split; simpl; try assumption.
    + destruct (register_ctx_step _ _ _ Hu) as [->|[id ->]]; [congruence|].
      apply setCurrentUserId_consistent.
    + destruct Hp as [v Hv]. exists v. eapply reachable_same, ustep_step, Hu; [same|exact Hv].
  - apply navigate_to_ok, IH'.
  - apply set_user_ok, IH'.
  - apply go_ok; [apply boot_consistent|constructor].
  - orphan_step Hos Hj Hb.
  - orphan_step Hos Hj Hb.
  - orphan_step Hos Hj Hb.
  - assert (Hok : shell_ok (mkShell s path m
        (<[j := MRegister (exec (RegisterPage.reg_settle RegisterPage.AwaitCreate o (cfg_state c))
                          (delete i (cfg_tasks c)) (cfg_log c))]> os))).
    { repeat split; try assumption. simpl. apply (orphans_update _ _ _ _ Hos Hj).
      intros [v Hv]. exists v. eapply reachable_step; [exact Hv|].
      exact (step_settle _ c i _ _ o Hi Ho). }
    destruct (created_user o); [apply set_user_ok | apply follow_ok]; exact Hok.
Qed.

(** ** Flows across components *)

Lemma last_nav_app_nav l p : last_nav (l ++ [Navigated p]) = Some p.
Proof. induction l as [|[] l IH]; simpl; [reflexivity|exact IH|rewrite IH; reflexivity]. Qed.

(** A mount navigates only from the cart, to [/register]. *)
Lemma mount_nav s r p : last_nav (mounted_log (mount r s)) = Some p -> p = "/register"%string.
Proof.
  destruct r; simpl; autounfold with page_code; simpl; repeat case_match; simpl; congruence.
Qed.


(** C25: when the registration request of the mounted registration page
    succeeds, the application signs the new user in (the provider's
    state and [localStorage]), moves to [/] and mounts the product list
    for that user, which requests the products; for a non-zero id the
    header offers the cart and Logout. *)
Theorem registration_opens_home s path os c i dto u :
  route_of path = RRegister ->
  cfg_tasks c !! i = Some (TCall RegisterPage.AwaitCreate (CreateUser dto)) ->
  let s' := setCurrentUserId (Some (user_id u)) (RegisterPage.r_ctx (cfg_state c)) in
  let c' := exec (RegisterPage.reg_settle RegisterPage.AwaitCreate (Resolved (PUser u)) (cfg_state c))
              (delete i (cfg_tasks c)) (cfg_log c) in
  shell_step (mkShell s path (MRegister c) os)
    (mkShell s' "/" (MHome (init_config (Home.home_page (Some (user_id u))))) (MRegister c' :: os)) /\
  stored_user_id (sess_storage s') = Some (user_id u) /\
  cfg_log (init_config (Home.home_page (Some (user_id u)))) = [Issued GetProducts] /\
  (user_id u <> 0%Z ->
   header_items (sess_userId s') = [LinkProducts; LinkCart; UserInfo (user_id u); LogoutButton]).
Proof.
  intros Hr Hi s' c'. split; [|split; [apply stored_user_id_insert|split; [reflexivity|]]].
  - assert (Hu : ustep (RegisterPage.register_page s) reg_ctx_event c c')
      by exact (ustep_settle (RegisterPage.register_page s) reg_ctx_event c i _ _
                  (Resolved (PUser u)) Hi eq_refl).
    pose proof (sh_register s path os c c' Hu) as Hs. revert Hs. unfold follow, added, c'. simpl.
    rewrite drop_app_length. unfold navigate_to. rewrite Hr. simpl. intros Hs. exact Hs.
  - intros Hz. unfold header_items, s'. simpl.
    destruct (Z.eqb_spec (user_id u) 0); [contradiction | reflexivity].
Qed.

(** C26: Logout on the cart page, for a signed-in user, clears the stored
    id, and the cart's effect, re-run on the new context value,
    redirects to [/register], where the registration form is mounted;
    the cart page is unmounted. *)
Theorem logout_from_cart s path os c :
  route_of path = RCart -> num_truthy (sess_userId s) = true ->
  CartPage.cp_userId (cfg_state c) = sess_userId s ->
  let c' := exec (CartPage.cart_effect (CartPage.setUserId None (cfg_state c))) (cfg_tasks c) (cfg_log c) in
  shell_step (mkShell s path (MCart c) os)
    (mkShell (clearUser s) "/register" (MRegister (init_config (RegisterPage.register_page (clearUser s))))
       (MCart c' :: os)) /\
  stored_user_id (sess_storage (clearUser s)) = None.
Proof.
  intros Hr Ht Hu c'. split; [|apply stored_user_id_delete].
  assert (Hl : LogoutButton ∈ header_items (sess_userId s)).
  { unfold header_items. destruct (sess_userId s) as [id|]; [|discriminate Ht].
    rewrite Ht. apply elem_of_cons. right. apply elem_of_cons. right. apply elem_of_cons. right.
    apply elem_of_cons. left. reflexivity. }
  pose proof (sh_logout s path (MCart c) os Hl) as Hs. revert Hs.
  unfold set_user, follow, c'. simpl. unfold CartPage.cp_event_handler.
  rewrite Hu. destruct (sess_userId s) as [id|]; [|discriminate Ht].
  destruct (decide (None = Some id)) as [E|_]; [discriminate E|]. simpl.
  unfold navigate_to. rewrite Hr. intros Hs. exact Hs.
Qed.

(** a page load at [/cart] mounts the cart for the user stored in
    [localStorage], which requests that user's cart; with no stored
    user the cart redirects at mount and the page ends on the
    registration form. *)
Theorem reload_at_cart ls :
  (forall id, stored_user_id ls = Some id -> id <> 0%Z ->
   shell_init ls "/cart"
   = mkShell (boot ls) "/cart" (MCart (init_config (CartPage.cart_page (Some id)))) [] /\
   cfg_log (init_config (CartPage.cart_page (Some id))) = [Issued (GetCart id)]) /\
  (stored_user_id ls = None ->
   shell_init ls "/cart"
   = mkShell (boot ls) "/register" (MRegister (init_config (RegisterPage.register_page (boot ls))))
       [MCart (init_config (CartPage.cart_page None))]).
Proof.
  unfold shell_init, boot, provider_mount, session_init. cbn [sess_storage]. split.
  - intros id Hs Hz. rewrite Hs. unfold go, open_fuel. simpl. autounfold with page_code. simpl.
    destruct (Z.eqb_spec id 0); [contradiction|]. split; reflexivity.
  - intros Hs. rewrite Hs. reflexivity.
Qed.

(** C24: a registration whose response arrives after the user left the
    form still signs the user in through the provider and navigates to
    [/]: from any other page the user is taken to the product list of
    the new user, the page left behind re-rendered with the new user. *)
Theorem late_registration_signs_in s path m os j c i dto u :
  route_of path <> RHome -> os !! j = Some (MRegister c) ->
  cfg_tasks c !! i = Some (TCall RegisterPage.AwaitCreate (CreateUser dto)) ->
  let s' := setCurrentUserId (Some (user_id u)) s in
  let c' := exec (RegisterPage.reg_settle RegisterPage.AwaitCreate (Resolved (PUser u)) (cfg_state c))
              (delete i (cfg_tasks c)) (cfg_log c) in
  shell_step (mkShell s path m os)
    (mkShell s' "/" (MHome (init_config (Home.home_page (Some (user_id u)))))
       ((deliver s' m).1 :: <[j := MRegister c']> os)) /\
  stored_user_id (sess_storage s') = Some (user_id u).
Proof.
  intros Hr Hj Hi s' c'. split; [|apply stored_user_id_insert].
  pose proof (sh_orphan_register s path m os j c i _ (Resolved (PUser u)) Hj Hi eq_refl) as Hs.
  revert Hs. cbv zeta. simpl. unfold set_user, follow, added.
  rewrite drop_app_length, last_nav_app_nav. unfold navigate_to.
  assert (Hh : route_of "/" = RHome) by reflexivity.
  destruct (decide (route_of "/" = route_of path)) as [E|_]; [congruence|].
  intros Hs. exact Hs.
Qed.

(** The executable settle of the harness is a step of the application. *)
Lemma shell_settle_step sh i o sh' : shell_settle sh i o = Some sh' -> shell_step sh sh'.
Proof.
  destruct sh as [s path [c|id c|c|c|] os]; simpl; intros H; try discriminate;
    match type of H with
    | _ <$> ?a = Some _ => destruct a eqn:E; simplify_eq/=
    end; constructor; eapply act_settle_ustep; exact E.
Qed.

End ShellProps.

(** * Concrete runs *)

Module ShellRuns.
Import App Shell ShellProps RegisterPage.

(** A browser whose storage holds the user 7. *)
Definition signed_in_storage : gmap string string := {[USER_ID_STORAGE_KEY := "7"%string]}.

(** The registration form submitted, its [createUser] pending. *)
Definition submitted : config (@reg_state session) reg_await reg_timer :=
  exec (reg_event_handler Submit (mkRegState (boot ∅) "alice" "alice@example.com" false None)) [] [].

Definition alice_request : CreateUserRequest := mkCreateUserRequest "alice" "alice@example.com".
Definition alice : UserDto := mkUserDto 42 "alice" "alice@example.com".

(** ** A removal pending at Logout

    The signed-in user 7 opens the cart, which loads one item; the user
    removes it and, before the removal answers, logs out.  The cart
    redirects to the form and is unmounted; when the removal answers,
    its continuation still runs [loadCart] for user 7. *)

Definition s0 : session := boot signed_in_storage.
Definition cart0 : config CartPage.cp_state CartPage.cp_await CartPage.cp_timer :=
  init_config (CartPage.cart_page (Some 7%Z)).
Definition cart1 := exec (CartPage.cp_settle CartPage.AwaitCart
  (Resolved (PCart [CartPage.CartPageRuns.demo_item])) (cfg_state cart0))
  (delete 0 (cfg_tasks cart0)) (cfg_log cart0).
Definition cart2 := exec (CartPage.cp_event_handler (CartPage.RemoveClick 7) (cfg_state cart1))
  (cfg_tasks cart1) (cfg_log cart1).
Definition cart3 := exec (CartPage.cart_effect (CartPage.setUserId None (cfg_state cart2)))
  (cfg_tasks cart2) (cfg_log cart2).
Definition cart4 := exec (CartPage.cp_settle (CartPage.AwaitRemove 7) (Resolved PVoid) (cfg_state cart3))
  (delete 0 (cfg_tasks cart3)) (cfg_log cart3).

Definition loaded_shell := follow s0 "/cart" (MCart cart1) [] (added (cfg_log cart0) (cfg_log cart1)).
Definition removing_shell := follow s0 "/cart" (MCart cart2) [] (added (cfg_log cart1) (cfg_log cart2)).
Definition logged_out_shell := set_user None s0 "/cart" (MCart cart2) [] [].
Definition answered_shell :=
  follow (clearUser s0) "/register" (MRegister (init_config (register_page (clearUser s0))))
    (<[0 := MCart cart4]> [MCart cart3]) (added (cfg_log cart3) (cfg_log cart4)).

Lemma logged_out_reachable : shell_reachable logged_out_shell.
Proof.
  assert (H0 : shell_reachable (mkShell s0 "/cart" (MCart cart0) [])).
  { assert (E : shell_init signed_in_storage "/cart" = mkShell s0 "/cart" (MCart cart0) [])
      by reflexivity.
    rewrite <- E. constructor. }
  assert (H1 : shell_reachable loaded_shell).
  { eapply shell_reach_step; [exact H0|].
    exact (sh_cart s0 "/cart" [] cart0 cart1 (ustep_settle _ _ cart0 0 CartPage.AwaitCart (GetCart 7)
             (Resolved (PCart [CartPage.CartPageRuns.demo_item])) eq_refl eq_refl)). }
  assert (E1 : loaded_shell = mkShell s0 "/cart" (MCart cart1) []) by reflexivity.
  rewrite E1 in H1.
  assert (H2 : shell_reachable removing_shell).
  { eapply shell_reach_step; [exact H1|].
    exact (sh_cart s0 "/cart" [] cart1 cart2
             (ustep_event (CartPage.cart_page (sess_userId s0)) cp_ctx_event
                (CartPage.RemoveClick 7) cart1 eq_refl eq_refl)). }
  assert (E2 : removing_shell = mkShell s0 "/cart" (MCart cart2) []) by reflexivity.
  rewrite E2 in H2. eapply shell_reach_step; [exact H2|].
  apply sh_logout. vm_compute. repeat constructor.
Qed.

(** A removal still pending when the user logs out is not
    cancelled: after the Logout, with no user signed in and the stored id
    removed, the unmounted cart's removal answers and its continuation
    requests the cart of the signed-out user 7. *)
Theorem removal_after_logout_reloads_cart :
  shell_reachable logged_out_shell /\
  sess_userId (sh_session logged_out_shell) = None /\
  stored_user_id (sess_storage (sh_session logged_out_shell)) = None /\
  shell_step logged_out_shell answered_shell /\
  sh_session answered_shell = sh_session logged_out_shell /\
  sh_orphans logged_out_shell = [MCart cart3] /\ sh_orphans answered_shell = [MCart cart4] /\
  cfg_log cart4 = cfg_log cart3 ++ [Issued (GetCart 7)].
Proof.
  split; [exact logged_out_reachable|]. split; [reflexivity|].
  split; [apply stored_user_id_delete|].
  split; [|repeat split; reflexivity].
  assert (E : logged_out_shell = mkShell (clearUser s0) "/register"
                (MRegister (init_config (register_page (clearUser s0)))) [MCart cart3])
    by reflexivity.
  rewrite E.
  exact (sh_orphan_cart _ _ _ [MCart cart3] 0 cart3 cart4 eq_refl
           (bstep_settle (CartPage.cart_page None) cart3 0 (CartPage.AwaitRemove 7) (RemoveFromCart 7 7)
              (Resolved PVoid) eq_refl eq_refl)).
Qed.

Lemma shell_invariant_witness : shell_reachable (shell_init ∅ "/") /\ shell_ok (shell_init ∅ "/").
Proof.
  assert (H : shell_reachable (shell_init ∅ "/")) by constructor.
  split; [exact H | exact (shell_invariant _ H)].
Defined.

Lemma registration_opens_home_witness :
  stored_user_id (sess_storage (setCurrentUserId (Some 42%Z) (r_ctx (cfg_state submitted))))
  = Some 42%Z.
Proof.
  exact (proj1 (proj2 (registration_opens_home (boot ∅) "/register" [] submitted 0
    alice_request alice eq_refl eq_refl))).
Defined.

Lemma logout_from_cart_witness :
  stored_user_id (sess_storage (clearUser (boot signed_in_storage))) = None.
Proof.
  exact (proj2 (logout_from_cart (boot signed_in_storage) "/cart" []
    (init_config (CartPage.cart_page (Some 7%Z))) eq_refl eq_refl eq_refl)).
Defined.

Lemma reload_at_cart_witness :
  cfg_log (init_config (CartPage.cart_page (Some 7%Z))) = [Issued (GetCart 7)].
Proof.
  exact (proj2 (proj1 (reload_at_cart signed_in_storage) 7%Z eq_refl ltac:(discriminate))).
Defined.

Lemma late_registration_signs_in_witness :
  stored_user_id (sess_storage (setCurrentUserId (Some 42%Z) (boot ∅))) = Some 42%Z.
Proof.
  exact (proj2 (late_registration_signs_in (boot ∅) "/cart" MNotFound [MRegister submitted] 0
    submitted 0 alice_request alice ltac:(discriminate) eq_refl eq_refl)).
Defined.

End ShellRuns.
