(* ===== verification/LazyRoutes.v ===== *)
(** * Lazily loaded routes: [React.lazy] and [Suspense] in [App.tsx]

    [App.tsx] (lines 106-145 of [src/src/pages/Home.tsx]) loads its four
    pages with [lazy(() => import("./pages/...").then(...))] and renders
    the [<Routes>] inside a [<Suspense>] whose fallback is the text
    "Loading...".  The [Header] is outside the [Suspense] boundary.

    React keeps the state of each lazy component's import in the
    component itself, a constant of the module: the first render calls
    the factory and marks it pending, later renders suspend while it is
    pending, render the page once it resolved, and rethrow its error once
    it rejected ([payload_status], [lazy_render]).  While the route's
    element suspends, the boundary shows its fallback and the page is not
    mounted ([VFallback]); when the import settles the boundary renders
    again ([chunk_resolved], [chunk_rejected]).  [App] has no error
    boundary: an error thrown while rendering unmounts the whole tree,
    header included ([VCrashed]).

    The page a route mounts and the navigations a mount performs are
    those of [Shell] ([lazy_open] is [Shell.open_path] with the
    suspension added).  [app_boot] is [main.tsx]'s first render: the
    provider's state starts as [null], the route renders (a lazy page
    suspends), and the provider's mount effect, run after those of the
    mounted children, reads [localStorage]; the pages already mounted
    see the new value as a context change ([provider_effect]).

    The theorems: once the imports a page load starts have resolved, the
    application is in [Shell]'s initial state, so [Shell]'s theorems
    describe the application from then on; the order in which the cart
    page and the provider run their effects depends on whether the
    cart's import is already cached; a failed import leaves an empty
    screen for good; an import's state only moves forward. *)

From S2P Require Import Prelude JsString Api Session Runtime ProductDetail CartPage Home Register App Shell.

Module Lazy.
Import App Shell.

(** The four [lazy(...)] constants of [App.tsx]. *)
Inductive lazy_page : Type :=
| LazyHome
| LazyProductDetail
| LazyRegister
| LazyCartPage.

#[export] Instance lazy_page_eq_dec : EqDecision lazy_page.
Proof. solve_decision. Defined.

(** The lazy component each route's element is; [NotFound] is an
    ordinary component of [App.tsx]. *)
Definition lazy_of (r : route) : option lazy_page :=
  match r with
  | RHome => Some LazyHome
  | RProduct _ => Some LazyProductDetail
  | RRegister => Some LazyRegister
  | RCart => Some LazyCartPage
  | RNotFound => None
  end.

(** React's [lazyInitializer]: [Uninitialized] until the first render
    calls the factory, then [Pending], then [Resolved] or [Rejected]. *)
Inductive payload_status : Type :=
| Uninitialized
| PendingImport
| ResolvedImport
| RejectedImport (err : string).

#[export] Instance payload_status_eq_dec : EqDecision payload_status.
Proof. solve_decision. Defined.

(** The payloads of the four constants. *)
Record chunks : Type := mkChunks {
  home_chunk : payload_status;
  product_chunk : payload_status;
  register_chunk : payload_status;
  cart_chunk : payload_status
}.

Definition chunk_get (cs : chunks) (l : lazy_page) : payload_status :=
  match l with
  | LazyHome => home_chunk cs
  | LazyProductDetail => product_chunk cs
  | LazyRegister => register_chunk cs
  | LazyCartPage => cart_chunk cs
  end.

Definition chunk_set (cs : chunks) (l : lazy_page) (st : payload_status) : chunks :=
  match l with
  | LazyHome => mkChunks st (product_chunk cs) (register_chunk cs) (cart_chunk cs)
  | LazyProductDetail => mkChunks (home_chunk cs) st (register_chunk cs) (cart_chunk cs)
  | LazyRegister => mkChunks (home_chunk cs) (product_chunk cs) st (cart_chunk cs)
  | LazyCartPage => mkChunks (home_chunk cs) (product_chunk cs) (register_chunk cs) st
  end.

(** A page load: no import has started. *)
Definition chunks_init : chunks := mkChunks Uninitialized Uninitialized Uninitialized Uninitialized.

(** Every import resolved. *)
Definition chunks_loaded : chunks :=
  mkChunks ResolvedImport ResolvedImport ResolvedImport ResolvedImport.

(** What rendering the route's element does. *)
Inductive rendered : Type :=
| ShowPage
| ShowFallback
| Thrown (err : string).

(** Rendering the element of [r]: a lazy component starts its import
    on its first render and suspends until it resolves. *)
Definition lazy_render (cs : chunks) (r : route) : chunks * rendered :=
  match lazy_of r with
  | None => (cs, ShowPage)
  | Some l =>
      match chunk_get cs l with
      | Uninitialized => (chunk_set cs l PendingImport, ShowFallback)
      | PendingImport => (cs, ShowFallback)
      | ResolvedImport => (cs, ShowPage)
      | RejectedImport e => (cs, Thrown e)
      end
  end.

(** What the [Suspense] boundary holds. *)
Inductive view : Type :=
| VFallback (os : list mounted)                (** "Loading...", no page mounted *)
| VPage (m : mounted) (os : list mounted)      (** the route's page *)
| VCrashed (err : string).                     (** the tree unmounted by an uncaught error *)

Record app : Type := mkApp {
  app_session : session;
  app_path : string;
  app_chunks : chunks;
  app_view : view                               (** with the orphans of [Shell] *)
}.

(** [Shell.open_path] with the route's element rendered through its
    lazy component. *)
Fixpoint lazy_open (fuel : nat) (cs : chunks) (s : session) (path : string)
    (os : list mounted) : app :=
  let '(cs', v) := lazy_render cs (route_of path) in
  match v with
  | ShowFallback => mkApp s path cs' (VFallback os)
  | Thrown e => mkApp s path cs' (VCrashed e)
  | ShowPage =>
      let m := mount (route_of path) s in
      match fuel, last_nav (mounted_log m) with
      | S f, Some p => lazy_open f cs' s p (m :: os)
      | _, _ => mkApp s path cs' (VPage m os)
      end
  end.

(** [navigate(to)] or a [Link] to [to]: the same route keeps its
    element, another route renders its own. *)
Definition lazy_navigate (a : app) (to : string) : app :=
  let s := app_session a in
  let cs := app_chunks a in
  match app_view a with
  | VPage m os =>
      if decide (route_of to = route_of (app_path a)) then mkApp s to cs (VPage m os)
      else lazy_open open_fuel cs s to (m :: os)
  | VFallback os =>
      if decide (route_of to = route_of (app_path a)) then mkApp s to cs (VFallback os)
      else lazy_open open_fuel cs s to os
  | VCrashed _ => a
  end.

(** The provider's mount effect: its state is read from [localStorage],
    and a mounted page re-renders with the new value. *)
Definition provider_effect (a : app) : app :=
  let s' := provider_mount (app_session a) in
  match app_view a with
  | VPage m os =>
      let d := deliver s' m in
      let a' := mkApp s' (app_path a) (app_chunks a) (VPage d.1 os) in
      match last_nav d.2 with
      | Some to => lazy_navigate a' to
      | None => a'
      end
  | v => mkApp s' (app_path a) (app_chunks a) v
  end.

(** [main.tsx]'s first render at [path] over [localStorage] [ls], with
    the imports in the state [cs] (a page load starts from
    [chunks_init]). *)
Definition app_boot (cs : chunks) (ls : gmap string string) (path : string) : app :=
  provider_effect (lazy_open open_fuel cs (session_init ls) path []).

Definition app_start (ls : gmap string string) (path : string) : app :=
  app_boot chunks_init ls path.

(** The route's element of a suspended boundary. *)
Definition suspended_on (a : app) (l : lazy_page) : bool :=
  match app_view a, lazy_of (route_of (app_path a)) with
  | VFallback _, Some l' => bool_decide (l = l')
  | _, _ => false
  end.

(** The import of [l] resolves; a boundary suspended on it renders. *)
Definition chunk_resolved (a : app) (l : lazy_page) : app :=
  let cs := chunk_set (app_chunks a) l ResolvedImport in
  match app_view a with
  | VFallback os =>
      if suspended_on a l then lazy_open open_fuel cs (app_session a) (app_path a) os
      else mkApp (app_session a) (app_path a) cs (app_view a)
  | v => mkApp (app_session a) (app_path a) cs v
  end.

(** The import of [l] rejects; a boundary suspended on it rethrows,
    and with no error boundary the tree is unmounted. *)
Definition chunk_rejected (a : app) (l : lazy_page) (e : string) : app :=
  let cs := chunk_set (app_chunks a) l (RejectedImport e) in
  if suspended_on a l then mkApp (app_session a) (app_path a) cs (VCrashed e)
  else mkApp (app_session a) (app_path a) cs (app_view a).

(** The screen: the header and the boundary's content. *)
Definition app_elements (a : app) : list element :=
  let h := header_elements (sess_userId (app_session a)) in
  match app_view a with
  | VFallback _ => h ++ [Text "Loading..."%string]
  | VPage m _ => h ++ mounted_elements m
  | VCrashed _ => []
  end.

(** The application of [Shell] a boundary with its page stands for. *)
Definition to_shell (a : app) : option shell :=
  match app_view a with
  | VPage m os => Some (mkShell (app_session a) (app_path a) m os)
  | _ => None
  end.

Definition of_shell (cs : chunks) (sh : shell) : app :=
  mkApp (sh_session sh) (sh_path sh) cs (VPage (sh_page sh) (sh_orphans sh)).

Definition all_loaded (cs : chunks) : Prop :=
  forall l, chunk_get cs l = ResolvedImport.

(** The steps of the application: imports settle, the header's links
    are followed (the header is outside the boundary), and once every
    import has resolved the mounted page and the application take the
    steps of [Shell]. *)
Inductive app_step : app -> app -> Prop :=
| as_resolve a l :
    chunk_get (app_chunks a) l = PendingImport -> app_step a (chunk_resolved a l)
| as_reject a l e :
    chunk_get (app_chunks a) l = PendingImport -> app_step a (chunk_rejected a l e)
| as_link a it to :
    (forall e, app_view a <> VCrashed e) ->
    it ∈ header_items (sess_userId (app_session a)) -> header_link it = Some to ->
    app_step a (lazy_navigate a to)
| as_shell a sh sh' :
    all_loaded (app_chunks a) -> to_shell a = Some sh -> shell_step sh sh' ->
    app_step a (of_shell (app_chunks a) sh').

(** Resolve the import the boundary waits for, at most [n] times. *)
Fixpoint settle_route (n : nat) (a : app) : app :=
  match n with
  | O => a
  | S n' =>
      match app_view a, lazy_of (route_of (app_path a)) with
      | VFallback _, Some l => settle_route n' (chunk_resolved a l)
      | _, _ => a
      end
  end.

(** The moves of an import's state: [Uninitialized] to [Pending], then
    to [Resolved] or [Rejected], which are final. *)
Definition advances (x y : payload_status) : bool :=
  match x, y with
  | Uninitialized, _ => true
  | PendingImport, Uninitialized => false
  | PendingImport, _ => true
  | ResolvedImport, ResolvedImport => true
  | RejectedImport e, RejectedImport e' => String.eqb e e'
  | _, _ => false
  end.

Definition chunks_advance (cs cs' : chunks) : Prop :=
  forall l, advances (chunk_get cs l) (chunk_get cs' l) = true.

End Lazy.

(** * Properties *)

Module LazyProps.
Import App Shell ShellProps Lazy.

(** Only the cart navigates at mount. *)
Lemma mount_nav_cart r s : last_nav (mounted_log (mount r s)) <> None -> r = RCart.
Proof.
  destruct r; simpl; autounfold with page_code; simpl; repeat case_match; simpl; congruence.
Qed.

Lemma lazy_render_loaded cs r : all_loaded cs -> lazy_render cs r = (cs, ShowPage).
Proof. intros H. unfold lazy_render. destruct (lazy_of r) as [l|]; [rewrite H|]; reflexivity. Qed.

(** With every import resolved, [lazy_open] is [Shell.open_path]. *)
Lemma lazy_open_loaded f cs s path os :
  all_loaded cs -> lazy_open f cs s path os = of_shell cs (open_path f s path os).
Proof.
  intros H. revert path os. induction f as [|f IH]; intros path os; simpl; rewrite lazy_render_loaded by exact H.
  - reflexivity.
  - destruct (last_nav (mounted_log (mount (route_of path) s))); [apply IH|reflexivity].
Qed.

(** The equations of [lazy_open] and [open_path]. *)
Lemma lazy_open_fallback f cs s path os cs' :
  lazy_render cs (route_of path) = (cs', ShowFallback) ->
  lazy_open f cs s path os = mkApp s path cs' (VFallback os).
Proof. intros H. destruct f; simpl; rewrite H; reflexivity. Qed.

Lemma lazy_open_quiet f cs s path os cs' :
  lazy_render cs (route_of path) = (cs', ShowPage) ->
  last_nav (mounted_log (mount (route_of path) s)) = None ->
  lazy_open f cs s path os = mkApp s path cs' (VPage (mount (route_of path) s) os).
Proof. intros H N. destruct f; simpl; rewrite H; [reflexivity|rewrite N; reflexivity]. Qed.

Lemma lazy_open_nav f cs s path os cs' p :
  lazy_render cs (route_of path) = (cs', ShowPage) ->
  last_nav (mounted_log (mount (route_of path) s)) = Some p ->
  lazy_open (S f) cs s path os = lazy_open f cs' s p (mount (route_of path) s :: os).
Proof. intros H N. simpl. rewrite H, N. reflexivity. Qed.

Lemma open_path_quiet f s path os :
  last_nav (mounted_log (mount (route_of path) s)) = None ->
  open_path f s path os = mkShell s path (mount (route_of path) s) os.
Proof. intros N. destruct f; simpl; [reflexivity|rewrite N; reflexivity]. Qed.

Lemma open_path_nav f s path os p :
  last_nav (mounted_log (mount (route_of path) s)) = Some p ->
  open_path (S f) s path os = open_path f s p (mount (route_of path) s :: os).
Proof. intros N. simpl. rewrite N. reflexivity. Qed.

Lemma mount_quiet r s : r <> RCart -> last_nav (mounted_log (mount r s)) = None.
Proof.
  intros Hr. destruct (last_nav _) eqn:E; [|reflexivity].
  exfalso. apply Hr, (mount_nav_cart r s). rewrite E. discriminate.
Qed.

(** The first render of a lazy route: the boundary suspends, and the
    provider's effect has read [localStorage]. *)
Lemma app_start_lazy ls path l :
  lazy_of (route_of path) = Some l ->
  app_start ls path = mkApp (boot ls) path (chunk_set chunks_init l PendingImport) (VFallback []).
Proof.
  intros Hl. unfold app_start, app_boot.
  rewrite (lazy_open_fallback open_fuel chunks_init (session_init ls) path [] (chunk_set chunks_init l PendingImport)); [reflexivity|].
  unfold lazy_render. rewrite Hl. destruct l; reflexivity.
Qed.

Lemma chunk_resolved_route a l os :
  app_view a = VFallback os -> lazy_of (route_of (app_path a)) = Some l ->
  chunk_resolved a l
  = lazy_open open_fuel (chunk_set (app_chunks a) l ResolvedImport) (app_session a) (app_path a) os.
Proof.
  intros Hv Hl. unfold chunk_resolved, suspended_on. rewrite Hv, Hl, bool_decide_eq_true_2 by reflexivity.
  reflexivity.
Qed.

(** Resolving the imports a page load starts leads to [Shell]'s initial
    state. *)
Lemma settle_start ls path :
  to_shell (settle_route 2 (app_start ls path)) = Some (shell_init ls path).
Proof.
  unfold shell_init, go, open_fuel.
  destruct (lazy_of (route_of path)) as [l|] eqn:Hl.
  2:{ assert (Hn : route_of path = RNotFound) by (destruct (route_of path); try discriminate; reflexivity).
      unfold app_start, app_boot.
      rewrite (lazy_open_quiet open_fuel chunks_init (session_init ls) path [] chunks_init);
        [| unfold lazy_render; rewrite Hl; reflexivity | rewrite Hn; reflexivity].
      rewrite open_path_quiet by (rewrite Hn; reflexivity). rewrite Hn. reflexivity. }
  rewrite (app_start_lazy ls path l Hl).
  cbn [settle_route app_view app_path]. rewrite Hl. rewrite (chunk_resolved_route _ l []) by first [reflexivity | exact Hl].
  cbn [app_chunks app_session app_path]. unfold open_fuel.
  assert (Hp : lazy_render (chunk_set (chunk_set chunks_init l PendingImport) l ResolvedImport) (route_of path)
               = (chunk_set (chunk_set chunks_init l PendingImport) l ResolvedImport, ShowPage))
    by (unfold lazy_render; rewrite Hl; destruct l; reflexivity).
  destruct (last_nav (mounted_log (mount (route_of path) (boot ls)))) as [p|] eqn:N.
  - pose proof (mount_nav _ _ _ N) as ->. pose proof (mount_nav_cart (route_of path) (boot ls)) as Hc.
    rewrite N in Hc. specialize (Hc ltac:(discriminate)). rewrite Hc in Hl. injection Hl as <-.
    rewrite (lazy_open_nav _ _ _ _ _ _ _ Hp N), (open_path_nav _ _ _ _ _ N).
    rewrite (lazy_open_fallback _ _ _ _ _ (mkChunks Uninitialized Uninitialized PendingImport ResolvedImport))
      by reflexivity.
    cbn [settle_route app_view app_path].
    assert (Hreg : route_of "/register" = RRegister) by reflexivity. rewrite Hreg. cbn [lazy_of].
    rewrite (chunk_resolved_route _ LazyRegister [mount (route_of path) (boot ls)]) by reflexivity.
    cbn [app_chunks app_session app_path].
    rewrite (lazy_open_quiet _ _ _ _ _ (mkChunks Uninitialized Uninitialized ResolvedImport ResolvedImport))
      by first [reflexivity | apply mount_quiet; rewrite Hreg; discriminate].
    rewrite open_path_quiet by (apply mount_quiet; rewrite Hreg; discriminate). reflexivity.
  - rewrite (lazy_open_quiet _ _ _ _ _ _ Hp N), (open_path_quiet _ _ _ _ N). reflexivity.
Qed.

(** C4: a page load of the application refines [Shell.shell_init]: at
    any path and over any [localStorage], the first render of a lazily
    loaded route, once React has run its mount effects (the first state
    a test or a user observes), shows the header (already with the user
    the provider read from [localStorage]) above the [Suspense] fallback
    "Loading...", and once the imports it starts have resolved (the
    route's, and [Register]'s when the cart redirects an anonymous user)
    the application is exactly in [Shell]'s initial state for that path,
    so the theorems of [Shell] apply to the application from then on. *)
Theorem lazy_start_refines_shell ls path :
  to_shell (settle_route 2 (app_start ls path)) = Some (shell_init ls path) /\
  (lazy_of (route_of path) <> None ->
   app_elements (app_start ls path) = header_elements (sess_userId (boot ls)) ++ [Text "Loading..."%string]).
Proof.
  split; [apply settle_start|].
  destruct (lazy_of (route_of path)) as [l|] eqn:Hl; [|intros []; reflexivity].
  intros _. rewrite (app_start_lazy ls path l Hl). reflexivity.
Qed.

Lemma chunks_loaded_all : all_loaded chunks_loaded.
Proof. intros []; reflexivity. Qed.

Lemma to_shell_inv a s p m os :
  to_shell a = Some (mkShell s p m os) -> app_view a = VPage m os /\ app_path a = p /\ app_session a = s.
Proof. unfold to_shell. destruct (app_view a); intros H; try discriminate. injection H as -> -> -> ->. auto. Qed.

Lemma open_cart_anonymous ls :
  open_path open_fuel (session_init ls) "/cart" []
  = mkShell (session_init ls) "/register" (MRegister (init_config (RegisterPage.register_page (session_init ls))))
      [MCart (init_config (CartPage.cart_page None))].
Proof. reflexivity. Qed.

Lemma boot_stored ls id : stored_user_id ls = Some id -> boot ls = mkSession (Some id) ls.
Proof. intros Hs. unfold boot, provider_mount. cbn [sess_storage session_init]. rewrite Hs. reflexivity. Qed.

(** C28: the order of the cart's and the provider's mount effects
    depends on the import cache.  On a page load at [/cart] for a stored
    user, the cart's import suspends the route, the provider reads the
    user first, and the cart mounts for that user.  When [CartPage]'s
    import has already resolved (as in a later render in the same
    module, like the tests of [App.test.tsx]), the cart mounts before
    the provider's effect with no user and redirects to [/register],
    which then shows "Already Logged In". *)
Theorem cart_reload_depends_on_cache ls id :
  stored_user_id ls = Some id -> id <> 0%Z ->
  let fresh := settle_route 2 (app_start ls "/cart") in
  let cached := app_boot chunks_loaded ls "/cart" in
  app_path fresh = "/cart"%string /\
  app_view fresh = VPage (MCart (init_config (CartPage.cart_page (Some id)))) [] /\
  app_path cached = "/register"%string /\
  (exists c, app_view cached = VPage (MRegister c) [MCart (init_config (CartPage.cart_page None))]) /\
  cfg_log (init_config (CartPage.cart_page None)) = [Navigated "/register"%string] /\
  Heading 2 "Already Logged In"%string ∈ app_elements cached.
Proof.
  intros Hs Hz fresh cached.
  destruct (proj1 (reload_at_cart ls) id Hs Hz) as [Hi _].
  pose proof (settle_start ls "/cart") as Hf. rewrite Hi in Hf.
  destruct (to_shell_inv _ _ _ _ _ Hf) as (Hv & Hp & _).
  split; [exact Hp|]. split; [exact Hv|].
  unfold cached, app_boot. rewrite lazy_open_loaded by exact chunks_loaded_all.
  rewrite open_cart_anonymous. unfold provider_effect, of_shell.
  cbn [app_view app_session app_path app_chunks sh_session sh_page sh_orphans sh_path].
  change (provider_mount (session_init ls)) with (boot ls). rewrite (boot_stored ls id Hs).
  cbn. split; [reflexivity|]. split; [eexists; reflexivity|]. split; [reflexivity|].
  apply elem_of_cons. right. apply elem_of_cons. right. apply elem_of_app. right.
  unfold RegisterPage.reg_elements, RegisterPage.reg_render. cbn.
  destruct (Z.eqb_spec id 0) as [E|_]; [contradiction|]. cbn. apply elem_of_cons. left. reflexivity.
Qed.

Lemma chunks_advance_refl cs : chunks_advance cs cs.
Proof. intros l. destruct (chunk_get cs l); cbn; rewrite ?String.eqb_refl; reflexivity. Qed.

Lemma chunks_advance_trans cs1 cs2 cs3 :
  chunks_advance cs1 cs2 -> chunks_advance cs2 cs3 -> chunks_advance cs1 cs3.
Proof.
  intros H1 H2 l. specialize (H1 l). specialize (H2 l).
  destruct (chunk_get cs1 l), (chunk_get cs2 l), (chunk_get cs3 l); cbn in *; try congruence.
  apply String.eqb_eq in H1, H2. subst. apply String.eqb_refl.
Qed.

Lemma chunk_get_set cs l l' st :
  chunk_get (chunk_set cs l st) l' = if decide (l' = l) then st else chunk_get cs l'.
Proof. destruct l, l'; reflexivity. Qed.

(** Setting an import's state to one it may move to. *)
Lemma chunk_set_advances cs l st :
  advances (chunk_get cs l) st = true -> chunks_advance cs (chunk_set cs l st).
Proof.
  intros H l'. rewrite chunk_get_set. case_decide; [subst; exact H|].
  apply chunks_advance_refl.
Qed.

Lemma lazy_render_advances cs r : chunks_advance cs (lazy_render cs r).1.
Proof.
  unfold lazy_render. destruct (lazy_of r) as [l|]; [|apply chunks_advance_refl].
  destruct (chunk_get cs l) eqn:E; cbn; try apply chunks_advance_refl.
  apply chunk_set_advances. rewrite E. reflexivity.
Qed.

Lemma lazy_open_advances f cs s path os : chunks_advance cs (app_chunks (lazy_open f cs s path os)).
Proof.
  revert cs path os. induction f as [|f IH]; intros cs path os; cbn [lazy_open];
    pose proof (lazy_render_advances cs (route_of path)) as H;
    destruct (lazy_render cs (route_of path)) as [cs' []]; cbn in H |- *; try exact H.
  destruct (last_nav _); [|exact H]. eapply chunks_advance_trans; [exact H|apply IH].
Qed.

Lemma lazy_navigate_advances a to : chunks_advance (app_chunks a) (app_chunks (lazy_navigate a to)).
Proof.
  unfold lazy_navigate. destruct (app_view a); [case_decide|case_decide|];
    first [apply chunks_advance_refl | apply lazy_open_advances].
Qed.

(** The imports after a step of the application. *)
Lemma app_step_chunks a a' : app_step a a' -> chunks_advance (app_chunks a) (app_chunks a').
Proof.
  destruct 1 as [a l Hp|a l e Hp|a it to _ _ _|a sh sh' _ _ _].
  - unfold chunk_resolved. assert (H := chunk_set_advances (app_chunks a) l ResolvedImport).
    rewrite Hp in H. specialize (H eq_refl).
    destruct (app_view a); [destruct (suspended_on a l)|..]; try exact H.
    eapply chunks_advance_trans; [exact H|apply lazy_open_advances].
  - unfold chunk_rejected. assert (H := chunk_set_advances (app_chunks a) l (RejectedImport e)).
    rewrite Hp in H. specialize (H eq_refl). destruct (suspended_on a l); exact H.
  - apply lazy_navigate_advances.
  - apply chunks_advance_refl.
Qed.

Lemma crashed_stays a a' e : app_view a = VCrashed e -> app_step a a' -> app_view a' = VCrashed e.
Proof.
  intros Hv. destruct 1 as [a l _|a l e' _|a it to Hn _ _|a sh sh' _ Hs _].
  - unfold chunk_resolved. rewrite Hv. reflexivity.
  - unfold chunk_rejected, suspended_on. rewrite Hv. reflexivity.
  - exfalso. exact (Hn e Hv).
  - unfold to_shell in Hs. rewrite Hv in Hs. discriminate.
Qed.

Lemma advances_rejected e y : advances (RejectedImport e) y = true -> y = RejectedImport e.
Proof. destruct y; cbn; try discriminate. intros H. apply String.eqb_eq in H. subst. reflexivity. Qed.


(** C30: when the import the [Suspense] boundary waits for rejects, the
    render rethrows the error and, with no error boundary in [App], the
    whole tree is unmounted: from then on the screen is empty, header
    included, whatever the user does in the page, and the import stays
    rejected.  Only a reload of the page, a new page load ([app_start]
    on the storage), which is not a step of the running application,
    starts again. *)
Theorem failed_import_blanks_app a l e :
  suspended_on a l = true -> chunk_get (app_chunks a) l = PendingImport ->
  app_step a (chunk_rejected a l e) /\
  forall a', rtc app_step (chunk_rejected a l e) a' ->
    app_elements a' = [] /\ chunk_get (app_chunks a') l = RejectedImport e.
Proof.
  intros Hs Hp. split; [constructor; exact Hp|].
  assert (H0 : app_view (chunk_rejected a l e) = VCrashed e /\
               chunk_get (app_chunks (chunk_rejected a l e)) l = RejectedImport e).
  { unfold chunk_rejected. rewrite Hs. cbn [app_view app_chunks]. rewrite chunk_get_set.
    split; [reflexivity|]. case_decide; [reflexivity|contradiction]. }
  intros a' Hr. revert H0. induction Hr as [b|b b' b'' Hst _ IH]; intros [Hv Hc].
  - unfold app_elements. rewrite Hv. auto.
  - apply IH. split; [exact (crashed_stays _ _ _ Hv Hst)|].
    apply advances_rejected. rewrite <-Hc. apply app_step_chunks, Hst.
Qed.

End LazyProps.

Module LazyRuns.
Import App Shell Lazy LazyProps.

Definition stored_123 : gmap string string := {[USER_ID_STORAGE_KEY := "123"%string]}.

Lemma lazy_start_refines_shell_witness :
  lazy_of (route_of "/cart") <> None /\
  app_elements (app_start ∅ "/cart")
  = header_elements (sess_userId (boot ∅)) ++ [Text "Loading..."%string].
Proof.
  assert (H : lazy_of (route_of "/cart") <> None) by discriminate.
  split; [exact H|]. exact (proj2 (lazy_start_refines_shell ∅ "/cart") H).
Defined.

Lemma cart_reload_depends_on_cache_witness :
  stored_user_id stored_123 = Some 123%Z /\ 123%Z <> 0%Z /\
  app_path (app_boot chunks_loaded stored_123 "/cart") = "/register"%string.
Proof.
  assert (Hs : stored_user_id stored_123 = Some 123%Z) by reflexivity.
  assert (Hz : 123%Z <> 0%Z) by discriminate.
  split; [exact Hs|]. split; [exact Hz|].
  exact (proj1 (proj2 (proj2 (cart_reload_depends_on_cache stored_123 123 Hs Hz)))).
Defined.


Definition import_error : string := "Failed to fetch dynamically imported module"%string.

Lemma failed_import_blanks_app_witness :
  suspended_on (app_start ∅ "/") LazyHome = true /\
  chunk_get (app_chunks (app_start ∅ "/")) LazyHome = PendingImport /\
  app_elements (chunk_rejected (app_start ∅ "/") LazyHome import_error) = [].
Proof.
  assert (Hs : suspended_on (app_start ∅ "/") LazyHome = true) by reflexivity.
  assert (Hp : chunk_get (app_chunks (app_start ∅ "/")) LazyHome = PendingImport) by reflexivity.
  split; [exact Hs|]. split; [exact Hp|].
  exact (proj1 (proj2 (failed_import_blanks_app _ _ import_error Hs Hp) _ (rtc_refl _ _))).
Defined.

End LazyRuns.
