(* ===== verification/StrictMode.v ===== *)
(** * Development builds: [React.StrictMode] in [main.tsx]

    [main.tsx] renders the application inside [<React.StrictMode>] when
    [import.meta.env.DEV] holds, that is on the development server the
    Lighthouse suites audit.  In that mode React mounts each component,
    runs its effects, simulates an unmount (running the cleanups the
    effects return; none of the pages returns one) and runs the mount
    effects a second time on the state it kept.

    [strict_page] is a page of [Runtime] with its mount effect run twice;
    its handlers are the page's own, so every step-wise property of the
    pages (the request guards of [ProductDetail], [CartPage] and [Home])
    holds in development as well.  What changes is the mount: each page
    that loads on mount sends its request twice, the provider's effect
    reads the storage twice (to the same result), and the product page's
    single loading flag no longer tracks its two pending requests. *)

From S2P Require Import Prelude JsString Api Session Runtime ProductDetail CartPage Home.

Module StrictMode.

Section Strict.
Context {S E K T : Type}.

(** The mount effect, then, after the simulated unmount, the mount
    effect again on the kept state; the effects of both runs are
    started in order. *)
Definition strict_init (mount : S -> S * list (effect K T)) (s0 : S) : S * list (effect K T) :=
  let '(s1, e1) := mount s0 in
  let '(s2, e2) := mount s1 in
  (s2, e1 ++ e2).

Definition strict_page (P : page S E K T) (mount : S -> S * list (effect K T)) (s0 : S)
    : page S E K T :=
  mkPage (strict_init mount s0) (page_enabled P) (page_event P) (page_settle P) (page_timer P).

End Strict.

(** The effect of [ProductDetail] on [[id]]: [if (id) loadProduct(parseInt(id, 10))]. *)
Definition pd_mount (id : option string) (st : ProductDetail.pd_state)
    : ProductDetail.pd_state * list ProductDetail.pd_effect :=
  match id with
  | Some s => if str_truthy (Some s) then ProductDetail.loadProduct (parseInt s) st else (st, [])
  | None => (st, [])
  end.

(** The three pages with a mount effect, as a development build mounts them. *)
Definition product_detail_dev (id : option string) (uid : option Z) :=
  strict_page (ProductDetail.product_detail id uid) (pd_mount id)
    (ProductDetail.mkPdState uid None true None 1 None).

Definition cart_page_dev (uid : option Z) :=
  strict_page (CartPage.cart_page uid) CartPage.cart_effect (CartPage.mkCpState uid [] true None None).

Definition home_page_dev (uid : option Z) :=
  strict_page (Home.home_page uid) Home.loadProducts (Home.mkHomeState uid [] true None None).

(** The provider's mount effect run twice. *)
Definition provider_mount_dev (s : session) : session := provider_mount (provider_mount s).

End StrictMode.

(** * Properties *)

Module StrictModeProps.
Import StrictMode.

(** The development page takes exactly the steps of the production page:
    every theorem about single steps (the guards of the requests the
    pages send) holds in development too. *)
Lemma strict_step_iff {S E K T} (P : page S E K T) mount s0 c c' :
  step (strict_page P mount s0) c c' <-> step P c c'.
Proof.
  split; apply step_same_handlers; repeat split.
Qed.

(** Production mounts run the same mount effect once. *)
Lemma production_mounts id uid u :
  page_init (ProductDetail.product_detail id uid) = pd_mount id (ProductDetail.mkPdState uid None true None 1 None) /\
  page_init (CartPage.cart_page u) = CartPage.cart_effect (CartPage.mkCpState u [] true None None) /\
  page_init (Home.home_page u) = Home.loadProducts (Home.mkHomeState u [] true None None).
Proof. repeat split. Qed.

(** The provider's effect is idempotent: its second run in development
    reads the storage it left and changes nothing. *)
Lemma provider_mount_idem s : provider_mount_dev s = provider_mount s.
Proof.
  unfold provider_mount_dev, provider_mount.
  destruct (stored_user_id (sess_storage s)) eqn:E; simpl; rewrite ?E; reflexivity.
Qed.

Section DoubleLoad.
Variable id : string.
Variable uid : option Z.
Hypothesis Hid : str_truthy (Some id) = true.

Lemma dev_init_product :
  init_config (product_detail_dev (Some id) uid) =
  mkConfig (ProductDetail.mkPdState uid None true None 1 None)
    [TCall ProductDetail.AwaitProduct (GetProductById (parseInt id));
     TCall ProductDetail.AwaitProduct (GetProductById (parseInt id))]
    [Issued (GetProductById (parseInt id)); Issued (GetProductById (parseInt id))].
Proof.
  unfold init_config, product_detail_dev, strict_page, strict_init, pd_mount.
  cbn -[str_truthy parseInt]. rewrite Hid. reflexivity.
Qed.

(** C34: in development the product page's two requests share one
    [loading] flag: the first response clears it while the other request
    is still pending, so [loading] no longer tracks the pending request
    as it does in production.  And the [setError(null)] of both loads ran
    at mount, before either settled: if one of the two requests fails and
    the other returns the product, the page ends on the error view, in
    either order of the responses. *)
Theorem dev_double_product_load p m :
  m <> ""%string ->
  (exists c, run (product_detail_dev (Some id) uid) [ASettle 0 (Resolved (PProduct p))]
               (init_config (product_detail_dev (Some id) uid)) = Some c /\
     ProductDetail.pd_loading (cfg_state c) = false /\
     ProductDetailProps.product_loads (cfg_tasks c) = 1%nat) /\
  (forall o1 o2,
     (o1, o2) = (Resolved (PProduct p), Rejected (RejError m)) \/
     (o1, o2) = (Rejected (RejError m), Resolved (PProduct p)) ->
     exists c, run (product_detail_dev (Some id) uid) [ASettle 0 o1; ASettle 0 o2]
                 (init_config (product_detail_dev (Some id) uid)) = Some c /\
       ProductDetail.pd_render (cfg_state c) = ProductDetail.ErrorView m /\
       ProductDetailProps.product_loads (cfg_tasks c) = 0%nat).
Proof.
  intros Hm. rewrite dev_init_product. split.
  - eexists. split; [reflexivity|]. split; reflexivity.
  - assert (Ht : str_truthy (Some m) = true) by (apply str_truthy_spec; eauto).
    intros o1 o2 [[= -> ->]|[= -> ->]]; eexists; (split; [reflexivity|]);
      (split; [|reflexivity]); unfold ProductDetail.pd_render; cbn -[str_truthy];
      rewrite Ht; reflexivity.
Qed.

End DoubleLoad.

(** In development every page that loads on mount sends its request
    twice: the product page its [getProductById], the cart its
    [getCart] (or, for an anonymous visitor, its redirect to
    [/register]), the product list its [getProducts]. *)
Lemma dev_mount_requests_twice id uid u :
  str_truthy (Some id) = true -> truthy_id u <> None ->
  cfg_log (init_config (product_detail_dev (Some id) uid))
    = [Issued (GetProductById (parseInt id)); Issued (GetProductById (parseInt id))] /\
  (forall v, truthy_id u = Some v ->
     cfg_log (init_config (cart_page_dev u)) = [Issued (GetCart v); Issued (GetCart v)]) /\
  cfg_log (init_config (cart_page_dev None)) = [Navigated "/register"; Navigated "/register"] /\
  cfg_log (init_config (home_page_dev u)) = [Issued GetProducts; Issued GetProducts].
Proof.
  intros Hid _. split_and!.
  - rewrite (dev_init_product id uid Hid). reflexivity.
  - intros v Hv. unfold init_config, cart_page_dev, strict_page, strict_init,
      CartPage.cart_effect, CartPage.loadCart. cbn -[truthy_id]. rewrite Hv. cbn -[truthy_id].
    rewrite Hv. reflexivity.
  - reflexivity.
  - reflexivity.
Qed.


End StrictModeProps.

(** * Runs *)

Module StrictModeRuns.
Import StrictMode StrictModeProps.

Lemma dev_double_product_load_witness :
  (exists c, run (product_detail_dev (Some "7"%string) (Some 3%Z))
               [ASettle 0 (Resolved (PProduct ProductDetailRuns.demo_product))]
               (init_config (product_detail_dev (Some "7"%string) (Some 3%Z))) = Some c /\
     ProductDetail.pd_loading (cfg_state c) = false /\
     ProductDetailProps.product_loads (cfg_tasks c) = 1%nat) /\
  (forall o1 o2,
     (o1, o2) = (Resolved (PProduct ProductDetailRuns.demo_product), Rejected (RejError "Network error")) \/
     (o1, o2) = (Rejected (RejError "Network error"), Resolved (PProduct ProductDetailRuns.demo_product)) ->
     exists c, run (product_detail_dev (Some "7"%string) (Some 3%Z)) [ASettle 0 o1; ASettle 0 o2]
                 (init_config (product_detail_dev (Some "7"%string) (Some 3%Z))) = Some c /\
       ProductDetail.pd_render (cfg_state c) = ProductDetail.ErrorView "Network error" /\
       ProductDetailProps.product_loads (cfg_tasks c) = 0%nat).
Proof.
  apply (dev_double_product_load "7" (Some 3%Z) eq_refl); discriminate.
Defined.

Lemma dev_mount_requests_twice_witness :
  cfg_log (init_config (product_detail_dev (Some "7"%string) (Some 3%Z)))
    = [Issued (GetProductById (JInt 7)); Issued (GetProductById (JInt 7))] /\
  cfg_log (init_config (cart_page_dev (Some 3%Z))) = [Issued (GetCart 3); Issued (GetCart 3)].
Proof.
  destruct (dev_mount_requests_twice "7" (Some 3%Z) (Some 3%Z) eq_refl ltac:(discriminate))
    as (H1 & H2 & _ & _).
  split; [exact H1 | exact (H2 3%Z eq_refl)].
Defined.

End StrictModeRuns.
