(* ===== verification/CartPageTests.v ===== *)
(** * The cart page's unit tests, replayed on the model

    [src/vitest.lighthouse.prod.config.ts] carries, after the Vitest
    configuration of the Lighthouse suite, the unit tests of [CartPage]
    (lines 21-349).  Each test is replayed here: its setup (the mocked
    storage and API) and its actions ([fireEvent] on a rendered control,
    a mocked call settling) are a definition, a scripted [run] of the
    page; its expectations are checked on the configuration reached:
    [getByText(s)] is exactly one element the page renders ([cp_elements]),
    [mockNavigate] being called is a [Navigated] entry of the log, and an
    API mock being called is an [Issued] entry.

    [renderWithProviders] mounts the page under [UserContextProvider],
    whose state starts at [null] and is set from [localStorage] by its own
    mount effect.  React runs the child's effects first, so the page's
    effect runs once without a user ([navigate("/register")]) and again
    when the provider's value changes; [renderWithProviders] is that
    mount followed by the context event.

    Module [CartItemTests] replays the tests of [CartItem]
    ([src/unnamed/part_002]) on [CartItem.CartItem], and Module
    [CartPageAdvancedTests] the tests of
    [src/src/__tests__/CartPage.advanced.test.tsx]. *)

From S2P Require Import Prelude JsString Api Session Runtime CartPage.
From Stdlib Require QArith_base.

Module CartPageTests.
Import CartItem CartPage.

Abbreviation cart_config := (config cp_state cp_await cp_timer).

(** [beforeEach]: [localStorage.clear()]. *)
Definition cleared_storage : gmap string string := ∅.

(** [localStorage.setItem("ai-store-user-id", "123")]. *)
Definition signed_in_storage : gmap string string :=
  <[USER_ID_STORAGE_KEY := "123"%string]> cleared_storage.

(** [renderWithProviders(<CartPage />)], then the test's script. *)
Definition renderWithProviders (ls : gmap string string) (script : list (action cp_event))
    : option cart_config :=
  run (cart_page None) (AEvent (UserChanged (sess_userId (boot ls))) :: script)
    (init_config (cart_page None)).

Definition mockCartItems : list CartItemDto :=
  [mkCartItemDto 1 10 "Laptop" (QArith_base.Qmake 99999 100) 1 (QArith_base.Qmake 99999 100);
   mkCartItemDto 2 20 "Mouse" (QArith_base.Qmake 2999 100) 2 (QArith_base.Qmake 5998 100)]%string.

(** ** The test harness's queries *)

(** [expect(screen.getByText(s)).toBeInTheDocument()]: exactly one element has the text. *)
Definition shows (s : string) (c : option cart_config) : bool :=
  match c with Some c' => bool_decide (is_Some (get_one (with_text s) (cp_elements (cfg_state c')))) | None => false end.

(** [expect(screen.queryByText(s)).not.toBeInTheDocument()]. *)
Definition absent (s : string) (c : option cart_config) : bool :=
  match c with Some c' => query_none (with_text s) (cp_elements (cfg_state c')) | None => false end.

(** [expect(mockNavigate).toHaveBeenCalledWith(route)]. *)
Definition navigated (route : string) (c : option cart_config) : bool :=
  match c with Some c' => bool_decide (Navigated route ∈ cfg_log c') | None => false end.

(** [expect(api.f).toHaveBeenCalledWith(...)]. *)
Definition called (call : api_call) (c : option cart_config) : bool :=
  match c with Some c' => bool_decide (Issued call ∈ cfg_log c') | None => false end.

(** The [i]-th pending call of the page settles: a mock's value. *)
Definition resolves (i : nat) (p : payload) : action cp_event := ASettle i (Resolved p).
Definition rejects (i : nat) (msg : string) : action cp_event := ASettle i (Rejected (RejError msg)).

(** ** The tests

    Each test is its scenario and its expectations: [true] when they all
    hold on the configuration the scenario reaches. *)

Definition placed_order : CheckoutResultDto :=
  mkCheckoutResultDto true "Order placed successfully" (Some (QArith_base.Qmake 105997 100))
    (Some mockCartItems).

Definition payment_failed : CheckoutResultDto :=
  mkCheckoutResultDto false "Payment failed" None None.

(** [fireEvent.click(screen.getAllByText("Remove")[0])]: the first row's button. *)
Definition first_remove : action cp_event :=
  match mockCartItems with
  | item :: _ => AEvent (RemoveClick (CartItem.handleRemove item))
  | [] => AEvent StartShopping
  end.

(** The cart of [mockCartItems] is shown, then "Proceed to Checkout" is clicked. *)
Definition checkout_script (o : api_result payload) : list (action cp_event) :=
  [resolves 0 (PCart mockCartItems); AEvent CheckoutClick; ASettle 0 o].

Definition redirects_to_register : bool :=
  navigated "/register" (renderWithProviders cleared_storage []).

(** [getCart] never settles. *)
Definition shows_loading : bool :=
  shows "Loading cart..." (renderWithProviders signed_in_storage []).

Definition displays_items : bool :=
  let c := renderWithProviders signed_in_storage [resolves 0 (PCart mockCartItems)] in
  shows "Laptop" c && shows "Mouse" c.

Definition shows_empty : bool :=
  shows "Your cart is empty" (renderWithProviders signed_in_storage [resolves 0 (PCart [])]).

Definition start_shopping : bool :=
  shows "Start Shopping" (renderWithProviders signed_in_storage [resolves 0 (PCart [])]) &&
  navigated "/" (renderWithProviders signed_in_storage [resolves 0 (PCart []); AEvent StartShopping]).

Definition calculates_total : bool :=
  shows "$1059.97" (renderWithProviders signed_in_storage [resolves 0 (PCart mockCartItems)]).

Definition removes_item : bool :=
  called (RemoveFromCart 123 10)
    (renderWithProviders signed_in_storage [resolves 0 (PCart mockCartItems); first_remove]).

Definition remove_fails : bool :=
  shows "Failed to remove item"
    (renderWithProviders signed_in_storage
       [resolves 0 (PCart mockCartItems); first_remove; rejects 0 "Failed to remove item"]).

Definition shows_checkout_button : bool :=
  shows "Proceed to Checkout" (renderWithProviders signed_in_storage [resolves 0 (PCart mockCartItems)]).

(** The heading the test looks for, as its file spells it. *)
Definition misencoded_heading : string := "âœ“ Checkout Successful!".

Definition completes_checkout : bool :=
  let c := renderWithProviders signed_in_storage (checkout_script (Resolved (PCheckout placed_order))) in
  shows misencoded_heading c && shows "Order placed successfully" c && shows "Total Amount:" c.

Definition displays_purchased : bool :=
  shows "Purchased Items:"
    (renderWithProviders signed_in_storage (checkout_script (Resolved (PCheckout placed_order)))).

Definition checkout_fails : bool :=
  shows "Insufficient stock"
    (renderWithProviders signed_in_storage (checkout_script (Rejected (RejError "Insufficient stock")))).

Definition prevents_empty_checkout : bool :=
  let c := renderWithProviders signed_in_storage [resolves 0 (PCart [])] in
  shows "Your cart is empty" c && absent "Proceed to Checkout" c.

Definition navigates_home : bool :=
  let script := checkout_script (Resolved (PCheckout placed_order)) in
  shows "Continue Shopping" (renderWithProviders signed_in_storage script) &&
  navigated "/" (renderWithProviders signed_in_storage (script ++ [AEvent ContinueShopping])).

Definition load_failure : bool :=
  shows "Failed to load cart" (renderWithProviders signed_in_storage [rejects 0 "Failed to load cart"]).

Definition displays_title : bool :=
  shows "Shopping Cart" (renderWithProviders signed_in_storage [resolves 0 (PCart mockCartItems)]).

Definition failed_checkout_result : bool :=
  let c := renderWithProviders signed_in_storage (checkout_script (Resolved (PCheckout payment_failed))) in
  shows "Checkout Failed" c && shows "Payment failed" c.

End CartPageTests.

(** * [src/src/__tests__/CartPage.advanced.test.tsx]

    The advanced tests of the cart page, with the harness above.  The
    mocked [removeFromCart] resolves with [{ success: true }], a value
    the page discards ([PVoid]); a rejection that is not an [Error] is a
    [RejValue].  A click on a control kept from an earlier render
    ([removeBtn], [checkoutBtn]) acts on the control React kept for it. *)

Module CartPageAdvancedTests.
Import CartItem CartPage CartPageTests.

Definition laptop_item : CartItemDto :=
  mkCartItemDto 1 10 "Laptop" (QArith_base.Qmake 99999 100) 1 (QArith_base.Qmake 99999 100).
Definition mouse_item : CartItemDto :=
  mkCartItemDto 2 20 "Mouse" (QArith_base.Qmake 2999 100) 1 (QArith_base.Qmake 2999 100).

(** [mockCartItems] of this file: the laptop alone. *)
Definition mockCartItems : list CartItemDto := [laptop_item].

Definition loaded : action cp_event := resolves 0 (PCart mockCartItems).

(** The cart is shown, "Proceed to Checkout" is clicked and [checkout] answers [o]. *)
Definition checkout_with (o : api_result payload) : list (action cp_event) :=
  [loaded; AEvent CheckoutClick; ASettle 0 o].

Definition remove_laptop : action cp_event := AEvent (RemoveClick (CartItem.handleRemove laptop_item)).

Definition rejects_value (i : nat) (v : json) : action cp_event := ASettle i (Rejected (RejValue v)).

(** [expect(api.getCart).toHaveBeenCalledTimes(n)]. *)
Definition getCart_calls (c : option cart_config) : nat :=
  match c with
  | Some c' => length (List.filter (fun x => match x with Issued (GetCart _) => true | _ => false end) (cfg_log c'))
  | None => 0
  end.

Definition checkout_called (c : option cart_config) : bool :=
  match c with
  | Some c' => existsb (fun x => match x with Issued (Checkout _) => true | _ => false end) (cfg_log c')
  | None => false
  end.

Definition success (message : string) (total : option QArith_base.Q) (items : option (list CartItemDto))
    : api_result payload :=
  Resolved (PCheckout (mkCheckoutResultDto true message total items)).

(** ** The tests *)

Definition checkout_network_error : bool :=
  shows "Network error: Failed to connect"
    (renderWithProviders signed_in_storage (checkout_with (Rejected (RejError "Network error: Failed to connect")))).

Definition checkout_unknown_error : bool :=
  shows "Checkout failed"
    (renderWithProviders signed_in_storage (checkout_with (Rejected (RejValue (JSString "String error"))))).

Definition checkout_timeout : bool :=
  shows "Request timeout" (renderWithProviders signed_in_storage (checkout_with (Rejected (RejError "Request timeout")))).

Definition empty_after_removal : bool :=
  shows "Your cart is empty"
    (renderWithProviders signed_in_storage [loaded; remove_laptop; resolves 0 PVoid; resolves 0 (PCart [])]).

Definition partial_success : bool :=
  let c := renderWithProviders signed_in_storage
             (checkout_with (Resolved (PCheckout (mkCheckoutResultDto false "Some items out of stock"
                                                   (Some (QArith_base.Qmake 0 1)) (Some []))))) in
  shows "Checkout Failed" c && shows "Some items out of stock" c.

Definition load_error_instance : bool :=
  shows "Failed to fetch cart data" (renderWithProviders signed_in_storage [rejects 0 "Failed to fetch cart data"]).

Definition load_error_string : bool :=
  shows "Failed to load cart" (renderWithProviders signed_in_storage [rejects_value 0 (JSString "Unknown error")]).

Definition load_error_null : bool :=
  shows "Failed to load cart" (renderWithProviders signed_in_storage [rejects_value 0 JSNull]).

(** [getAllByText("Remove")[1]]: the mouse's row. *)
Definition reloads_after_removal : bool :=
  let c := renderWithProviders signed_in_storage
             [resolves 0 (PCart [laptop_item; mouse_item]);
              AEvent (RemoveClick (CartItem.handleRemove mouse_item)); resolves 0 PVoid] in
  shows "Mouse" (renderWithProviders signed_in_storage [resolves 0 (PCart [laptop_item; mouse_item])]) &&
  bool_decide (getCart_calls c = 2%nat).

Definition removal_error_instance : bool :=
  shows "Product not found in cart"
    (renderWithProviders signed_in_storage [loaded; remove_laptop; rejects 0 "Product not found in cart"]).

Definition removal_unknown_error : bool :=
  shows "Failed to remove item"
    (renderWithProviders signed_in_storage
       [loaded; remove_laptop; rejects_value 0 (JSObject [("code", JSNumber 404)]%string)]).

Definition success_all_details : bool :=
  let c := renderWithProviders signed_in_storage
             (checkout_with (success "Order placed successfully!" (Some (QArith_base.Qmake 99999 100))
                               (Some [laptop_item]))) in
  shows "✓ Checkout Successful!" c && shows "Order placed successfully!" c && shows "$999.99" c.

Definition success_without_total : bool :=
  let c := renderWithProviders signed_in_storage (checkout_with (success "Order confirmed" None (Some []))) in
  shows "✓ Checkout Successful!" c && absent "Total Amount:" c.

Definition success_without_items : bool :=
  let c := renderWithProviders signed_in_storage
             (checkout_with (success "Payment processed" (Some (QArith_base.Qmake 99999 100)) None)) in
  shows "✓ Checkout Successful!" c && absent "Purchased Items:" c.

Definition continue_shopping : bool :=
  let script := checkout_with (success "Success" (Some (QArith_base.Qmake 99999 100)) None) in
  shows "Continue Shopping" (renderWithProviders signed_in_storage script) &&
  navigated "/" (renderWithProviders signed_in_storage (script ++ [AEvent ContinueShopping])).

Definition multiple_purchased : bool :=
  let c := renderWithProviders signed_in_storage
             (checkout_with (success "All items purchased" (Some (QArith_base.Qmake 102998 100))
                               (Some [laptop_item; mouse_item]))) in
  shows "Laptop x 1 - $999.99" c && shows "Mouse x 1 - $29.99" c.

Definition keyboard : CartItemDto :=
  mkCartItemDto 1 10 "Keyboard" (QArith_base.Qmake 7999 100) 1 (QArith_base.Qmake 7999 100).

Definition total_single : bool :=
  shows "Keyboard" (renderWithProviders signed_in_storage [resolves 0 (PCart [keyboard])]).

Definition total_multiple : bool :=
  shows "$189.97"
    (renderWithProviders signed_in_storage
       [resolves 0 (PCart [mkCartItemDto 1 10 "Keyboard" (QArith_base.Qmake 7999 100) 2 (QArith_base.Qmake 15998 100);
                           mouse_item])]).

Definition total_empty : bool :=
  shows "Your cart is empty" (renderWithProviders signed_in_storage [resolves 0 (PCart [])]).

Definition loads_for_user : bool :=
  let c := renderWithProviders signed_in_storage [loaded] in
  shows "Laptop" c && called (GetCart 123) c.

Definition checkout_still_called : bool :=
  checkout_called (renderWithProviders signed_in_storage [loaded; AEvent CheckoutClick]).

Definition clears_error_after_removal : bool :=
  let first := [loaded; remove_laptop; rejects 0 "Network error"] in
  shows "Network error" (renderWithProviders signed_in_storage first) &&
  absent "Network error"
    (renderWithProviders signed_in_storage (first ++ [remove_laptop; resolves 0 PVoid; resolves 0 (PCart [])])).

Definition clears_error_before_checkout : bool :=
  let first := checkout_with (Rejected (RejError "Payment failed")) in
  shows "Payment failed" (renderWithProviders signed_in_storage first) &&
  absent "Payment failed"
    (renderWithProviders signed_in_storage (first ++ [AEvent CheckoutClick; ASettle 0 (success "Success" None None)])).

Definition cart_page_advanced_tests : list bool :=
  [checkout_network_error; checkout_unknown_error; checkout_timeout; empty_after_removal;
   partial_success; load_error_instance; load_error_string; load_error_null; reloads_after_removal;
   removal_error_instance; removal_unknown_error; success_all_details; success_without_total;
   success_without_items; continue_shopping; multiple_purchased; total_single; total_multiple;
   total_empty; loads_for_user; checkout_still_called; clears_error_after_removal;
   clears_error_before_checkout].

End CartPageAdvancedTests.

(** * The [CartItem] unit tests ([src/unnamed/part_002]) *)

Module CartItemTests.
Import CartItem.

Definition mockCartItem : CartItemDto :=
  mkCartItemDto 1 10 "Test Product" (QArith_base.Qmake 4999 100) 2 (QArith_base.Qmake 9998 100).

(** [render(<CartItem item={item} onRemove={mockRemove} />)] then
    [getByText(s)], [getByRole("button", { name })] or
    [getByRole("heading", { name })]. *)
Definition shows (s : string) (item : CartItemDto) : bool :=
  bool_decide (is_Some (get_one (with_text s) (CartItem item))).

Definition has_button (name : string) (item : CartItemDto) : bool :=
  bool_decide (is_Some (get_one (button_named name) (CartItem item))).

Definition has_heading (name : string) (item : CartItemDto) : bool :=
  bool_decide (is_Some (get_one (heading_named name) (CartItem item))).

(** [{ ...mockCartItem, price, quantity, subtotal }] *)
Definition with_fields (price : QArith_base.Q) (quantity : Z) (subtotal : QArith_base.Q)
    : CartItemDto :=
  mkCartItemDto (item_id mockCartItem) (item_productId mockCartItem)
    (item_productName mockCartItem) price quantity subtotal.

Definition renders_information : bool :=
  shows "Test Product" mockCartItem && shows "Price: $49.99" mockCartItem &&
  shows "Quantity: 2" mockCartItem && shows "$99.98" mockCartItem.

Definition formats_two_decimals : bool :=
  let item := with_fields (QArith_base.Qmake 125 10) (item_quantity mockCartItem)
                (QArith_base.Qmake 250 10) in
  shows "Price: $12.50" item && shows "$25.00" item.

Definition displays_quantity : bool :=
  shows "Quantity: 5" (with_fields (item_price mockCartItem) 5 (QArith_base.Qmake 24995 100)).

(** Clicking the button calls [onRemove] once, with the product id. *)
Definition calls_onRemove : bool :=
  bool_decide ([handleRemove mockCartItem] = [item_productId mockCartItem]) &&
  shows "Remove" mockCartItem.

Definition renders_remove_button : bool := has_button "Remove" mockCartItem.

Definition displays_subtotal_label : bool := shows "Subtotal:" mockCartItem.

Definition single_quantity : bool :=
  let item := with_fields (item_price mockCartItem) 1 (QArith_base.Qmake 4999 100) in
  shows "Quantity: 1" item && shows "$49.99" item.

Definition high_quantity : bool :=
  let item := with_fields (item_price mockCartItem) 100 (QArith_base.Qmake 49990 10) in
  shows "Quantity: 100" item && shows "$4999.00" item.

Definition name_as_heading : bool := has_heading "Test Product" mockCartItem.

End CartItemTests.

(** * Properties *)

Module CartPageTestsProps.
Import CartPageTests.

(** Replayed on the model, every unit test of the cart page passes
    but "completes checkout successfully", which looks for a mis-encoded
    heading; with the heading the page renders, "✓ Checkout
    Successful!", its expectations hold too. *)
Theorem cart_page_tests :
  forallb id [redirects_to_register; shows_loading; displays_items; shows_empty; start_shopping;
              calculates_total; removes_item; remove_fails; shows_checkout_button;
              displays_purchased; checkout_fails; prevents_empty_checkout; navigates_home;
              load_failure; displays_title; failed_checkout_result] = true /\
  completes_checkout = false /\
  (let c := renderWithProviders signed_in_storage (checkout_script (Resolved (PCheckout placed_order))) in
   shows "✓ Checkout Successful!" c && shows "Order placed successfully" c
   && shows "Total Amount:" c) = true.
Proof. vm_compute. repeat split. Qed.

(** every unit test of [CartItem] passes on the model. *)
Theorem cart_item_tests :
  forallb id [CartItemTests.renders_information; CartItemTests.formats_two_decimals;
              CartItemTests.displays_quantity; CartItemTests.calls_onRemove;
              CartItemTests.renders_remove_button; CartItemTests.displays_subtotal_label;
              CartItemTests.single_quantity; CartItemTests.high_quantity;
              CartItemTests.name_as_heading] = true.
Proof. vm_compute. reflexivity. Qed.

(** under [renderWithProviders] a signed-in visitor is also sent to
    [/register]: the page's mount effect runs before the provider has
    read the storage, so the first test would pass for a stored user as
    well. *)
Theorem signed_in_render_redirects :
  navigated "/register" (renderWithProviders signed_in_storage []) = true /\
  called (GetCart 123) (renderWithProviders signed_in_storage []) = true.
Proof. vm_compute. split; reflexivity. Qed.

(** Every test of [CartPage.advanced.test.tsx] passes on the model: the
    rejections of each call, [Error] or not, the reloads after a
    removal, the optional fields of a checkout result, the totals, and
    the errors cleared by a later action. *)
Theorem cart_page_advanced_tests_pass : forallb id CartPageAdvancedTests.cart_page_advanced_tests = true.
Proof. vm_compute. reflexivity. Qed.

End CartPageTestsProps.
