(* ===== verification/ProductDetailTests.v ===== *)
(** * The product detail page's advanced unit tests, replayed on the model

    [src/unnamed/part_001] ([ProductDetail.advanced.test.tsx]) renders the
    page at a route of [<Routes>] holding only [/product/:id], under
    [UserContextProvider], with the API mocked.  Each test is replayed as
    in [CartPageTests]: its scenario is a scripted [run] of
    [product_detail] from [renderWithProviders], its expectations are
    queries on the elements the page renders ([pd_elements]) and on the
    log.  [renderWithProviders] mounts the page with the provider's
    initial [null] and then delivers the user id the provider reads from
    the storage.

    "shows generic error when product is null" resolves [getProductById]
    with [null as any], a value outside the call's type: it is replayed
    by settling the call with [PNull] outside [act] ([resolve_untyped]),
    and [setProduct(null)] leaves the page on "Product not found".

    Module [ProductDetailUnitTests] replays the [ProductDetail Component]
    suite of [src/src/__tests__/ProductDetail.test.tsx]. *)

From S2P Require Import Prelude JsString Api Session Runtime ProductDetail App.
From Stdlib Require QArith_base.

Module ProductDetailTests.
Import ProductDetail App.

Abbreviation pd_config := (config pd_state pd_await pd_timer).

Definition cleared_storage : gmap string string := ∅.

Definition signed_in_storage : gmap string string :=
  <[USER_ID_STORAGE_KEY := "123"%string]> cleared_storage.

(** [window.history.pushState({}, "Test", initialRoute)], then the
    render: the route's [:id] is the page's parameter. *)
Definition renderWithProviders (initialRoute : string) (ls : gmap string string)
    (script : list (action pd_event)) : option pd_config :=
  match route_of initialRoute with
  | RProduct id =>
      run (product_detail (Some id) None) (AEvent (UserChanged (sess_userId (boot ls))) :: script)
        (init_config (product_detail (Some id) None))
  | _ => None
  end.

Definition mockProduct : ProductDto :=
  mkProductDto 1 "Gaming Laptop" (Some "High-performance laptop"%string)
    (QArith_base.Qmake 149999 100) 5.

(** [{ ...mockProduct, stockQuantity }] and [{ ...mockProduct, description: undefined }]. *)
Definition with_stock (n : Z) : ProductDto :=
  mkProductDto (product_id mockProduct) (product_name mockProduct)
    (product_description mockProduct) (product_price mockProduct) n.

Definition without_description : ProductDto :=
  mkProductDto (product_id mockProduct) (product_name mockProduct) None
    (product_price mockProduct) (product_stockQuantity mockProduct).

(** ** The harness's queries *)

Definition elements (c : option pd_config) : list element :=
  match c with Some c' => pd_elements (cfg_state c') | None => [] end.

Definition shows (s : string) (c : option pd_config) : bool :=
  bool_decide (is_Some (get_one (with_text s) (elements c))).

Definition absent (s : string) (c : option pd_config) : bool :=
  bool_decide (is_Some c) && query_none (with_text s) (elements c).

(** [expect(quantityInput).toHaveValue(v)] / [.toBeDisabled()]. *)
Definition input_value (c : option pd_config) : option string :=
  match get_one (labelled "Quantity:") (elements c) with
  | Some (Input _ _ v _) => Some v
  | _ => None
  end.

Definition input_disabled (c : option pd_config) : bool :=
  match get_one (labelled "Quantity:") (elements c) with
  | Some e => element_disabled e
  | None => false
  end.

Definition button_disabled (name : string) (c : option pd_config) : bool :=
  match get_one (button_named name) (elements c) with
  | Some e => element_disabled e
  | None => false
  end.

(** [mockNavigate], the [vi.fn()] the mocked [useNavigate] returns:
    [expect(mockNavigate).toHaveBeenCalledWith(route)]. *)
Definition navigated (route : string) (c : option pd_config) : bool :=
  match c with Some c' => bool_decide (Navigated route ∈ cfg_log c') | None => false end.

Definition called (call : api_call) (c : option pd_config) : bool :=
  match c with Some c' => bool_decide (Issued call ∈ cfg_log c') | None => false end.

Definition resolves (i : nat) (p : payload) : action pd_event := ASettle i (Resolved p).
Definition rejects (i : nat) (msg : string) : action pd_event := ASettle i (Rejected (RejError msg)).

(** The product page is shown ([waitFor] on its name). *)
Definition loaded (p : ProductDto) : action pd_event := resolves 0 (PProduct p).

(** [fireEvent.change(quantityInput, { target: { value } })], then a
    click on "Add to Cart". *)
Definition add_with (value : string) : list (action pd_event) :=
  [AEvent (QuantityInput value); AEvent AddToCartClick].

Definition rejected_add (msg : string) : bool :=
  shows msg (renderWithProviders "/product/1" signed_in_storage
               [loaded mockProduct; AEvent AddToCartClick; rejects 0 msg]).

(** ** The tests *)

Definition quantity_zero : bool :=
  shows "Quantity must be greater than 0"
    (renderWithProviders "/product/1" signed_in_storage (loaded mockProduct :: add_with "0")).

Definition quantity_negative : bool :=
  shows "Quantity must be greater than 0"
    (renderWithProviders "/product/1" signed_in_storage (loaded mockProduct :: add_with "-5")).

Definition quantity_exceeds_stock : bool :=
  shows "Only 5 items available in stock"
    (renderWithProviders "/product/1" signed_in_storage (loaded mockProduct :: add_with "10")).

Definition quantity_exceeds_by_one : bool :=
  shows "Only 5 items available in stock"
    (renderWithProviders "/product/1" signed_in_storage (loaded mockProduct :: add_with "6")).

Definition exactly_stock : bool :=
  let c := renderWithProviders "/product/1" signed_in_storage
             (loaded mockProduct :: add_with "5" ++ [resolves 0 PVoid]) in
  shows "Item added to cart!" c && called (AddToCart 123 (mkAddToCartRequest 1 5)) c.

Definition nan_quantity : bool :=
  bool_decide (input_value (renderWithProviders "/product/1" signed_in_storage
                 [loaded mockProduct; AEvent (QuantityInput "abc")]) = Some "1"%string).

Definition empty_quantity : bool :=
  bool_decide (input_value (renderWithProviders "/product/1" signed_in_storage
                 [loaded mockProduct; AEvent (QuantityInput "")]) = Some "1"%string).

Definition decimal_quantity : bool :=
  bool_decide (input_value (renderWithProviders "/product/1" signed_in_storage
                 [loaded mockProduct; AEvent (QuantityInput "2.5")]) = Some "2"%string).

(** The back button's label, as the test file spells it. *)
Definition misencoded_back : string := "â† Back to Products".

Definition back_to_home : bool :=
  shows misencoded_back (renderWithProviders "/product/1" cleared_storage [loaded mockProduct]) &&
  navigated "/" (renderWithProviders "/product/1" cleared_storage
                   [loaded mockProduct; AEvent BackToProducts]).

Definition back_when_not_found : bool :=
  let script := [rejects 0 "Product not found"] in
  shows "Product not found" (renderWithProviders "/product/999" cleared_storage script) &&
  shows "Back to Products" (renderWithProviders "/product/999" cleared_storage script) &&
  navigated "/" (renderWithProviders "/product/999" cleared_storage
                   (script ++ [AEvent BackToProducts])).

Definition register_button : bool :=
  shows "Register / Login" (renderWithProviders "/product/1" cleared_storage [loaded mockProduct]) &&
  navigated "/register" (renderWithProviders "/product/1" cleared_storage
                           [loaded mockProduct; AEvent RegisterClick]).

Definition not_found_error : bool :=
  shows "Product with ID 999 not found"
    (renderWithProviders "/product/999" cleared_storage [rejects 0 "Product with ID 999 not found"]).

Definition network_error : bool :=
  shows "Network connection failed"
    (renderWithProviders "/product/1" cleared_storage [rejects 0 "Network connection failed"]).

(** [mockRejectedValue({ code: 500 })]: not an [Error]. *)
Definition unknown_error : bool :=
  shows "Failed to load product"
    (renderWithProviders "/product/1" cleared_storage
       [ASettle 0 (Rejected (RejValue (JSObject [("code"%string, JSNumber 500)])))]).

(** [vi.mocked(api.getProductById).mockResolvedValue(null as any)]: the
    cast escapes the call's type, so the mock resolves the [i]-th pending
    call with a value [act] never delivers (it settles a call only with
    a value of its type); the page's continuation runs on it. *)
Definition resolve_untyped (i : nat) (p : payload) (c : option pd_config) : option pd_config :=
  c ≫= fun c' =>
    match cfg_tasks c' !! i with
    | Some (TCall k _) =>
        Some (exec (pd_settle k (Resolved p) (cfg_state c')) (delete i (cfg_tasks c')) (cfg_log c'))
    | _ => None
    end.

Definition null_product : bool :=
  shows "Product not found" (resolve_untyped 0 PNull (renderWithProviders "/product/1" cleared_storage [])).

Definition invalid_route_param : bool :=
  called (GetProductById JNaN) (renderWithProviders "/product/abc" cleared_storage []).

Definition add_fails : bool := rejected_add "Server error occurred".

(** [mockRejectedValue(null)]. *)
Definition add_fails_unknown : bool :=
  shows "Failed to add to cart"
    (renderWithProviders "/product/1" signed_in_storage
       [loaded mockProduct; AEvent AddToCartClick; ASettle 0 (Rejected (RejValue JSNull))]).

Definition clears_previous_message : bool :=
  let first := loaded mockProduct :: add_with "0" in
  shows "Quantity must be greater than 0" (renderWithProviders "/product/1" signed_in_storage first) &&
  let c := renderWithProviders "/product/1" signed_in_storage
             (first ++ add_with "1" ++ [resolves 0 PVoid]) in
  absent "Quantity must be greater than 0" c && shows "Item added to cart!" c.

Definition out_of_stock_message : bool :=
  shows "Out of Stock" (renderWithProviders "/product/1" cleared_storage [loaded (with_stock 0)]).

Definition out_of_stock_button : bool :=
  button_disabled "out of stock" (renderWithProviders "/product/1" signed_in_storage
                                   [loaded (with_stock 0)]).

Definition out_of_stock_input : bool :=
  input_disabled (renderWithProviders "/product/1" signed_in_storage [loaded (with_stock 0)]).

(** A click on a [disabled] button runs nothing: the handler is not
    enabled, and no [addToCart] is issued. *)
Definition disabled_click_no_call : bool :=
  match renderWithProviders "/product/1" signed_in_storage [loaded (with_stock 0)] with
  | Some c =>
      button_disabled "out of stock" (Some c) && negb (pd_enabled AddToCartClick (cfg_state c)) &&
      forallb (fun x => match x with Issued (AddToCart _ _) => false | _ => true end) (cfg_log c)
  | None => false
  end.

Definition success_message : bool :=
  shows "Item added to cart!" (renderWithProviders "/product/1" signed_in_storage
                                 [loaded mockProduct; AEvent AddToCartClick; resolves 0 PVoid]).

Definition with_description : bool :=
  let c := renderWithProviders "/product/1" cleared_storage [loaded mockProduct] in
  shows "Gaming Laptop" c && shows "High-performance laptop" c.

Definition no_description : bool :=
  let c := renderWithProviders "/product/1" cleared_storage [loaded without_description] in
  shows "Gaming Laptop" c && absent "High-performance laptop" c.

Definition stock_message : bool :=
  shows "5 available" (renderWithProviders "/product/1" cleared_storage [loaded mockProduct]).

Definition single_stock : bool :=
  shows "1 available" (renderWithProviders "/product/1" cleared_storage [loaded (with_stock 1)]).

Definition formatted_price : bool :=
  shows "$1499.99" (renderWithProviders "/product/1" cleared_storage [loaded mockProduct]).

Definition login_prompt : bool :=
  shows "Please register or login to purchase this product"
    (renderWithProviders "/product/1" cleared_storage [loaded mockProduct]).

Definition add_form : bool :=
  let c := renderWithProviders "/product/1" signed_in_storage [loaded mockProduct] in
  bool_decide (is_Some (input_value c)) && shows "Add to Cart" c.

End ProductDetailTests.

(** * [src/src/__tests__/ProductDetail.test.tsx]

    The unit tests of the page in [src/src/__tests__], with the same
    harness as the advanced tests above: [renderWithProviders] pushes
    the route [/product/1] and renders the page under the provider; its
    own [mockProduct] has a longer description. *)

Module ProductDetailUnitTests.
Import ProductDetail App ProductDetailTests.

Definition mockProduct : ProductDto :=
  mkProductDto 1 "Gaming Laptop" (Some "High-performance gaming laptop with RGB keyboard"%string)
    (QArith_base.Qmake 149999 100) 5.

Definition with_stock (n : Z) : ProductDto :=
  mkProductDto (product_id mockProduct) (product_name mockProduct)
    (product_description mockProduct) (product_price mockProduct) n.

Definition without_description : ProductDto :=
  mkProductDto (product_id mockProduct) (product_name mockProduct) None
    (product_price mockProduct) (product_stockQuantity mockProduct).

(** [renderWithProviders()] at its default route. *)
Definition render (ls : gmap string string) (script : list (action pd_event)) : option pd_config :=
  renderWithProviders "/product/1" ls script.

(** [screen.getByText(/needle/i)]. *)
Definition shows_matching (needle : string) (c : option pd_config) : bool :=
  bool_decide (is_Some (get_one (fun e => match element_text e with
                                           | Some t => contains_ci needle t
                                           | None => false
                                           end) (elements c))).

(** [expect(api.addToCart).not.toHaveBeenCalled()]. *)
Definition add_not_called (c : option pd_config) : bool :=
  match c with
  | Some c' => forallb (fun x => match x with Issued (AddToCart _ _) => false | _ => true end) (cfg_log c')
  | None => false
  end.

(** ** The tests *)

Definition loading_initially : bool := shows "Loading product..." (render cleared_storage []).

Definition details_after_loading : bool :=
  let c := render cleared_storage [loaded mockProduct] in
  shows "Gaming Laptop" c && shows "$1499.99" c && shows "5 available" c &&
  shows "High-performance gaming laptop with RGB keyboard" c.

Definition error_on_failure : bool :=
  shows "Product not found" (render cleared_storage [rejects 0 "Product not found"]).

Definition back_button : bool := shows "← Back to Products" (render cleared_storage [loaded mockProduct]).

Definition back_navigates : bool :=
  shows "← Back to Products" (render cleared_storage [loaded mockProduct]) &&
  navigated "/" (render cleared_storage [loaded mockProduct; AEvent BackToProducts]).

Definition out_of_stock_status : bool :=
  shows "Out of Stock" (render cleared_storage [loaded (with_stock 0)]).

Definition out_of_stock_disabled : bool :=
  button_disabled "out of stock" (render signed_in_storage [loaded (with_stock 0)]).

Definition quantity_input : bool :=
  bool_decide (input_value (render signed_in_storage [loaded mockProduct]) = Some "1"%string).

Definition quantity_updates : bool :=
  bool_decide (input_value (render signed_in_storage [loaded mockProduct; AEvent (QuantityInput "3")])
               = Some "3"%string).

Definition adds_with_quantity : bool :=
  called (AddToCart 123 (mkAddToCartRequest 1 2)) (render signed_in_storage (loaded mockProduct :: add_with "2")).

Definition success_after_add : bool :=
  shows "Item added to cart!"
    (render signed_in_storage [loaded mockProduct; AEvent AddToCartClick; resolves 0 PVoid]).

Definition positive_quantity : bool :=
  let c := render signed_in_storage (loaded mockProduct :: add_with "0") in
  shows "Quantity must be greater than 0" c && add_not_called c.

Definition stock_limit : bool :=
  shows_matching "Only 5 items available in stock" (render signed_in_storage (loaded mockProduct :: add_with "10")).

Definition register_prompt : bool :=
  shows "Please register or login to purchase this product" (render cleared_storage [loaded mockProduct]).

Definition register_navigates : bool :=
  shows "Register / Login" (render cleared_storage [loaded mockProduct]) &&
  navigated "/register" (render cleared_storage [loaded mockProduct; AEvent RegisterClick]).

(** [queryByText("High-performance gaming laptop")] is an exact match on
    a prefix of the description. *)
Definition no_description : bool :=
  let c := render cleared_storage [loaded without_description] in
  shows "Gaming Laptop" c && absent "High-performance gaming laptop" c.

Definition product_detail_unit_tests : list bool :=
  [loading_initially; details_after_loading; error_on_failure; back_button; back_navigates;
   out_of_stock_status; out_of_stock_disabled; quantity_input; quantity_updates; adds_with_quantity;
   success_after_add; positive_quantity; stock_limit; register_prompt; register_navigates;
   no_description].

End ProductDetailUnitTests.

(** * Properties *)

Module ProductDetailTestsProps.
Import ProductDetailTests.

(** Replayed on the model, every advanced unit test of the product
    detail page passes, the one that resolves the product with [null]
    included, but "navigates back to home when back button
    clicked", which looks for a mis-encoded label; with the label the
    page renders, "← Back to Products", the button leads home. *)
Theorem product_detail_tests :
  forallb id [quantity_zero; quantity_negative; quantity_exceeds_stock; quantity_exceeds_by_one;
              exactly_stock; nan_quantity; empty_quantity; decimal_quantity; back_when_not_found;
              register_button; not_found_error; network_error; unknown_error; null_product;
              invalid_route_param;
              add_fails; add_fails_unknown; clears_previous_message; out_of_stock_message;
              out_of_stock_button; out_of_stock_input; disabled_click_no_call; success_message;
              with_description; no_description; stock_message; single_stock; formatted_price;
              login_prompt; add_form] = true /\
  back_to_home = false /\
  shows "← Back to Products" (renderWithProviders "/product/1" cleared_storage [loaded mockProduct])
  = true.
Proof. vm_compute. repeat split. Qed.

(** Every test of [ProductDetail.test.tsx] passes on the model; the last
    one's negative assertion holds also when the description is
    rendered, so it does not check that the description is left out. *)
Theorem product_detail_unit_tests_pass :
  forallb id ProductDetailUnitTests.product_detail_unit_tests = true /\
  absent "High-performance gaming laptop"
    (ProductDetailUnitTests.render cleared_storage [loaded ProductDetailUnitTests.mockProduct]) = true.
Proof. vm_compute. split; reflexivity. Qed.

End ProductDetailTestsProps.
