(* ===== verification/RegisterTests.v ===== *)
(** * The registration page's advanced unit tests, replayed on the model

    [src/unnamed/part_000] ([Register.advanced.test.tsx]) renders
    [Register] under [UserContextProvider] with [createUser] mocked.  Each
    test is replayed as in [CartPageTests]: a scripted [run] of
    [register_page] and queries on [reg_elements], the log and the
    session's storage.  [Register] has no effect of its own, so the page
    rendered under the provider is the page on the session the provider's
    mount effect produces ([boot]).

    Module [RegisterUnitTests] replays the [Register Component] suite of
    [src/src/__tests__/Register.test.tsx]. *)

From S2P Require Import Prelude JsString Api Session Runtime Register.

Module RegisterTests.
Import RegisterPage.

Abbreviation reg_config := (config (@reg_state session) reg_await reg_timer).

Definition cleared_storage : gmap string string := ∅.

Definition signed_in_storage : gmap string string :=
  <[USER_ID_STORAGE_KEY := "123"%string]> cleared_storage.

(** [renderWithProviders(<Register />)], then the test's script. *)
Definition renderWithProviders (ls : gmap string string) (script : list (action reg_event))
    : option reg_config :=
  run (register_page (boot ls)) script (init_config (register_page (boot ls))).

(** ** The harness's queries *)

Definition elements (c : option reg_config) : list element :=
  match c with Some c' => reg_elements (cfg_state c') | None => [] end.

Definition shows (s : string) (c : option reg_config) : bool :=
  bool_decide (is_Some (get_one (with_text s) (elements c))).

Definition absent (s : string) (c : option reg_config) : bool :=
  bool_decide (is_Some c) && query_none (with_text s) (elements c).

Definition no_input (label : string) (c : option reg_config) : bool :=
  bool_decide (is_Some c) && query_none (labelled label) (elements c).

Definition input_value (label : string) (c : option reg_config) : option string :=
  match get_one (labelled label) (elements c) with
  | Some (Input _ _ v _) => Some v
  | _ => None
  end.

Definition disabled (p : element -> bool) (c : option reg_config) : option bool :=
  element_disabled <$> get_one p (elements c).

(** [mockNavigate], the [vi.fn()] the mocked [useNavigate] returns:
    [expect(mockNavigate).toHaveBeenCalledWith(route)]. *)
Definition navigated (route : string) (c : option reg_config) : bool :=
  match c with Some c' => bool_decide (Navigated route ∈ cfg_log c') | None => false end.

(** [expect(api.createUser).toHaveBeenCalledWith(req)] / [.toHaveBeenCalled()]. *)
Definition created (req : CreateUserRequest) (c : option reg_config) : bool :=
  match c with Some c' => bool_decide (Issued (CreateUser req) ∈ cfg_log c') | None => false end.

Definition create_called (c : option reg_config) : bool :=
  match c with
  | Some c' => existsb (fun x => match x with Issued (CreateUser _) => true | _ => false end) (cfg_log c')
  | None => false
  end.

(** [localStorage.getItem("ai-store-user-id")]. *)
Definition stored (c : option reg_config) : option string :=
  c ≫= fun c' => sess_storage (r_ctx (cfg_state c')) !! USER_ID_STORAGE_KEY.

(** [fireEvent.change] on the two fields, then a click on "Register". *)
Definition fill_and_submit (username email : string) : list (action reg_event) :=
  [AEvent (UsernameInput username); AEvent (EmailInput email); AEvent Submit].

Definition user (id : Z) (username email : string) : payload := PUser (mkUserDto id username email).

Definition submitted_as (username email : string) (o : api_result payload) : option reg_config :=
  renderWithProviders cleared_storage (fill_and_submit username email ++ [ASettle 0 o]).

Definition rejected_with (msg : string) : bool :=
  shows msg (submitted_as "testuser" "test@example.com" (Rejected (RejError msg))).

Definition accepted (email : string) : bool :=
  create_called (submitted_as "testuser" email (Resolved (user 1 "test" email))).

(** ** The tests *)

Definition valid_email : bool := accepted "test@example.com".

Definition email_without_tld : bool :=
  shows "Please enter a valid email address"
    (renderWithProviders cleared_storage (fill_and_submit "testuser" "test@domain")).

Definition email_with_subdomain : bool := accepted "test@mail.example.com".

Definition email_with_plus : bool := accepted "test+tag@example.com".

Definition email_with_numbers : bool := accepted "test123@example.com".

Definition empty_username : bool :=
  shows "Username is required"
    (renderWithProviders cleared_storage [AEvent (EmailInput "test@example.com"); AEvent Submit]).

Definition whitespace_username : bool :=
  shows "Username is required"
    (renderWithProviders cleared_storage (fill_and_submit "   " "test@example.com")).

(** [value: "\t\t"]: two tab characters. *)
Definition tab_only_username : bool :=
  let tab := String (ascii_of_nat 9) EmptyString in
  shows "Username is required"
    (renderWithProviders cleared_storage (fill_and_submit (tab +++ tab) "test@example.com")).

Definition trims_username : bool :=
  created (mkCreateUserRequest "testuser" "test@example.com")
    (renderWithProviders cleared_storage (fill_and_submit "  testuser  " "test@example.com")).

Definition empty_email : bool :=
  shows "Email is required"
    (renderWithProviders cleared_storage [AEvent (UsernameInput "testuser"); AEvent Submit]).

Definition whitespace_email : bool :=
  shows "Email is required" (renderWithProviders cleared_storage (fill_and_submit "testuser" "   ")).

Definition trims_email : bool :=
  created (mkCreateUserRequest "testuser" "test@example.com")
    (renderWithProviders cleared_storage (fill_and_submit "testuser" "  test@example.com  ")).

Definition error_instance : bool := rejected_with "Username already exists".

(** [mockRejectedValue({ status: 500 })] and [mockRejectedValue(null)]. *)
Definition unknown_error : bool :=
  shows "Failed to create user"
    (submitted_as "testuser" "test@example.com"
       (Rejected (RejValue (JSObject [("status"%string, JSNumber 500)])))).

Definition null_error : bool :=
  shows "Failed to create user" (submitted_as "testuser" "test@example.com" (Rejected (RejValue JSNull))).

Definition network_timeout : bool := rejected_with "Network request timeout".

Definition email_in_use : bool := rejected_with "Email already registered".

Definition logged_in_message : bool :=
  let c := renderWithProviders signed_in_storage [] in
  shows "Already Logged In" c && shows "You are currently logged in as User ID: 123" c.

Definition go_to_products : bool :=
  navigated "/" (renderWithProviders signed_in_storage [AEvent GoProducts]).

Definition view_cart : bool :=
  navigated "/cart" (renderWithProviders signed_in_storage [AEvent ViewCart]).

Definition both_buttons : bool :=
  let c := renderWithProviders signed_in_storage [] in
  shows "Go to Products" c && shows "View Cart" c.

Definition no_form_when_logged_in : bool :=
  let c := renderWithProviders signed_in_storage [] in
  no_input "Username" c && no_input "Email" c && absent "Register" c.

(** [createUser] never settles. *)
Definition disables_during_submission : bool :=
  let c := renderWithProviders cleared_storage (fill_and_submit "testuser" "test@example.com") in
  shows "Creating Account..." c &&
  bool_decide (disabled (labelled "Username") c = Some true) &&
  bool_decide (disabled (labelled "Email") c = Some true) &&
  bool_decide (disabled (with_text "Creating Account...") c = Some true).

Definition reenables_after_success : bool :=
  navigated "/" (submitted_as "testuser" "test@example.com"
                   (Resolved (user 1 "testuser" "test@example.com"))).

Definition reenables_after_error : bool :=
  let c := submitted_as "testuser" "test@example.com" (Rejected (RejError "Server error")) in
  shows "Server error" c &&
  bool_decide (disabled (labelled "Username") c = Some false) &&
  bool_decide (disabled (labelled "Email") c = Some false) &&
  bool_decide (disabled (with_text "Register") c = Some false).

Definition clears_error_on_resubmit : bool :=
  let first := fill_and_submit "testuser" "test@example.com" ++ [ASettle 0 (Rejected (RejError "First error"))] in
  shows "First error" (renderWithProviders cleared_storage first) &&
  absent "First error" (renderWithProviders cleared_storage (first ++ [AEvent Submit])).

Definition prevents_invalid_submission : bool :=
  let c := renderWithProviders cleared_storage [AEvent Submit] in
  shows "Username is required" c && negb (create_called c).

Definition navigates_home : bool :=
  navigated "/" (submitted_as "newuser" "new@example.com"
                   (Resolved (user 42 "newuser" "new@example.com"))).

Definition stores_user_id : bool :=
  bool_decide (stored (submitted_as "testuser" "test@example.com"
                         (Resolved (user 999 "testuser" "test@example.com"))) = Some "999"%string).

Definition updates_username : bool :=
  bool_decide (input_value "Username" (renderWithProviders cleared_storage
                 [AEvent (UsernameInput "myusername")]) = Some "myusername"%string).

Definition updates_email : bool :=
  bool_decide (input_value "Email" (renderWithProviders cleared_storage
                 [AEvent (EmailInput "my@email.com")]) = Some "my@email.com"%string).

Definition username_many_times : bool :=
  let typed (l : list string) :=
    input_value "Username" (renderWithProviders cleared_storage (map (fun t => AEvent (UsernameInput t)) l)) in
  bool_decide (typed ["first"]%string = Some "first"%string) &&
  bool_decide (typed ["first"; "second"]%string = Some "second"%string) &&
  bool_decide (typed ["first"; "second"; "third"]%string = Some "third"%string).

End RegisterTests.

(** * The [Register Component] suite of [src/src/__tests__/Register.test.tsx]

    The same harness; the queries are regular expressions with the [i]
    flag ([matching]).  "shows validation error for invalid email format"
    submits the form with [fireEvent.submit], which skips the browser's
    validation of the [type="email"] field; the other tests click the
    button with e-mails that validation accepts (or an empty field, which
    is not [required]), so every submission reaches [handleSubmit]
    ([Submit]). *)

Module RegisterUnitTests.
Import RegisterPage RegisterTests.

(** [getByText(/needle/i)]: exactly one element whose text matches. *)
Definition matching (needle : string) (c : option reg_config) : bool :=
  bool_decide (is_Some (get_one (fun e => match element_text e with
                                           | Some t => contains_ci needle t
                                           | None => false
                                           end) (elements c))).

(** [getByLabelText(/label/i)] and [getByRole("button", { name: /name/i })]. *)
Definition labelled_matching (needle : string) (c : option reg_config) : bool :=
  bool_decide (is_Some (get_one (fun e => match e with
                                           | Input _ l _ _ => contains_ci needle l
                                           | _ => false
                                           end) (elements c))).

Definition button_matching (needle : string) (c : option reg_config) : bool :=
  bool_decide (is_Some (get_one (button_named needle) (elements c))).

(** ** The tests *)

Definition renders_form : bool :=
  let c := renderWithProviders cleared_storage [] in
  matching "Register / Login" c && labelled_matching "Username" c && labelled_matching "Email" c &&
  button_matching "Register" c.

Definition empty_username_error : bool :=
  matching "Username is required" (renderWithProviders cleared_storage [AEvent Submit]).

Definition empty_email_error : bool :=
  matching "Email is required"
    (renderWithProviders cleared_storage [AEvent (UsernameInput "testuser"); AEvent Submit]).

Definition invalid_email_error : bool :=
  let c := renderWithProviders cleared_storage (fill_and_submit "testuser" "invalid-email") in
  matching "Please enter a valid email address" c && negb (create_called c).

Definition creates_and_navigates : bool :=
  let c := submitted_as "testuser" "test@example.com" (Resolved (user 1 "testuser" "test@example.com")) in
  created (mkCreateUserRequest "testuser" "test@example.com") c && navigated "/" c.

Definition api_failure : bool :=
  matching "User already exists"
    (submitted_as "testuser" "test@example.com" (Rejected (RejError "User already exists"))).

Definition register_unit_tests : list bool :=
  [renders_form; empty_username_error; empty_email_error; invalid_email_error;
   creates_and_navigates; api_failure].

End RegisterUnitTests.

(** * Properties *)

Module RegisterTestsProps.
Import RegisterTests.

(** Replayed on the model, every advanced unit test of the
    registration page passes. *)
Theorem register_tests :
  forallb id [valid_email; email_without_tld; email_with_subdomain; email_with_plus;
              email_with_numbers; empty_username; whitespace_username; tab_only_username;
              trims_username; empty_email; whitespace_email; trims_email; error_instance;
              unknown_error; null_error; network_timeout; email_in_use; logged_in_message;
              go_to_products; view_cart; both_buttons; no_form_when_logged_in;
              disables_during_submission; reenables_after_success; reenables_after_error;
              clears_error_on_resubmit; prevents_invalid_submission; navigates_home;
              stores_user_id; updates_username; updates_email; username_many_times] = true.
Proof. vm_compute. reflexivity. Qed.

(** Every test of the [Register Component] suite of [Register.test.tsx]
    passes on the model. *)
Theorem register_unit_tests_pass : forallb id RegisterUnitTests.register_unit_tests = true.
Proof. vm_compute. reflexivity. Qed.

End RegisterTestsProps.
