(* ===== verification/UserContextTests.v ===== *)
(** * The user context's unit tests, replayed on the model

    [src/src/__tests__/UserContext.test.tsx] renders the hook [useUser]
    with [renderHook], wrapped in [UserContextProvider], over a
    [localStorage] that [beforeEach] clears.  [renderHook] renders inside
    [act], which runs the provider's mount effect before the test reads
    [result.current]: the rendered hook is [boot] of the storage.  Each
    [act(() => result.current.setCurrentUserId(id))] is the provider's
    [setCurrentUserId] on that session, [clearUser] likewise.  Without the
    wrapper, [useUser] reads no provider and throws. *)

From S2P Require Import Prelude JsString Session.

Module UserContextTests.

(** [localStorage.clear()] in [beforeEach], and a storage holding one
    value under the provider's key. *)
Definition cleared_storage : gmap string string := ∅.

Definition storing (v : string) : gmap string string :=
  <[USER_ID_STORAGE_KEY := v]> cleared_storage.

(** [renderHook(() => useUser(), { wrapper: UserContextProvider })]. *)
Definition renderHook (ls : gmap string string) : session := boot ls.

(** [localStorage.getItem("ai-store-user-id")]. *)
Definition stored (s : session) : option string := sess_storage s !! USER_ID_STORAGE_KEY.

Definition user_is (id : option Z) (s : session) : bool := bool_decide (currentUserId s = id).
Definition stored_is (v : option string) (s : session) : bool := bool_decide (stored s = v).

(** ** The tests *)

Definition initial_null : bool := user_is None (renderHook cleared_storage).

Definition sets_and_persists : bool :=
  let s := setCurrentUserId (Some 123%Z) (renderHook cleared_storage) in
  user_is (Some 123%Z) s && stored_is (Some "123"%string) s.

Definition loads_on_mount : bool := user_is (Some 456%Z) (renderHook (storing "456")).

Definition clears_user : bool :=
  let s1 := setCurrentUserId (Some 789%Z) (renderHook cleared_storage) in
  let s2 := clearUser s1 in
  user_is (Some 789%Z) s1 && stored_is (Some "789"%string) s1 &&
  user_is None s2 && stored_is None s2.

Definition invalid_value : bool := user_is None (renderHook (storing "not-a-number")).

(** [expect(() => renderHook(() => useUser())).toThrow(msg)]. *)
Definition outside_provider : bool :=
  match useUser (@None session) with
  | Rejected m => str_includes "useUser must be used within a UserContextProvider" m
  | Resolved _ => false
  end.

Definition sets_null : bool :=
  let s1 := setCurrentUserId (Some 100%Z) (renderHook cleared_storage) in
  let s2 := setCurrentUserId None s1 in
  user_is (Some 100%Z) s1 && user_is None s2 && stored_is None s2.

Definition user_context_tests : list bool :=
  [initial_null; sets_and_persists; loads_on_mount; clears_user; invalid_value;
   outside_provider; sets_null].

End UserContextTests.

(** * Properties *)

Module UserContextTestsProps.
Import UserContextTests.

(** Replayed on the model, every unit test of the user context
    passes: the provider starts anonymous, restores a stored numeric id
    on mount and ignores a non-numeric one, [setCurrentUserId] and
    [clearUser] keep the state and [localStorage] in step, and [useUser]
    throws outside the provider. *)
Theorem user_context_tests_pass : forallb id user_context_tests = true.
Proof. vm_compute. reflexivity. Qed.

End UserContextTestsProps.
