(* ===== verification/HeaderTests.v ===== *)
(** * The header's unit tests, replayed on the model

    The second part of [src/src/__tests__/ProductDetail.test.tsx] tests
    [Header] alone under [BrowserRouter] and [UserContextProvider], after
    [localStorage.clear()].  [renderWithProviders] is the provider after
    its mount effect ([boot]); the queries run on the header's elements
    ([App.header_elements]); Logout is the session's [EvLogout]
    ([clearUser]).  The logo's [<h1>] has no [href] of its own:
    [closest("a")] is the [<Link to="/">] around it ([App.logo_link]). *)

From S2P Require Import Prelude JsString Session Runtime App.

Module HeaderTests.
Import App.

Definition cleared_storage : gmap string string := ∅.

Definition storing (v : string) : gmap string string :=
  <[USER_ID_STORAGE_KEY := v]> cleared_storage.

(** [renderWithProviders(<Header />)]. *)
Definition renderWithProviders (ls : gmap string string) : session := boot ls.

Definition elements (s : session) : list element := header_elements (sess_userId s).

Definition shows (t : string) (s : session) : bool :=
  bool_decide (is_Some (get_one (with_text t) (elements s))).

Definition absent (t : string) (s : session) : bool := query_none (with_text t) (elements s).

(** [screen.getByText(/needle/i)]. *)
Definition shows_matching (needle : string) (s : session) : bool :=
  bool_decide (is_Some (get_one (fun e => match element_text e with
                                           | Some t => contains_ci needle t
                                           | None => false
                                           end) (elements s))).

(** [expect(screen.getByText(t)).toHaveAttribute("href", to)]. *)
Definition href_is (t to : string) (s : session) : bool :=
  match get_one (with_text t) (elements s) with
  | Some (Link _ to') => String.eqb to' to
  | _ => false
  end.

(** [screen.getByText("AI Store").closest("a")]: the logo's link. *)
Definition logo_href_is (to : string) (s : session) : bool :=
  match get_one (with_text "AI Store") (elements s) with
  | Some (Heading 1 _) => String.eqb logo_link to
  | _ => false
  end.

(** [localStorage.getItem("ai-store-user-id")]. *)
Definition stored (s : session) : option string := sess_storage s !! USER_ID_STORAGE_KEY.

(** ** The tests *)

Definition logo_and_navigation : bool :=
  shows "AI Store" (renderWithProviders cleared_storage) &&
  shows "Products" (renderWithProviders cleared_storage).

Definition register_link_signed_out : bool :=
  let s := renderWithProviders cleared_storage in
  shows "Register / Login" s && absent "Cart" s && absent "Logout" s.

Definition cart_link_signed_in : bool :=
  let s := renderWithProviders (storing "123") in
  shows "Cart" s && shows_matching "User ID: 123" s && shows "Logout" s && absent "Register / Login" s.

Definition logout_clears : bool :=
  let s := renderWithProviders (storing "456") in
  shows_matching "User ID: 456" s && bool_decide (stored (session_apply EvLogout s) = None).

Definition navigation_links : bool :=
  href_is "Products" "/" (renderWithProviders cleared_storage) &&
  logo_href_is "/" (renderWithProviders cleared_storage).

Definition cart_href : bool := href_is "Cart" "/cart" (renderWithProviders (storing "789")).

Definition register_href : bool := href_is "Register / Login" "/register" (renderWithProviders cleared_storage).

Definition header_tests : list bool :=
  [logo_and_navigation; register_link_signed_out; cart_link_signed_in; logout_clears;
   navigation_links; cart_href; register_href].

End HeaderTests.

(** * Properties *)

Module HeaderTestsProps.
Import HeaderTests.

(** Every test of the header's suite passes on the model. *)
Theorem header_tests_pass : forallb id header_tests = true.
Proof. vm_compute. reflexivity. Qed.

End HeaderTestsProps.
