(* ===== verification/HomeTests.v ===== *)
(** * The product list's unit tests, replayed on the model

    [src/src/__tests__/Home.test.tsx] renders [Home] under
    [BrowserRouter] and [UserContextProvider] with the API mocked, after
    [localStorage.clear()] (and, for the signed-in tests, the stored id
    "123").  Each test is replayed as in [CartPageTests]: a scripted
    [run] of [home_page] from [renderWithProviders], which mounts the
    page with the provider's initial [null] and then delivers the user id
    the provider reads from the storage; its expectations are queries on
    [home_elements] and on the log of the calls.  Module
    [HomeAdvancedTests] replays [Home.advanced.test.tsx], Module
    [ProductCardTests] the [ProductCard Component] suite of
    [src/src/__tests__/Register.test.tsx] on [ProductCard.card]. *)

From S2P Require Import Prelude JsString Api Session Runtime Home.
From Stdlib Require QArith_base.

Module HomeTests.
Import ProductCard Home.

Abbreviation home_config := (config home_state home_await home_timer).

Definition cleared_storage : gmap string string := ∅.

Definition signed_in_storage : gmap string string :=
  <[USER_ID_STORAGE_KEY := "123"%string]> cleared_storage.

Definition renderWithProviders (ls : gmap string string) (script : list (action home_event))
    : option home_config :=
  run (home_page None) (AEvent (UserChanged (sess_userId (boot ls))) :: script)
    (init_config (home_page None)).

Definition laptop : ProductDto :=
  mkProductDto 1 "Laptop" (Some "Great laptop"%string) (QArith_base.Qmake 99999 100) 10.
Definition mouse : ProductDto :=
  mkProductDto 2 "Mouse" (Some "Wireless mouse"%string) (QArith_base.Qmake 2999 100) 50.
Definition mockProducts : list ProductDto := [laptop; mouse].

(** ** The harness's queries *)

Definition elements (c : option home_config) : list element :=
  match c with Some c' => home_elements (cfg_state c') | None => [] end.

(** [screen.getByText(s)] finds exactly one element. *)
Definition shows (s : string) (c : option home_config) : bool :=
  bool_decide (is_Some (get_one (with_text s) (elements c))).

(** [screen.getAllByText(s).length]. *)
Definition count_text (s : string) (c : option home_config) : nat :=
  length (filter (with_text s) (elements c)).

(** [expect(api.f).toHaveBeenCalledWith(...)] and [toHaveBeenCalledTimes(n)]. *)
Definition called (call : api_call) (c : option home_config) : bool :=
  match c with Some c' => bool_decide (Issued call ∈ cfg_log c') | None => false end.

Definition times_called (call : api_call) (c : option home_config) : nat :=
  match c with Some c' => length (filter (fun x => bool_decide (x = Issued call)) (cfg_log c')) | None => 0 end.

Definition resolves (i : nat) (p : payload) : action home_event := ASettle i (Resolved p).
Definition rejects (i : nat) (msg : string) : action home_event := ASettle i (Rejected (RejError msg)).

Definition loaded : action home_event := resolves 0 (PProducts mockProducts).

(** [fireEvent.click(screen.getAllByText("Add to Cart")[0])]: the first
    card's button. *)
Definition click_first_add : action home_event := AEvent (CardAddClick laptop).

(** ** The tests *)

Definition shows_loading : bool := shows "Loading products..." (renderWithProviders cleared_storage []).

Definition displays_products : bool :=
  let c := renderWithProviders cleared_storage [loaded] in shows "Laptop" c && shows "Mouse" c.

Definition error_message : bool :=
  shows "Failed to load products" (renderWithProviders cleared_storage [rejects 0 "Failed to load products"]).

Definition retry_button : bool := shows "Retry" (renderWithProviders cleared_storage [rejects 0 "Network error"]).

Definition retries : bool :=
  let failed := [rejects 0 "Network error"] in
  shows "Network error" (renderWithProviders cleared_storage failed) &&
  shows "Laptop" (renderWithProviders cleared_storage (failed ++ [AEvent Retry; loaded])).

Definition empty_state : bool :=
  shows "No products available" (renderWithProviders cleared_storage [resolves 0 (PProducts [])]).

Definition adds_when_logged_in : bool :=
  called (AddToCart 123 (mkAddToCartRequest 1 1))
    (renderWithProviders signed_in_storage [loaded; click_first_add]).

Definition success_message : bool :=
  shows "Item added to cart!" (renderWithProviders signed_in_storage [loaded; click_first_add; resolves 0 PVoid]).

Definition add_fails : bool :=
  shows "Insufficient stock"
    (renderWithProviders signed_in_storage [loaded; click_first_add; rejects 0 "Insufficient stock"]).

Definition register_prompt : bool :=
  let c := renderWithProviders cleared_storage [loaded] in
  shows "Laptop" c && (0 <? count_text "Register to purchase" c)%nat.

Definition page_title : bool := shows "Products" (renderWithProviders cleared_storage [loaded]).

Definition product_grid : bool :=
  let c := renderWithProviders cleared_storage [loaded] in shows "Laptop" c && shows "Mouse" c.

Definition calls_getProducts_once : bool :=
  (times_called GetProducts (renderWithProviders cleared_storage [loaded]) =? 1)%nat.

Definition home_tests : list bool :=
  [shows_loading; displays_products; error_message; retry_button; retries; empty_state;
   adds_when_logged_in; success_message; add_fails; register_prompt; page_title; product_grid;
   calls_getProducts_once].

End HomeTests.

(** * The advanced tests of [src/src/__tests__/Home.advanced.test.tsx]

    Same harness.  [mockRejectedValue(v)] with a [v] that is not an
    [Error] rejects with [RejValue v].  The twenty generated products of
    "displays large number of products" have the prices [10.99 * (i + 1)],
    computed in binary64; they are modelled as the exact decimals, which
    only changes the price texts, and the test checks the names.  "does
    not show product grid when no products" checks that no element has
    the ARIA role [article]: no element the page renders has it (the
    cards are [div]s), so that check holds on every render. *)

Module HomeAdvancedTests.
Import ProductCard Home HomeTests.

Definition gaming_laptop : ProductDto :=
  mkProductDto 1 "Laptop" (Some "Gaming laptop"%string) (QArith_base.Qmake 99999 100) 10.
Definition advancedProducts : list ProductDto := [gaming_laptop; mouse].

Definition loaded_adv : action home_event := resolves 0 (PProducts advancedProducts).
Definition click_first : action home_event := AEvent (CardAddClick gaming_laptop).

Definition rejects_value (i : nat) (v : json) : action home_event := ASettle i (Rejected (RejValue v)).

(** [screen.queryByText(s)] finds nothing. *)
Definition absent (s : string) (c : option home_config) : bool :=
  bool_decide (is_Some c) && query_none (with_text s) (elements c).

(** [queryByRole("article")]: no element of the model has that role. *)
Definition is_article (e : element) : bool := false.

(** [Array.from({ length: 20 }, (_, i) => ({ ... }))]. *)
Definition manyProducts : list ProductDto :=
  map (fun i => mkProductDto (Z.of_nat i + 1) ("Product " +++ int_to_string (Z.of_nat i + 1))
                  (Some ("Description " +++ int_to_string (Z.of_nat i + 1)))
                  (QArith_base.Qmake (1099 * (Z.of_nat i + 1)) 100) 10)
      (seq 0 20).

Definition single (name : string) (stock : Z) : list ProductDto :=
  [mkProductDto 1 name (Some "x"%string) (QArith_base.Qmake 9999 100) stock].

Definition signed_in_as (v : string) : gmap string string :=
  <[USER_ID_STORAGE_KEY := v]> cleared_storage.

(** Error Handling and Retry *)
Definition load_error : bool :=
  shows "Network connection failed"
    (renderWithProviders cleared_storage [rejects 0 "Network connection failed"]).
Definition unknown_error : bool :=
  shows "Failed to load products"
    (renderWithProviders cleared_storage [rejects_value 0 (JSString "Unknown error string")]).
Definition null_error : bool :=
  shows "Failed to load products" (renderWithProviders cleared_storage [rejects_value 0 JSNull]).
Definition retry_shown : bool := shows "Retry" (renderWithProviders cleared_storage [rejects 0 "Server timeout"]).
Definition retry_loads : bool :=
  let failed := [rejects 0 "Network error"] in
  let c := renderWithProviders cleared_storage (failed ++ [AEvent Retry; loaded_adv]) in
  shows "Network error" (renderWithProviders cleared_storage failed) && shows "Laptop" c && shows "Mouse" c.
Definition clears_before_retry : bool :=
  let first := [rejects 0 "First error"] in
  let c := renderWithProviders cleared_storage (first ++ [AEvent Retry; rejects 0 "Second error"]) in
  shows "First error" (renderWithProviders cleared_storage first) &&
  absent "First error" c && shows "Second error" c.
Definition multiple_retries : bool :=
  let s1 := [rejects 0 "Error 1"] in
  let s2 := s1 ++ [AEvent Retry; rejects 0 "Error 2"] in
  shows "Error 1" (renderWithProviders cleared_storage s1) &&
  shows "Error 2" (renderWithProviders cleared_storage s2) &&
  shows "Laptop" (renderWithProviders cleared_storage (s2 ++ [AEvent Retry; loaded_adv])).

(** Add to Cart Error Scenarios *)
Definition add_error : bool :=
  shows "Product out of stock"
    (renderWithProviders signed_in_storage [loaded_adv; click_first; rejects 0 "Product out of stock"]).
Definition add_unknown_error : bool :=
  shows "Failed to add to cart"
    (renderWithProviders signed_in_storage
       [loaded_adv; click_first; rejects_value 0 (JSObject [("status"%string, JSNumber 500)])]).
Definition add_timeout : bool :=
  shows "Request timeout after 30s"
    (renderWithProviders signed_in_storage [loaded_adv; click_first; rejects 0 "Request timeout after 30s"]).

(** Message Display and Timeout *)
Definition add_success : bool :=
  shows "Item added to cart!" (renderWithProviders signed_in_storage [loaded_adv; click_first; resolves 0 PVoid]).

(** Empty States *)
Definition empty_message : bool :=
  shows "No products available" (renderWithProviders cleared_storage [resolves 0 (PProducts [])]).
Definition no_grid : bool :=
  let c := renderWithProviders cleared_storage [resolves 0 (PProducts [])] in
  shows "No products available" c && query_none is_article (elements c).

(** Product Display *)
Definition all_products : bool :=
  let c := renderWithProviders cleared_storage [loaded_adv] in shows "Laptop" c && shows "Mouse" c.
Definition many_products : bool :=
  let c := renderWithProviders cleared_storage [resolves 0 (PProducts manyProducts)] in
  shows "Product 1" c && shows "Product 20" c.
Definition zero_stock : bool :=
  shows "Out of Stock Item" (renderWithProviders cleared_storage [resolves 0 (PProducts (single "Out of Stock Item" 0))]).
Definition high_stock : bool :=
  shows "Popular Item" (renderWithProviders cleared_storage [resolves 0 (PProducts (single "Popular Item" 99999))]).

(** Add to Cart with Quantity *)
Definition default_quantity : bool :=
  called (AddToCart 123 (mkAddToCartRequest 1 1)) (renderWithProviders signed_in_storage [loaded_adv; click_first]).
Definition rapid_additions : bool :=
  (times_called (AddToCart 123 (mkAddToCartRequest 1 1))
     (renderWithProviders signed_in_storage [loaded_adv; click_first; click_first; click_first]) =? 3)%nat.

(** Loading State Management *)
Definition loading_before : bool := shows "Loading products..." (renderWithProviders cleared_storage []).
Definition loading_hidden_after_load : bool :=
  absent "Loading products..." (renderWithProviders cleared_storage [loaded_adv]).
Definition loading_hidden_after_error : bool :=
  absent "Loading products..." (renderWithProviders cleared_storage [rejects 0 "Error"]).
Definition loading_during_retry : bool :=
  let failed := [rejects 0 "Error"] in
  shows "Retry" (renderWithProviders cleared_storage failed) &&
  shows "Loading products..." (renderWithProviders cleared_storage (failed ++ [AEvent Retry])).

(** User Context Integration *)
Definition context_user_id : bool :=
  called (AddToCart 456 (mkAddToCartRequest 1 1))
    (renderWithProviders (signed_in_as "456") [loaded_adv; click_first]).

Definition home_advanced_tests : list bool :=
  [load_error; unknown_error; null_error; retry_shown; retry_loads; clears_before_retry;
   multiple_retries; add_error; add_unknown_error; add_timeout; add_success; empty_message;
   no_grid; all_products; many_products; zero_stock; high_stock; default_quantity;
   rapid_additions; loading_before; loading_hidden_after_load; loading_hidden_after_error;
   loading_during_retry; context_user_id].

End HomeAdvancedTests.

(** * The [ProductCard Component] suite of [src/src/__tests__/Register.test.tsx]

    [renderWithProviders(<ProductCard product={p} ... />)] renders the
    card alone under the provider; [render] flushes the provider's mount
    effect, so the card sees the user read from the storage ([boot]).
    The card's title [<h3>] sits inside its [<Link>]: [closest("a")] is
    the card's route. *)

Module ProductCardTests.
Import ProductCard.

Definition cleared_storage : gmap string string := ∅.

Definition signed_in_storage : gmap string string :=
  <[USER_ID_STORAGE_KEY := "123"%string]> cleared_storage.

Definition renderWithProviders (ls : gmap string string) (p : ProductDto) : card_view :=
  card (sess_userId (boot ls)) p.

Definition mockProduct : ProductDto :=
  mkProductDto 1 "Test Laptop" (Some "A great laptop for testing purposes with many features"%string)
    (QArith_base.Qmake 99999 100) 10.

(** [{ ...mockProduct, description }], [{ ...mockProduct, stockQuantity }]
    and [{ ...mockProduct, price }]. *)
Definition with_description (d : option string) : ProductDto :=
  mkProductDto (product_id mockProduct) (product_name mockProduct) d
    (product_price mockProduct) (product_stockQuantity mockProduct).

Definition with_stock (n : Z) : ProductDto :=
  mkProductDto (product_id mockProduct) (product_name mockProduct)
    (product_description mockProduct) (product_price mockProduct) n.

Definition with_price (q : QArith_base.Q) : ProductDto :=
  mkProductDto (product_id mockProduct) (product_name mockProduct)
    (product_description mockProduct) q (product_stockQuantity mockProduct).

Definition long_description : string :=
  "This is a very long description that should be truncated to show only the first 100 characters and then add ellipsis".

(** ** The harness's queries *)

Definition find (p : element -> bool) (v : card_view) : option element := get_one p (card_elements v).

Definition shows (t : string) (v : card_view) : bool := bool_decide (is_Some (find (with_text t) v)).

Definition absent (t : string) (v : card_view) : bool := query_none (with_text t) (card_elements v).

(** [getByText(/needle/)], case-sensitive, and [queryByText(/needle/i)]. *)
Definition text_matching (needle : string) (v : card_view) : option string :=
  find (fun e => match element_text e with Some t => str_includes needle t | None => false end) v
    ≫= element_text.

Definition none_matching_ci (needle : string) (v : card_view) : bool :=
  query_none (fun e => match element_text e with Some t => contains_ci needle t | None => false end)
    (card_elements v).

Definition button_disabled (needle : string) (v : card_view) : bool :=
  match find (button_named needle) v with Some e => element_disabled e | None => false end.

(** [fireEvent.click(getByText("Add to Cart"))] calls
    [onAddToCart(product.id, 1)] when the button is there and enabled. *)
Definition click_add (uid : option Z) (p : ProductDto) : option (Z * Z) :=
  match find (with_text "Add to Cart") (card uid p) with
  | Some (Button _ false) => card_click uid p
  | _ => None
  end.

(** ** The tests *)

Definition renders_information : bool :=
  let v := renderWithProviders cleared_storage mockProduct in
  shows "Test Laptop" v && shows "$999.99" v && shows "10 in stock" v.

Definition truncates_long : bool :=
  match text_matching "This is a very long description"
          (renderWithProviders cleared_storage (with_description (Some long_description))) with
  | Some t => str_includes "..." t && (String.length t <? String.length long_description)%nat
  | None => false
  end.

Definition short_description : bool :=
  shows "Short description" (renderWithProviders cleared_storage (with_description (Some "Short description"%string))).

Definition no_description : bool :=
  let v := renderWithProviders cleared_storage (with_description None) in
  shows "Test Laptop" v && none_matching_ci "description" v.

Definition out_of_stock_status : bool := shows "Out of Stock" (renderWithProviders cleared_storage (with_stock 0)).

Definition out_of_stock_disabled : bool :=
  button_disabled "Out of Stock" (renderWithProviders signed_in_storage (with_stock 0)).

Definition register_link_signed_out : bool :=
  let v := renderWithProviders cleared_storage mockProduct in
  shows "Register to purchase" v && absent "Add to Cart" v.

Definition add_button_signed_in : bool :=
  let v := renderWithProviders signed_in_storage mockProduct in
  shows "Add to Cart" v && absent "Register to purchase" v.

Definition click_calls_onAddToCart : bool :=
  bool_decide (click_add (sess_userId (boot signed_in_storage)) mockProduct = Some (1%Z, 1%Z)).

Definition no_call_signed_out : bool :=
  absent "Add to Cart" (renderWithProviders cleared_storage mockProduct) &&
  bool_decide (click_add (sess_userId (boot cleared_storage)) mockProduct = None).

Definition detail_link : bool :=
  shows "Test Laptop" (renderWithProviders cleared_storage mockProduct) &&
  String.eqb (card_route (renderWithProviders cleared_storage mockProduct)) "/product/1".

Definition two_decimals : bool :=
  shows "$1234.50" (renderWithProviders cleared_storage (with_price (QArith_base.Qmake 12345 10))).

Definition stock_text : bool := shows "5 in stock" (renderWithProviders cleared_storage (with_stock 5)).

Definition product_card_tests : list bool :=
  [renders_information; truncates_long; short_description; no_description; out_of_stock_status;
   out_of_stock_disabled; register_link_signed_out; add_button_signed_in; click_calls_onAddToCart;
   no_call_signed_out; detail_link; two_decimals; stock_text].

End ProductCardTests.

(** * Properties *)

Module HomeTestsProps.
Import HomeTests.

(** Replayed on the model, every unit test of the product list passes:
    loading, error and Retry, the empty list, the cards, and the
    add-to-cart flow of a signed-in user with its success and failure. *)
Theorem home_tests_pass : forallb id home_tests = true.
Proof. vm_compute. reflexivity. Qed.

(** Replayed on the model, every advanced unit test of the product list
    passes, with the retries, the rejections that are not [Error]s, the
    rapid triple click sending three requests, and the user id taken from
    the context. *)
Theorem home_advanced_tests_pass : forallb id HomeAdvancedTests.home_advanced_tests = true.
Proof. vm_compute. reflexivity. Qed.

(** Every test of the [ProductCard Component] suite passes on the model:
    the truncation to 100 characters and an ellipsis, the stock texts,
    the disabled button, the register link, and the click handler. *)
Theorem product_card_tests_pass : forallb id ProductCardTests.product_card_tests = true.
Proof. vm_compute. reflexivity. Qed.

End HomeTestsProps.
