(* ===== verification/AppTests.v ===== *)
(** * The application's unit tests, replayed on the model

    [src/src/__tests__/App.test.tsx] renders [App] under [MemoryRouter]
    and [UserContextProvider] at an initial route, after
    [localStorage.clear()].  Unlike the page tests it mocks nothing: the
    pages call the real [api.ts], whose [fetch] is Node's.  With
    [VITE_API_BASE_URL] unset in the test run, [BASE] is [""] and every
    URL is relative, which Node's [fetch] refuses: each call rejects with
    the [TypeError] "Failed to parse URL from <url>" ([no_backend]).

    [first_paint] is what [render] leaves on the screen: the first
    render of [LazyRoutes], the header above the [Suspense] fallback of
    a lazily loaded page.  [renderWithProviders] is [Shell.shell_init],
    the application once the page's import has resolved
    ([LazyProps.lazy_start_refines_shell]); the page's pending call
    answers with [shell_settle], a step of [shell_step]
    ([ShellProps.shell_settle_step]); the queries run on
    [shell_elements], the header followed by the page.  A synchronous
    [expect] reads the first paint; a [waitFor] passes as soon as its
    assertion holds: the replay checks it on the first paint, or on the
    loaded page, or after the page's load has answered.

    [app_tests_pass] replays the tests in that environment.
    [app_tests_need_failing_backend] shows what happens when a backend
    does answer: the text "Products" is then both the header's link and
    the product list's title, so the query of "renders home page at root
    route" finds two elements (the test passes only because it first
    finds the header's link while the page is loading), and the detail
    page of a product has no "Back to Products" text (its button reads
    "← Back to Products"), so "renders product detail page at
    /product/:id" waits in vain. *)

From S2P Require Import Prelude JsString Api Session Runtime ProductDetail CartPage Home Register App Shell LazyRoutes.
From Stdlib Require QArith_base.

Module AppTests.
Import App Shell.

Definition cleared_storage : gmap string string := ∅.

Definition storing (v : string) : gmap string string :=
  <[USER_ID_STORAGE_KEY := v]> cleared_storage.

(** Node's [fetch] on the relative URL of the call. *)
Definition no_backend (c : api_call) : api_result payload :=
  Rejected (RejError ("Failed to parse URL from " +++ req_url (call_request "" c))).

(** [render(<MemoryRouter initialEntries={[route]}> ... <App/> ...)]
    once the page's import has resolved ([Lazy.app_start] followed by
    the imports, which is [shell_init] by
    [LazyProps.lazy_start_refines_shell]). *)
Definition renderWithProviders (ls : gmap string string) (route : string) : shell :=
  shell_init ls route.

(** What [render] returns with: the first render and its effects, the
    lazy route still suspended.  The first test of the file to render a
    route starts its import; the replay starts each test from a page
    load ([chunks_init]). *)
Definition first_paint (ls : gmap string string) (route : string) : list element :=
  Lazy.app_elements (Lazy.app_start ls route).

(** The page's first call answered by the environment. *)
Definition after_load (ls : gmap string string) (route : string) (c : api_call) : option shell :=
  shell_settle (renderWithProviders ls route) 0 (no_backend c).

Definition els (sh : option shell) : list element :=
  match sh with Some s => shell_elements s | None => [] end.

(** [screen.getByText(s)]: exactly one element; [queryByText(s)]: some. *)
Definition shows (s : string) (l : list element) : bool :=
  bool_decide (is_Some (get_one (with_text s) l)).
Definition some_text (s : string) (l : list element) : bool :=
  negb (query_none (with_text s) l).

(** [screen.getByText(/needle/i)] on an element's text. *)
Definition shows_ci (needle : string) (l : list element) : bool :=
  bool_decide (is_Some (get_one (fun e => match element_text e with
                                           | Some t => contains_ci needle t
                                           | None => false
                                           end) l)).

(** ** The tests

    A synchronous [expect] reads the first paint; a [waitFor] passes as
    soon as its assertion holds, at the first paint or once the page is
    loaded or has had its first answer. *)

Definition home_root : bool := shows "Products" (first_paint cleared_storage "/").

Definition header_all_routes : bool := shows "AI Store" (first_paint cleared_storage "/").

Definition register_route : bool :=
  bool_decide (is_Some (get_one (heading_named "Register / Login")
                          (shell_elements (renderWithProviders cleared_storage "/register")))).

Definition cart_route : bool :=
  let l := els (after_load (storing "123") "/cart" (GetCart 123)) in
  some_text "Shopping Cart" l || some_text "Already Logged In" l.

Definition product_route : bool :=
  shows "Back to Products" (els (after_load cleared_storage "/product/1" (GetProductById (JInt 1)))).

Definition not_found_route : bool :=
  shows "404 - Page Not Found" (first_paint cleared_storage "/invalid-route").

Definition user_context : bool := shows_ci "User ID: 456" (first_paint (storing "456") "/").

Definition consistent_layout : bool :=
  shows "AI Store" (first_paint cleared_storage "/") &&
  shows "AI Store" (first_paint cleared_storage "/register").

Definition app_tests : list bool :=
  [home_root; header_all_routes; register_route; cart_route; product_route; not_found_route;
   user_context; consistent_layout].

End AppTests.

(** * Properties *)

Module AppTestsProps.
Import App Shell AppTests.

(** Replayed in the environment of the test run, where every API call
    rejects, every test of [App.test.tsx] passes. *)
Theorem app_tests_pass : forallb id app_tests = true.
Proof. vm_compute. reflexivity. Qed.

Lemma query_none_forall (p : element -> bool) l :
  Forall (fun e => p e = false) l -> query_none p l = true.
Proof.
  intros H. unfold query_none. apply bool_decide_eq_true.
  induction H as [|x l Hx _ IH]; [reflexivity|]. cbn. rewrite Hx. exact IH.
Qed.

(** The stock text of a product in stock starts with a digit or [-]. *)
Lemma available_not_text z :
  with_text "Back to Products" (Text (int_to_string z +++ " available")) = false.
Proof.
  pose proof (int_to_string_chars z) as Hc. pose proof (int_to_string_nonempty z) as Hne.
  destruct (int_to_string z) as [|c r]; [contradiction|].
  rewrite str_app_cons. unfold with_text. apply bool_decide_eq_false.
  intros [= -> _]. discriminate Hc.
Qed.

Lemma anonymous_boot : sess_userId (boot ∅) = None.
Proof. reflexivity. Qed.

(** A loaded product list starts with its title, whatever it holds. *)
Lemma home_loaded_elements uid l :
  exists rest, Home.home_elements (Home.mkHomeState uid l false None None)
               = Heading 2 "Products" :: rest.
Proof. destruct l; eexists; reflexivity. Qed.

(** Once the product list answers, "Products" is both the header's link
    and the list's title. *)
Lemma products_twice l :
  exists sh, shell_settle (shell_init ∅ "/") 0 (Resolved (PProducts l)) = Some sh /\
    (2 <= length (filter (with_text "Products") (shell_elements sh)))%nat.
Proof.
  eexists; split; [reflexivity|].
  unfold shell_elements. cbn -[Home.home_elements filter header_elements].
  change (Home.home_elements _) with
    (Home.home_elements (Home.mkHomeState (sess_userId (boot ∅)) l false None None)).
  destruct (home_loaded_elements (sess_userId (boot ∅)) l) as [rest ->].
  rewrite filter_app, length_app, filter_cons_True by exact I.
  assert (Hh : length (filter (fun e => with_text "Products" e)
                         (header_elements (sess_userId (boot ∅)))) = 1%nat) by reflexivity.
  cbn [length]. lia.
Qed.

(** The detail page of a product shows no "Back to Products" text,
    unless the product is named or described so. *)
Lemma product_no_back_text p :
  product_name p <> "Back to Products"%string ->
  product_description p <> Some "Back to Products"%string ->
  exists sh, shell_settle (shell_init ∅ "/product/1") 0 (Resolved (PProduct p)) = Some sh /\
    query_none (with_text "Back to Products") (shell_elements sh) = true.
Proof.
  intros Hn Hd. eexists; split; [reflexivity|].
  apply query_none_forall. rewrite anonymous_boot. cbn.
  destruct (product_description p) as [d|]; [destruct (str_truthy (Some d))|]; cbn;
    rewrite ?Forall_app; repeat constructor;
    try (destruct (product_stockQuantity p <=? 0)%Z; [reflexivity | apply available_not_text]);
    unfold with_text; apply bool_decide_eq_false; cbn; congruence.
Qed.

(** C23: two tests of [App.test.tsx] pass only because the backend
    fails.  When [getProducts] answers with any list, the text
    "Products" is both the header's link and the list's title, so the
    [getByText("Products")] of "renders home page at root route" would
    find two elements: the test passes on the first render, where it
    finds the header's link while the page is loading, and never checks
    the home page.  When [getProductById(1)] answers with a product (not
    itself named or described "Back to Products"), the detail page
    shows no "Back to Products" text, its button reading "← Back to
    Products": "renders product detail page at /product/:id" only
    passes when the request fails. *)
Theorem app_tests_need_failing_backend :
  (forall l, exists sh, shell_settle (renderWithProviders cleared_storage "/") 0
                          (Resolved (PProducts l)) = Some sh /\
     (2 <= length (filter (with_text "Products") (shell_elements sh)))%nat) /\
  (forall p, product_name p <> "Back to Products"%string ->
     product_description p <> Some "Back to Products"%string ->
     exists sh, shell_settle (renderWithProviders cleared_storage "/product/1") 0
                  (Resolved (PProduct p)) = Some sh /\
       query_none (with_text "Back to Products") (shell_elements sh) = true).
Proof.
  unfold renderWithProviders, cleared_storage.
  split; [exact products_twice | exact product_no_back_text].
Qed.

End AppTestsProps.

Module AppTestsRuns.
Import App Shell AppTests AppTestsProps.

Definition product_one : ProductDto :=
  mkProductDto 1 "Desk lamp" (Some "A lamp"%string) (QArith_base.Qmake 2500 100) 5.

Lemma app_tests_need_failing_backend_witness :
  product_name product_one <> "Back to Products"%string /\
  product_description product_one <> Some "Back to Products"%string /\
  exists sh, shell_settle (renderWithProviders cleared_storage "/product/1") 0
               (Resolved (PProduct product_one)) = Some sh /\
    query_none (with_text "Back to Products") (shell_elements sh) = true.
Proof.
  assert (Hn : product_name product_one <> "Back to Products"%string) by discriminate.
  assert (Hd : product_description product_one <> Some "Back to Products"%string) by discriminate.
  split; [exact Hn|]. split; [exact Hd|].
  exact (proj2 app_tests_need_failing_backend product_one Hn Hd).
Defined.

End AppTestsRuns.
